(* ===== verification/_CoqProject ===== *)
-Q . S2P
Prelude.v
PyStr.v
Glob.v
Regex.v
Inline.v
Table.v
Diagram.v
Encoding.v
Json.v
Render.v
Converter.v
Labels.v
FrontMatter.v
Client.v
Http.v
Wiki.v
Publish.v
EndToEnd.v
Driver.v
LegacyScript.v
Args.v
