(* ===== verification/Prelude.v ===== *)
(** * A verification library for the Markdown-to-Confluence publisher

    The program: [src/skills/confluence-publisher/scripts/confluence_publish.py]
    (the current publisher, 960 lines) and its older copy
    [src/scripts/confluence_publish.py] (576 lines, no tables or Mermaid).
    Both are one-shot batch scripts.  [main] reads the configuration.  It then
    parses each Markdown file into a [Document] ([parse_front_matter],
    [derive_title], [parse_labels]).  It converts the body to Confluence
    storage markup ([markdown_to_html], which falls back to the in-house
    converter [simple_markdown_to_html]).  Finally it reconciles the document
    with the remote wiki ([publish_document], through the methods of
    [ConfluenceClient]).

    ** Files, in dependency order

    - [Prelude] (this file): the [py_scope] notation for string append, the
      shared tactics, the hint database [pub], and generic lemmas on lists and
      options (first-match search, [firstn]/[skipn] padding).
    - [PyStr]: the Python [str] methods the scripts call, on Stdlib [string]
      (ASCII): [isspace], [strip]/[lstrip]/[rstrip] (also with a character
      set), [startswith]/[endswith], [lower], [split], [splitlines] (all of
      Python's ASCII line boundaries, with and without [keepends]), [join],
      ["{:02d}"] and slicing.  Their algebra is proved here: strip is
      idempotent, split and join are inverse, and so on.
    - [Glob]: how [main] finds its files,
      [sorted(Path(p) for p in glob.glob(pattern, recursive=True) if Path(p).is_file())],
      written from CPython 3.11.  The file system is a tree [fs_node] with
      entries in [os.scandir] order.  [iglob] is [glob._iglob] with its
      helpers [_glob0], [_glob1], [_glob2] and [_rlistdir].  [fnmatch] is
      [fnmatch.translate], bracket sets included.  [os_split] and
      [os_join] are [posixpath].  [to_path], [path_str], [path_leb],
      [is_file], [read_text] and [path_stem] are [pathlib].  [discover] is
      the sorted list of regular files.
    - [Regex]: the leftmost-match semantics of [re.search], [re.sub] and
      [re.finditer] for patterns that never match the empty string.  A
      pattern is a matcher [string -> option (group * rest)], and the scan
      runs with fuel.  The theorem [re_scan_fuel] shows that fuel
      [length s + 1] is enough and that more fuel does not change the result.
    - [Inline]: [html.escape], [render_plain_inline], [render_inline],
      [emit_code_macro] and the CDATA [replace].
    - [Table]: [split_table_row], [is_table_separator_cell],
      [parse_table_alignment], [looks_like_table_header],
      [looks_like_table_row] and [render_markdown_table].
    - [Diagram]: the Mermaid dialect.  [build_mermaid_image_name], the three
      macros, [MermaidImagePlan], and the render fallback chain
      [render_mermaid_svg_bytes] with the placeholder of
      [upload_mermaid_image_attachments].  The two renderers enter as the
      functions of the record [renderers].
    - [Encoding]: [str.encode("utf-8")], [base64.b64encode] and
      [urlsafe_b64encode] on bytes as [Z] values in [0, 256), with the
      24-bit groups cut by [Z.shiftr]/[Z.land]; the mermaid.ink URL of
      [render_mermaid_svg] and the Authorization header of
      [ConfluenceClient.__init__].  The decoders of the receiving end state
      the round trips.
    - [Json]: [json.dumps] with its defaults ([ensure_ascii], the separators
      [", "] and [": "]) on an inductive [json] with its nested induction
      principle, and [json.loads] as a recursive descent reader with fuel.
    - [Render]: [render_mermaid_svg_local] as explicit file-system state
      passing: [tempfile.TemporaryDirectory] is the combinator
      [with_tempdir], which removes the directory on every exit; the
      operating system's answers ([shutil.which], the drawn names, the
      write, the [mmdc] run or its timeout) are the record [os_env].
      [os_renderers] builds the [renderers] of [Diagram] from both
      renderers.
    - [Converter]: the line-cursor state machine of [simple_markdown_to_html].
      Its state is a [Record] with the Python locals ([parts], [in_ul],
      [in_code_block], [code_lang], [code_lines], [mermaid_image_count] and
      the plan list).  It has one [Definition] per branch of the [while]
      loop, and the loop itself runs with fuel [length lines].  Also here:
      the older converter of [src/scripts] and [markdown_to_html] with its
      external renderers passed in as option values.
    - [FrontMatter]: [parse_front_matter] (its metadata [dict] is a stdpp
      [gmap]), [parse_labels], [derive_title] and [parse_document].
      [derive_title] uses [re.search] on a MULTILINE pattern; [h1_search]
      replays the backtracking of Python's [re].
    - [Labels]: [merge_labels] with a [gset] of lowered labels (stdpp).
    - [Client]: [ConfluenceClient].  The remote wiki is the [Class]
      [WikiService], with one operation per endpoint.  Each answers with an
      HTTP status or a decoded payload.  The client runs in the
      state-and-error monad [M], with the notation [x <- m ;; k].  Its state
      is the world and the log of requests sent.  The methods are
      [get_space_by_key], [find_page_by_title], [get_page], [create_page],
      [update_page], [add_labels], [find_attachment_by_filename],
      [upload_attachment_bytes] and [upload_mermaid_image_attachments].
      Three predicates summarise a run: [readonly] (no mutation, world
      unchanged), [traces] (the mutating requests sent) and [hoare]
      (pre/postconditions).  Each method has its lemma for every instance.
    - [Http]: what the client puts on the wire.  [request_url] with
      [urlencode(doseq=True)] and [quote_plus], [api_request] (the
      [Request] of [_request]), the query and payload of every method in
      [call_request], the multipart body and URL of the upload, and the
      decoding of the answers ([decode_response], [upload_response]).  The
      readers of the server side ([parse_qsl], [url_target],
      [parse_multipart], [read_upload]) state the round trips.
    - [Wiki]: an in-memory instance of [WikiService] over stdpp [gmap]s of
      pages and attachments.  It follows the service's rules: unique titles
      per space, updates only at the next version, 404 on unknown ids.  It
      also has the effect lemmas of each write.
    - [Publish]: [publish_document] in full, over any [WikiService].  Also
      the sequence of mutations each lookup outcome must produce, and runs
      on the in-memory wiki.
    - [EndToEnd]: [publish_document] against the in-memory wiki: what a
      successful run leaves there.
    - [Driver]: [main].  [load_dotenv] works over a [gmap] environment.
      Also [env_bool], [bool_arg], [int()] and [parse_positive_int], and
      [resolve_settings] (the configuration and exit code 2).  The loop
      [run_files] catches each document's error; [batch] is its
      specification as an inductive relation.  [main_run] and [main] give
      the exit status.  [main_fs] runs [main] on a file system: the files
      are [discover] on the resolved glob, read with [read_text].
      [main_output] is every line [main] prints, tagged stdout or stderr;
      the text of a caught exception is a parameter.
    - [LegacyScript]: what the older script does differently: its
      [markdown_to_html], [publish_document] and [main] (settings, loop,
      exit status), sharing the helpers that are the same code.
    - [Args]: [parse_args] of both scripts: the option tables as written
      and [argparse]'s reading of [sys.argv] (Python 3.11: abbreviations,
      [=value], [store_true], [choices], [type=int], [-h], exit 2).  The
      namespace is a [gmap] from destinations to values.  [script_main]
      composes it with [main]: the process's exit status from its argument
      vector.

    ** Theorem groups (the manifest PROJECT.json lists them as claims)

    - Publish: a real run sends uploads, then the update at version
      [current + 1], then labels; or create, then uploads, then labels.  A
      failed run sends a prefix of that sequence.  A dry run is read-only.
      Each outcome arises only in its situation.  With title matching
      disabled, no lookup is made, so the code's skip "exists and update
      disabled" cannot happen.  On the in-memory wiki, a successful run
      leaves the page with the document's title, body and labels at the
      next version, with its diagram files attached (refinement).
    - Driver: the loop processes every file in order and never aborts.  The
      exit status is 2, 0 or 1 as the spec describes, except the two gaps
      the manifest records.  [main_fs] publishes the documents one at a
      time in the sorted order of the files its glob finds.  What it
      prints agrees with the exit status: one line per file, on stderr
      exactly for the failed documents, and "Completed successfully."
      exactly when the status is 0.
      [load_dotenv] never overrides a variable.
    - Files: [discover] is sorted by [Path] (by parts, not by text).  It is
      a permutation of the regular files [glob] returned, duplicates kept:
      a pattern with two [**] publishes a file several times.  Any sorted
      permutation equals it, so the insertion sort is Python's [sorted].
      Each published name matches the last component of the pattern and
      is hidden only if that component starts with a dot.  Supporting
      lemmas, not claims: [discover_sorted_perm], the fuel of [iglob]
      ([iglob_fuel_enough]), and that every discovered file can be read.
      A table checked by computation gives CPython's output on a sample
      tree for 16 patterns.
    - Converter: the output is never empty.  An unterminated fence is still
      emitted.  Every [<ul>] is closed.  The plans are the diagrams: in
      attachment mode the plan list gets exactly one plan per Mermaid
      fence of the input, in order, with its code and the names 01, 02,
      ...; the fences are read by [fenced_blocks], a scanner written from
      the spec, and [run_lines_plans] is the simulation between the two.
      In the other modes no plan is added.  Names are distinct for short
      titles.  Plain lines become one
      escaped paragraph each.  Without tables and outside the diagram modes,
      the current converter agrees with the older one (a simulation).  The
      loop's fuel is enough.
    - Inline: [html.escape] removes every markup character.
    - Table: a row [|c1|...|cn|] splits back into its cells (round trip).
    - Diagram: the slice to 180 characters comes after the suffix.  With a
      sanitized title of 171 characters or more, every diagram of a
      document gets the same name, whatever its index; with 170, the
      first nine do.  This contradicts the uniqueness the spec claims.  [EndToEnd] shows that the second upload
      then replaces the first.
    - Labels: the merge refines an abstract "dedup by key" specification.
    - Renderers: on a file system where every file lies in a directory,
      [render_mermaid_svg_local] leaves the file system exactly as it found
      it on every path (exceptions included), and returns the image [mmdc]
      wrote exactly when everything succeeded.
    - Encoding: the mermaid.ink URL decodes back to the diagram (so two
      diagrams never share a URL); the Authorization header gives back the
      e-mail and token when the e-mail has no colon.
    - HTTP: the server reads back from every request of [_request] its
      method, target, query pairs, JSON body and credentials (through the
      lemma that [json.loads] inverts [json.dumps]); the upload of a planned diagram
      reaches the server under exactly the name the page body references;
      the answer is decoded as the JSON sent, [{}] when blank, and an HTTP
      error becomes a [RuntimeError] with at most 800 characters of its
      body.
    - Older script: its [main] is the current [main] run with
      [--mermaid-mode code --mermaid-image-width 1000], on files the two
      converters render alike (refinement across the two versions).
    - Command line: every namespace [parse_args] returns gives [main] the
      types it uses ([--mermaid-mode] one of its three choices, the page
      switches ["true"] or ["false"], the width an integer); a
      command line written with the script's options reads back as the
      arguments it spells.
    - Front matter: a body opening with [# T] is titled [T].  A first
      heading made only of [#] characters ([# #], [# ##], ...) gives the
      empty title, whatever follows, which contradicts the spec's
      invariant.
      Labels written as [[a,b,c]] read back (round trip).

    ** Bounds and fuel

    Every loop of the source is a [Fixpoint] that is either structural on
    its input or runs on fuel.  For the fuelled ones a theorem shows that
    the chosen fuel (the input's length, plus one) is enough.  Python
    integers are unbounded, so page versions and widths are [Z] and the
    image index is [nat].  The only bounds in the code are the width range
    [240, 4000] and the 180-character name slice, and both are stated
    exactly.

    The Base64 round trips go group by group (three bytes, four sextets)
    by well-founded induction on the length; the alphabet is checked on its
    64 values and UTF-8 on the 256 code points of the model by computation.
    So are the 256 bytes of [quote_plus] and the 256 characters of the
    JSON escapes.  The JSON reader's fuel is the length of its input: each
    value and each item consumes a character, and [jsize_le] shows that
    the size of a printed value is below the length of its text.  The
    fuel of [iglob] is the length of the pattern plus one, since each
    recursive call is on a strictly shorter directory part
    ([iglob_fuel_enough]).  [fnmatch]'s tokenizer takes the length of the
    pattern, since each step reads a character.

    ** Not modelled

    [urlopen] itself (TLS, the timeouts) and the [uuid4] draw of the
    upload's boundary; the tracebacks of uncaught exceptions and argparse's
    help and error texts; pandoc, the
    [markdown] package and what [mmdc] and the mermaid.ink service compute.
    These are I/O or external programs: their results enter the model as
    parameters ([external_renderers], [os_env], the HTTP [answer], the
    boundary's hex digits).  [pandoc_output] is [None] when pandoc is
    missing or fails; a [subprocess.run] that raises (line 427, not
    caught by [markdown_to_html]) is not modelled: the model reads it as a
    failed run and falls back, where the code fails the document.  A page
    record of the service always carries an id and an integer version, so
    the [KeyError] of [existing["id"]] and the [ValueError] of [int()] on a
    malformed version (lines 757-762) are not represented.  The
    [.encode("utf-8")] of the SVG text (lines 671, 693) agrees with CPython
    on ASCII text only, like the other string operations.  The file system of [Glob] has no symbolic
    links, and file contents enter decoded (no [UnicodeDecodeError]).
    The [errors="replace"] decoding of an HTTP error body is not modelled
    (the code point U+FFFD is outside the model): the error body enters
    decoded.  The older script's helpers and client methods are the same
    code as the current ones and share their definitions; the manifest maps
    the client's [_request] and JSON methods to the older copy's lines.  Non-ASCII
    characters are not modelled: strings are Stdlib [string] (code points
    below 256), and Python's Unicode [isspace], [lower], [\w] and [int]
    are modelled on their ASCII part.
*)

From Stdlib Require Import String Ascii List Bool Arith Lia.
Import ListNotations.

(** Concatenation of Python strings, written [s1 ^ s2]. *)
Declare Scope py_scope.
Delimit Scope py_scope with py.
Notation "s1 ^ s2" := (String.append s1 s2) : py_scope.

Create HintDb pub.
Create Rewrite HintDb pub_rw.

(** ** Tactics shared by the development *)

(** Invert a hypothesis and clean up. *)
Ltac inv H := inversion H; subst; clear H.

(** Case on the boolean or option scrutinee of the first [if]/[match] in the
    goal, keeping the equation. *)
Ltac case_if :=
  match goal with
  | |- context [if ?b then _ else _] => let E := fresh "E" in destruct b eqn:E
  | |- context [match ?o with Some _ => _ | None => _ end] =>
      let E := fresh "E" in destruct o eqn:E
  end.

(** Turn boolean connectives in hypotheses into propositions. *)
Ltac bool_hyps :=
  repeat match goal with
  | H : (_ && _)%bool = true |- _ => apply andb_true_iff in H as [? ?]
  | H : (_ || _)%bool = false |- _ => apply orb_false_iff in H as [? ?]
  | H : negb _ = true |- _ => apply negb_true_iff in H
  | H : negb _ = false |- _ => apply negb_false_iff in H
  end.

(** ** First match in a list

    Python's [for x in xs: if p(x): return x] followed by a fallback.  Used
    for [find_page_by_title] and [find_attachment_by_filename]. *)
Section FindFirst.
Context {A : Type} (p : A -> bool).

Fixpoint find_first (l : list A) : option A :=
  match l with
  | [] => None
  | x :: l' => if p x then Some x else find_first l'
  end.

Lemma find_first_some l x :
  find_first l = Some x -> In x l /\ p x = true.
Proof.
  induction l as [|y l IH]; simpl; [discriminate|].
  destruct (p y) eqn:E; [intros [= <-]; auto|].
  intros H; destruct (IH H); auto.
Qed.

Lemma find_first_none l :
  find_first l = None -> forall x, In x l -> p x = false.
Proof.
  induction l as [|y l IH]; simpl; [tauto|].
  destruct (p y) eqn:E; [discriminate|].
  intros H x [<-|Hx]; auto.
Qed.

(** The element found is the first one satisfying [p]. *)
Lemma find_first_app_l l1 l2 x :
  find_first l1 = Some x -> find_first (l1 ++ l2) = Some x.
Proof.
  induction l1 as [|y l1 IH]; simpl; [discriminate|].
  destruct (p y); auto.
Qed.

Lemma find_first_app_r l1 l2 :
  (forall y, In y l1 -> p y = false) -> find_first (l1 ++ l2) = find_first l2.
Proof.
  induction l1 as [|y l1 IH]; simpl; intros H; [reflexivity|].
  rewrite (H y (or_introl eq_refl)). apply IH. auto.
Qed.
End FindFirst.

#[export] Hint Resolve find_first_some find_first_none : pub.

(** ** Padding and truncating a list to a length

    [row_cells.extend([""] * (n - len)); row_cells = row_cells[:n]]. *)
Definition pad_truncate {A} (d : A) (n : nat) (l : list A) : list A :=
  firstn n (l ++ repeat d (n - length l)).

Lemma pad_truncate_length {A} (d : A) n l : length (pad_truncate d n l) = n.
Proof.
  unfold pad_truncate. rewrite length_firstn, length_app, repeat_length. lia.
Qed.

#[export] Hint Rewrite @pad_truncate_length : pub_rw.

(** ** Counting elements *)
Definition count_by {A} (p : A -> bool) (l : list A) : nat :=
  length (filter p l).

Lemma count_by_app {A} (p : A -> bool) l1 l2 :
  count_by p (l1 ++ l2) = count_by p l1 + count_by p l2.
Proof. unfold count_by. rewrite filter_app, length_app. reflexivity. Qed.

#[export] Hint Rewrite @count_by_app : pub_rw.

(** A map that is injective on the elements of a duplicate-free list keeps
    it duplicate-free. *)
Lemma NoDup_map_inj_on {A B} (f : A -> B) (l : list A) :
  (forall x y, In x l -> In y l -> f x = f y -> x = y) -> NoDup l -> NoDup (map f l).
Proof.
  intros Hinj Hnd. induction Hnd as [|x l Hx Hnd IH]; simpl; constructor.
  - rewrite in_map_iff. intros (y & Hy & Hin).
    assert (x = y) by (apply Hinj; simpl; auto). subst; contradiction.
  - apply IH. intros a b Ha Hb. apply Hinj; simpl; auto.
Qed.

(** ** Boolean filters *)

(** Sums of pointwise smaller terms. *)
Lemma list_sum_map_le {A} (f g : A -> nat) l :
  Forall (fun x => f x <= g x) l -> list_sum (map f l) <= list_sum (map g l).
Proof. induction 1; simpl; lia. Qed.

Lemma filterb_all {A} (f : A -> bool) l : (forall x, In x l -> f x = true) -> filter f l = l.
Proof.
  induction l as [|x l IH]; intros H; [reflexivity|]. simpl.
  rewrite H by (left; reflexivity). f_equal. apply IH. intros y Hy. apply H. right. exact Hy.
Qed.

Lemma filterb_filterb {A} (f g : A -> bool) l :
  (forall x, f x = false -> g x = false) -> filter g (filter f l) = filter g l.
Proof.
  intros H. induction l as [|x l IH]; [reflexivity|]. simpl.
  destruct (f x) eqn:Ef; simpl; rewrite IH; [reflexivity|]. rewrite (H x Ef). reflexivity.
Qed.
