(* ===== verification/PyStr.v ===== *)
(** * Python [str] methods on ASCII strings

    The string operations that [confluence_publish.py] calls, written from
    CPython's documented behaviour on ASCII input.  [isspace] is Python's
    (it includes the separators 0x1c-0x1f).  [splitlines] breaks on every
    ASCII line boundary of Python ([\n], [\r], [\r\n], [\v], [\f], 0x1c,
    0x1d, 0x1e).  [split] with a separator keeps empty fields.  Slicing
    saturates at the ends. *)

From Stdlib Require Import String Ascii List Bool Arith Lia DecimalString DecimalNat.
From S2P Require Import Prelude.
Import ListNotations.
Local Open Scope string_scope.
Local Open Scope py_scope.

(** ** Characters *)

(** [str.isspace] on one ASCII character: 0x09-0x0d and 0x1c-0x20. *)
Definition isspace (c : ascii) : bool :=
  let n := nat_of_ascii c in (Nat.leb 9 n && Nat.leb n 13) || (Nat.leb 28 n && Nat.leb n 32).

(** Line boundaries of [str.splitlines] other than [\r]: [\n], [\v], [\f],
    0x1c, 0x1d, 0x1e. *)
Definition is_line_break (c : ascii) : bool :=
  let n := nat_of_ascii c in (Nat.leb 10 n && Nat.leb n 12) || (Nat.leb 28 n && Nat.leb n 30).

Definition CR : ascii := "013"%char.
Definition LF : ascii := "010"%char.

(** Membership of a character in a string, Python's [c in s]. *)
Fixpoint in_str (c : ascii) (s : string) : bool :=
  match s with
  | "" => false
  | String d r => Ascii.eqb c d || in_str c r
  end.

(** [str.lower] on ASCII. *)
Definition lower_char (c : ascii) : ascii :=
  let n := nat_of_ascii c in
  if Nat.leb 65 n && Nat.leb n 90 then ascii_of_nat (n + 32) else c.

Fixpoint str_map (f : ascii -> ascii) (s : string) : string :=
  match s with
  | "" => ""
  | String c r => String (f c) (str_map f r)
  end.

Definition lower (s : string) : string := str_map lower_char s.

(** ** Stripping *)

Fixpoint lstrip_by (p : ascii -> bool) (s : string) : string :=
  match s with
  | "" => ""
  | String c r => if p c then lstrip_by p r else s
  end.

Fixpoint rstrip_by (p : ascii -> bool) (s : string) : string :=
  match s with
  | "" => ""
  | String c r =>
      match rstrip_by p r with
      | "" => if p c then "" else String c ""
      | r' => String c r'
      end
  end.

Definition strip_by (p : ascii -> bool) (s : string) : string :=
  rstrip_by p (lstrip_by p s).

Definition lstrip := lstrip_by isspace.
Definition rstrip := rstrip_by isspace.
Definition strip := strip_by isspace.

(** [s.strip(chars)] and [s.rstrip(chars)]. *)
Definition strip_chars (chars s : string) : string := strip_by (fun c => in_str c chars) s.
Definition rstrip_chars (chars s : string) : string := rstrip_by (fun c => in_str c chars) s.

(** ** Prefixes, suffixes, slices *)

Fixpoint str_rev_app (s acc : string) : string :=
  match s with
  | "" => acc
  | String c r => str_rev_app r (String c acc)
  end.

Definition str_rev (s : string) : string := str_rev_app s "".

Definition startswith (s pre : string) : bool := String.prefix pre s.
Definition endswith (s suf : string) : bool := String.prefix (str_rev suf) (str_rev s).

(** [s[:n]] and [s[n:]] for [n >= 0]. *)
Fixpoint str_take (n : nat) (s : string) : string :=
  match n, s with
  | 0, _ | _, "" => ""
  | S n', String c r => String c (str_take n' r)
  end.

Fixpoint str_drop (n : nat) (s : string) : string :=
  match n, s with
  | 0, _ => s
  | _, "" => ""
  | S n', String _ r => str_drop n' r
  end.

(** [s[1:-1]]: drop the first and the last character. *)
Definition strip_ends (s : string) : string :=
  str_take (String.length s - 2) (str_drop 1 s).

(** ** Splitting and joining *)

(** [s.split(sep)] for a one-character separator: empty fields are kept,
    and [''.split(',') == ['']]. *)
Fixpoint split_char (sep : ascii) (s : string) : list string :=
  match s with
  | "" => [""]
  | String c r =>
      let parts := split_char sep r in
      if Ascii.eqb c sep then "" :: parts
      else match parts with
           | p :: ps => String c p :: ps
           | [] => [String c ""]
           end
  end.

(** [s.split(sep, 1)] when [sep in s]: the text before the first [sep] and
    the text after it; [None] when [sep] does not occur. *)
Fixpoint partition_char (sep : ascii) (s : string) : option (string * string) :=
  match s with
  | "" => None
  | String c r =>
      if Ascii.eqb c sep then Some ("", r)
      else match partition_char sep r with
           | Some (a, b) => Some (String c a, b)
           | None => None
           end
  end.

(** [sep.join(parts)]. *)
Definition join (sep : string) (parts : list string) : string := String.concat sep parts.

(** [str.splitlines]: each line with the boundary that ended it ([""] for
    the last line when the text does not end with a boundary).  No empty
    line is produced for a final boundary. *)
Fixpoint lines_with_ends (s : string) : list (string * string) :=
  match s with
  | "" => []
  | String c r =>
      if Ascii.eqb c CR then
        match r with
        | String d r' =>
            if Ascii.eqb d LF then ("", String CR (String LF "")) :: lines_with_ends r'
            else ("", String CR "") :: lines_with_ends r
        | "" => [("", String CR "")]
        end
      else if is_line_break c then ("", String c "") :: lines_with_ends r
      else match lines_with_ends r with
           | [] => [(String c "", "")]
           | (l, e) :: rest => (String c l, e) :: rest
           end
  end.

Definition splitlines (s : string) : list string := map fst (lines_with_ends s).

Definition splitlines_keepends (s : string) : list string :=
  map (fun '(l, e) => l ^ e) (lines_with_ends s).

(** ** Numbers *)

Definition str_of_nat (n : nat) : string := NilEmpty.string_of_uint (Nat.to_uint n).

(** [f"{n:02d}"] for [n >= 0]. *)
Definition format_02d (n : nat) : string :=
  let d := str_of_nat n in
  if Nat.ltb (String.length d) 2 then "0" ^ d else d.

(** ** Sanity checks against CPython *)

Definition nl : string := String LF "".

Example splitlines_crlf :
  splitlines ("a" ^ String CR nl ^ "b" ^ nl ^ nl ^ "c" ^ String CR "") = ["a"; "b"; ""; "c"].
Proof. reflexivity. Qed.

Example split_char_empty_fields : split_char "," "a,,b" = ["a"; ""; "b"].
Proof. reflexivity. Qed.

Example strip_sep : strip (String "031"%char " x  ") = "x".
Proof. reflexivity. Qed.

Example format_02d_samples : map format_02d [0; 7; 42; 123] = ["00"; "07"; "42"; "123"].
Proof. reflexivity. Qed.

(** ** String append *)

Lemma append_assoc (a b c : string) : (a ^ b) ^ c = a ^ (b ^ c).
Proof. induction a; simpl; congruence. Qed.

Lemma append_empty_r (a : string) : a ^ "" = a.
Proof. induction a; simpl; congruence. Qed.

Lemma length_append (a b : string) : String.length (a ^ b) = String.length a + String.length b.
Proof. induction a; simpl; auto. Qed.

#[export] Hint Rewrite append_assoc append_empty_r length_append : pub_rw.

(** ** Splitting *)

Lemma split_char_not_nil sep s : split_char sep s <> [].
Proof.
  induction s as [|c r IH]; simpl; [discriminate|].
  destruct (Ascii.eqb c sep); [discriminate|].
  destruct (split_char sep r); discriminate.
Qed.

(** No field of [s.split(sep)] contains [sep]. *)
Lemma split_char_fields sep s p :
  In p (split_char sep s) -> in_str sep p = false.
Proof.
  revert p; induction s as [|c r IH]; simpl; intros p Hp.
  - destruct Hp as [<-|[]]; reflexivity.
  - destruct (Ascii.eqb c sep) eqn:E.
    + destruct Hp as [<-|Hp]; auto.
    + destruct (split_char sep r) as [|q qs] eqn:Hs; [destruct Hp as [<-|[]]; simpl; rewrite Ascii.eqb_sym, E; reflexivity|].
      destruct Hp as [<-|Hp]; simpl.
      * rewrite Ascii.eqb_sym, E. apply IH. left; reflexivity.
      * apply IH. right; exact Hp.
Qed.

(** Round trip: [sep.join(s.split(sep)) == s]. *)
Lemma join_split_char sep s : join (String sep "") (split_char sep s) = s.
Proof.
  unfold join; induction s as [|c r IH]; [reflexivity|]. simpl.
  pose proof (split_char_not_nil sep r) as Hn.
  destruct (Ascii.eqb c sep) eqn:E.
  - apply Ascii.eqb_eq in E; subst c.
    destruct (split_char sep r) as [|p ps]; [congruence|]. simpl in *. now rewrite IH.
  - destruct (split_char sep r) as [|p [|q qs]]; [congruence| |]; simpl in *; now rewrite IH.
Qed.

(** ** Lines *)

Definition no_line_break (l : string) : Prop :=
  in_str LF l = false /\ in_str CR l = false.

Lemma no_line_break_cons c l :
  Ascii.eqb c CR = false -> is_line_break c = false -> no_line_break l ->
  no_line_break (String c l).
Proof.
  intros H1 H2 [H3 H4]; split; cbn [in_str]; rewrite ?H3, ?H4, orb_false_r.
  - apply Ascii.eqb_neq. intros <-. discriminate.
  - rewrite Ascii.eqb_sym; exact H1.
Qed.

(** A line of [s.splitlines()] contains no [\n] and no [\r]. *)
Lemma splitlines_no_break s l : In l (splitlines s) -> no_line_break l.
Proof.
  unfold splitlines; rewrite in_map_iff. revert s l.
  enough (forall n s, String.length s <= n ->
            forall l e, In (l, e) (lines_with_ends s) -> no_line_break l)
    by (intros s l [[l' e] [<- Hin]]; eauto).
  assert (Hnil : no_line_break "") by (split; reflexivity).
  induction n as [|n IH]; intros [|c r] Hlen l e Hin; simpl in *; try lia; try contradiction.
  destruct (Ascii.eqb c CR) eqn:Ec.
  - destruct r as [|d r'].
    + destruct Hin as [[= <- _]|[]]; exact Hnil.
    + simpl in Hlen.
      destruct (Ascii.eqb d LF); destruct Hin as [[= <- _]|Hin]; try exact Hnil.
      * apply (IH r' ltac:(lia) l e Hin).
      * apply (IH (String d r') ltac:(simpl; lia) l e Hin).
  - destruct (is_line_break c) eqn:Eb;
      [destruct Hin as [[= <- _]|Hin]; eauto; apply (IH r ltac:(lia) l e Hin)|].
    destruct (lines_with_ends r) as [|[l0 e0] rest] eqn:Hr.
    + destruct Hin as [[= <- _]|[]]. apply no_line_break_cons; auto.
    + destruct Hin as [[= <- _]|Hin].
      * apply no_line_break_cons; auto. apply (IH r ltac:(lia) l0 e0). rewrite Hr; now left.
      * apply (IH r ltac:(lia) l e). rewrite Hr; now right.
Qed.

Lemma prefix_empty s : String.prefix "" s = true.
Proof. now destruct s. Qed.

(** ** Suffixes *)

Inductive suffix_of : string -> string -> Prop :=
| suffix_refl s : suffix_of s s
| suffix_cons t c s : suffix_of t s -> suffix_of t (String c s).

#[export] Hint Constructors suffix_of : pub.

Lemma length_str_drop n s : String.length (str_drop n s) = String.length s - n.
Proof. revert s; induction n as [|n IH]; intros [|c s]; simpl; auto with arith. Qed.

Lemma length_str_take n s : String.length (str_take n s) = Nat.min n (String.length s).
Proof. revert s; induction n as [|n IH]; intros [|c s]; simpl; auto. Qed.

#[export] Hint Rewrite length_str_drop length_str_take : pub_rw.

(** [str(n)] is never empty. *)
Lemma to_uint_not_nil n : Nat.to_uint n <> Decimal.Nil.
Proof.
  intros E. destruct n as [|n]; [discriminate|].
  pose proof (DecimalNat.Unsigned.of_to (S n)) as H. rewrite E in H. discriminate.
Qed.


(** ** Character-wise rewriting *)

(** [''.join(h(c) for c in s)]. *)
Fixpoint flat_map_str (h : ascii -> string) (s : string) : string :=
  match s with
  | "" => ""
  | String c r => h c ^ flat_map_str h r
  end.

Lemma flat_map_str_app h a b : flat_map_str h (a ^ b) = flat_map_str h a ^ flat_map_str h b.
Proof. induction a as [|c a IH]; simpl; [reflexivity|]. now rewrite IH, append_assoc. Qed.

Lemma flat_map_str_compose h g s :
  flat_map_str h (flat_map_str g s) = flat_map_str (fun d => flat_map_str h (g d)) s.
Proof. induction s as [|c r IH]; simpl; [reflexivity|]. now rewrite flat_map_str_app, IH. Qed.

Lemma in_str_app c a b : in_str c (a ^ b) = in_str c a || in_str c b.
Proof. induction a as [|d a IH]; simpl; [reflexivity|]. now rewrite IH, orb_assoc. Qed.

Lemma in_str_flat_map c h s :
  (forall d, in_str c (h d) = false) -> in_str c (flat_map_str h s) = false.
Proof. intros H. induction s as [|d r IH]; simpl; [reflexivity|]. now rewrite in_str_app, H, IH. Qed.

#[export] Hint Rewrite flat_map_str_app in_str_app : pub_rw.

Lemma flat_map_str_ext h g s : (forall d, h d = g d) -> flat_map_str h s = flat_map_str g s.
Proof. intros H. induction s as [|c r IH]; simpl; [reflexivity|]. now rewrite H, IH. Qed.

Lemma append_inv_l (a b c : string) : a ^ b = a ^ c -> b = c.
Proof. induction a as [|x a IH]; simpl; [auto|]. intros [= H]. auto. Qed.

(** Two splittings of one string with prefixes of the same length agree. *)
Lemma append_inv_len (a b c d : string) :
  a ^ c = b ^ d -> String.length a = String.length b -> a = b /\ c = d.
Proof.
  revert b; induction a as [|x a IH]; intros [|y b]; simpl; try discriminate; auto.
  intros [= -> H] Hl. destruct (IH b H ltac:(lia)) as [-> ->]. auto.
Qed.

(** [s[:n] + s[n:] == s]. *)
Lemma str_take_drop n s : str_take n s ^ str_drop n s = s.
Proof. revert s; induction n as [|n IH]; intros [|c s]; simpl; rewrite ?IH; reflexivity. Qed.

Lemma str_take_all n s : String.length s <= n -> str_take n s = s.
Proof.
  revert s; induction n as [|n IH]; intros [|c s]; simpl; auto; try lia.
  intros H. f_equal. apply IH. lia.
Qed.

(** ** The first character after stripping *)

Definition str_first (s : string) : option ascii :=
  match s with String c _ => Some c | "" => None end.

Lemma rstrip_by_nil_lstrip p s : rstrip_by p s = "" -> lstrip_by p s = "".
Proof.
  induction s as [|c r IH]; [reflexivity|]. simpl.
  destruct (rstrip_by p r) as [|d r'] eqn:E; [|discriminate].
  destruct (p c); [intros _; apply IH; reflexivity|discriminate].
Qed.

Lemma str_first_rstrip p c r : p c = false -> str_first (rstrip_by p (String c r)) = Some c.
Proof. intros Hc. simpl. destruct (rstrip_by p r); [rewrite Hc|]; reflexivity. Qed.

Lemma lstrip_by_head p s c r : lstrip_by p s = String c r -> p c = false.
Proof.
  induction s as [|d s IH]; simpl; [discriminate|].
  destruct (p d) eqn:E; [exact IH|]. intros H. injection H as <- _. exact E.
Qed.

Lemma str_first_strip p s : str_first (strip_by p s) = str_first (lstrip_by p s).
Proof.
  unfold strip_by. destruct (lstrip_by p s) as [|c r] eqn:E; [reflexivity|].
  apply str_first_rstrip. eapply lstrip_by_head. exact E.
Qed.

Lemma str_first_lstrip_rstrip p s : str_first (lstrip_by p (rstrip_by p s)) = str_first (lstrip_by p s).
Proof.
  induction s as [|c r IH]; [reflexivity|]. simpl.
  destruct (rstrip_by p r) as [|d r'] eqn:E.
  - rewrite (rstrip_by_nil_lstrip p r E).
    destruct (p c) eqn:Hc; simpl; [reflexivity|rewrite Hc; reflexivity].
  - simpl. destruct (p c) eqn:Hc; [exact IH|reflexivity].
Qed.

(** [strip(s.rstrip())] starts with the character [strip(s)] starts with. *)
Lemma str_first_strip_rstrip s : str_first (strip (rstrip s)) = str_first (strip s).
Proof.
  unfold strip, rstrip. rewrite !str_first_strip. apply str_first_lstrip_rstrip.
Qed.

Lemma startswith_str_first s c t : startswith s (String c t) = true -> str_first s = Some c.
Proof.
  unfold startswith. rewrite String.prefix_correct. destruct s as [|d r]; [discriminate|].
  simpl. intros E. injection E as -> _. reflexivity.
Qed.

(** [(u + v)[:n]] is [u[:n]] when [u] has at least [n] characters. *)
Lemma str_take_app_long n u v : n <= String.length u -> str_take n (u ^ v) = str_take n u.
Proof.
  revert n; induction u as [|c u IH]; intros [|n] H; simpl in *; try lia; try reflexivity.
  f_equal. apply IH. lia.
Qed.

(** ** Stripping text without the stripped characters *)

Lemma lstrip_by_none p s : (forall c, in_str c s = true -> p c = false) -> lstrip_by p s = s.
Proof.
  destruct s as [|c r]; intros Hs; [reflexivity|]. simpl.
  rewrite (Hs c) by (simpl; rewrite Ascii.eqb_refl; reflexivity). reflexivity.
Qed.

Lemma rstrip_by_none p s : (forall c, in_str c s = true -> p c = false) -> rstrip_by p s = s.
Proof.
  induction s as [|c r IH]; intros Hs; [reflexivity|]. simpl.
  rewrite IH by (intros d Hd; apply Hs; simpl; rewrite Hd, orb_true_r; reflexivity).
  destruct r; [|reflexivity].
  rewrite (Hs c) by (simpl; rewrite Ascii.eqb_refl; reflexivity). reflexivity.
Qed.

Lemma strip_by_none p s : (forall c, in_str c s = true -> p c = false) -> strip_by p s = s.
Proof. intros Hs. unfold strip_by. rewrite lstrip_by_none by exact Hs. apply rstrip_by_none, Hs. Qed.

(** ** Splitting what [join] built *)

Lemma split_char_nosep sep l : in_str sep l = false -> split_char sep l = [l].
Proof.
  induction l as [|c r IH]; [reflexivity|]. cbn [in_str split_char].
  intros H. apply orb_false_iff in H as [H1 H2].
  rewrite Ascii.eqb_sym, H1, IH by exact H2. reflexivity.
Qed.

Lemma split_char_app_sep sep l s :
  in_str sep l = false -> split_char sep (l ^ String sep s) = l :: split_char sep s.
Proof.
  induction l as [|c r IH]; intros H.
  - simpl. rewrite Ascii.eqb_refl. reflexivity.
  - cbn [in_str] in H. apply orb_false_iff in H as [H1 H2].
    simpl. rewrite Ascii.eqb_sym, H1, IH by exact H2. reflexivity.
Qed.

(** Round trip: [sep.join(parts).split(sep) == parts] when no part holds
    [sep]. *)
Lemma split_char_join sep ls :
  ls <> [] -> (forall l, In l ls -> in_str sep l = false) ->
  split_char sep (join (String sep "") ls) = ls.
Proof.
  unfold join. induction ls as [|l ls IH]; intros Hne Hl; [congruence|].
  destruct ls as [|l' ls'].
  - simpl. apply split_char_nosep, Hl. left; reflexivity.
  - change (String.concat (String sep "") (l :: l' :: ls'))
      with (l ^ String sep (String.concat (String sep "") (l' :: ls'))).
    rewrite split_char_app_sep by (apply Hl; left; reflexivity).
    f_equal. apply IH; [discriminate|]. intros x Hx. apply Hl. right; exact Hx.
Qed.

Lemma str_rev_app_app s t acc : str_rev_app (s ^ t) acc = str_rev_app t (str_rev_app s acc).
Proof. revert acc. induction s as [|c r IH]; intros acc; [reflexivity|]. apply IH. Qed.

(** [s + c] ends with [c]. *)
Lemma endswith_last s c : endswith (s ^ String c "") (String c "") = true.
Proof.
  unfold endswith, str_rev. rewrite str_rev_app_app. simpl.
  destruct (ascii_dec c c); [apply prefix_empty|congruence].
Qed.

Lemma str_take_length_app t x : str_take (String.length t) (t ^ x) = t.
Proof. induction t as [|c r IH]; [reflexivity|]. simpl. rewrite IH. reflexivity. Qed.

Lemma str_drop_length_app t x : str_drop (String.length t) (t ^ x) = x.
Proof. induction t as [|c r IH]; [reflexivity|]. exact IH. Qed.

Lemma startswith_app t x : startswith (t ^ x) t = true.
Proof.
  unfold startswith. induction t as [|c r IH]; [apply prefix_empty|]. simpl.
  destruct (ascii_dec c c); [exact IH|congruence].
Qed.

(** [s.partition(sep)] of [a + sep + b] when [sep] is not in [a]. *)
Lemma partition_char_app sep a b :
  in_str sep a = false -> partition_char sep (a ^ String sep b) = Some (a, b).
Proof.
  induction a as [|c r IH]; simpl; intros H.
  - rewrite Ascii.eqb_refl. reflexivity.
  - apply orb_false_iff in H as [H1 H2]. rewrite Ascii.eqb_sym, H1, IH by exact H2. reflexivity.
Qed.

(** [s[1:-1]] of [a + t + b] is [t]. *)
(** ** Characters a result cannot hold *)

Lemma in_str_lstrip c p s : in_str c (lstrip_by p s) = true -> in_str c s = true.
Proof.
  induction s as [|d r IH]; [discriminate|]. cbn [lstrip_by in_str].
  destruct (p d); [intros H; rewrite IH by exact H; apply orb_true_r|tauto].
Qed.

Lemma in_str_rstrip c p s : in_str c (rstrip_by p s) = true -> in_str c s = true.
Proof.
  induction s as [|d r IH]; [discriminate|]. cbn [rstrip_by in_str].
  destruct (rstrip_by p r) as [|e r'] eqn:E.
  - destruct (p d); [discriminate|]. cbn [in_str]. rewrite orb_false_r. intros ->. reflexivity.
  - cbn [in_str]. intros H. apply orb_prop in H as [->|H]; [reflexivity|].
    rewrite IH by exact H. apply orb_true_r.
Qed.

Lemma in_str_strip c p s : in_str c s = false -> in_str c (strip_by p s) = false.
Proof.
  intros H. destruct (in_str c (strip_by p s)) eqn:E; [|reflexivity].
  apply in_str_rstrip, in_str_lstrip in E. congruence.
Qed.

Lemma in_str_take c n s : in_str c s = false -> in_str c (str_take n s) = false.
Proof.
  revert s; induction n as [|n IH]; intros [|d r] H; try reflexivity.
  cbn [str_take in_str] in *. apply orb_false_iff in H as [H1 H2]. rewrite H1, IH by exact H2. reflexivity.
Qed.

(** [str(n)] is made of digits. *)
Lemma uint_digits c d : in_str c (NilEmpty.string_of_uint d) = true ->
  Nat.leb 48 (nat_of_ascii c) && Nat.leb (nat_of_ascii c) 57 = true.
Proof.
  induction d; cbn [NilEmpty.string_of_uint in_str]; [discriminate|..]; intros H;
    apply orb_prop in H as [H|H]; auto; apply Ascii.eqb_eq in H; subst c; reflexivity.
Qed.

Lemma format_02d_digits c n : in_str c (format_02d n) = true ->
  Nat.leb 48 (nat_of_ascii c) && Nat.leb (nat_of_ascii c) 57 = true.
Proof.
  unfold format_02d, str_of_nat. destruct (Nat.ltb _ 2); [|apply uint_digits].
  change ("0" ^ ?x) with (String "0" x). cbn [in_str]. intros H.
  apply orb_prop in H as [H|H]; [apply Ascii.eqb_eq in H; subst c; reflexivity|exact (uint_digits _ _ H)].
Qed.

(** [sep.join] of a non-empty list starts with its first element. *)
Lemma join_cons_prefix sep x xs : exists u, join sep (x :: xs) = x ^ u.
Proof.
  destruct xs as [|y xs]; [exists ""; symmetry; apply append_empty_r|].
  exists (sep ^ join sep (y :: xs)). reflexivity.
Qed.

(** [s.split(sep, 1)] has one field when [sep] does not occur. *)
Lemma partition_char_none sep s : in_str sep s = false -> partition_char sep s = None.
Proof.
  induction s as [|c r IH]; [reflexivity|]. cbn [in_str partition_char].
  intros H. apply orb_false_iff in H as [H1 H2]. rewrite Ascii.eqb_sym, H1, IH by exact H2. reflexivity.
Qed.

Lemma strip_ends_wrap a t b : strip_ends (String a (t ^ String b "")) = t.
Proof.
  unfold strip_ends. cbn [str_drop String.length]. rewrite length_append. cbn [String.length].
  replace (S (String.length t + 1) - 2) with (String.length t) by lia.
  apply str_take_length_app.
Qed.

Lemma startswith_first c s : startswith (String c s) (String c "") = true.
Proof. unfold startswith. simpl. destruct (ascii_dec c c); [apply prefix_empty|congruence]. Qed.

(** ** Texts whose last character is not stripped *)

(** The last character of [s] fails [p] ([false] for the empty text). *)
Fixpoint ends_not (p : Ascii.ascii -> bool) (s : string) : bool :=
  match s with
  | EmptyString => false
  | String c EmptyString => negb (p c)
  | String _ r => ends_not p r
  end.

Lemma ends_not_cons p c r : r <> EmptyString -> ends_not p (String c r) = ends_not p r.
Proof. destruct r; [congruence|reflexivity]. Qed.

Lemma rstrip_by_ends_not p s : ends_not p s = true -> rstrip_by p s = s.
Proof.
  induction s as [|c r IH]; [discriminate|]. intros H. simpl.
  destruct r as [|d r'].
  - simpl in H. destruct (p c); [discriminate|reflexivity].
  - rewrite IH by exact H. reflexivity.
Qed.

Lemma strip_by_ends p c r :
  p c = false -> ends_not p (String c r) = true -> strip_by p (String c r) = String c r.
Proof. intros Hc He. unfold strip_by. simpl. rewrite Hc. apply rstrip_by_ends_not, He. Qed.

Lemma ends_not_last p s c : ends_not p (s ^ String c EmptyString) = negb (p c).
Proof.
  induction s as [|d r IH]; [reflexivity|].
  change (String d r ^ String c EmptyString) with (String d (r ^ String c EmptyString)).
  rewrite ends_not_cons; [exact IH|]. destruct r; discriminate.
Qed.
