(* ===== verification/Glob.v ===== *)
(** * File discovery: [glob.glob], [fnmatch], [pathlib.Path] and [sorted]

    [main] of [src/skills/confluence-publisher/scripts/confluence_publish.py]
    (line 915, and line 522 of the older [src/scripts/confluence_publish.py])
    finds its documents with
    [sorted(Path(p) for p in glob.glob(glob_pattern, recursive=True) if Path(p).is_file())].
    The three library parts are written here from CPython 3.11 ([glob.py],
    [fnmatch.py], [posixpath.py], [pathlib.py]).

    - The file system is a tree [fs_node] seen from the working directory.
      A directory lists its entries in [os.scandir] order.  There are no
      symbolic links.  A path resolves component by component: [""] and
      ["."] stay, [".."] goes up, and a component after a file fails (the
      ENOTDIR of POSIX).
    - [iglob] is [glob._iglob] with [recursive=True] and [root_dir=''], as
      [main] calls it.  Its recursion on the directory part of the pattern
      runs on fuel: the length of the pattern plus one, which
      [iglob_fuel_enough] shows is enough.  [_rlistdir] walks the tree
      below the listed directory instead of resolving the joined path
      again; with well-formed names that is the same directory.
    - [fnmatch] is [fnmatch.translate] turned into tokens, and a matcher
      that backtracks on [*].  CPython's atomic [(?>.*?fixed)] groups match
      the same names, because a fixed piece has a fixed length.  Bracket
      sets follow [translate] closely: the [!] and [\]] rules, the split at
      hyphens, the removal of empty ranges, and the empty and [[!]] cases.
    - A [Path] is its root ([""], ["/"] or ["//"]) and its parts.  Paths
      are ordered by their part lists, not by their text.
    - [sorted] is an insertion sort.  [sort_unique] shows that any sorted
      permutation is the same list, so this is Python's [sorted].
    - Names are strings of 8-bit characters. *)

From Stdlib Require Import String Ascii List Bool Arith NArith Lia Sorted Permutation.
From S2P Require Import Prelude PyStr.
Import ListNotations.
Local Open Scope string_scope.
Local Open Scope py_scope.

(** ** The file system *)

Local Unset Elimination Schemes.
Inductive fs_node : Type :=
| File (text : string)
| Dir (entries : list (string * fs_node)).
Local Set Elimination Schemes.

Definition SEP : ascii := "/".
Definition DOT : ascii := ".".

Definition is_dir_node (n : fs_node) : bool :=
  match n with Dir _ => true | File _ => false end.

Fixpoint lookup_entry (es : list (string * fs_node)) (x : string) : option fs_node :=
  match es with
  | [] => None
  | (y, n) :: r => if String.eqb x y then Some n else lookup_entry r x
  end.

(** Name resolution of [os.stat]: [up] holds the directories above [cur]. *)
Fixpoint walk (up : list fs_node) (cur : fs_node) (cs : list string) : option fs_node :=
  match cs with
  | [] => Some cur
  | c :: cs' =>
      match cur with
      | File _ => None
      | Dir es =>
          if String.eqb c "" || String.eqb c "." then walk up cur cs'
          else if String.eqb c ".." then
            match up with
            | [] => walk [] cur cs'
            | p :: up' => walk up' p cs'
            end
          else match lookup_entry es c with
               | Some n => walk (cur :: up) n cs'
               | None => None
               end
      end
  end.

(** [os.stat(p)]: the empty path does not exist. *)
Definition resolve (fs : fs_node) (p : string) : option fs_node :=
  if String.eqb p "" then None else walk [] fs (split_char SEP p).

(** [os.path.lexists] and [os.path.isdir]. *)
Definition lexists (fs : fs_node) (p : string) : bool :=
  match resolve fs p with Some _ => true | None => false end.

Definition isdir (fs : fs_node) (p : string) : bool :=
  match resolve fs p with Some (Dir _) => true | _ => false end.

(** [glob._listdir]: the names of a directory, only its subdirectories
    when [dironly]; [os.curdir] for the empty name; nothing when the path
    is not a directory (the [OSError] is swallowed). *)
Definition listdir (fs : fs_node) (d : string) (dironly : bool) : list string :=
  match resolve fs (if String.eqb d "" then "." else d) with
  | Some (Dir es) => map fst (filter (fun e => negb dironly || is_dir_node (snd e)) es)
  | _ => []
  end.

(** ** [posixpath] and the helpers of [glob.py] *)

(** The index just after the last [c] of [s], 0 when there is none:
    [s.rfind(c) + 1]. *)
Fixpoint rfind_end (c : ascii) (s : string) : nat :=
  match s with
  | "" => 0
  | String d r =>
      let k := rfind_end c r in
      if Nat.eqb k 0 then (if Ascii.eqb c d then 1 else 0) else S k
  end.

Definition all_sep (s : string) : bool :=
  String.eqb (lstrip_by (Ascii.eqb SEP) s) "".

(** [posixpath.split]. *)
Definition os_split (p : string) : string * string :=
  let i := rfind_end SEP p in
  let head := str_take i p in
  let tail := str_drop i p in
  if negb (String.eqb head "") && negb (all_sep head)
  then (rstrip_by (Ascii.eqb SEP) head, tail)
  else (head, tail).

(** [posixpath.join] of two paths. *)
Definition os_join (a b : string) : string :=
  if startswith b "/" then b
  else if String.eqb a "" || endswith a "/" then a ^ b
  else a ^ "/" ^ b.

(** [glob._join]. *)
Definition g_join (d b : string) : string :=
  if String.eqb d "" then b
  else if String.eqb b "" then d
  else os_join d b.

(** [glob.has_magic]: [magic_check = re.compile('([*?[])')]. *)
Definition has_magic (s : string) : bool :=
  in_str "*" s || in_str "?" s || in_str "[" s.

(** [glob._ishidden]. *)
Definition is_hidden (s : string) : bool :=
  match s with String c _ => Ascii.eqb c DOT | "" => false end.

(** [glob._isrecursive]. *)
Definition is_recursive (p : string) : bool := String.eqb p "**".

(** ** [fnmatch] *)

(** The pieces of the regular expression [fnmatch.translate] builds:
    [.*], [.], [(?!)], a bracket set and an escaped character.  A set keeps
    the chunks of [translate]: consecutive chunks are joined by a range. *)
Inductive ftok : Type :=
| FStar
| FAny
| FNever
| FSet (neg : bool) (chunks : list string)
| FLit (c : ascii).

Definition s_first (s : string) : option ascii :=
  match s with String c _ => Some c | "" => None end.

Definition s_last (s : string) : option ascii := s_first (str_rev s).

(** [s[1:]] and [s[:-1]]. *)
Definition s_tail (s : string) : string := str_drop 1 s.
Definition s_init (s : string) : string := str_take (String.length s - 1) s.

(** The scan for the closing bracket after [[]: [j] skips a leading [!]
    and then a leading [\]], then runs to the next [\]].  [Some (stuff,
    rest)] with [stuff = pat[i:j]] and [rest] after the bracket. *)
Fixpoint scan_close (s : string) : option (string * string) :=
  match s with
  | "" => None
  | String c r =>
      if Ascii.eqb c "]" then Some ("", r)
      else match scan_close r with
           | Some (a, b) => Some (String c a, b)
           | None => None
           end
  end.

Definition scan_set (s : string) : option (string * string) :=
  let '(p1, s1) := match s with
                   | String c r => if Ascii.eqb c "!" then ("!", r) else ("", s)
                   | "" => ("", s)
                   end in
  let '(p2, s2) := match s1 with
                   | String c r => if Ascii.eqb c "]" then ("]", r) else ("", s1)
                   | "" => ("", s1)
                   end in
  match scan_close s2 with
  | Some (a, rest) => Some (p1 ^ p2 ^ a, rest)
  | None => None
  end.

(** The [while True: k = pat.find('-', k, j)] loop: a hyphen at least
    [skip] characters into the current chunk ends it, and the search goes
    on two characters after it ([k = k+3]).  [cur] is the current chunk,
    reversed. *)
Fixpoint split_hyphen (skip : nat) (cur : string) (s : string) : list string :=
  match s with
  | "" => [str_rev cur]
  | String c r =>
      if Nat.eqb skip 0 && Ascii.eqb c "-"
      then str_rev cur :: split_hyphen 2 "" r
      else split_hyphen (pred skip) (String c cur) r
  end.

(** [if chunk: chunks.append(chunk) else: chunks[-1] += '-']. *)
Fixpoint fix_last (cs : list string) : list string :=
  match cs with
  | [] => []
  | [c] => [c]
  | [c; ""] => [c ^ "-"]
  | c :: r => c :: fix_last r
  end.

Definition range_empty (prev cur : string) : bool :=
  match s_last prev, s_first cur with
  | Some a, Some b => Nat.ltb (nat_of_ascii b) (nat_of_ascii a)
  | _, _ => false
  end.

(** [for k in range(len(chunks)-1, 0, -1)]: an empty range [a-b] with
    [a > b] is removed by merging its two chunks.  [cur] is chunk [k],
    [rest] the chunks before it, nearest first. *)
Fixpoint fix_ranges (cur : string) (rest : list string) : list string :=
  match rest with
  | [] => [cur]
  | prev :: rest' =>
      if range_empty prev cur then fix_ranges (s_init prev ^ s_tail cur) rest'
      else (fix_ranges prev rest' ++ [cur])%list
  end.

(** The chunks of [stuff = pat[i:j]]. *)
Definition set_chunks (stuff : string) : list string :=
  if in_str "-" stuff then
    match rev (fix_last (split_hyphen (if startswith stuff "!" then 2 else 1) "" stuff)) with
    | [] => []
    | c :: r => fix_ranges c r
    end
  else [stuff].

(** [if not stuff: '(?!)'], [elif stuff == '!': '.'], and a set, negated
    when it starts with [!]. *)
Definition set_token (stuff : string) : ftok :=
  let cs := set_chunks stuff in
  let joined := String.concat "-" cs in
  if String.eqb joined "" then FNever
  else if String.eqb joined "!" then FAny
  else if startswith joined "!" then
    match cs with
    | c :: r => FSet true (s_tail c :: r)
    | [] => FNever
    end
  else FSet false cs.

(** The tokens of [translate]; one step reads at least one character, so
    the length of the pattern is enough fuel. *)
Fixpoint fn_tokens (fuel : nat) (p : string) : list ftok :=
  match fuel with
  | 0 => []
  | S f =>
      match p with
      | "" => []
      | String c r =>
          if Ascii.eqb c "*" then FStar :: fn_tokens f r
          else if Ascii.eqb c "?" then FAny :: fn_tokens f r
          else if Ascii.eqb c "[" then
            match scan_set r with
            | Some (stuff, rest) => set_token stuff :: fn_tokens f rest
            | None => FLit c :: fn_tokens f r
            end
          else FLit c :: fn_tokens f r
      end
  end.

Definition translate (p : string) : list ftok := fn_tokens (String.length p) p.

Definition in_range (c lo hi : ascii) : bool :=
  Nat.leb (nat_of_ascii lo) (nat_of_ascii c) && Nat.leb (nat_of_ascii c) (nat_of_ascii hi).

(** A character of the set: a character of a chunk, or one of a range
    from the last character of a chunk to the first of the next. *)
Fixpoint in_ranges (c : ascii) (cs : list string) : bool :=
  match cs with
  | a :: ((b :: _) as r) =>
      match s_last a, s_first b with
      | Some lo, Some hi => in_range c lo hi
      | _, _ => false
      end || in_ranges c r
  | _ => false
  end.

Definition in_set (c : ascii) (cs : list string) : bool :=
  existsb (in_str c) cs || in_ranges c cs.

Definition tok_ok (t : ftok) (c : ascii) : bool :=
  match t with
  | FStar | FAny => true
  | FNever => false
  | FSet neg cs => xorb neg (in_set c cs)
  | FLit d => Ascii.eqb c d
  end.

(** [re.match(... + r'\Z')] with [(?s)]: the whole name. *)
Fixpoint fn_match (ts : list ftok) (s : string) : bool :=
  match ts with
  | [] => String.eqb s ""
  | FStar :: ts' =>
      (fix star (s : string) : bool :=
         fn_match ts' s || match s with "" => false | String _ r => star r end) s
  | t :: ts' =>
      match s with
      | "" => false
      | String c r => tok_ok t c && fn_match ts' r
      end
  end.

(** [fnmatch.fnmatchcase]; [os.path.normcase] is the identity on POSIX. *)
Definition fnmatch (name pat : string) : bool := fn_match (translate pat) name.

(** ** [glob.glob] *)

(** [_glob0]: a literal name, or the directory itself for an empty one. *)
Definition glob0 (fs : fs_node) (dirname basename : string) : list string :=
  if String.eqb basename "" then (if isdir fs dirname then [basename] else [])
  else if lexists fs (g_join dirname basename) then [basename] else [].

(** [_glob1]: the names of the directory that match; hidden names only
    for a pattern that starts with a dot. *)
Definition glob1 (fs : fs_node) (dirname pattern : string) (dironly : bool) : list string :=
  let names := listdir fs dirname dironly in
  let names := if is_hidden pattern then names
               else filter (fun x => negb (is_hidden x)) names in
  filter (fun x => fnmatch x pattern) names.

(** [_rlistdir] on the tree below a directory: each visible entry, then
    what lies below it joined to its name. *)
Fixpoint rlist (dironly : bool) (n : fs_node) : list string :=
  match n with
  | File _ => []
  | Dir es =>
      (fix entries (es : list (string * fs_node)) : list string :=
         match es with
         | [] => []
         | (x, c) :: r =>
             ((if (negb dironly || is_dir_node c) && negb (is_hidden x)
              then x :: map (g_join x) (rlist dironly c) else [])
             ++ entries r)%list
         end) es
  end.

Definition rlistdir (fs : fs_node) (dirname : string) (dironly : bool) : list string :=
  match resolve fs (if String.eqb dirname "" then "." else dirname) with
  | Some n => rlist dironly n
  | None => []
  end.

(** [_glob2]: the empty name first, then everything below. *)
Definition glob2 (fs : fs_node) (dirname : string) (dironly : bool) : list string :=
  "" :: rlistdir fs dirname dironly.

(** [glob_in_dir] of [_iglob]. *)
Definition glob_in_dir (fs : fs_node) (dirname basename : string) (dironly : bool) : list string :=
  if has_magic basename then
    (if is_recursive basename then glob2 fs dirname dironly else glob1 fs dirname basename dironly)
  else glob0 fs dirname basename.

(** [_iglob(pathname, '', None, True, dironly)]. *)
Fixpoint iglob (fuel : nat) (fs : fs_node) (pathname : string) (dironly : bool) : list string :=
  match fuel with
  | 0 => []
  | S f =>
      let '(dirname, basename) := os_split pathname in
      if negb (has_magic pathname) then
        if String.eqb basename "" then (if isdir fs dirname then [pathname] else [])
        else if lexists fs pathname then [pathname] else []
      else if String.eqb dirname "" then
        (if is_recursive basename then glob2 fs "" dironly
         else glob1 fs "" basename dironly)
      else
        let dirs := if negb (String.eqb dirname pathname) && has_magic dirname
                    then iglob f fs dirname true else [dirname] in
        flat_map (fun d => map (os_join d) (glob_in_dir fs d basename dironly)) dirs
  end.

(** [glob.glob(pathname, recursive=True)]: [iglob] drops a first empty
    result of a pattern that is empty or starts with [**]. *)
Definition glob (fs : fs_node) (pathname : string) : list string :=
  let it := iglob (S (String.length pathname)) fs pathname false in
  if String.eqb pathname "" || is_recursive (str_take 2 pathname) then
    match it with
    | s :: rest => if String.eqb s "" then rest else it
    | [] => []
    end
  else it.

(** ** [pathlib.Path] *)

Record py_path : Type := { p_root : string; p_parts : list string }.

(** [_flavour.splitroot]: exactly two leading slashes are kept. *)
Definition path_root (s : string) : string :=
  let n := String.length s - String.length (lstrip_by (Ascii.eqb SEP) s) in
  if Nat.eqb n 0 then "" else if Nat.eqb n 2 then "//" else "/".

(** [Path(s)]: the parts without empty and ["."] components. *)
Definition to_path (s : string) : py_path :=
  {| p_root := path_root s;
     p_parts := filter (fun c => negb (String.eqb c "" || String.eqb c ".")) (split_char SEP s) |}.

(** [str(path)], ["."] for the empty path. *)
Definition path_str (p : py_path) : string :=
  let s := p_root p ^ String.concat "/" (p_parts p) in
  if String.eqb s "" then "." else s.

(** [Path._cparts]: the root, when there is one, then the parts. *)
Definition path_key (p : py_path) : list string :=
  if String.eqb (p_root p) "" then p_parts p else p_root p :: p_parts p.

(** Python's [<] on lists of strings. *)
Fixpoint list_compare (a b : list string) : comparison :=
  match a, b with
  | [], [] => Eq
  | [], _ :: _ => Lt
  | _ :: _, [] => Gt
  | x :: a', y :: b' =>
      match String.compare x y with
      | Eq => list_compare a' b'
      | c => c
      end
  end.

Definition path_leb (p q : py_path) : bool :=
  match list_compare (path_key p) (path_key q) with Gt => false | _ => true end.

(** [Path.is_file()], [Path.read_text()]. *)
Definition is_file (fs : fs_node) (p : py_path) : bool :=
  match resolve fs (path_str p) with Some (File _) => true | _ => false end.

Definition read_text (fs : fs_node) (p : py_path) : option string :=
  match resolve fs (path_str p) with Some (File t) => Some t | _ => None end.

(** [Path.name] and [Path.stem]. *)
Definition path_name (p : py_path) : string :=
  match rev (p_parts p) with x :: _ => x | [] => "" end.

Definition path_stem (p : py_path) : string :=
  let name := path_name p in
  let i := rfind_end DOT name in
  if Nat.ltb 1 i && Nat.ltb i (String.length name) then str_take (i - 1) name else name.

(** [sorted]: an insertion sort. *)
Fixpoint insert_by {A} (leb : A -> A -> bool) (x : A) (l : list A) : list A :=
  match l with
  | [] => [x]
  | y :: r => if leb x y then x :: l else y :: insert_by leb x r
  end.

Definition sort_by {A} (leb : A -> A -> bool) (l : list A) : list A :=
  fold_right (insert_by leb) [] l.

Definition sort_paths (l : list py_path) : list py_path := sort_by path_leb l.

(** The files [main] publishes, in order. *)
Definition discover (fs : fs_node) (pattern : string) : list py_path :=
  sort_paths (filter (is_file fs) (map to_path (glob fs pattern))).

(** ** A sample tree

    The directory the publisher is usually run on, as [os.scandir] listed
    it, and what CPython 3.11 printed for [glob.glob(p, recursive=True)]
    and for the sorted regular files, pattern by pattern. *)

Definition sample_fs : fs_node :=
  Dir [("docs", Dir [("b", Dir [("c", Dir [("notes.txt", File "text of notes.txt"); ("w.md", File "text of w.md")])]); (".h.md", File "text of .h.md"); ("dir.md", Dir []); ("x.md", File "text of x.md"); ("a-b.md", File "text of a-b.md"); (".hid", Dir [("z.md", File "text of z.md")]); ("a", Dir [("y.md", File "text of y.md")])])].


Definition cpython_glob_table : list (string * list string * list string) := [
    ("docs/**/*.md", ["docs/dir.md"; "docs/x.md"; "docs/a-b.md"; "docs/b/c/w.md"; "docs/a/y.md"],
     ["docs/a/y.md"; "docs/a-b.md"; "docs/b/c/w.md"; "docs/x.md"]);
    ("docs/**", ["docs/"; "docs/b"; "docs/b/c"; "docs/b/c/notes.txt"; "docs/b/c/w.md"; "docs/dir.md"; "docs/x.md"; "docs/a-b.md"; "docs/a"; "docs/a/y.md"],
     ["docs/a/y.md"; "docs/a-b.md"; "docs/b/c/notes.txt"; "docs/b/c/w.md"; "docs/x.md"]);
    ("**/*.md", ["docs/dir.md"; "docs/x.md"; "docs/a-b.md"; "docs/b/c/w.md"; "docs/a/y.md"],
     ["docs/a/y.md"; "docs/a-b.md"; "docs/b/c/w.md"; "docs/x.md"]);
    ("docs/*/", ["docs/b/"; "docs/dir.md/"; "docs/a/"],
     []);
    ("docs/**/.h.md", ["docs/.h.md"],
     ["docs/.h.md"]);
    ("docs/[a-c]*", ["docs/b"; "docs/a-b.md"; "docs/a"],
     ["docs/a-b.md"]);
    ("docs/[!x]*.md", ["docs/dir.md"; "docs/a-b.md"],
     ["docs/a-b.md"]);
    ("docs/?.md", ["docs/x.md"],
     ["docs/x.md"]);
    ("docs/x.md", ["docs/x.md"],
     ["docs/x.md"]);
    ("docs/*/*.md", ["docs/a/y.md"],
     ["docs/a/y.md"]);
    ("nothing/*.md", [],
     []);
    ("docs/.*", ["docs/.h.md"; "docs/.hid"],
     ["docs/.h.md"]);
    ("docs/[b-a]*", [],
     []);
    ("docs//x.md", ["docs//x.md"],
     ["docs/x.md"]);
    ("./docs/*.md", ["./docs/dir.md"; "./docs/x.md"; "./docs/a-b.md"],
     ["docs/a-b.md"; "docs/x.md"]);
    ("docs/*-*", ["docs/a-b.md"],
     ["docs/a-b.md"])].

Fixpoint strs_eqb (a b : list string) : bool :=
  match a, b with
  | [], [] => true
  | x :: a', y :: b' => String.eqb x y && strs_eqb a' b'
  | _, _ => false
  end.

(** ** Insertion sort *)

Section Sort.
Context {A : Type} (leb : A -> A -> bool).
Hypothesis leb_total : forall x y, leb x y = false -> leb y x = true.
Hypothesis leb_trans : forall x y z, leb x y = true -> leb y z = true -> leb x z = true.

Let le x y := leb x y = true.

Lemma insert_by_perm x l : Permutation (x :: l) (insert_by leb x l).
Proof.
  induction l as [|y r IH]; simpl; [reflexivity|].
  destruct (leb x y); [reflexivity|].
  etransitivity; [apply perm_swap|]. constructor. exact IH.
Qed.

Lemma insert_by_sorted x l : Sorted le l -> Sorted le (insert_by leb x l).
Proof.
  induction 1 as [|y r Hr IH Hhd]; simpl; [repeat constructor|].
  destruct (leb x y) eqn:E; [constructor; [constructor|constructor]; auto|].
  apply leb_total in E. constructor; [exact IH|].
  destruct r as [|z r]; simpl; [constructor; exact E|].
  inversion Hhd; subst. destruct (leb x z); constructor; assumption.
Qed.

Lemma sort_by_perm l : Permutation l (sort_by leb l).
Proof.
  induction l as [|x r IH]; simpl; [reflexivity|].
  etransitivity; [apply perm_skip, IH|apply insert_by_perm].
Qed.

Lemma sort_by_sorted l : Sorted le (sort_by leb l).
Proof. induction l; simpl; [constructor|apply insert_by_sorted; assumption]. Qed.

(** Two sorted permutations of a list are the same list, when [leb] is
    antisymmetric on their elements. *)
Lemma sorted_unique (P : A -> Prop) l1 l2 :
  (forall x y, P x -> P y -> leb x y = true -> leb y x = true -> x = y) ->
  Forall P l1 -> Sorted le l1 -> Sorted le l2 -> Permutation l1 l2 -> l1 = l2.
Proof.
  intros Hanti HP S1 S2 Hp.
  apply Sorted_StronglySorted in S1; [|intros a b c; apply leb_trans].
  apply Sorted_StronglySorted in S2; [|intros a b c; apply leb_trans].
  revert l2 S2 Hp. induction S1 as [|x r1 S1 IH Hx]; intros l2 S2 Hp.
  - apply Permutation_nil in Hp. congruence.
  - destruct S2 as [|y r2 S2 Hy]; [apply Permutation_sym, Permutation_nil in Hp; discriminate|].
    inversion HP as [|? ? Px Pr]; subst.
    assert (Exy : x = y).
    { destruct (Permutation_in x Hp (or_introl eq_refl)) as [->|Hin]; [reflexivity|].
      destruct (Permutation_in y (Permutation_sym Hp) (or_introl eq_refl)) as [<-|Hin']; [reflexivity|].
      apply Hanti; [exact Px| |rewrite Forall_forall in Hx; apply Hx; exact Hin'
                             |rewrite Forall_forall in Hy; apply Hy; exact Hin].
      apply (Forall_forall P r1) with (x := y); [exact Pr|exact Hin']. }
    subst y. f_equal. apply IH; [exact Pr|exact S2|].
    apply Permutation_cons_inv with (a := x). exact Hp.
Qed.

End Sort.

(** ** The order of paths *)

Lemma ascii_compare_trans_lt a b c :
  Ascii.compare a b = Lt -> Ascii.compare b c = Lt -> Ascii.compare a c = Lt.
Proof. unfold Ascii.compare. rewrite !N.compare_lt_iff. lia. Qed.

Lemma ascii_compare_eq a b : Ascii.compare a b = Eq -> a = b.
Proof. apply Ascii.compare_eq_iff. Qed.

Lemma ascii_compare_refl a : Ascii.compare a a = Eq.
Proof. apply N.compare_refl. Qed.

Lemma string_compare_refl a : String.compare a a = Eq.
Proof. induction a as [|x a IH]; simpl; [reflexivity|]. rewrite ascii_compare_refl. exact IH. Qed.

Lemma string_compare_lt_trans a b c :
  String.compare a b = Lt -> String.compare b c = Lt -> String.compare a c = Lt.
Proof.
  revert b c. induction a as [|x a IH]; intros [|y b] [|z c]; simpl; try congruence.
  destruct (Ascii.compare x y) eqn:Exy; try congruence;
  destruct (Ascii.compare y z) eqn:Eyz; try congruence.
  - apply ascii_compare_eq in Exy, Eyz. subst. rewrite ascii_compare_refl. apply IH.
  - apply ascii_compare_eq in Exy. subst. rewrite Eyz. reflexivity.
  - apply ascii_compare_eq in Eyz. subst. rewrite Exy. reflexivity.
  - rewrite (ascii_compare_trans_lt _ _ _ Exy Eyz). reflexivity.
Qed.

Lemma list_compare_eq a b : list_compare a b = Eq -> a = b.
Proof.
  revert b. induction a as [|x a IH]; intros [|y b]; simpl; try congruence.
  destruct (String.compare x y) eqn:E; try congruence.
  apply String.compare_eq_iff in E. subst. intros H. f_equal. apply IH, H.
Qed.

Lemma list_compare_refl a : list_compare a a = Eq.
Proof.
  induction a as [|x a IH]; simpl; [reflexivity|].
  rewrite string_compare_refl. exact IH.
Qed.

Lemma list_compare_antisym a b : list_compare a b = CompOpp (list_compare b a).
Proof.
  revert b. induction a as [|x a IH]; intros [|y b]; simpl; try reflexivity.
  rewrite String.compare_antisym. destruct (String.compare y x); simpl; auto.
Qed.

Lemma list_compare_lt_trans a b c :
  list_compare a b = Lt -> list_compare b c = Lt -> list_compare a c = Lt.
Proof.
  revert b c. induction a as [|x a IH]; intros [|y b] [|z c]; simpl; try congruence.
  destruct (String.compare x y) eqn:Exy; try congruence;
  destruct (String.compare y z) eqn:Eyz; try congruence.
  - apply String.compare_eq_iff in Exy, Eyz. subst.
    rewrite string_compare_refl. apply IH.
  - apply String.compare_eq_iff in Exy. subst. rewrite Eyz. reflexivity.
  - apply String.compare_eq_iff in Eyz. subst. rewrite Exy. reflexivity.
  - rewrite (string_compare_lt_trans _ _ _ Exy Eyz). reflexivity.
Qed.

Lemma path_leb_total p q : path_leb p q = false -> path_leb q p = true.
Proof.
  unfold path_leb. rewrite (list_compare_antisym (path_key q)).
  destruct (list_compare (path_key p) (path_key q)); simpl; congruence.
Qed.

Lemma path_leb_trans p q r : path_leb p q = true -> path_leb q r = true -> path_leb p r = true.
Proof.
  unfold path_leb.
  destruct (list_compare (path_key p) (path_key q)) eqn:E1; try discriminate;
  destruct (list_compare (path_key q) (path_key r)) eqn:E2; try discriminate; intros _ _.
  - apply list_compare_eq in E1, E2. rewrite E1, E2, list_compare_refl. reflexivity.
  - apply list_compare_eq in E1. rewrite E1, E2. reflexivity.
  - apply list_compare_eq in E2. rewrite <- E2, E1. reflexivity.
  - rewrite (list_compare_lt_trans _ _ _ E1 E2). reflexivity.
Qed.

Lemma path_leb_key p q : path_leb p q = true -> path_leb q p = true -> path_key p = path_key q.
Proof.
  unfold path_leb. rewrite (list_compare_antisym (path_key q)).
  destruct (list_compare (path_key p) (path_key q)) eqn:E; simpl; try congruence.
  intros. apply list_compare_eq, E.
Qed.

(** ** Well-formed names and paths *)

(** What [os.scandir] can return: a nonempty name without a slash, other
    than ["."] and [".."]. *)
Definition name_ok (x : string) : bool :=
  negb (String.eqb x "") && negb (String.eqb x ".") && negb (String.eqb x "..") && negb (in_str SEP x).

Fixpoint wf_fs (n : fs_node) : bool :=
  match n with
  | File _ => true
  | Dir es =>
      (fix entries (es : list (string * fs_node)) : bool :=
         match es with
         | [] => true
         | (x, c) :: r => name_ok x && wf_fs c && entries r
         end) es
  end.

(** What [to_path] builds: a root and parts that are nonempty and hold no
    slash. *)
Definition wf_path (p : py_path) : Prop :=
  (p_root p = "" \/ p_root p = "/" \/ p_root p = "//") /\
  Forall (fun c => c <> "" /\ in_str SEP c = false) (p_parts p).

Lemma to_path_wf s : wf_path (to_path s).
Proof.
  split.
  - unfold to_path, path_root; simpl.
    destruct (Nat.eqb _ 0); [auto|]. destruct (Nat.eqb _ 2); auto.
  - apply Forall_forall. intros c Hc. simpl in Hc. apply filter_In in Hc as [Hc Hk].
    split; [intros ->; discriminate|]. exact (split_char_fields _ _ _ Hc).
Qed.

Lemma path_key_inj p q : wf_path p -> wf_path q -> path_key p = path_key q -> p = q.
Proof.
  destruct p as [r1 ps1], q as [r2 ps2]. unfold wf_path, path_key; simpl.
  intros [R1 F1] [R2 F2].
  destruct R1 as [R1 | [R1 | R1]]; destruct R2 as [R2 | [R2 | R2]]; subst r1 r2; simpl;
    intros E; subst; try reflexivity; try discriminate E;
    try (injection E as E; subst; reflexivity);
    match goal with
    | F : Forall _ (?r :: _) |- _ => inversion F as [|? ? [_ Hs] _]; vm_compute in Hs; discriminate Hs
    end.
Qed.

Lemma path_leb_antisym p q :
  wf_path p -> wf_path q -> path_leb p q = true -> path_leb q p = true -> p = q.
Proof. intros Hp Hq H1 H2. apply path_key_inj; [exact Hp|exact Hq|]. apply path_leb_key; assumption. Qed.

(** ** Splitting joined paths *)

Lemma str_rev_app_acc s acc : str_rev_app s acc = str_rev s ^ acc.
Proof.
  unfold str_rev. revert acc. induction s as [|c r IH]; intros acc; [reflexivity|].
  simpl. rewrite (IH (String c acc)), (IH (String c "")), append_assoc. reflexivity.
Qed.

Lemma str_rev_append a b : str_rev (a ^ b) = str_rev b ^ str_rev a.
Proof. unfold str_rev at 1. rewrite str_rev_app_app, str_rev_app_acc. reflexivity. Qed.

Lemma str_rev_involutive s : str_rev (str_rev s) = s.
Proof.
  induction s as [|c r IH]; [reflexivity|].
  change (String c r) with (String c "" ^ r). rewrite !str_rev_append, IH. reflexivity.
Qed.

Lemma endswith_char s c : endswith s (String c "") = true -> exists u, s = u ^ String c "".
Proof.
  unfold endswith. simpl. destruct (str_rev s) as [|d r] eqn:E; [discriminate|].
  cbn. destruct (Ascii.ascii_dec c d) as [<-|]; [|discriminate]. intros _.
  exists (str_rev r). rewrite <- (str_rev_involutive s), E.
  change (String c r) with (String c "" ^ r). rewrite str_rev_append. reflexivity.
Qed.

Lemma split_char_app_last sep u x :
  in_str sep x = false -> exists h l, split_char sep (u ^ String sep x) = h :: l ++ [x].
Proof.
  intros Hx. induction u as [|c r IH].
  - exists "", []. simpl. rewrite Ascii.eqb_refl, split_char_nosep by exact Hx. reflexivity.
  - destruct IH as (h & l & IH). simpl. rewrite IH. destruct (Ascii.eqb c sep).
    + exists "", (h :: l). reflexivity.
    + exists (String c h), l. reflexivity.
Qed.

Lemma startswith_slash x : startswith x "/" = true -> in_str SEP x = true.
Proof.
  destruct x as [|c r]; [discriminate|]. unfold startswith. rewrite String.prefix_correct.
  simpl. intros E. injection E as ->. reflexivity.
Qed.

Lemma name_ok_parts x :
  name_ok x = true -> negb (String.eqb x "" || String.eqb x ".") = true /\ in_str SEP x = false.
Proof.
  unfold name_ok. intros H. repeat rewrite andb_true_iff in H. destruct H as [[[H1 H2] _] H4].
  rewrite negb_true_iff in H4. split; [|exact H4]. rewrite negb_true_iff, orb_false_iff.
  rewrite negb_true_iff in H1, H2. auto.
Qed.

(** [Path(os.path.join(d, x)).name] is the name [x] of a directory entry. *)
Lemma path_name_join d x : name_ok x = true -> path_name (to_path (os_join d x)) = x.
Proof.
  intros Hok. destruct (name_ok_parts x Hok) as [Hkeep Hsep].
  assert (Last : forall u, path_name (to_path (u ^ String SEP x)) = x).
  { intros u. destruct (split_char_app_last SEP u x Hsep) as (h & l & E).
    unfold path_name, to_path; simpl. rewrite E.
    change (h :: l ++ [x])%list with ((h :: l) ++ [x])%list.
    rewrite filter_app. simpl. rewrite Hkeep, rev_app_distr. reflexivity. }
  unfold os_join.
  destruct (startswith x "/") eqn:Es; [apply startswith_slash in Es; congruence|].
  destruct (String.eqb d "") eqn:Ed; simpl.
  - apply String.eqb_eq in Ed. subst d. simpl.
    unfold path_name, to_path; simpl. rewrite split_char_nosep by exact Hsep. simpl.
    rewrite Hkeep. reflexivity.
  - destruct (endswith d "/") eqn:Ee.
    + destruct (endswith_char d SEP Ee) as [u ->]. rewrite append_assoc. apply Last.
    + apply Last.
Qed.

(** ** What [glob] returns *)

Lemma in_str_drop c n s : in_str c (str_drop n s) = true -> in_str c s = true.
Proof.
  revert s. induction n as [|n IH]; intros [|d r]; simpl; auto.
  intros H. rewrite (IH r H). apply orb_true_r.
Qed.

Lemma has_magic_drop n s : has_magic (str_drop n s) = true -> has_magic s = true.
Proof.
  unfold has_magic. rewrite !orb_true_iff. intros [[H|H]|H];
    [left; left|left; right|right]; eapply in_str_drop; exact H.
Qed.

Lemma os_split_base p : snd (os_split p) = str_drop (rfind_end SEP p) p.
Proof. unfold os_split. destruct (_ && _); reflexivity. Qed.

Lemma wf_lookup es x n : wf_fs (Dir es) = true -> lookup_entry es x = Some n -> wf_fs n = true.
Proof.
  induction es as [|[y c] r IH]; simpl; [discriminate|].
  rewrite !andb_true_iff. intros [[_ Hc] Hr].
  destruct (String.eqb x y); [congruence|]. apply IH. exact Hr.
Qed.

Lemma wf_walk up cur cs n :
  Forall (fun m => wf_fs m = true) up -> wf_fs cur = true -> walk up cur cs = Some n -> wf_fs n = true.
Proof.
  revert up cur. induction cs as [|c cs IH]; intros up cur Hup Hcur; simpl; [congruence|].
  destruct cur as [t|es]; [discriminate|].
  destruct (String.eqb c "" || String.eqb c "."); [apply IH; assumption|].
  destruct (String.eqb c ".."); [destruct up as [|p up']; inversion Hup; subst; apply IH; auto|].
  destruct (lookup_entry es c) eqn:E; [|discriminate].
  apply IH; [constructor; assumption|eapply wf_lookup; eassumption].
Qed.

Lemma wf_resolve fs p n : wf_fs fs = true -> resolve fs p = Some n -> wf_fs n = true.
Proof.
  unfold resolve. destruct (String.eqb p ""); [discriminate|].
  intros Hfs. apply wf_walk; [constructor|exact Hfs].
Qed.

Lemma wf_entry_names es x :
  wf_fs (Dir es) = true -> In x (map fst es) -> name_ok x = true.
Proof.
  induction es as [|[y c] r IH]; simpl; [contradiction|].
  rewrite !andb_true_iff. intros [[Hy _] Hr] [<-|Hin]; [exact Hy|]. apply IH; assumption.
Qed.

Lemma listdir_names fs d dironly x :
  wf_fs fs = true -> In x (listdir fs d dironly) -> name_ok x = true.
Proof.
  unfold listdir. intros Hfs.
  destruct (resolve fs _) as [[t|es]|] eqn:E; try contradiction.
  intros Hin. apply (wf_entry_names es); [eapply wf_resolve; eassumption|].
  apply in_map_iff in Hin as ([y c] & <- & Hin). apply filter_In in Hin as [Hin _].
  apply in_map_iff. exists (y, c). auto.
Qed.

Lemma glob1_spec fs d b dironly x :
  In x (glob1 fs d b dironly) ->
  In x (listdir fs d dironly) /\ fnmatch x b = true /\ (is_hidden b = false -> is_hidden x = false).
Proof.
  unfold glob1. intros H. apply filter_In in H as [H Hm].
  destruct (is_hidden b) eqn:Hb.
  - split; [exact H|split; [exact Hm|discriminate]].
  - apply filter_In in H as [H Hh]. apply negb_true_iff in Hh. auto.
Qed.

(** A result of [_iglob] whose last component has wildcards and is not
    [**] is a name the directory listing gave and [fnmatch] accepted,
    joined to its directory. *)
Lemma iglob_magic_base n fs pat dironly p d b :
  os_split pat = (d, b) -> has_magic b = true -> is_recursive b = false ->
  In p (iglob (S n) fs pat dironly) ->
  exists dir x, p = os_join dir x /\ In x (glob1 fs dir b dironly).
Proof.
  intros Es Hb Hr. simpl. rewrite Es.
  assert (Hp : has_magic pat = true).
  { apply (has_magic_drop (rfind_end SEP pat)). rewrite <- os_split_base, Es. exact Hb. }
  rewrite Hp. simpl. rewrite Hr.
  destruct (String.eqb d ""); intros Hin.
  - exists "", p. split; [|exact Hin].
    unfold os_join. destruct (startswith p "/"); reflexivity.
  - apply in_flat_map in Hin as (dir & _ & Hin). apply in_map_iff in Hin as (x & <- & Hx).
    unfold glob_in_dir in Hx. rewrite Hb, Hr in Hx. exists dir, x. auto.
Qed.

Lemma glob_sub_iglob fs pat p :
  In p (glob fs pat) -> In p (iglob (S (String.length pat)) fs pat false).
Proof.
  unfold glob. destruct (_ || _); [|auto].
  destruct (iglob _ fs pat false) as [|s rest]; [auto|].
  destruct (String.eqb s ""); [right; assumption|auto].
Qed.

(** ** The fuel of [iglob] *)

Lemma rstrip_by_prefix f s : exists w, s = rstrip_by f s ^ w.
Proof.
  induction s as [|c r [w IH]]; [exists ""; reflexivity|].
  simpl. destruct (rstrip_by f r) as [|x y] eqn:E.
  - destruct (f c); [exists (String c r); reflexivity|exists r; reflexivity].
  - exists w. simpl. f_equal. exact IH.
Qed.

Lemma os_split_prefix p : exists u, p = fst (os_split p) ^ u.
Proof.
  unfold os_split. set (i := rfind_end SEP p).
  destruct (_ && _); simpl.
  - destruct (rstrip_by_prefix (Ascii.eqb SEP) (str_take i p)) as [w E].
    exists (w ^ str_drop i p). rewrite <- append_assoc, <- E. symmetry. apply str_take_drop.
  - exists (str_drop i p). symmetry. apply str_take_drop.
Qed.

Lemma os_split_shorter p :
  fst (os_split p) <> p -> String.length (fst (os_split p)) < String.length p.
Proof.
  destruct (os_split_prefix p) as [u E]. intros Hne.
  assert (L : String.length p = String.length (fst (os_split p)) + String.length u)
    by (rewrite E at 1; apply length_append).
  destruct u as [|c u]; [rewrite append_empty_r in E; congruence|]. simpl in L. lia.
Qed.

Lemma iglob_fuel n m fs p dironly :
  String.length p < n -> String.length p < m -> iglob n fs p dironly = iglob m fs p dironly.
Proof.
  revert m p dironly. induction n as [|f IH]; intros [|g] p dironly Hn Hm; try lia.
  simpl. destruct (os_split p) as [d b] eqn:Es.
  destruct (negb (has_magic p)); [reflexivity|]. destruct (String.eqb d ""); [reflexivity|].
  destruct (String.eqb d p) eqn:Edp; [reflexivity|]. simpl.
  destruct (has_magic d); [|reflexivity].
  assert (Hd : String.length d < String.length p).
  { change d with (fst (d, b)). rewrite <- Es. apply os_split_shorter.
    rewrite Es. simpl. intros ->. rewrite String.eqb_refl in Edp. discriminate. }
  rewrite (IH g d true) by lia. reflexivity.
Qed.

(** ** The files [main] publishes *)

(** The files [main] publishes come in the order of [sorted]: each
    path is at most the next in the order of [Path], and they are exactly
    the regular files among the results of [glob], each as many times as
    [glob] returned it. *)
Theorem discover_sorted_perm fs pattern :
  Sorted (fun p q => path_leb p q = true) (discover fs pattern) /\
  Permutation (filter (is_file fs) (map to_path (glob fs pattern))) (discover fs pattern).
Proof.
  split; [apply sort_by_sorted, path_leb_total|apply sort_by_perm].
Qed.

(** Every file [discover] returns can be read: the [""] fallback of
    [source_of] in [Driver] is never taken. *)
Lemma discover_read_text fs pattern p :
  In p (discover fs pattern) -> exists t, read_text fs p = Some t.
Proof.
  intros Hin. apply (Permutation_in p (Permutation_sym (sort_by_perm path_leb _))) in Hin.
  apply filter_In in Hin as [_ Hf]. unfold is_file in Hf. unfold read_text.
  destruct (resolve fs (path_str p)) as [[t|es]|]; [eauto|discriminate|discriminate].
Qed.

(** C25: The order does not depend on the sort: any ordering of the
    matched files that is sorted by [Path] is the list [discover] returns.
    So the insertion sort gives what Python's [sorted] gives, and the
    order of the directory listing does not matter. *)
Theorem discover_canonical fs pattern l :
  Sorted (fun p q => path_leb p q = true) l ->
  Permutation (filter (is_file fs) (map to_path (glob fs pattern))) l ->
  l = discover fs pattern.
Proof.
  intros Hs Hp. apply (sorted_unique path_leb path_leb_trans wf_path).
  - exact path_leb_antisym.
  - apply Forall_forall. intros x Hx. apply (Permutation_in x (Permutation_sym Hp)) in Hx.
    apply filter_In in Hx as [Hx _]. apply in_map_iff in Hx as (s & <- & _). apply to_path_wf.
  - exact Hs.
  - apply sort_by_sorted, path_leb_total.
  - etransitivity; [apply Permutation_sym, Hp|apply sort_by_perm].
Qed.

(** C24: Each file [main] publishes is a regular file whose name matches
    the last component of the pattern, when that component has wildcards
    and is not [**]; a hidden name only when the component starts with a
    dot.  With [docs/**/*.md], only [.md] files that are not hidden. *)
Theorem discover_names fs pattern d b p :
  wf_fs fs = true -> os_split pattern = (d, b) -> has_magic b = true -> is_recursive b = false ->
  In p (discover fs pattern) ->
  is_file fs p = true /\ fnmatch (path_name p) b = true /\
  (is_hidden b = false -> is_hidden (path_name p) = false).
Proof.
  intros Hfs Es Hb Hr Hin.
  apply (Permutation_in p (Permutation_sym (sort_by_perm path_leb _))) in Hin.
  apply filter_In in Hin as [Hin Hfile]. apply in_map_iff in Hin as (s & <- & Hs).
  apply glob_sub_iglob in Hs.
  destruct (iglob_magic_base _ _ _ _ _ _ _ Es Hb Hr Hs) as (dir & x & -> & Hx).
  destruct (glob1_spec _ _ _ _ _ Hx) as (Hl & Hm & Hh).
  rewrite path_name_join by (eapply listdir_names; eassumption). auto.
Qed.

(** The recursion of [_iglob] on the directory part of the pattern
    ends: with more fuel than the length of the pattern, the result is
    the one [glob] computes. *)
Theorem iglob_fuel_enough n fs p dironly :
  String.length p < n -> iglob n fs p dironly = iglob (S (String.length p)) fs p dironly.
Proof. intros H. apply iglob_fuel; lia. Qed.

(** The model gives what CPython gave on the sample tree, for every
    pattern of the table: the raw results of [glob] in their order, and
    the sorted regular files. *)
Example glob_matches_cpython :
  forallb (fun '(pat, g, s) => strs_eqb (glob sample_fs pat) g &&
                               strs_eqb (map path_str (discover sample_fs pat)) s)
          cpython_glob_table = true.
Proof. vm_compute. reflexivity. Qed.

(** [**] twice finds a file once per way of splitting its directories:
    [main] publishes [docs/a/y.md] twice and [docs/b/c/w.md] three times. *)
Example glob_duplicate_paths :
  map path_str (discover sample_fs "docs/**/**/*.md") =
  ["docs/a/y.md"; "docs/a/y.md"; "docs/a-b.md"; "docs/b/c/w.md"; "docs/b/c/w.md";
   "docs/b/c/w.md"; "docs/x.md"].
Proof. vm_compute. reflexivity. Qed.

(** Paths sort by their parts: [docs/a/y.md] comes before [docs/a-b.md],
    which a sort of the text would put first ("-" is below "/"). *)
Example path_order_by_parts :
  path_leb (to_path "docs/a/y.md") (to_path "docs/a-b.md") = true /\
  String.compare "docs/a-b.md" "docs/a/y.md" = Lt.
Proof. split; reflexivity. Qed.

Lemma discover_canonical_witness :
  let l := map to_path ["docs/a/y.md"; "docs/a-b.md"; "docs/b/c/w.md"; "docs/x.md"] in
  Sorted (fun p q => path_leb p q = true) l /\
  Permutation (filter (is_file sample_fs) (map to_path (glob sample_fs "docs/**/*.md"))) l /\
  l = discover sample_fs "docs/**/*.md".
Proof.
  intros l.
  assert (S : Sorted (fun p q => path_leb p q = true) l) by (repeat constructor).
  assert (P : Permutation (filter (is_file sample_fs) (map to_path (glob sample_fs "docs/**/*.md"))) l).
  { assert (E : discover sample_fs "docs/**/*.md" = l) by (vm_compute; reflexivity).
    rewrite <- E. apply sort_by_perm. }
  split; [exact S|split; [exact P|exact (discover_canonical sample_fs "docs/**/*.md" l S P)]].
Defined.

Lemma discover_names_witness :
  wf_fs sample_fs = true /\ os_split "docs/**/*.md" = ("docs/**", "*.md") /\
  has_magic "*.md" = true /\ is_recursive "*.md" = false /\
  In (to_path "docs/x.md") (discover sample_fs "docs/**/*.md") /\
  fnmatch (path_name (to_path "docs/x.md")) "*.md" = true.
Proof.
  assert (W : wf_fs sample_fs = true) by (vm_compute; reflexivity).
  assert (S : os_split "docs/**/*.md" = ("docs/**", "*.md")) by (vm_compute; reflexivity).
  assert (I : In (to_path "docs/x.md") (discover sample_fs "docs/**/*.md")).
  { vm_compute. right; right; right; left; reflexivity. }
  split; [exact W|split; [exact S|split; [reflexivity|split; [reflexivity|split; [exact I|]]]]].
  exact (proj1 (proj2 (discover_names sample_fs "docs/**/*.md" _ _ _ W S eq_refl eq_refl I))).
Defined.

Lemma iglob_fuel_enough_witness :
  String.length "docs/**/*.md" < 40 /\
  iglob 40 sample_fs "docs/**/*.md" false = iglob 13 sample_fs "docs/**/*.md" false.
Proof.
  split; [simpl; lia|]. exact (iglob_fuel_enough 40 sample_fs "docs/**/*.md" false ltac:(simpl; lia)).
Defined.
