(* ===== verification/Regex.v ===== *)
(** * Leftmost-match scanning: [re.search], [re.sub], [re.finditer]

    The converter uses four patterns: [`([^`]+)`] with [re.finditer], and
    [\*\*(.+?)\*\*] and [\*(.+?)\*] with [re.sub].  It also calls
    [str.replace("]]>", ...)].  None of these patterns matches the empty
    string.  For such a pattern, Python's scan is the following.  Search
    for the leftmost position where the pattern matches.  Emit the text
    before it and the rewritten match.  Resume at the end of the match.

    A pattern is a matcher [m : string -> option (group * rest)] that tries
    the pattern at the start of its argument.  [search] finds the leftmost
    match.  [re_scan_n] iterates with fuel, and [re_scan] gives it the fuel
    [length s + 1], which [re_scan_fuel] shows to be enough. *)

From Stdlib Require Import String Ascii List Bool Arith Lia.
From S2P Require Import Prelude PyStr.
Import ListNotations.
Local Open Scope string_scope.
Local Open Scope py_scope.

Section Scan.
Variable m : string -> option (string * string).

(** Leftmost match: [(text before, group 1, text after)]. *)
Fixpoint search (s : string) : option (string * string * string) :=
  match m s with
  | Some (g, a) => Some ("", g, a)
  | None =>
      match s with
      | "" => None
      | String c r =>
          match search r with
          | Some (b, g, a) => Some (String c b, g, a)
          | None => None
          end
      end
  end.

(** The scan: [plain] rewrites the text between matches and [f] rewrites
    each match's group.  [re.sub(p, f, s)] is [plain = id]; the loop of
    [render_inline] over [re.finditer] is [plain = render_plain_inline]. *)
Variables plain f : string -> string.

Fixpoint re_scan_n (fuel : nat) (s : string) : string :=
  match fuel with
  | 0 => plain s
  | S n =>
      match search s with
      | None => plain s
      | Some (b, g, a) => plain b ^ f g ^ re_scan_n n a
      end
  end.

Definition re_scan (s : string) : string := re_scan_n (S (String.length s)) s.

(** A match consumes at least one character. *)
Hypothesis m_progress :
  forall s g a, m s = Some (g, a) -> String.length a < String.length s.

Lemma search_progress s b g a :
  search s = Some (b, g, a) -> String.length a < String.length s.
Proof.
  revert b; induction s as [|c r IH]; intros b; simpl;
    destruct (m _) as [[g' a']|] eqn:Hm; try congruence;
    try (intros [= <- <- <-]; apply m_progress in Hm; exact Hm).
  destruct (search r) as [[[b' g'] a']|]; [|congruence].
    intros [= <- <- <-]. specialize (IH b' eq_refl). lia.
Qed.

(** Termination: any fuel above the length of the input gives the same
    result, so [re_scan] is the scan run to completion. *)
Theorem re_scan_fuel n s :
  String.length s < n -> re_scan_n n s = re_scan s.
Proof.
  unfold re_scan.
  assert (H : forall n1 n2 s, String.length s < n1 -> String.length s < n2 ->
              re_scan_n n1 s = re_scan_n n2 s).
  { induction n1 as [|n1 IH]; intros [|n2] t H1 H2; try lia; simpl.
    destruct (search t) as [[[b g] a]|] eqn:Hs; [|reflexivity].
    apply search_progress in Hs. rewrite (IH n2); auto; lia. }
  intros Hn. apply H; lia.
Qed.

(** A search that finds nothing leaves the text to [plain]. *)
Lemma re_scan_no_match s : search s = None -> re_scan s = plain s.
Proof. intros H. unfold re_scan. simpl. now rewrite H. Qed.

(** One unfolding of the scan. *)
Lemma re_scan_step s b g a :
  search s = Some (b, g, a) -> re_scan s = plain b ^ f g ^ re_scan a.
Proof.
  intros H. unfold re_scan at 1. simpl. rewrite H.
  rewrite re_scan_fuel; [reflexivity|].
  apply search_progress in H. lia.
Qed.

(** [search] finds nothing when the matcher fails at every suffix. *)
Lemma search_none s :
  (forall t, suffix_of t s -> m t = None) -> search s = None.
Proof.
  induction s as [|c r IH]; intros H; simpl.
  - now rewrite (H "" (suffix_refl "")).
  - rewrite (H _ (suffix_refl _)).
    rewrite IH; [reflexivity|].
    intros t Ht. apply H. now apply suffix_cons.
Qed.
End Scan.

(** ** The matchers of the converter *)

(** A literal pattern, as in [str.replace(pat, new)]. *)
Definition m_lit (pat : string) (s : string) : option (string * string) :=
  if String.prefix pat s then Some (pat, str_drop (String.length pat) s) else None.

(** [(.+?)D]: the shortest text up to the next [D], with no [\n] in it.
    The group may be empty here; [m_delimited] adds the first character. *)
Fixpoint lazy_until (d t : string) {struct t} : option (string * string) :=
  if String.prefix d t then Some ("", str_drop (String.length d) t)
  else match t with
       | "" => None
       | String c r =>
           if Ascii.eqb c LF then None
           else match lazy_until d r with
                | Some (g, a) => Some (String c g, a)
                | None => None
                end
       end.

(** [D(.+?)D] for a delimiter [D]: [\*\*(.+?)\*\*] and [\*(.+?)\*]. *)
Definition m_delimited (d s : string) : option (string * string) :=
  if String.prefix d s then
    match str_drop (String.length d) s with
    | String c r =>
        if Ascii.eqb c LF then None
        else match lazy_until d r with
             | Some (g, a) => Some (String c g, a)
             | None => None
             end
    | "" => None
    end
  else None.

Definition BT : ascii := "`"%char.

(** [`([^`]+)`]: a backtick, a non-empty run without backticks, a backtick. *)
Definition m_code (s : string) : option (string * string) :=
  match s with
  | String c r =>
      if Ascii.eqb c BT then
        match partition_char BT r with
        | Some ("", _) | None => None
        | Some (g, a) => Some (g, a)
        end
      else None
  | "" => None
  end.

(** ** The matchers consume input *)

Lemma lazy_until_progress d t g a :
  lazy_until d t = Some (g, a) -> String.length a <= String.length t.
Proof.
  revert g; induction t as [|c r IH]; intros g; cbn [lazy_until];
    match goal with |- context [if String.prefix d ?t then _ else _] => destruct (String.prefix d t) end;
    try (intros [= <- <-]; rewrite length_str_drop; lia); try congruence.
  destruct (Ascii.eqb c LF); [congruence|].
  destruct (lazy_until d r) as [[g' a']|] eqn:E; [|congruence].
  intros [= <- <-]. specialize (IH g' eq_refl). cbn [String.length]. lia.
Qed.

Lemma prefix_length p s : String.prefix p s = true -> String.length p <= String.length s.
Proof.
  revert s; induction p as [|c p IH]; intros [|d s]; simpl; try lia; try congruence.
  destruct (ascii_dec c d); [|congruence]. intros H. specialize (IH s H). lia.
Qed.

Lemma m_lit_progress pat : pat <> "" ->
  forall s g a, m_lit pat s = Some (g, a) -> String.length a < String.length s.
Proof.
  intros Hp s g a. unfold m_lit. destruct (String.prefix pat s) eqn:E; [|congruence].
  intros [= <- <-]. apply prefix_length in E. rewrite length_str_drop.
  destruct pat; [congruence|]. simpl in *. lia.
Qed.

Lemma m_delimited_progress d :
  forall s g a, m_delimited d s = Some (g, a) -> String.length a < String.length s.
Proof.
  intros s g a. unfold m_delimited. destruct (String.prefix d s) eqn:E; [|congruence].
  pose proof (length_str_drop (String.length d) s) as Hl.
  destruct (str_drop (String.length d) s) as [|c r]; [congruence|].
  destruct (Ascii.eqb c LF); [congruence|].
  destruct (lazy_until d r) as [[g' a']|] eqn:Hu; [|congruence].
  intros [= <- <-]. apply lazy_until_progress in Hu. simpl in Hl. lia.
Qed.

Lemma partition_char_length sep s a b :
  partition_char sep s = Some (a, b) -> String.length b < String.length s.
Proof.
  revert a; induction s as [|c r IH]; intros a; simpl; [congruence|].
  destruct (Ascii.eqb c sep); [intros [= <- <-]; lia|].
  destruct (partition_char sep r) as [[a' b']|] eqn:E; [|congruence].
  intros [= <- <-]. specialize (IH a' eq_refl). lia.
Qed.

Lemma m_code_progress :
  forall s g a, m_code s = Some (g, a) -> String.length a < String.length s.
Proof.
  intros [|c r] g a; simpl; [congruence|].
  destruct (Ascii.eqb c BT); [|congruence].
  destruct (partition_char BT r) as [[[|x g'] a']|] eqn:E; try congruence.
  intros [= <- <-]. apply partition_char_length in E. lia.
Qed.

#[export] Hint Resolve m_delimited_progress m_code_progress : pub.

(** ** [re.sub]: the scan with [plain = id] *)

Section Sub.
Variables (m : string -> option (string * string)) (f : string -> string).
Hypothesis m_progress :
  forall s g a, m s = Some (g, a) -> String.length a < String.length s.

Definition re_sub (s : string) : string := re_scan m id f s.

(** A match at the start is rewritten, and the scan resumes after it. *)
Lemma re_sub_match s g a : m s = Some (g, a) -> re_sub s = f g ^ re_sub a.
Proof.
  intros H. unfold re_sub. rewrite (re_scan_step m id f m_progress s "" g a); [reflexivity|].
  destruct s; simpl; now rewrite H.
Qed.

(** No match at the start: the first character is copied. *)
Lemma re_sub_skip c r : m (String c r) = None -> re_sub (String c r) = String c (re_sub r).
Proof.
  intros H. unfold re_sub.
  destruct (search m r) as [[[b g] a]|] eqn:Hs.
  - rewrite (re_scan_step m id f m_progress (String c r) (String c b) g a)
      by (simpl; now rewrite H, Hs).
    now rewrite (re_scan_step m id f m_progress r b g a Hs).
  - rewrite (re_scan_no_match m id f (String c r)) by (simpl; now rewrite H, Hs).
    now rewrite (re_scan_no_match m id f r Hs).
Qed.

Lemma re_sub_empty : m "" = None -> re_sub "" = "".
Proof. intros H. unfold re_sub. apply re_scan_no_match. simpl. now rewrite H. Qed.
End Sub.

(** [str.replace(old, new)]: the scan of the literal pattern [old]. *)
Definition py_replace (old new s : string) : string :=
  re_sub (m_lit old) (fun _ => new) s.

(** Replacing one character is a character-wise rewriting. *)
Lemma py_replace_char c new s :
  py_replace (String c "") new s =
  flat_map_str (fun d => if Ascii.eqb d c then new else String d "") s.
Proof.
  unfold py_replace.
  assert (Hp := m_lit_progress (String c "") ltac:(discriminate)).
  induction s as [|d r IH].
  - apply re_sub_empty; reflexivity.
  - destruct (Ascii.eqb d c) eqn:E.
    + apply Ascii.eqb_eq in E; subst d.
      rewrite (re_sub_match _ _ Hp _ (String c "") r); [cbn [flat_map_str]; now rewrite Ascii.eqb_refl, IH|].
      unfold m_lit; simpl. destruct (ascii_dec c c); [|congruence]. now rewrite prefix_empty.
    + rewrite re_sub_skip by (exact Hp || (unfold m_lit; simpl;
        destruct (ascii_dec c d); [subst; now rewrite Ascii.eqb_refl in E|reflexivity])).
      cbn [flat_map_str]. now rewrite E, IH.
Qed.

(** ** Witnesses *)

Lemma re_scan_fuel_witness :
  String.length "a**b**" < 10 /\
  re_scan_n (m_delimited "**") id (fun g => g) 10 "a**b**" =
  re_scan (m_delimited "**") id (fun g => g) "a**b**".
Proof.
  split; [simpl; lia|].
  apply re_scan_fuel; [apply m_delimited_progress|simpl; lia].
Defined.
