(* ===== verification/Inline.v ===== *)
(** * Inline rendering of the converter

    The nested helpers of [simple_markdown_to_html] that render text inside
    a line ([src/skills/confluence-publisher/scripts/confluence_publish.py],
    lines 274-299):

    - [html_escape]: Python's [html.escape(s)] with [quote=True], written as
      the five [str.replace] calls CPython performs, in CPython's order;
    - [render_plain_inline]: escape, then the bold and the italic [re.sub];
    - [render_inline]: the [re.finditer] loop over code spans;
    - [emit_code_macro]: the Confluence code macro with the CDATA escape.

    The theorems show three things.  [html_escape] is a character-wise
    rewriting (an equivalence with the reference table [escape_char]).  Its
    output has no markup character.  It has a left inverse, [html_unescape]. *)

From Stdlib Require Import String Ascii List Bool Arith Lia.
From S2P Require Import Prelude PyStr Regex.
Import ListNotations.
Local Open Scope string_scope.
Local Open Scope py_scope.

(** The double quote and the apostrophe, built from their codes. *)
Definition QUOT : ascii := "034"%char.
Definition APOS : ascii := "039"%char.

(** [s] between double quotes, for the attribute values of the markup. *)
Definition qt (s : string) : string := String QUOT (s ^ String QUOT "").

(** ** [html.escape] *)

Definition html_escape (s : string) : string :=
  let s := py_replace "&" "&amp;" s in
  let s := py_replace "<" "&lt;" s in
  let s := py_replace ">" "&gt;" s in
  let s := py_replace (String QUOT "") "&quot;" s in
  py_replace (String APOS "") "&#x27;" s.

(** ** Bold, italic and code spans *)

Definition render_plain_inline (text : string) : string :=
  let escaped := html_escape text in
  let escaped := re_sub (m_delimited "**") (fun g => "<strong>" ^ g ^ "</strong>") escaped in
  re_sub (m_delimited "*") (fun g => "<em>" ^ g ^ "</em>") escaped.

Definition render_code_span (g : string) : string := "<code>" ^ html_escape g ^ "</code>".

Definition render_inline (text : string) : string :=
  re_scan m_code render_plain_inline render_code_span text.

(** ** The code macro *)

Definition cdata_escape (code_text : string) : string :=
  py_replace "]]>" "]]]]><![CDATA[>" code_text.

Definition emit_code_macro (lang code_text : string) : string :=
  let safe_code := cdata_escape code_text in
  let safe_lang := html_escape (if String.eqb lang "" then "none" else lang) in
  "<ac:structured-macro ac:name=" ^ qt "code" ^ ">" ^
  "<ac:parameter ac:name=" ^ qt "language" ^ ">" ^ safe_lang ^ "</ac:parameter>" ^
  "<ac:plain-text-body><![CDATA[" ^ safe_code ^ "]]></ac:plain-text-body>" ^
  "</ac:structured-macro>".

(** ** Reference definitions *)

(** The table of [html.escape]: one entity per markup character. *)
Definition escape_char (c : ascii) : string :=
  if Ascii.eqb c "&" then "&amp;"
  else if Ascii.eqb c "<" then "&lt;"
  else if Ascii.eqb c ">" then "&gt;"
  else if Ascii.eqb c QUOT then "&quot;"
  else if Ascii.eqb c APOS then "&#x27;"
  else String c "".

(** The inverse of the table, read left to right. *)
Fixpoint html_unescape (s : string) : string :=
  match s with
  | String "&"%char (String "a"%char (String "m"%char (String "p"%char (String ";"%char r)))) =>
      String "&"%char (html_unescape r)
  | String "&"%char (String "l"%char (String "t"%char (String ";"%char r))) => String "<"%char (html_unescape r)
  | String "&"%char (String "g"%char (String "t"%char (String ";"%char r))) => String ">"%char (html_unescape r)
  | String "&"%char (String "q"%char (String "u"%char (String "o"%char (String "t"%char (String ";"%char r))))) =>
      String QUOT (html_unescape r)
  | String "&"%char (String "#"%char (String "x"%char (String "2"%char (String "7"%char (String ";"%char r))))) =>
      String APOS (html_unescape r)
  | String c r => String c (html_unescape r)
  | EmptyString => EmptyString
  end.

(** ** [html.escape] is the character table *)

(** The chained replacements of [html_escape] as a character table. *)
Lemma html_escape_table s : html_escape s = flat_map_str escape_char s.
Proof.
  unfold html_escape. rewrite !py_replace_char, !flat_map_str_compose.
  apply flat_map_str_ext. intros d. unfold escape_char.
  destruct (Ascii.eqb_spec d "&") as [->|N1]; [reflexivity|].
  destruct (Ascii.eqb_spec d "<") as [->|N2]; [reflexivity|].
  destruct (Ascii.eqb_spec d ">") as [->|N3]; [reflexivity|].
  destruct (Ascii.eqb_spec d QUOT) as [->|N4]; [reflexivity|].
  destruct (Ascii.eqb_spec d APOS) as [->|N5]; [reflexivity|].
  repeat (cbn [flat_map_str String.append];
          match goal with |- context [Ascii.eqb ?x ?y] =>
            destruct (Ascii.eqb_spec x y); [congruence|] end).
  reflexivity.
Qed.

(** The five chained replacements rewrite each character on its own, as
    [escape_char] says: the entity of [&] introduced first is not
    re-escaped by the later replacements. *)
Theorem html_escape_charwise s : html_escape s = flat_map_str escape_char s.
Proof. apply html_escape_table. Qed.

(** The characters that would open or close markup. *)
Definition markup_chars : list ascii := ["<"; ">"; QUOT; APOS]%char.

Lemma escape_char_safe c d : In c markup_chars -> in_str c (escape_char d) = false.
Proof.
  intros Hc. unfold escape_char.
  destruct (Ascii.eqb_spec d "&"); [destruct Hc as [<-|[<-|[<-|[<-|[]]]]]; reflexivity|].
  destruct (Ascii.eqb_spec d "<"); [destruct Hc as [<-|[<-|[<-|[<-|[]]]]]; reflexivity|].
  destruct (Ascii.eqb_spec d ">"); [destruct Hc as [<-|[<-|[<-|[<-|[]]]]]; reflexivity|].
  destruct (Ascii.eqb_spec d QUOT); [destruct Hc as [<-|[<-|[<-|[<-|[]]]]]; reflexivity|].
  destruct (Ascii.eqb_spec d APOS); [destruct Hc as [<-|[<-|[<-|[<-|[]]]]]; reflexivity|].
  simpl. rewrite orb_false_r. apply Ascii.eqb_neq.
  destruct Hc as [<-|[<-|[<-|[<-|[]]]]]; congruence.
Qed.

(** C32: The output of [html.escape] contains no [<], [>], double quote or
    apostrophe: user text cannot open a tag or end an attribute value. *)
Theorem html_escape_no_markup s c :
  In c markup_chars -> in_str c (html_escape s) = false.
Proof.
  intros Hc. rewrite html_escape_table. apply in_str_flat_map.
  intros d. now apply escape_char_safe.
Qed.

Lemma html_unescape_other d t :
  d <> "&"%char -> html_unescape (String d t) = String d (html_unescape t).
Proof.
  intros H. destruct d as [[] [] [] [] [] [] [] []]; try reflexivity. congruence.
Qed.

Lemma html_unescape_escape_char d t :
  html_unescape (escape_char d ^ t) = String d (html_unescape t).
Proof.
  unfold escape_char.
  destruct (Ascii.eqb_spec d "&") as [->|N1]; [reflexivity|].
  destruct (Ascii.eqb_spec d "<") as [->|N2]; [reflexivity|].
  destruct (Ascii.eqb_spec d ">") as [->|N3]; [reflexivity|].
  destruct (Ascii.eqb_spec d QUOT) as [->|N4]; [reflexivity|].
  destruct (Ascii.eqb_spec d APOS) as [->|N5]; [reflexivity|].
  now apply html_unescape_other.
Qed.

(** Round trip: [html.escape] loses no information. *)
Theorem html_unescape_html_escape s : html_unescape (html_escape s) = s.
Proof.
  rewrite html_escape_table.
  induction s as [|d r IH]; [reflexivity|].
  cbn [flat_map_str]. now rewrite html_unescape_escape_char, IH.
Qed.

(** ** Witnesses *)

Lemma html_escape_no_markup_witness :
  In "<"%char markup_chars /\ in_str "<" (html_escape "<b> & 'q'") = false.
Proof. split; [simpl; auto|]. apply html_escape_no_markup. simpl; auto. Defined.
