(* ===== verification/Table.v ===== *)
(** * Markdown tables

    The table helpers nested in [simple_markdown_to_html]
    ([src/skills/confluence-publisher/scripts/confluence_publish.py], lines
    191-272).  [split_table_row] is the character loop with its
    [escaped]/[buf]/[cells] locals.  [render_markdown_table] pads or
    truncates each body row to the header's width and reads each column's
    alignment from the separator row.  The theorem [split_table_row_join]
    shows that a row written as [|c1|...|cn|] splits back into its cells. *)

From Stdlib Require Import String Ascii List Bool Arith Lia.
From S2P Require Import Prelude PyStr Regex Inline.
Import ListNotations.
Local Open Scope string_scope.
Local Open Scope py_scope.

Definition PIPE : ascii := "|"%char.
Definition BSLASH : ascii := "092"%char.

(** ** Splitting a row *)

(** The [for ch in raw] loop: a backslash escapes the next character, which
    is kept literally; an unescaped [|] ends a cell.  [buf] is
    ["".join(buf)]. *)
Fixpoint row_loop (raw : string) (cells : list string) (buf : string) (escaped : bool)
  : list string :=
  match raw with
  | "" => cells ++ [strip buf]
  | String ch r =>
      if escaped then row_loop r cells (buf ^ String ch "") false
      else if Ascii.eqb ch BSLASH then row_loop r cells buf true
      else if Ascii.eqb ch PIPE then row_loop r (cells ++ [strip buf]) "" false
      else row_loop r cells (buf ^ String ch "") false
  end.

Definition split_table_row (line : string) : list string :=
  let raw := strip line in
  let raw := if startswith raw "|" then str_drop 1 raw else raw in
  let raw := if endswith raw "|" then str_take (String.length raw - 1) raw else raw in
  row_loop raw [] "" false.

(** ** Separator cells and alignment *)

Fixpoint count_leading (c : ascii) (s : string) : nat :=
  match s with
  | String d r => if Ascii.eqb d c then S (count_leading c r) else 0
  | "" => 0
  end.

(** [re.fullmatch(r":?-{3,}:?", cell.strip())]. *)
Definition is_table_separator_cell (cell : string) : bool :=
  let c := strip cell in
  let c1 := match c with
            | String d r => if Ascii.eqb d ":" then r else c
            | "" => c
            end in
  let k := count_leading "-" c1 in
  Nat.leb 3 k &&
  match str_drop k c1 with
  | "" => true
  | String d "" => Ascii.eqb d ":"
  | _ => false
  end.

Inductive alignment := AlignCenter | AlignRight | AlignLeft.

Definition alignment_name (a : alignment) : string :=
  match a with AlignCenter => "center" | AlignRight => "right" | AlignLeft => "left" end.

Definition parse_table_alignment (cell : string) : option alignment :=
  let c := strip cell in
  if startswith c ":" && endswith c ":" then Some AlignCenter
  else if endswith c ":" then Some AlignRight
  else if startswith c ":" then Some AlignLeft
  else None.

(** ** Recognising a table *)

Definition looks_like_table_header (line next_line : string) : bool :=
  let row := strip line in
  let sep := strip next_line in
  if negb (startswith row "|" && startswith sep "|") then false
  else
    let header_cells := split_table_row row in
    let sep_cells := split_table_row sep in
    if Nat.ltb (length header_cells) 2 || negb (Nat.eqb (length sep_cells) (length header_cells))
    then false
    else forallb is_table_separator_cell sep_cells.

Definition looks_like_table_row (line : string) : bool :=
  let row := strip line in
  startswith row "|" && in_str PIPE (str_drop 1 row).

(** ** Rendering *)

Definition render_cell (tag content : string) (align : option alignment) : string :=
  let body := render_inline content in
  match align with
  | Some a =>
      "<" ^ tag ^ " style=" ^ qt ("text-align:" ^ alignment_name a ^ ";") ^ ">" ^
      body ^ "</" ^ tag ^ ">"
  | None => "<" ^ tag ^ ">" ^ body ^ "</" ^ tag ^ ">"
  end.

(** [for idx, cell in enumerate(cells): render_cell(tag, cell, alignments[idx])]. *)
Fixpoint render_cells (tag : string) (cells : list string) (aligns : list (option alignment))
  : string :=
  match cells with
  | [] => ""
  | c :: cs => render_cell tag c (hd None aligns) ^ render_cells tag cs (tl aligns)
  end.

(** One body row: padded with [""] or truncated to [n] cells. *)
Definition table_body_cells (n : nat) (row_line : string) : list string :=
  pad_truncate "" n (split_table_row row_line).

Definition render_body_row (n : nat) (aligns : list (option alignment)) (row_line : string)
  : string :=
  "<tr>" ^ render_cells "td" (table_body_cells n row_line) aligns ^ "</tr>".

Definition render_markdown_table (table_lines : list string) : string :=
  let header_cells := split_table_row (nth 0 table_lines "") in
  let sep_cells := split_table_row (nth 1 table_lines "") in
  let alignments := map parse_table_alignment sep_cells in
  let n := length header_cells in
  "<table><thead><tr>" ^ render_cells "th" header_cells alignments ^
  "</tr></thead><tbody>" ^
  String.concat "" (map (render_body_row n alignments) (skipn 2 table_lines)) ^
  "</tbody></table>".

(** ** Checks against the Python code *)

Example split_table_row_escaped :
  split_table_row (" | a " ^ String BSLASH "| b | c |") = ["a | b"; "c"].
Proof. reflexivity. Qed.

Example separator_cells :
  map is_table_separator_cell [":---"; "---:"; ":-:"; "--"; " :----: "; "---::"]
  = [true; true; false; false; true; false].
Proof. reflexivity. Qed.

Example alignments :
  map parse_table_alignment [":---"; "---:"; ":---:"; "---"]
  = [Some AlignLeft; Some AlignRight; Some AlignCenter; None].
Proof. reflexivity. Qed.

(** ** Round trip of a row *)

Section RowRoundTrip.
Local Open Scope list_scope.

(** A cell the loop reads literally: no [|] and no backslash. *)
Definition plain_cell (c : string) : Prop := in_str PIPE c = false /\ in_str BSLASH c = false.

Lemma plain_cell_cons ch c :
  plain_cell (String ch c) -> Ascii.eqb ch PIPE = false /\ Ascii.eqb ch BSLASH = false /\ plain_cell c.
Proof.
  intros [H1 H2]. cbn [in_str] in H1, H2. apply orb_false_iff in H1 as [H1 H1'].
  apply orb_false_iff in H2 as [H2 H2']. rewrite Ascii.eqb_sym in H1, H2.
  repeat split; assumption.
Qed.

Lemma row_loop_cell c r cells buf :
  plain_cell c -> row_loop (c ^ String PIPE r) cells buf false = row_loop r (cells ++ [strip (buf ^ c)]) "" false.
Proof.
  revert buf. induction c as [|ch c IH]; intros buf Hc.
  - rewrite append_empty_r. reflexivity.
  - destruct (plain_cell_cons _ _ Hc) as (H1 & H2 & Hc'). simpl. rewrite H1, H2, IH by exact Hc'.
    rewrite append_assoc. reflexivity.
Qed.

Lemma row_loop_last c cells buf :
  plain_cell c -> row_loop c cells buf false = cells ++ [strip (buf ^ c)].
Proof.
  revert buf. induction c as [|ch c IH]; intros buf Hc.
  - rewrite append_empty_r. reflexivity.
  - destruct (plain_cell_cons _ _ Hc) as (H1 & H2 & Hc'). simpl. rewrite H1, H2, IH by exact Hc'.
    rewrite append_assoc. reflexivity.
Qed.

Lemma row_loop_join cs cells :
  cs <> [] -> Forall plain_cell cs ->
  row_loop (join (String PIPE "") cs) cells "" false = cells ++ map strip cs.
Proof.
  unfold join. revert cells. induction cs as [|c cs IH]; intros cells Hne Hp; [congruence|].
  inversion Hp as [|? ? Hc Hcs]; subst. destruct cs as [|c' cs'].
  - simpl. rewrite row_loop_last by exact Hc. reflexivity.
  - change (String.concat (String PIPE "") (c :: c' :: cs'))
      with (c ^ String PIPE (String.concat (String PIPE "") (c' :: cs'))).
    rewrite row_loop_cell, IH by (discriminate || assumption).
    rewrite <- app_assoc. reflexivity.
Qed.

End RowRoundTrip.

(** C35: Round trip of a table row: the row [|c1|c2|...|cn|] is split back
    into the cells [c1], ..., [cn], each stripped, when no cell holds a [|]
    or a backslash. *)
Theorem split_table_row_join cs :
  cs <> [] -> Forall plain_cell cs ->
  split_table_row (String PIPE (join (String PIPE "") cs ^ String PIPE "")) = map strip cs.
Proof.
  intros Hne Hp. unfold split_table_row. set (J := join (String PIPE "") cs).
  assert (Hs : strip (String PIPE (J ^ String PIPE "")) = String PIPE (J ^ String PIPE "")).
  { apply strip_by_ends; [reflexivity|].
    change (String PIPE (J ^ String PIPE "")) with (String PIPE J ^ String PIPE "").
    rewrite ends_not_last. reflexivity. }
  rewrite Hs.
  rewrite (startswith_first PIPE). cbn [str_drop].
  rewrite (endswith_last J PIPE : endswith (J ^ String PIPE "") "|" = true). rewrite length_append. cbn [String.length].
  replace (String.length J + 1 - 1) with (String.length J) by lia.
  rewrite str_take_length_app. apply (row_loop_join cs []); assumption.
Qed.

Lemma split_table_row_join_witness :
  ["a"; " b "] <> [] /\ Forall plain_cell ["a"; " b "] /\
  split_table_row (String PIPE (join (String PIPE "") ["a"; " b "] ^ String PIPE "")) = ["a"; "b"].
Proof.
  assert (Hp : Forall plain_cell ["a"; " b "]) by (repeat constructor; reflexivity).
  split; [discriminate|]. split; [exact Hp|].
  apply (split_table_row_join ["a"; " b "]); [discriminate|exact Hp].
Defined.
