(* ===== verification/Diagram.v ===== *)
(** * The Mermaid dialect

    The pure helpers of the diagram fences
    ([src/skills/confluence-publisher/scripts/confluence_publish.py]):
    - [MermaidImagePlan] (lines 45-48);
    - [build_mermaid_image_name] (146-150), whose [re.sub] over runs of
      disallowed characters is shown equal to a character filter;
    - the two macros [emit_mermaid_macro] and [emit_mermaid_image_macro]
      (301-316);
    - the renderer fallback chain [render_mermaid_svg_bytes] (665-672) with
      the remote check of [render_mermaid_svg] (51-60) and the placeholder
      image of [upload_mermaid_image_attachments] (683-693).

    The local renderer ([mmdc] in a temporary directory) and the HTTP fetch
    are external: they enter as the two functions of [renderers]. *)

From Stdlib Require Import String Ascii List Bool Arith ZArith Lia.
From S2P Require Import Prelude PyStr Regex Inline.
Import ListNotations.
Local Open Scope string_scope.
Local Open Scope py_scope.

Record MermaidImagePlan := {
  filename : string;
  mermaid_source : string
}.

(** ** File names *)

(** [\w] on ASCII: letters, digits and the underscore. *)
Definition is_word_char (c : ascii) : bool :=
  let n := nat_of_ascii c in
  (Nat.leb 48 n && Nat.leb n 57) || (Nat.leb 65 n && Nat.leb n 90) ||
  (Nat.leb 97 n && Nat.leb n 122) || Ascii.eqb c "_".

(** The complement of the class [[\w .()-]]. *)
Definition name_disallowed (c : ascii) : bool :=
  negb (is_word_char c || in_str c " .()-").

(** The longest run of characters satisfying [p], and what follows it. *)
Fixpoint span_run (p : ascii -> bool) (s : string) : string * string :=
  match s with
  | String c r => if p c then let '(a, b) := span_run p r in (String c a, b) else ("", s)
  | "" => ("", "")
  end.

(** The greedy pattern [[...]+] for a character class [p]. *)
Definition m_run (p : ascii -> bool) (s : string) : option (string * string) :=
  match s with
  | String c r => if p c then let '(a, b) := span_run p r in Some (String c a, b) else None
  | "" => None
  end.

(** The base of the name: the prefix without disallowed characters,
    stripped, or ["Codex Mermaid"] when nothing is left. *)
Definition image_base (prefix : string) : string :=
  let base := strip (re_sub (m_run name_disallowed) (fun _ => "") prefix) in
  if String.eqb base "" then "Codex Mermaid" else base.

Definition build_mermaid_image_name (prefix : string) (index : nat) : string :=
  let base := image_base prefix in
  str_take 180 (base ^ " Mermaid " ^ format_02d index ^ ".svg").

(** ** Macros *)

Definition emit_mermaid_macro (code_text : string) : string :=
  let safe_code := cdata_escape code_text in
  "<ac:structured-macro ac:name=" ^ qt "mermaid" ^ ">" ^
  "<ac:plain-text-body><![CDATA[" ^ safe_code ^ "]]></ac:plain-text-body>" ^
  "</ac:structured-macro>".

(** [str(n)] for a Python [int]. *)
Definition str_of_Z (z : Z) : string :=
  if Z.ltb z 0 then "-" ^ str_of_nat (Z.to_nat (- z)) else str_of_nat (Z.to_nat z).

Definition emit_mermaid_image_macro (fname : string) (width : Z) : string :=
  let safe_filename := html_escape fname in
  let safe_width := Z.max 240 width in
  "<ac:image ac:align=" ^ qt "center" ^ " ac:width=" ^ qt (str_of_Z safe_width) ^ ">" ^
  "<ri:attachment ri:filename=" ^ qt safe_filename ^ " />" ^
  "</ac:image>".

(** ** Rendering an image *)

(** The two external renderers: [mmdc] (its bytes, or [None] when it is
    missing, fails or raises) and the HTTP fetch of the remote service (the
    response text, or [None] when the request raises). *)
Record renderers := {
  render_local : string -> option string;
  fetch_remote : string -> option string
}.

(** [render_mermaid_svg]: the fetched text counts only if it contains
    [<svg]. *)
Fixpoint contains (pat s : string) : bool :=
  String.prefix pat s || match s with "" => false | String _ r => contains pat r end.

Definition render_mermaid_svg (R : renderers) (src : string) : option string :=
  match fetch_remote R src with
  | Some svg => if contains "<svg" svg then Some svg else None
  | None => None
  end.

(** Python's truthiness of [bytes | None]: [None] and [b""] are false. *)
Definition truthy (o : option string) : bool :=
  match o with Some s => negb (String.eqb s "") | None => false end.

Definition render_mermaid_svg_bytes (R : renderers) (src : string) : option string :=
  let local := render_local R src in
  if truthy local then local
  else let remote := render_mermaid_svg R src in
       if truthy remote then remote else None.

Definition placeholder_svg (src : string) : string :=
  "<svg xmlns='http://www.w3.org/2000/svg' width='960' height='180'>" ^
  "<rect width='100%' height='100%' fill='#f5f5f5' stroke='#999'/>" ^
  "<text x='20' y='40' font-family='monospace' font-size='18'>" ^
  "Mermaid render failed. Showing source below." ^
  "</text>" ^
  "<text x='20' y='80' font-family='monospace' font-size='14'>" ^
  html_escape (str_take 300 src) ^
  "</text></svg>".

(** The bytes uploaded for one plan: the rendered image, or the placeholder. *)
Definition diagram_image_bytes (R : renderers) (src : string) : string :=
  let svg_bytes := render_mermaid_svg_bytes R src in
  if truthy svg_bytes then match svg_bytes with Some b => b | None => "" end
  else placeholder_svg src.

(** ** Checks against the Python code *)

(** Spec scenario E: the title ["My Doc!!"] gives ["My Doc Mermaid 01.svg"]. *)
Example scenario_E_name : build_mermaid_image_name "My Doc!!" 1 = "My Doc Mermaid 01.svg".
Proof. reflexivity. Qed.

(** ** Sanitising is a character filter *)

Fixpoint filter_str (p : ascii -> bool) (s : string) : string :=
  match s with
  | "" => ""
  | String c r => if p c then String c (filter_str p r) else filter_str p r
  end.

Lemma span_run_spec p s a b :
  span_run p s = (a, b) -> s = a ^ b /\ filter_str (fun c => negb (p c)) a = "" /\
  match b with String c _ => p c = false | "" => True end.
Proof.
  revert a b; induction s as [|c r IH]; intros a b; simpl.
  - intros [= <- <-]; auto.
  - destruct (p c) eqn:E.
    + destruct (span_run p r) as [a' b'] eqn:Hs. intros [= <- <-].
      destruct (IH a' b' eq_refl) as (-> & Hf & Hb). simpl. now rewrite E, Hf.
    + intros [= <- <-]. simpl. auto.
Qed.

Lemma filter_str_app p a b : filter_str p (a ^ b) = filter_str p a ^ filter_str p b.
Proof. induction a as [|c a IH]; simpl; [reflexivity|]. destruct (p c); simpl; now rewrite IH. Qed.

Lemma m_run_progress p s g a : m_run p s = Some (g, a) -> String.length a < String.length s.
Proof.
  destruct s as [|c r]; simpl; [discriminate|]. destruct (p c); [|discriminate].
  destruct (span_run p r) as [a' b'] eqn:Hs. intros [= <- <-].
  destruct (span_run_spec p r a' b' Hs) as (-> & _). rewrite length_append. lia.
Qed.

(** [re.sub(r"[^\w .()-]+", "", prefix)] deletes exactly the disallowed
    characters: removing maximal runs is removing each character. *)
Theorem sanitize_is_filter p s :
  re_sub (m_run p) (fun _ => "") s = filter_str (fun c => negb (p c)) s.
Proof.
  remember (String.length s) as n eqn:Hn. revert s Hn.
  induction n as [n IH] using lt_wf_ind; intros [|c r] Hn.
  - apply re_sub_empty. reflexivity.
  - destruct (p c) eqn:E.
    + destruct (span_run p r) as [a b] eqn:Hs.
      destruct (span_run_spec p r a b Hs) as (-> & Hf & _).
      rewrite (re_sub_match _ _ (m_run_progress p) (String c (a ^ b)) (String c a) b)
        by (simpl; now rewrite E, Hs).
      simpl. rewrite E, filter_str_app, Hf. simpl.
      apply (IH (String.length b)); [subst n; simpl; rewrite length_append; lia|reflexivity].
    + rewrite re_sub_skip by (exact (m_run_progress p) || (simpl; now rewrite E)).
      simpl. rewrite E. simpl. f_equal.
      apply (IH (String.length r)); [subst n; simpl; lia|reflexivity].
Qed.

(** ** The characters of a name *)

Lemma in_str_filter c q s : in_str c (filter_str q s) = true -> q c = true.
Proof.
  induction s as [|d r IH]; [discriminate|]. cbn [filter_str].
  destruct (q d) eqn:E; [|exact IH]. cbn [in_str]. intros H.
  apply orb_prop in H as [H|H]; [apply Ascii.eqb_eq in H; subst; exact E|exact (IH H)].
Qed.

Lemma in_str_allowed c s : forallb (fun d => negb (name_disallowed d)) (list_ascii_of_string s) = true ->
  name_disallowed c = true -> in_str c s = false.
Proof.
  intros Hs Hc. destruct (in_str c s) eqn:E; [|reflexivity]. exfalso.
  induction s as [|d r IH]; [discriminate|]. cbn [list_ascii_of_string forallb in_str] in *.
  apply andb_true_iff in Hs as [H1 H2]. apply orb_prop in E as [E|E]; [|exact (IH H2 E)].
  apply Ascii.eqb_eq in E. subst d. rewrite Hc in H1. discriminate.
Qed.

(** A character the sanitiser removes never occurs in an image name: not
    a quote, not a line break. *)
Lemma image_name_free c prefix i :
  name_disallowed c = true -> in_str c (build_mermaid_image_name prefix i) = false.
Proof.
  intros Hc. unfold build_mermaid_image_name, image_base. apply in_str_take. rewrite !in_str_app.
  rewrite !(in_str_allowed c " Mermaid "), (in_str_allowed c ".svg") by (reflexivity || exact Hc).
  destruct (in_str c (format_02d i)) eqn:Ed.
  { apply format_02d_digits in Ed. unfold name_disallowed, is_word_char in Hc.
    rewrite Ed in Hc. discriminate. }
  destruct (String.eqb _ "").
  - rewrite (in_str_allowed c "Codex Mermaid") by (reflexivity || exact Hc). reflexivity.
  - unfold strip. rewrite in_str_strip; [reflexivity|]. rewrite sanitize_is_filter.
    destruct (in_str c (filter_str (fun d => negb (name_disallowed d)) prefix)) eqn:E; [|reflexivity].
    apply in_str_filter in E. rewrite Hc in E. discriminate.
Qed.

(** ** Distinct names *)

Definition format_02d_table_ok : bool :=
  forallb (fun i => Nat.eqb (String.length (format_02d i)) 2 &&
            forallb (fun j => Nat.eqb i j || negb (String.eqb (format_02d i) (format_02d j)))
                    (seq 0 100))
          (seq 0 100).

Lemma format_02d_table : format_02d_table_ok = true.
Proof. vm_compute. reflexivity. Qed.

(** Below 100, ["{:02d}"] has two digits and is injective. *)
Lemma format_02d_small i j :
  i < 100 -> j < 100 ->
  String.length (format_02d i) = 2 /\ (format_02d i = format_02d j -> i = j).
Proof.
  intros Hi Hj. pose proof format_02d_table as H. unfold format_02d_table_ok in H.
  rewrite forallb_forall in H. specialize (H i ltac:(apply in_seq; lia)).
  apply andb_true_iff in H as [Hl H]. rewrite forallb_forall in H.
  specialize (H j ltac:(apply in_seq; lia)). split; [now apply Nat.eqb_eq|].
  intros E. rewrite E, String.eqb_refl, orb_false_r in H. now apply Nat.eqb_eq.
Qed.

(** Image names are injective in the index below 100 when the base leaves
    room for the suffix. *)
Lemma image_names_inj prefix i j :
  i < 100 -> j < 100 -> String.length (image_base prefix) <= 165 ->
  build_mermaid_image_name prefix i = build_mermaid_image_name prefix j -> i = j.
Proof.
  intros Hi Hj Hb. destruct (format_02d_small i j Hi Hj) as [Li Inj].
  destruct (format_02d_small j i Hj Hi) as [Lj _].
  unfold build_mermaid_image_name.
  rewrite !str_take_all by (rewrite !length_append; simpl; lia).
  intros E. apply append_inv_l in E. apply (append_inv_l " Mermaid ") in E.
  apply append_inv_len in E as [E _]; [|congruence]. now apply Inj.
Qed.

(** When the sanitised title leaves room for the suffix, the slice to 180
    characters keeps the index, and the names of different diagrams
    differ. *)
Theorem mermaid_image_names_distinct prefix i j :
  i < 100 -> j < 100 -> String.length (image_base prefix) <= 165 ->
  build_mermaid_image_name prefix i = build_mermaid_image_name prefix j -> i = j.
Proof. apply image_names_inj. Qed.

(** A title of 170 characters. *)
Definition long_title : string := string_of_list_ascii (repeat "a"%char 170).

(** A title of 171 characters. *)
Definition long_title_171 : string := string_of_list_ascii (repeat "a"%char 171).

(** C29: The slice [[:180]] is applied after the suffix.  When the base of
    the name (the title without disallowed characters) has 171 characters
    or more, the slice cuts off the whole [" Mermaid NN.svg"] suffix, so
    every diagram of the document gets the same attachment name, whatever
    its index.  The spec (section 3) says the names are unique. *)
Theorem mermaid_image_name_collision prefix i j :
  171 <= String.length (image_base prefix) ->
  build_mermaid_image_name prefix i = build_mermaid_image_name prefix j.
Proof.
  intros H. unfold build_mermaid_image_name.
  assert (E : forall k, image_base prefix ^ " Mermaid " ^ format_02d k ^ ".svg" =
                        (image_base prefix ^ " Mermaid ") ^ (format_02d k ^ ".svg"))
    by (intros k; rewrite append_assoc; reflexivity).
  assert (L : 180 <= String.length (image_base prefix ^ " Mermaid "))
    by (rewrite length_append; simpl; lia).
  rewrite !E, !(str_take_app_long 180 _ _ L). reflexivity.
Qed.

(** With a base of exactly 170 characters the slice keeps the first digit
    of the index only: the first nine diagrams share one name. *)
Example long_title_first_two_collide :
  build_mermaid_image_name long_title 1 = build_mermaid_image_name long_title 2.
Proof. vm_compute. reflexivity. Qed.

Lemma mermaid_image_name_collision_witness :
  171 <= String.length (image_base long_title_171) /\
  build_mermaid_image_name long_title_171 1 = build_mermaid_image_name long_title_171 2.
Proof.
  assert (H : 171 <= String.length (image_base long_title_171)) by (vm_compute; lia).
  split; [exact H|]. exact (mermaid_image_name_collision long_title_171 1 2 H).
Defined.

(** ** The renderer fallback chain *)

(** The uploaded image is never empty, and it is the first of these that
    applies: the local rendering if it produced bytes; else the remote
    response if it contains [<svg]; else the placeholder with the source. *)
Theorem diagram_image_bytes_chain R src :
  diagram_image_bytes R src <> "" /\
  ((render_local R src = Some (diagram_image_bytes R src)) \/
   (truthy (render_local R src) = false /\
    fetch_remote R src = Some (diagram_image_bytes R src) /\
    contains "<svg" (diagram_image_bytes R src) = true) \/
   (truthy (render_local R src) = false /\
    truthy (render_mermaid_svg R src) = false /\
    diagram_image_bytes R src = placeholder_svg src)).
Proof.
  unfold diagram_image_bytes, render_mermaid_svg_bytes.
  destruct (truthy (render_local R src)) eqn:Hl.
  - destruct (render_local R src) as [b|] eqn:E; [|discriminate].
    simpl in *. rewrite Hl. split; [|left; reflexivity].
    apply negb_true_iff, String.eqb_neq in Hl. exact Hl.
  - destruct (truthy (render_mermaid_svg R src)) eqn:Hr.
    + unfold render_mermaid_svg in *. destruct (fetch_remote R src) as [svg|] eqn:F; [|discriminate].
      destruct (contains "<svg" svg) eqn:C; [|discriminate]. simpl in *. rewrite Hr.
      split; [apply negb_true_iff, String.eqb_neq in Hr; exact Hr|].
      right; left. auto.
    + simpl. split; [discriminate|]. right; right. auto.
Qed.

(** ** Witnesses *)

Lemma mermaid_image_names_distinct_witness :
  1 < 100 /\ 2 < 100 /\ String.length (image_base "My Doc!!") <= 165 /\
  (build_mermaid_image_name "My Doc!!" 1 = build_mermaid_image_name "My Doc!!" 2 -> 1 = 2).
Proof.
  split; [lia|]. split; [lia|]. split; [vm_compute; lia|].
  apply mermaid_image_names_distinct; [lia|lia|vm_compute; lia].
Defined.
