(* ===== verification/Encoding.v ===== *)
(** * Byte encodings of the HTTP side

    The two encodings [confluence_publish.py] applies before a request
    ([src/skills/confluence-publisher/scripts/confluence_publish.py]):
    - [render_mermaid_svg] (lines 51-53) builds the mermaid.ink URL from
      [base64.urlsafe_b64encode(src.encode("utf-8")).decode("ascii").rstrip("=")];
    - [ConfluenceClient.__init__] (471-475) builds the Authorization header
      [Basic base64(email:token)].

    [str.encode("utf-8")] and [base64.b64encode] are CPython's codecs,
    written here from RFC 3629 and RFC 4648: a byte is a [Z] in [0, 256),
    a 24-bit group is cut into four sextets with [Z.shiftr] and [Z.land].
    The decoders are the other end of the wire (the mermaid.ink server,
    the HTTP server's Basic scheme, RFC 7617): they are not code of the
    repository and serve to state the round trips.

    The theorems: the decoders invert the encoders; the unpadded URL
    encoding determines the diagram source, so two different diagrams are
    never fetched from the same URL; the header gives back the e-mail and
    the token when the e-mail has no colon; the length of an encoding. *)

From Stdlib Require Import String Ascii List Bool Arith ZArith Lia.
From S2P Require Import Prelude PyStr.
Import ListNotations.
Local Open Scope string_scope.
Local Open Scope py_scope.
Local Open Scope Z_scope.

(** ** Bytes *)

Definition code_point (c : ascii) : Z := Z.of_nat (nat_of_ascii c).
Definition char_of (z : Z) : ascii := ascii_of_nat (Z.to_nat z).

(** A [bytes] value: every element is in [0, 256). *)
Definition is_byte (b : Z) : bool := (0 <=? b)%Z && (b <? 256)%Z.
Definition bytes_ok (bs : list Z) : bool := forallb is_byte bs.

(** [str.encode("utf-8")] on the code points of the model (below 256):
    one byte below 128, else the two-byte form [110xxxxx 10xxxxxx]. *)
Definition utf8_char (c : ascii) : list Z :=
  let n := code_point c in
  if (n <? 128)%Z then [n]
  else [Z.lor 192 (Z.shiftr n 6); Z.lor 128 (Z.land n 63)].

Fixpoint utf8_encode (s : string) : list Z :=
  match s with
  | "" => []
  | String c r => utf8_char c ++ utf8_encode r
  end.

(** [bytes.decode("utf-8")] restricted to the same code points. *)
Fixpoint utf8_decode (bs : list Z) : option string :=
  match bs with
  | [] => Some ""
  | b :: r =>
      if (0 <=? b)%Z && (b <? 128)%Z then option_map (String (char_of b)) (utf8_decode r)
      else if (192 <=? b)%Z && (b <? 196)%Z then
        match r with
        | b1 :: r' =>
            if (128 <=? b1)%Z && (b1 <? 192)%Z
            then option_map (String (char_of ((b - 192) * 64 + (b1 - 128))))
                   (utf8_decode r')
            else None
        | [] => None
        end
      else None
  end.

(** ** Base64 (RFC 4648) *)

(** The two alphabets: [b64encode] ends with [+/], [urlsafe_b64encode]
    with [-_]. *)
Inductive alphabet := Standard | UrlSafe.

Definition b64_char (a : alphabet) (i : Z) : ascii :=
  if (i <? 26)%Z then char_of (65 + i)
  else if (i <? 52)%Z then char_of (71 + i)
  else if (i <? 62)%Z then char_of (i - 4)
  else if (i =? 62)%Z then match a with Standard => "+"%char | UrlSafe => "-"%char end
  else match a with Standard => "/"%char | UrlSafe => "_"%char end.

Definition PAD : ascii := "="%char.

(** The 24-bit group of three bytes, and its sextet at bit [k]. *)
Definition join3 (b0 b1 b2 : Z) : Z := Z.shiftl b0 16 + Z.shiftl b1 8 + b2.
Definition sextet (n k : Z) : Z := Z.land (Z.shiftr n k) 63.

Definition enc (a : alphabet) (n k : Z) : string -> string := String (b64_char a (sextet n k)).

Fixpoint b64_encode (a : alphabet) (bs : list Z) : string :=
  match bs with
  | b0 :: b1 :: b2 :: r =>
      let n := join3 b0 b1 b2 in enc a n 18 (enc a n 12 (enc a n 6 (enc a n 0 (b64_encode a r))))
  | [b0; b1] => let n := join3 b0 b1 0 in enc a n 18 (enc a n 12 (enc a n 6 (String PAD "")))
  | [b0] => let n := join3 b0 0 0 in enc a n 18 (enc a n 12 (String PAD (String PAD "")))
  | [] => ""
  end.

(** [base64.b64encode(...).decode("ascii")]. *)
Definition b64encode : list Z -> string := b64_encode Standard.
(** [base64.urlsafe_b64encode(...).decode("ascii")]. *)
Definition urlsafe_b64encode : list Z -> string := b64_encode UrlSafe.

(** The decoder of the receiving end: an unpadded text of sextets. *)
Definition b64_index (a : alphabet) (c : ascii) : option Z :=
  let n := code_point c in
  if (65 <=? n)%Z && (n <=? 90)%Z then Some (n - 65)
  else if (97 <=? n)%Z && (n <=? 122)%Z then Some (n - 71)
  else if (48 <=? n)%Z && (n <=? 57)%Z then Some (n + 4)
  else if Ascii.eqb c (b64_char a 62) then Some 62
  else if Ascii.eqb c (b64_char a 63) then Some 63
  else None.

Definition join4 (i0 i1 i2 i3 : Z) : Z :=
  Z.shiftl i0 18 + Z.shiftl i1 12 + Z.shiftl i2 6 + i3.
Definition byte_at (n k : Z) : Z := Z.land (Z.shiftr n k) 255.

Fixpoint b64_decode (a : alphabet) (s : string) : option (list Z) :=
  match s with
  | "" => Some []
  | String c0 (String c1 (String c2 (String c3 r))) =>
      match b64_index a c0, b64_index a c1, b64_index a c2, b64_index a c3, b64_decode a r with
      | Some i0, Some i1, Some i2, Some i3, Some rest =>
          let n := join4 i0 i1 i2 i3 in Some (byte_at n 16 :: byte_at n 8 :: byte_at n 0 :: rest)
      | _, _, _, _, _ => None
      end
  | String c0 (String c1 (String c2 "")) =>
      match b64_index a c0, b64_index a c1, b64_index a c2 with
      | Some i0, Some i1, Some i2 => let n := join4 i0 i1 i2 0 in Some [byte_at n 16; byte_at n 8]
      | _, _, _ => None
      end
  | String c0 (String c1 "") =>
      match b64_index a c0, b64_index a c1 with
      | Some i0, Some i1 => Some [byte_at (join4 i0 i1 0 0) 16]
      | _, _ => None
      end
  | String _ "" => None
  end.

(** ** Arithmetic of the groups *)

Lemma shiftr_mask_div n k m :
  (0 <= k)%Z -> (0 <= m)%Z -> Z.land (Z.shiftr n k) (Z.ones m) = ((n / 2 ^ k) mod 2 ^ m)%Z.
Proof. intros Hk Hm. rewrite Z.shiftr_div_pow2 by exact Hk. apply Z.land_ones, Hm. Qed.

Lemma sextet_div n k : (0 <= k)%Z -> sextet n k = ((n / 2 ^ k) mod 64)%Z.
Proof. intros Hk. apply (shiftr_mask_div n k 6); lia. Qed.

Lemma byte_at_div n k : (0 <= k)%Z -> byte_at n k = ((n / 2 ^ k) mod 256)%Z.
Proof. intros Hk. apply (shiftr_mask_div n k 8); lia. Qed.

Lemma sextet_range n k : (0 <= k)%Z -> (0 <= sextet n k < 64)%Z.
Proof. intros Hk. rewrite sextet_div by exact Hk. apply Z.mod_pos_bound. lia. Qed.

Lemma join3_arith b0 b1 b2 : join3 b0 b1 b2 = (b0 * 65536 + b1 * 256 + b2)%Z.
Proof. unfold join3. rewrite !Z.shiftl_mul_pow2 by lia. reflexivity. Qed.

Lemma join4_arith i0 i1 i2 i3 : join4 i0 i1 i2 i3 = (i0 * 262144 + i1 * 4096 + i2 * 64 + i3)%Z.
Proof. unfold join4. rewrite !Z.shiftl_mul_pow2 by lia. reflexivity. Qed.

(** Two sextets and what is below them make the residue of the next one. *)
Lemma mod_step n k : (0 < k)%Z -> ((n / k) mod 64 * k + n mod k = n mod (k * 64))%Z.
Proof. intros Hk. rewrite Z.rem_mul_r by lia. lia. Qed.

(** The four sextets of a 24-bit group put back together give the group. *)
Lemma join4_sextets n : (0 <= n < 16777216)%Z ->
  join4 (sextet n 18) (sextet n 12) (sextet n 6) (sextet n 0) = n.
Proof.
  intros Hn. rewrite join4_arith, !sextet_div by lia. cbn [Z.pow Z.pow_pos Pos.iter Z.mul Pos.mul].
  rewrite Z.div_1_r, <- !Z.add_assoc, (mod_step n 64) by lia; cbn [Z.mul Pos.mul].
  rewrite (mod_step n 4096) by lia; cbn [Z.mul Pos.mul].
  rewrite (mod_step n 262144) by lia; cbn [Z.mul Pos.mul]. apply Z.mod_small; lia.
Qed.

Lemma is_byte_range b : is_byte b = true -> 0 <= b < 256.
Proof. unfold is_byte. rewrite andb_true_iff, Z.leb_le, Z.ltb_lt. tauto. Qed.

(** Turn every [is_byte b = true] of the context into [0 <= b < 256]. *)
Ltac byte_ranges :=
  repeat match goal with
  | H : is_byte _ = true |- _ => apply is_byte_range in H
  end.

(** The three bytes of a group come back out of it. *)
Lemma bytes_of_join3 b0 b1 b2 :
  is_byte b0 = true -> is_byte b1 = true -> is_byte b2 = true ->
  byte_at (join3 b0 b1 b2) 16 = b0 /\ byte_at (join3 b0 b1 b2) 8 = b1 /\
  byte_at (join3 b0 b1 b2) 0 = b2.
Proof.
  intros H0 H1 H2. byte_ranges.
  rewrite join3_arith, !byte_at_div by lia. cbn [Z.pow Z.pow_pos Pos.iter Z.mul Pos.mul].
  repeat split; Z.div_mod_to_equations; lia.
Qed.

Lemma join3_range b0 b1 b2 :
  is_byte b0 = true -> is_byte b1 = true -> is_byte b2 = true -> 0 <= join3 b0 b1 b2 < 16777216.
Proof. intros H0 H1 H2. byte_ranges. rewrite join3_arith. lia. Qed.

(** The alphabet is decoded by [b64_index]: checked on the 64 values. *)
Lemma b64_index_table a :
  forallb (fun n => match b64_index a (b64_char a (Z.of_nat n)) with
                    | Some j => Z.eqb j (Z.of_nat n) | None => false end) (seq 0 64) = true.
Proof. destruct a; vm_compute; reflexivity. Qed.

Lemma b64_index_char a i : (0 <= i < 64)%Z -> b64_index a (b64_char a i) = Some i.
Proof.
  intros Hi. pose proof (proj1 (forallb_forall _ _) (b64_index_table a) (Z.to_nat i)) as Hc.
  cbv beta in Hc. rewrite Z2Nat.id in Hc by lia.
  destruct (b64_index a (b64_char a i)) as [j|]; [|discriminate Hc; apply in_seq; lia].
  apply Z.eqb_eq in Hc; [congruence|apply in_seq; lia].
Qed.

Lemma b64_index_sextet a n k : (0 <= k)%Z -> b64_index a (b64_char a (sextet n k)) = Some (sextet n k).
Proof. intros Hk. apply b64_index_char, sextet_range, Hk. Qed.

#[export] Hint Rewrite b64_index_sextet using lia : pub_rw.

(** ** Stripping the padding *)

Lemma b64_index_pad a : b64_index a PAD = None.
Proof. destruct a; reflexivity. Qed.

Lemma b64_char_not_pad a i : 0 <= i < 64 -> in_str (b64_char a i) "=" = false.
Proof.
  intros Hi. pose proof (b64_index_char a i Hi) as E. simpl. rewrite orb_false_r.
  destruct (Ascii.eqb_spec (b64_char a i) "=") as [e|_]; [|reflexivity].
  rewrite e in E. change "="%char with PAD in E. rewrite b64_index_pad in E. discriminate.
Qed.

Lemma rstrip_keep p c s : p c = false -> rstrip_by p (String c s) = String c (rstrip_by p s).
Proof. intros Hc. simpl. destruct (rstrip_by p s); [rewrite Hc|]; reflexivity. Qed.

Lemma rstrip_enc a n k s : 0 <= k ->
  rstrip_chars "=" (enc a n k s) = enc a n k (rstrip_chars "=" s).
Proof. intros Hk. apply rstrip_keep, b64_char_not_pad, sextet_range, Hk. Qed.

#[export] Hint Rewrite rstrip_enc using lia : pub_rw.

(** ** The low sextets of a short group are zero *)

Lemma sextet_low_2 b0 b1 : sextet (join3 b0 b1 0) 0 = 0.
Proof. rewrite sextet_div, join3_arith by lia. cbn. Z.div_mod_to_equations. lia. Qed.

Lemma sextet_low_1 b0 : sextet (join3 b0 0 0) 6 = 0 /\ sextet (join3 b0 0 0) 0 = 0.
Proof. rewrite !sextet_div, join3_arith by lia. cbn. split; Z.div_mod_to_equations; lia. Qed.

(** The sextets of a group of one or two bytes, padded with zero sextets,
    give the group back. *)
Lemma join4_sextets_2 b0 b1 : is_byte b0 = true -> is_byte b1 = true ->
  join4 (sextet (join3 b0 b1 0) 18) (sextet (join3 b0 b1 0) 12) (sextet (join3 b0 b1 0) 6) 0
  = join3 b0 b1 0.
Proof.
  intros H0 H1. pose proof (join4_sextets (join3 b0 b1 0)) as J.
  rewrite sextet_low_2 in J. apply J, join3_range; auto.
Qed.

Lemma join4_sextets_1 b0 : is_byte b0 = true ->
  join4 (sextet (join3 b0 0 0) 18) (sextet (join3 b0 0 0) 12) 0 0 = join3 b0 0 0.
Proof.
  intros H0. pose proof (join4_sextets (join3 b0 0 0)) as J.
  destruct (sextet_low_1 b0) as [E6 E0]. rewrite E6, E0 in J. apply J, join3_range; auto.
Qed.

(** ** Round trips *)

(** The receiving end gives back the bytes of an unpadded encoding. *)
Lemma b64_decode_encode a bs : bytes_ok bs = true ->
  b64_decode a (rstrip_chars "=" (b64_encode a bs)) = Some bs.
Proof.
  intros Hb. remember (length bs) as m eqn:Hm. revert bs Hm Hb.
  induction m as [m IH] using lt_wf_ind. intros bs Hm Hb.
  destruct bs as [|b0 [|b1 [|b2 r]]]; [reflexivity|..];
    unfold bytes_ok in Hb; simpl in Hb; bool_hyps; cbn [b64_encode]; rewrite !rstrip_enc by lia;
    cbn - [join3 join4 sextet b64_char b64_index]; rewrite !b64_index_sextet by lia.
  - rewrite join4_sextets_1 by auto. destruct (bytes_of_join3 b0 0 0) as [-> _]; auto.
  - rewrite join4_sextets_2 by auto. destruct (bytes_of_join3 b0 b1 0) as [-> [-> _]]; auto.
  - rewrite (IH (length r)) by (simpl in Hm; lia || auto).
    rewrite join4_sextets by (apply join3_range; auto).
    destruct (bytes_of_join3 b0 b1 b2) as [-> [-> ->]]; auto.
Qed.

(** [utf8_decode] reads back one encoded character, whatever follows:
    checked on the 256 code points. *)
Lemma utf8_decode_char c r : utf8_decode (utf8_char c ++ r) = option_map (String c) (utf8_decode r).
Proof. destruct c as [[] [] [] [] [] [] [] []]; reflexivity. Qed.

Lemma utf8_char_bytes c : bytes_ok (utf8_char c) = true.
Proof. destruct c as [[] [] [] [] [] [] [] []]; reflexivity. Qed.

Lemma bytes_ok_app l1 l2 : bytes_ok (l1 ++ l2) = bytes_ok l1 && bytes_ok l2.
Proof. apply forallb_app. Qed.

Lemma utf8_encode_bytes s : bytes_ok (utf8_encode s) = true.
Proof. induction s as [|c r IH]; [reflexivity|]. simpl. rewrite bytes_ok_app, utf8_char_bytes. exact IH. Qed.

Lemma utf8_decode_encode s : utf8_decode (utf8_encode s) = Some s.
Proof. induction s as [|c r IH]; [reflexivity|]. simpl. rewrite utf8_decode_char, IH. reflexivity. Qed.

Lemma utf8_encode_app s t : utf8_encode (s ^ t)%py = (utf8_encode s ++ utf8_encode t)%list.
Proof. induction s as [|c r IH]; [reflexivity|]. simpl. rewrite IH, app_assoc. reflexivity. Qed.

(** ** The mermaid.ink URL ([render_mermaid_svg], lines 52-53) *)

Definition MERMAID_INK : string := "https://mermaid.ink/svg/".

Definition mermaid_ink_url (mermaid_source : string) : string :=
  let encoded := rstrip_chars "=" (urlsafe_b64encode (utf8_encode mermaid_source)) in
  (MERMAID_INK ^ encoded)%py.

(** The service's reading of the URL: the path after [/svg/], decoded. *)
Definition ink_source (url : string) : option string :=
  if startswith url MERMAID_INK then
    match b64_decode UrlSafe (str_drop (String.length MERMAID_INK) url) with
    | Some bs => utf8_decode bs
    | None => None
    end
  else None.

(** ** The client's settings ([ConfluenceClient.__init__], lines 471-475) *)

Record client_conf := {
  cl_site : string;
  cl_verbose : bool;
  cl_auth_header : string
}.

Definition client_init (site email api_token : string) (verbose : bool) : client_conf :=
  let token := b64encode (utf8_encode (email ^ ":" ^ api_token)%py) in
  {| cl_site := strip site; cl_verbose := verbose; cl_auth_header := ("Basic " ^ token)%py |}.

(** The server's reading of the header (RFC 7617): the user id is the text
    before the first colon of the decoded credentials. *)
Definition basic_credentials (header : string) : option (string * string) :=
  if startswith header "Basic " then
    match b64_decode Standard (rstrip_chars "=" (str_drop 6 header)) with
    | Some bs => match utf8_decode bs with
                 | Some userpass => partition_char ":" userpass
                 | None => None
                 end
    | None => None
    end
  else None.

(** ** Theorems *)

(** C13: Round trip: the service decodes the URL of [render_mermaid_svg]
    back to the diagram source, so the unpadded URL-safe encoding loses
    nothing. *)
Theorem mermaid_ink_url_roundtrip src : ink_source (mermaid_ink_url src) = Some src.
Proof.
  unfold ink_source, mermaid_ink_url. rewrite startswith_app, str_drop_length_app.
  unfold urlsafe_b64encode. rewrite b64_decode_encode by apply utf8_encode_bytes.
  apply utf8_decode_encode.
Qed.

(** C14: Round trip: the Authorization header built by the client's
    constructor gives the server back the e-mail and the API token, when
    the e-mail has no colon (RFC 7617 splits at the first one). *)
Theorem basic_auth_roundtrip site email api_token verbose :
  in_str ":" email = false ->
  basic_credentials (cl_auth_header (client_init site email api_token verbose)) =
    Some (email, api_token).
Proof.
  intros H. unfold basic_credentials, client_init. cbn [cl_auth_header].
  rewrite startswith_app. change 6%nat with (String.length "Basic ").
  rewrite str_drop_length_app. unfold b64encode.
  rewrite b64_decode_encode by apply utf8_encode_bytes. rewrite utf8_decode_encode.
  apply partition_char_app, H.
Qed.

(** Bounds: an encoding has four characters per started group of
    three bytes. *)
Theorem b64_encode_length a bs : String.length (b64_encode a bs) = (4 * ((length bs + 2) / 3))%nat.
Proof.
  remember (length bs) as m eqn:Hm. revert bs Hm.
  induction m as [m IH] using lt_wf_ind. intros bs Hm.
  destruct bs as [|b0 [|b1 [|b2 r]]]; subst m; [reflexivity..|].
  cbn [b64_encode enc String.length length]. rewrite (IH (length r)) by (simpl; lia || auto).
  replace (S (S (S (length r))) + 2)%nat with (length r + 2 + 1 * 3)%nat by lia.
  rewrite Nat.div_add by lia. lia.
Qed.

(** ** Checks against Python *)

(** [base64.b64encode("user@x.com:tok".encode())] and
    [base64.urlsafe_b64encode(b"\xfb\xff").rstrip(b"=")]. *)
Example b64encode_sample : b64encode (utf8_encode "user@x.com:tok") = "dXNlckB4LmNvbTp0b2s=".
Proof. vm_compute. reflexivity. Qed.

Example urlsafe_sample : rstrip_chars "=" (urlsafe_b64encode [251; 255]) = "-_8".
Proof. vm_compute. reflexivity. Qed.

Example utf8_sample : utf8_encode (String (ascii_of_nat 233) "") = [195; 169].
Proof. vm_compute. reflexivity. Qed.

(** An e-mail containing a colon is not given back: the server splits the
    credentials at the e-mail's colon, and the token it reads is wrong. *)
Example basic_auth_colon_email :
  basic_credentials (cl_auth_header (client_init "x" "a:b@x.com" "tok" false)) =
    Some ("a", "b@x.com:tok").
Proof. vm_compute. reflexivity. Qed.

Lemma basic_auth_roundtrip_witness :
  in_str ":" "user@x.com" = false /\
  basic_credentials (cl_auth_header (client_init " x.atlassian.net " "user@x.com" "tok" false)) =
    Some ("user@x.com", "tok").
Proof. split; [reflexivity|]. apply basic_auth_roundtrip. reflexivity. Defined.
