(* ===== verification/Json.v ===== *)
(** * [json.dumps] and the JSON reader of the other end

    [ConfluenceClient._request]
    ([src/skills/confluence-publisher/scripts/confluence_publish.py],
    lines 497-499, and the same lines of the older script) sends
    [json.dumps(body).encode("utf-8")].  [json.dumps] is CPython's
    encoder with its defaults, written here from [json/encoder.py]:
    separators [", "] and [": "], [ensure_ascii=True] (every character
    outside the printable ASCII range becomes [\u00xx] with lowercase hex
    digits, the seven short escapes stay short), [str(int)] for integers.
    A float never occurs in the payloads and is not modelled.

    [json_loads] is [json.loads], which the client applies to the answers
    ([_request], [upload_attachment_bytes]) and the server to the bodies: a
    recursive descent parser in the grammar of RFC 8259 with the whitespace
    [json.loads] allows.  Its fuel is the length of its input,
    which bounds the nesting and the number of items it reads.  Where it
    differs from CPython, it is on texts [json.dumps] never writes: it
    accepts leading zeros of integers, and it fails on numbers with a
    fraction or an exponent, on [NaN] and [Infinity], and on [\u] escapes
    above 255 (outside the characters of the model).  Like [json.loads] it
    rejects raw control characters in strings and text after the value.

    The theorems: [json_loads] reads back what [json_dumps] writes,
    whatever the value; the text is ASCII, so [.encode("utf-8")] is one
    byte per character. *)

From Stdlib Require Import String Ascii List Bool Arith ZArith Lia DecimalString.
From S2P Require Import Prelude PyStr Inline Diagram.
Import ListNotations.
Local Open Scope string_scope.
Local Open Scope py_scope.

(** ** Values *)

(** The values [json.dumps] receives from the client: [None], [bool],
    [int], [str], [list], and [dict] with string keys in insertion order. *)
Unset Elimination Schemes.
Inductive json :=
| JNull
| JBool (b : bool)
| JInt (z : Z)
| JStr (s : string)
| JList (l : list json)
| JDict (kvs : list (string * json)).
Set Elimination Schemes.

(** Induction through the lists of [JList] and [JDict]. *)
Section JsonInd.
Variable P : json -> Prop.
Hypothesis P_null : P JNull.
Hypothesis P_bool : forall b, P (JBool b).
Hypothesis P_int : forall z, P (JInt z).
Hypothesis P_str : forall s, P (JStr s).
Hypothesis P_list : forall l, Forall P l -> P (JList l).
Hypothesis P_dict : forall kvs, Forall (fun kv => P (snd kv)) kvs -> P (JDict kvs).

Fixpoint json_ind (j : json) : P j :=
  match j with
  | JNull => P_null
  | JBool b => P_bool b
  | JInt z => P_int z
  | JStr s => P_str s
  | JList l =>
      P_list l ((fix go (l : list json) : Forall P l :=
                   match l with
                   | [] => Forall_nil _
                   | x :: r => @Forall_cons _ P x r (json_ind x) (go r)
                   end) l)
  | JDict kvs =>
      P_dict kvs ((fix go (kvs : list (string * json)) : Forall (fun kv => P (snd kv)) kvs :=
                     match kvs with
                     | [] => Forall_nil _
                     | (k, v) :: r => @Forall_cons _ (fun kv => P (snd kv)) (k, v) r (json_ind v) (go r)
                     end) kvs)
  end.
End JsonInd.

(** [dict.get(key)]: the last binding of the key, as a [dict] built from
    pairs keeps it. *)
Definition jget (key : string) (j : json) : option json :=
  match j with
  | JDict kvs => option_map snd (find_first (fun kv => String.eqb (fst kv) key) (rev kvs))
  | _ => None
  end.

(** ** [json.dumps] *)

Definition BSL : ascii := "092"%char.

Definition hex_digit (n : nat) : ascii :=
  if Nat.ltb n 10 then ascii_of_nat (48 + n) else ascii_of_nat (87 + n).

(** [py_encode_basestring_ascii] on one character: [ESCAPE_DCT], else
    ['\\u{0:04x}'] for what [ESCAPE_ASCII] matches ([[^\ -~]]). *)
Definition json_escape_char (c : ascii) : string :=
  let n := nat_of_ascii c in
  if Ascii.eqb c QUOT then String BSL (String QUOT "")
  else if Ascii.eqb c BSL then String BSL (String BSL "")
  else if Nat.eqb n 10 then String BSL "n"
  else if Nat.eqb n 13 then String BSL "r"
  else if Nat.eqb n 9 then String BSL "t"
  else if Nat.eqb n 8 then String BSL "b"
  else if Nat.eqb n 12 then String BSL "f"
  else if Nat.ltb n 32 || Nat.leb 127 n then
    String BSL ("u00" ^ String (hex_digit (n / 16)) (String (hex_digit (n mod 16)) ""))
  else String c "".

Definition json_str (s : string) : string :=
  String QUOT (flat_map_str json_escape_char s ^ String QUOT "").

(** [JSONEncoder.iterencode] with [indent=None]: the item separator
    [", "] and the key separator [": "]. *)
Fixpoint json_dumps (j : json) : string :=
  match j with
  | JNull => "null"
  | JBool true => "true"
  | JBool false => "false"
  | JInt z => str_of_Z z
  | JStr s => json_str s
  | JList l => "[" ^ join ", " (map json_dumps l) ^ "]"
  | JDict kvs => "{" ^ join ", " (map (fun '(k, v) => json_str k ^ ": " ^ json_dumps v) kvs) ^ "}"
  end.

(** ** The reader *)

Definition json_ws (c : ascii) : bool :=
  let n := nat_of_ascii c in Nat.eqb n 32 || Nat.eqb n 9 || Nat.eqb n 10 || Nat.eqb n 13.

Definition skip_ws : string -> string := lstrip_by json_ws.

Definition hex_val (c : ascii) : option nat :=
  let n := nat_of_ascii c in
  if Nat.leb 48 n && Nat.leb n 57 then Some (n - 48)
  else if Nat.leb 97 n && Nat.leb n 102 then Some (n - 87)
  else if Nat.leb 65 n && Nat.leb n 70 then Some (n - 55)
  else None.

Definition short_escape (e : ascii) : option ascii :=
  let n := nat_of_ascii e in
  if Ascii.eqb e QUOT then Some QUOT
  else if Ascii.eqb e BSL then Some BSL
  else if Nat.eqb n 47 then Some "/"%char
  else if Nat.eqb n 98 then Some (ascii_of_nat 8)
  else if Nat.eqb n 102 then Some (ascii_of_nat 12)
  else if Nat.eqb n 110 then Some (ascii_of_nat 10)
  else if Nat.eqb n 114 then Some (ascii_of_nat 13)
  else if Nat.eqb n 116 then Some (ascii_of_nat 9)
  else None.

Definition cons_char (d : ascii) (o : option (string * string)) : option (string * string) :=
  option_map (fun '(t, r) => (String d t, r)) o.

(** The characters of a string up to its closing quote. *)
Fixpoint parse_chars (s : string) : option (string * string) :=
  match s with
  | "" => None
  | String c r =>
      if Ascii.eqb c QUOT then Some ("", r)
      else if Ascii.eqb c BSL then
        match r with
        | "" => None
        | String e r1 =>
            match short_escape e with
            | Some d => cons_char d (parse_chars r1)
            | None =>
                if Ascii.eqb e "u"%char then
                  match r1 with
                  | String h1 (String h2 (String h3 (String h4 r2))) =>
                      match hex_val h1, hex_val h2, hex_val h3, hex_val h4 with
                      | Some a, Some b, Some x, Some y =>
                          let n := ((a * 16 + b) * 16 + x) * 16 + y in
                          if Nat.ltb n 256 then cons_char (ascii_of_nat n) (parse_chars r2)
                          else None
                      | _, _, _, _ => None
                      end
                  | _ => None
                  end
                else None
            end
        end
      else if Nat.ltb (nat_of_ascii c) 32 then None
      else cons_char c (parse_chars r)
  end.

Definition digit (c : ascii) : option nat :=
  let n := nat_of_ascii c in if Nat.leb 48 n && Nat.leb n 57 then Some (n - 48) else None.

Fixpoint scan_digits (acc : nat) (s : string) : nat * string :=
  match s with
  | "" => (acc, "")
  | String c r =>
      match digit c with
      | Some d => scan_digits (acc * 10 + d) r
      | None => (acc, s)
      end
  end.

Definition parse_nat (s : string) : option (nat * string) :=
  match s with
  | String c r => match digit c with Some d => Some (scan_digits d r) | None => None end
  | "" => None
  end.

Definition parse_int (s : string) : option (Z * string) :=
  match s with
  | String c r =>
      if Ascii.eqb c "-"%char then option_map (fun '(n, r') => ((- Z.of_nat n)%Z, r')) (parse_nat r)
      else option_map (fun '(n, r') => (Z.of_nat n, r')) (parse_nat s)
  | "" => None
  end.

(** A keyword: its text, then the rest. *)
Fixpoint keyword (w s : string) : option string :=
  match w, s with
  | "", _ => Some s
  | String a w', String b s' => if Ascii.eqb a b then keyword w' s' else None
  | String _ _, "" => None
  end.

Definition is_char (c : ascii) (s : string) : option string :=
  match s with
  | String d r => if Ascii.eqb c d then Some r else None
  | "" => None
  end.

Fixpoint parse_value (fuel : nat) (s : string) : option (json * string) :=
  match fuel with
  | O => None
  | S n =>
      let s := skip_ws s in
      match s with
      | "" => None
      | String c r =>
          if Ascii.eqb c QUOT then option_map (fun '(t, r') => (JStr t, r')) (parse_chars r)
          else if Ascii.eqb c "["%char then
            match is_char "]"%char (skip_ws r) with
            | Some r' => Some (JList [], r')
            | None => option_map (fun '(l, r') => (JList l, r')) (parse_items n r)
            end
          else if Ascii.eqb c "{"%char then
            match is_char "}"%char (skip_ws r) with
            | Some r' => Some (JDict [], r')
            | None => option_map (fun '(kvs, r') => (JDict kvs, r')) (parse_members n r)
            end
          else match keyword "null" s, keyword "true" s, keyword "false" s with
               | Some r', _, _ => Some (JNull, r')
               | None, Some r', _ => Some (JBool true, r')
               | None, None, Some r' => Some (JBool false, r')
               | None, None, None => option_map (fun '(z, r') => (JInt z, r')) (parse_int s)
               end
      end
  end
with parse_items (fuel : nat) (s : string) : option (list json * string) :=
  match fuel with
  | O => None
  | S n =>
      match parse_value n s with
      | None => None
      | Some (v, r) =>
          match is_char ","%char (skip_ws r), is_char "]"%char (skip_ws r) with
          | Some r', _ => option_map (fun '(l, r'') => (v :: l, r'')) (parse_items n r')
          | None, Some r' => Some ([v], r')
          | None, None => None
          end
      end
  end
with parse_members (fuel : nat) (s : string) : option (list (string * json) * string) :=
  match fuel with
  | O => None
  | S n =>
      match is_char QUOT (skip_ws s) with
      | None => None
      | Some r =>
          match parse_chars r with
          | None => None
          | Some (k, r1) =>
              match is_char ":"%char (skip_ws r1) with
              | None => None
              | Some r2 =>
                  match parse_value n r2 with
                  | None => None
                  | Some (v, r3) =>
                      match is_char ","%char (skip_ws r3), is_char "}"%char (skip_ws r3) with
                      | Some r4, _ =>
                          option_map (fun '(kvs, r5) => ((k, v) :: kvs, r5)) (parse_members n r4)
                      | None, Some r4 => Some ([(k, v)], r4)
                      | None, None => None
                      end
                  end
              end
          end
      end
  end.

(** [json.loads]: one value, then nothing but whitespace. *)
Definition json_loads (s : string) : option json :=
  match parse_value (String.length s) s with
  | Some (j, r) => if String.eqb (skip_ws r) "" then Some j else None
  | None => None
  end.

(** ** Round trip *)

(** The size that bounds the fuel the reader needs. *)
(** The text after a number does not continue it. *)
Definition no_digit (s : string) : Prop :=
  match s with String c _ => digit c = None | "" => True end.

Fixpoint jsize (j : json) : nat :=
  match j with
  | JList l => S (list_sum (map (fun e => S (jsize e)) l))
  | JDict kvs => S (list_sum (map (fun '(_, v) => S (jsize v)) kvs))
  | _ => 1
  end.

(** The first character of a printed value: no whitespace, no closing
    bracket, no comma. *)
Definition head_ok (s : string) : Prop :=
  skip_ws s = s /\ is_char "]"%char s = None /\ is_char "}"%char s = None /\
  is_char ","%char s = None.

(** Each escape reads back as its character. *)
Lemma parse_chars_escape_char c t :
  parse_chars (json_escape_char c ^ t) = cons_char c (parse_chars t).
Proof. destruct c as [[] [] [] [] [] [] [] []]; reflexivity. Qed.

(** A printed string reads back up to its closing quote. *)
Lemma parse_chars_json_str s rest :
  parse_chars (flat_map_str json_escape_char s ^ String QUOT rest) = Some (s, rest).
Proof.
  induction s as [|c s IH]; [reflexivity|].
  cbn [flat_map_str]. rewrite append_assoc, parse_chars_escape_char, IH. reflexivity.
Qed.


(** The digits of [str(n)] read back as [n]. *)
Lemma scan_digits_uint d acc rest : no_digit rest ->
  scan_digits acc (NilEmpty.string_of_uint d ^ rest) = (Nat.of_uint_acc d acc, rest).
Proof.
  intros Hr. revert acc. induction d; intros acc;
    [destruct rest as [|c r]; simpl in *; [reflexivity|rewrite Hr; reflexivity]|..];
    cbn [NilEmpty.string_of_uint String.append scan_digits];
    lazymatch goal with |- context [digit ?c] =>
      let v := eval vm_compute in (digit c) in change (digit c) with v end;
    cbv iota beta; rewrite IHd; cbn [Nat.of_uint_acc]; rewrite ?Nat.tail_mul_spec; f_equal; f_equal; lia.
Qed.

Lemma parse_nat_uint d rest : d <> Decimal.Nil -> no_digit rest ->
  parse_nat (NilEmpty.string_of_uint d ^ rest) = Some (Nat.of_uint d, rest).
Proof.
  intros Hd Hr. destruct d; [congruence|..]; cbn [NilEmpty.string_of_uint String.append parse_nat];
    lazymatch goal with |- context [digit ?c] =>
      let v := eval vm_compute in (digit c) in change (digit c) with v end;
    cbv iota beta; rewrite scan_digits_uint by exact Hr; reflexivity.
Qed.

Lemma parse_int_str_of_nat n rest : no_digit rest ->
  parse_int (str_of_nat n ^ rest) = Some (Z.of_nat n, rest).
Proof.
  intros Hr. unfold parse_int, str_of_nat.
  pose proof (parse_nat_uint (Nat.to_uint n) rest (to_uint_not_nil n) Hr) as E.
  rewrite DecimalNat.Unsigned.of_to in E. pose proof (to_uint_not_nil n) as Hn.
  destruct (Nat.to_uint n); [congruence|..];
    cbn [NilEmpty.string_of_uint String.append] in *; rewrite E; reflexivity.
Qed.

Lemma parse_int_str_of_Z z rest : no_digit rest -> parse_int (str_of_Z z ^ rest) = Some (z, rest).
Proof.
  intros Hr. unfold str_of_Z. destruct (Z.ltb_spec z 0).
  - cbn [String.append parse_int]. cbv [str_of_nat]. 
    change (Ascii.eqb "-" "-") with true. cbv iota.
    pose proof (parse_nat_uint (Nat.to_uint (Z.to_nat (- z))) rest (to_uint_not_nil _) Hr) as E.
    rewrite DecimalNat.Unsigned.of_to in E. rewrite E. cbn. f_equal. f_equal. lia.
  - rewrite parse_int_str_of_nat by exact Hr. f_equal. f_equal. lia.
Qed.



Lemma str_of_Z_head z r : head_ok (str_of_Z z ^ r).
Proof.
  unfold str_of_Z, str_of_nat. destruct (z <? 0)%Z; [repeat split|].
  pose proof (to_uint_not_nil (Z.to_nat z)) as Hn.
  destruct (Nat.to_uint (Z.to_nat z)); [congruence|..]; repeat split.
Qed.

Lemma dumps_head j r : head_ok (json_dumps j ^ r).
Proof. destruct j as [| [] | z | s | l | kvs]; try apply str_of_Z_head; repeat split. Qed.

Lemma parse_value_ws n s : parse_value n (String " " s) = parse_value n s.
Proof. destruct n; reflexivity. Qed.

Lemma parse_items_ws n s : parse_items n (String " " s) = parse_items n s.
Proof. destruct n; [reflexivity|]. cbn [parse_items]. rewrite parse_value_ws. reflexivity. Qed.

Lemma parse_value_quote n t :
  parse_value (S n) (String QUOT t) = option_map (fun '(t', r') => (JStr t', r')) (parse_chars t).
Proof. reflexivity. Qed.

Lemma parse_value_list n t :
  parse_value (S n) ("[" ^ t) =
    match is_char "]"%char (skip_ws t) with
    | Some r' => Some (JList [], r')
    | None => option_map (fun '(l, r') => (JList l, r')) (parse_items n t)
    end.
Proof. reflexivity. Qed.

Lemma parse_value_dict n t :
  parse_value (S n) ("{" ^ t) =
    match is_char "}"%char (skip_ws t) with
    | Some r' => Some (JDict [], r')
    | None => option_map (fun '(kvs, r') => (JDict kvs, r')) (parse_members n t)
    end.
Proof. reflexivity. Qed.

Lemma join_cons2 (x y : string) r : join ", " (x :: y :: r) = x ^ ", " ^ join ", " (y :: r).
Proof. reflexivity. Qed.

Lemma join_head x xs t : exists u, join ", " (x :: xs) ^ t = x ^ u.
Proof.
  destruct xs as [|y xs]; [exists t; reflexivity|].
  exists (", " ^ join ", " (y :: xs) ^ t). rewrite join_cons2, !append_assoc. reflexivity.
Qed.

Lemma parse_members_ws n s : parse_members n (String " " s) = parse_members n s.
Proof. destruct n; reflexivity. Qed.

Lemma parse_value_number n c r : c = "-"%char \/ digit c <> None ->
  parse_value (S n) (String c r) = option_map (fun '(z, r') => (JInt z, r')) (parse_int (String c r)).
Proof.
  intros H. destruct c as [[] [] [] [] [] [] [] []]; cbn [digit] in H;
    try (exfalso; destruct H as [H|H]; [discriminate H|apply H; reflexivity]); reflexivity.
Qed.

Lemma str_of_Z_first z r : exists c t, str_of_Z z ^ r = String c t /\ (c = "-"%char \/ digit c <> None).
Proof.
  unfold str_of_Z, str_of_nat. destruct (z <? 0)%Z; [eexists _, _; split; [reflexivity|left; reflexivity]|].
  pose proof (to_uint_not_nil (Z.to_nat z)) as Hn.
  destruct (Nat.to_uint (Z.to_nat z)); [congruence|..];
    (eexists _, _; split; [reflexivity|right; discriminate]).
Qed.

Lemma is_char_skip c s : json_ws c = false -> is_char c (skip_ws (String c s)) = Some s.
Proof. intros H. unfold skip_ws. cbn [lstrip_by]. rewrite H. cbn. rewrite Ascii.eqb_refl. reflexivity. Qed.

(** A printed value reads back from any fuel above its size, whatever
    follows it, provided what follows does not extend a number. *)
Section Roundtrip.
Let RT (j : json) : Prop :=
  forall n rest, jsize j <= n -> no_digit rest -> parse_value n (json_dumps j ^ rest) = Some (j, rest).

Lemma parse_items_dumps l : Forall RT l -> l <> [] -> forall m rest,
  list_sum (map (fun e => S (jsize e)) l) <= m ->
  parse_items m (join ", " (map json_dumps l) ^ "]" ^ rest) = Some (l, rest).
Proof.
  induction 1 as [|e l He Hl IH]; intros Hne m rest Hm; [congruence|].
  destruct m as [|m]; [simpl in Hm; lia|]. simpl in Hm. cbn [parse_items map].
  destruct l as [|e2 l].
  - cbn [join String.concat]. rewrite He by (simpl; first [reflexivity | lia]). reflexivity.
  - cbn [map]. rewrite join_cons2, !append_assoc, He by (simpl; first [reflexivity | lia]).
    change (", " ^ ?x) with (String "," (String " " x)). rewrite is_char_skip by reflexivity.
    rewrite parse_items_ws.
    cbn [map] in IH. rewrite IH by (discriminate || (simpl in Hm |- *; lia)). reflexivity.
Qed.

Lemma json_str_app k x :
  json_str k ^ x = String QUOT (flat_map_str json_escape_char k ^ String QUOT x).
Proof. unfold json_str. cbn [String.append]. rewrite append_assoc. reflexivity. Qed.

Lemma json_str_head k t : head_ok (json_str k ^ t).
Proof. rewrite json_str_app. repeat split. Qed.

Lemma parse_members_dumps kvs : Forall (fun kv => RT (snd kv)) kvs -> kvs <> [] -> forall m rest,
  list_sum (map (fun '(_, v) => S (jsize v)) kvs) <= m ->
  parse_members m (join ", " (map (fun '(k, v) => json_str k ^ ": " ^ json_dumps v) kvs) ^ "}" ^ rest)
    = Some (kvs, rest).
Proof.
  induction 1 as [|[k v] kvs Hv Hl IH]; intros Hne m rest Hm; [congruence|].
  destruct m as [|m]; [simpl in Hm; lia|]. simpl in Hm. cbn [parse_members map]. cbn [snd] in Hv.
  destruct kvs as [|kv2 kvs].
  - cbn [map join String.concat]. rewrite !append_assoc, json_str_app, is_char_skip by reflexivity.
    rewrite parse_chars_json_str. change (": " ^ ?x) with (String ":" (String " " x)).
    rewrite is_char_skip, parse_value_ws, Hv by (simpl; first [reflexivity | lia]). reflexivity.
  - cbn [map]. rewrite join_cons2, !append_assoc, json_str_app, is_char_skip by reflexivity.
    rewrite parse_chars_json_str. change (": " ^ ?x) with (String ":" (String " " x)).
    rewrite is_char_skip, parse_value_ws, Hv by (simpl; first [reflexivity | lia]).
    change (", " ^ ?x) with (String "," (String " " x)). rewrite is_char_skip by reflexivity.
    rewrite parse_members_ws. cbn [map] in IH.
    rewrite IH by (discriminate || (simpl in Hm |- *; lia)). reflexivity.
Qed.

Lemma parse_value_dumps j : RT j.
Proof.
  induction j as [| b | z | s | l Hl | kvs Hkvs] using json_ind; intros n rest Hn Hr;
    (destruct n as [|n]; [simpl in Hn; lia|]); cbn [json_dumps].
  - reflexivity.
  - destruct b; reflexivity.
  - destruct (str_of_Z_first z rest) as (c & t & E & Hc).
    rewrite E, parse_value_number by exact Hc. rewrite <- E, parse_int_str_of_Z by exact Hr.
    reflexivity.
  - rewrite json_str_app, parse_value_quote, parse_chars_json_str. reflexivity.
  - rewrite !append_assoc, parse_value_list. destruct l as [|e l']; [reflexivity|].
    destruct (join_head (json_dumps e) (map json_dumps l') ("]" ^ rest)) as [Y HY].
    destruct (dumps_head e Y) as (Hs & Hb & _). cbn [map] in *. rewrite HY, Hs, Hb, <- HY.
    change (json_dumps e :: map json_dumps l') with (map json_dumps (e :: l')).
    rewrite parse_items_dumps by (assumption || discriminate || (simpl in Hn |- *; lia)). reflexivity.
  - rewrite !append_assoc, parse_value_dict. destruct kvs as [|[k v] kvs']; [reflexivity|].
    destruct (join_head (json_str k ^ ": " ^ json_dumps v)
                (map (fun '(k0, v0) => json_str k0 ^ ": " ^ json_dumps v0) kvs') ("}" ^ rest))
      as [Y HY].
    assert (Hh : head_ok ((json_str k ^ ": " ^ json_dumps v) ^ Y))
      by (rewrite !append_assoc; apply json_str_head).
    destruct Hh as (Hs & _ & Hb & _). cbn [map] in *. rewrite HY, Hs, Hb, <- HY.
    change (?x :: map ?f kvs') with (map f ((k, v) :: kvs')).
    rewrite parse_members_dumps by (assumption || discriminate || (simpl in Hn |- *; lia)).
    reflexivity.
Qed.
End Roundtrip.

Lemma join_length_ge xs :
  list_sum (map (fun x => S (String.length x)) xs) <= S (String.length (join ", " xs)).
Proof.
  induction xs as [|x [|y xs] IH]; [simpl; lia|simpl; lia|].
  rewrite join_cons2, !length_append. change (String.length ", ") with 2. cbn [list_sum fold_right map] in *. lia.
Qed.

Lemma str_of_Z_length z : 1 <= String.length (str_of_Z z).
Proof.
  destruct (str_of_Z_first z "") as (c & t & E & _). rewrite append_empty_r in E. rewrite E. simpl. lia.
Qed.

(** The text is longer than the size, so its length is enough fuel. *)
Lemma jsize_le j : jsize j <= String.length (json_dumps j).
Proof.
  induction j as [| b | z | s | l Hl | kvs Hkvs] using json_ind; cbn [jsize json_dumps].
  - simpl; lia.
  - destruct b; simpl; lia.
  - apply str_of_Z_length.
  - unfold json_str. simpl. lia.
  - rewrite !length_append. change (String.length "[") with 1. change (String.length "]") with 1.
    pose proof (join_length_ge (map json_dumps l)) as J. rewrite map_map in J.
    enough (list_sum (map (fun e => S (jsize e)) l) <=
            list_sum (map (fun x => S (String.length (json_dumps x))) l)) by lia.
    apply list_sum_map_le. eapply Forall_impl; [|exact Hl]. simpl. lia.
  - rewrite !length_append. change (String.length "{") with 1. change (String.length "}") with 1.
    pose proof (join_length_ge (map (fun '(k, v) => json_str k ^ ": " ^ json_dumps v) kvs)) as J.
    rewrite map_map in J. cbv beta in J.
    enough (list_sum (map (fun '(_, v) => S (jsize v)) kvs) <=
            list_sum (map (fun x => S (String.length (let '(k, v) := x in json_str k ^ ": " ^ json_dumps v))) kvs)) by lia.
    apply list_sum_map_le. eapply Forall_impl; [|exact Hkvs]. intros [k v] H. cbn [snd] in H.
    rewrite !length_append. unfold json_str. simpl. lia.
Qed.

(** The reader inverts the printer. *)
Lemma json_roundtrip j : json_loads (json_dumps j) = Some j.
Proof.
  unfold json_loads. rewrite <- (append_empty_r (json_dumps j)) at 2.
  rewrite parse_value_dumps by (exact I || apply jsize_le). reflexivity.
Qed.

(** Round trip: the server's reader gives back every value [json.dumps]
    prints, so the body of a request carries exactly its payload. *)
Theorem json_loads_dumps j : json_loads (json_dumps j) = Some j.
Proof. apply json_roundtrip. Qed.

(** ** Checks against Python *)

(** A string with every double quote written as an apostrophe. *)
Definition dq (s : string) : string := str_map (fun c => if Ascii.eqb c "'"%char then QUOT else c) s.

(** [json.dumps({"a": [1, -2, {"b": None, "c": True}], "d": {}, "e": []})]. *)
Example json_dumps_sample :
  json_dumps (JDict [("a", JList [JInt 1; JInt (-2); JDict [("b", JNull); ("c", JBool true)]]);
                     ("d", JDict []); ("e", JList [])]) =
    dq "{'a': [1, -2, {'b': null, 'c': true}], 'd': {}, 'e': []}".
Proof. reflexivity. Qed.

(** [json.dumps] of the characters 127, 233 and 1, the double quote, the
    backslash, line feed, tab, backspace, form feed and the slash. *)
Example json_escape_sample :
  json_dumps (JStr (String (ascii_of_nat 127) (String (ascii_of_nat 233) (String (ascii_of_nat 1)
    (String QUOT (String BSL (String (ascii_of_nat 10) (String (ascii_of_nat 9)
    (String (ascii_of_nat 8) (String (ascii_of_nat 12) "/")))))))))) =
    dq "'\u007f\u00e9\u0001\'\\\n\t\b\f/'".
Proof. reflexivity. Qed.
