(* ===== verification/Render.v ===== *)
(** * The two Mermaid renderers

    [render_mermaid_svg_local] (lines 153-172 of
    [src/skills/confluence-publisher/scripts/confluence_publish.py]) runs
    [mmdc] on the diagram inside a [tempfile.TemporaryDirectory];
    [render_mermaid_svg] (51-60) fetches the image from mermaid.ink.

    The file system is explicit state: files keyed by their directory and
    base name, and the set of directories.  What the operating system
    decides is an input ([os_env]): where [shutil.which] finds [mmdc], the
    names [tempfile] draws, whether writing the diagram succeeds and what
    [mmdc] does with a diagram (exit status and the image it writes, or a
    timeout).  An exception of the body is a [Raise] result; the [with]
    statement removes the directory on every path, and [except Exception]
    turns [Raise] into [None].

    The theorems: on a well-formed file system the renderer leaves the
    file system exactly as it found it (the temporary directory and both
    files are gone on every path, exceptions included); its result is the
    image [mmdc] wrote exactly when [mmdc] exists, a directory could be
    made, the diagram was written and [mmdc] exited 0, and [None]
    otherwise.  With the URL of [Encoding], these make the [renderers]
    record of [Diagram]: a pure function of the diagram per file-system
    state. *)

From Stdlib Require Import String Ascii List Bool Arith ZArith Lia.
From S2P Require Import Prelude PyStr Regex Inline Diagram Encoding.
Import ListNotations.
Local Open Scope string_scope.
Local Open Scope py_scope.

(** ** The file system *)

Definition path : Type := string * string.

Definition path_eqb (p q : path) : bool := String.eqb (fst p) (fst q) && String.eqb (snd p) (snd q).

Record fs := {
  fs_files : list (path * string);
  fs_dirs : list string
}.

Definition dir_exists (d : string) (s : fs) : bool := existsb (String.eqb d) (fs_dirs s).

(** Every file lies in a directory that exists. *)
Definition fs_wf (s : fs) : bool := forallb (fun e => dir_exists (fst (fst e)) s) (fs_files s).

Definition lookup_file (p : path) (s : fs) : option string :=
  match find (fun e => path_eqb (fst e) p) (fs_files s) with
  | Some (_, v) => Some v
  | None => None
  end.

(** [Path.exists()] on a file. *)
Definition file_exists (p : path) (s : fs) : bool :=
  match lookup_file p s with Some _ => true | None => false end.

(** Writing a file replaces its content; its directory must exist. *)
Definition put_file (p : path) (v : string) (s : fs) : fs :=
  {| fs_files := (p, v) :: filter (fun e => negb (path_eqb (fst e) p)) (fs_files s);
     fs_dirs := fs_dirs s |}.

(** [shutil.rmtree(d)]: the directory and everything in it. *)
Definition rmtree (d : string) (s : fs) : fs :=
  {| fs_files := filter (fun e => negb (String.eqb (fst (fst e)) d)) (fs_files s);
     fs_dirs := filter (fun x => negb (String.eqb x d)) (fs_dirs s) |}.

(** ** What the operating system decides *)

(** [subprocess.run(..., timeout=45)]: [TimeoutExpired] is raised, or the
    exit status with the image [mmdc] wrote to its output path, if any. *)
Inductive mmdc_run := Timeout | Exited (code : Z) (svg : option string).

Record os_env := {
  which_mmdc : option string;
  tmp_names : list string;
  write_ok : bool;
  mmdc_on : string -> mmdc_run
}.

(** The outcome of a [try] body: a value, or an exception. *)
Inductive res (A : Type) := Ret (a : A) | Raise.
Arguments Ret {A} a.
Arguments Raise {A}.

(** ** [render_mermaid_svg_local] *)

Section Local.
Variable E : os_env.

(** [tempfile.mkdtemp]: the first drawn name that is not taken, created;
    [FileExistsError] when all are taken. *)
Definition mkdtemp (s : fs) : option (string * fs) :=
  match find (fun n => negb (dir_exists n s)) (tmp_names E) with
  | Some td => Some (td, {| fs_files := fs_files s; fs_dirs := td :: fs_dirs s |})
  | None => None
  end.

(** [with tempfile.TemporaryDirectory(...) as td: body]: the directory is
    removed when the body returns and when it raises. *)
Definition with_tempdir {A} (body : string -> fs -> res A * fs) (s : fs) : res A * fs :=
  match mkdtemp s with
  | None => (Raise, s)
  | Some (td, s1) => let '(r, s2) := body td s1 in (r, rmtree td s2)
  end.

(** [in_path.write_text(mermaid_source, encoding="utf-8")]. *)
Definition write_text (p : path) (v : string) (s : fs) : option fs :=
  if write_ok E && dir_exists (fst p) s then Some (put_file p v s) else None.

Definition mmdc_body (src td : string) (s : fs) : res (option string) * fs :=
  let in_path := (td, "diagram.mmd") in
  let out_path := (td, "diagram.svg") in
  match write_text in_path src s with
  | None => (Raise, s)
  | Some s1 =>
      match mmdc_on E (match lookup_file in_path s1 with Some v => v | None => "" end) with
      | Timeout => (Raise, s1)
      | Exited code out =>
          let s2 := match out with Some svg => put_file out_path svg s1 | None => s1 end in
          if negb (Z.eqb code 0) || negb (file_exists out_path s2) then (Ret None, s2)
          else match lookup_file out_path s2 with
               | Some b => (Ret (Some b), s2)
               | None => (Raise, s2)
               end
      end
  end.

Definition render_mermaid_svg_local (src : string) (s : fs) : option string * fs :=
  match which_mmdc E with
  | None => (None, s)
  | Some _ =>
      match with_tempdir (mmdc_body src) s with
      | (Ret r, s') => (r, s')
      | (Raise, s') => (None, s')
      end
  end.

End Local.

(** ** [render_mermaid_svg]: the fetch of the mermaid.ink URL

    [http_get url] is the decoded response text, [None] when [urlopen]
    raises. *)
Definition fetch_mermaid_ink (http_get : string -> option string) (src : string) : option string :=
  http_get (mermaid_ink_url src).

(** The renderers of [Diagram] on a file-system state. *)
Definition os_renderers (E : os_env) (s : fs) (http_get : string -> option string) : renderers :=
  {| render_local := fun src => fst (render_mermaid_svg_local E src s);
     fetch_remote := fetch_mermaid_ink http_get |}.

(** ** The file system after the renderer *)

Lemma path_eqb_refl p : path_eqb p p = true.
Proof. destruct p. unfold path_eqb. simpl. rewrite !String.eqb_refl. reflexivity. Qed.

Lemma path_eqb_dir p q : path_eqb p q = true -> fst p = fst q.
Proof. unfold path_eqb. rewrite andb_true_iff, !String.eqb_eq. tauto. Qed.

(** Writing a file of [td] does not survive [rmtree td]. *)
Lemma rmtree_put td n v s : rmtree td (put_file (td, n) v s) = rmtree td s.
Proof.
  unfold rmtree, put_file. simpl. rewrite String.eqb_refl. simpl. f_equal.
  apply filterb_filterb. intros [[d m] w] E. simpl.
  destruct (String.eqb_spec d td) as [->|]; [reflexivity|].
  unfold path_eqb in E. simpl in E. apply String.eqb_neq in n0. rewrite n0 in E. discriminate.
Qed.

(** Removing a fresh directory gives back the file system it was made in. *)
Lemma fs_wf_in s p v : fs_wf s = true -> In (p, v) (fs_files s) -> dir_exists (fst p) s = true.
Proof. intros Hwf Hin. unfold fs_wf in Hwf. rewrite forallb_forall in Hwf. exact (Hwf _ Hin). Qed.

Lemma dir_exists_in d s : In d (fs_dirs s) -> dir_exists d s = true.
Proof. intros Hin. apply existsb_exists. exists d. split; [exact Hin|apply String.eqb_refl]. Qed.

Lemma rmtree_fresh td s :
  fs_wf s = true -> dir_exists td s = false ->
  rmtree td {| fs_files := fs_files s; fs_dirs := td :: fs_dirs s |} = s.
Proof.
  intros Hwf Hd. unfold rmtree. simpl. rewrite String.eqb_refl. simpl.
  destruct s as [files dirs]. f_equal.
  - apply filterb_all. intros [[d m] w] Hin. simpl. apply negb_true_iff, String.eqb_neq.
    intros ->. pose proof (fs_wf_in _ _ _ Hwf Hin). simpl in *. congruence.
  - apply filterb_all. intros x Hin. apply negb_true_iff, String.eqb_neq. intros ->.
    pose proof (dir_exists_in td {| fs_files := files; fs_dirs := dirs |} Hin). congruence.
Qed.

(** Whatever the body does inside [td], [rmtree td] undoes it. *)
Lemma mmdc_body_rmtree E src td s :
  rmtree td (snd (mmdc_body E src td s)) = rmtree td s.
Proof.
  unfold mmdc_body, write_text. cbn [fst].
  destruct (write_ok E && dir_exists td s); [|reflexivity].
  destruct (mmdc_on E _) as [|code [svg|]]; simpl;
    repeat case_if; cbn [snd]; rewrite ?rmtree_put; reflexivity.
Qed.

Lemma mkdtemp_fresh E s td s1 :
  mkdtemp E s = Some (td, s1) ->
  dir_exists td s = false /\ s1 = {| fs_files := fs_files s; fs_dirs := td :: fs_dirs s |}.
Proof.
  unfold mkdtemp. destruct (find _ _) eqn:F; [|discriminate]. intros H. inversion H; subst.
  apply find_some in F as [_ F]. split; [apply negb_true_iff, F|reflexivity].
Qed.

Lemma path_eqb_eq p q : path_eqb p q = true <-> p = q.
Proof.
  destruct p as [a b], q as [c d]. unfold path_eqb. simpl.
  rewrite andb_true_iff, !String.eqb_eq. split; [intros [-> ->]; reflexivity|intros E; inversion E; auto].
Qed.

Lemma lookup_put_same p v s : lookup_file p (put_file p v s) = Some v.
Proof. unfold lookup_file, put_file. simpl. rewrite path_eqb_refl. reflexivity. Qed.

Lemma lookup_put_other p q v s :
  p <> q -> lookup_file q (put_file p v s) = lookup_file q s.
Proof.
  intros Hpq. unfold lookup_file, put_file. simpl.
  destruct (path_eqb p q) eqn:E; [apply path_eqb_eq in E; contradiction|].
  induction (fs_files s) as [|[p' v'] l IH]; [reflexivity|]. simpl.
  destruct (path_eqb p' p) eqn:E1; simpl; [|destruct (path_eqb p' q); [reflexivity|exact IH]].
  apply path_eqb_eq in E1. subst p'. rewrite E. exact IH.
Qed.

(** No file lies in a directory that does not exist. *)
Lemma lookup_fresh p s : fs_wf s = true -> dir_exists (fst p) s = false -> lookup_file p s = None.
Proof.
  intros Hwf Hd. unfold lookup_file. destruct (find _ _) as [[q v]|] eqn:F; [|reflexivity].
  apply find_some in F as [Hin Hq]. apply path_eqb_eq in Hq. simpl in Hq. subst q.
  pose proof (fs_wf_in _ _ _ Hwf Hin). congruence.
Qed.

Lemma dir_exists_mkdtemp td s : dir_exists td {| fs_files := fs_files s; fs_dirs := td :: fs_dirs s |} = true.
Proof. unfold dir_exists. simpl. rewrite String.eqb_refl. reflexivity. Qed.

(** ** The renderer's result *)

(** What the renderer answers, read off the operating system: the image
    when [mmdc] is found, a temporary name is free, the diagram is written
    and [mmdc] exits 0 having written its output; [None] otherwise. *)
Definition local_result (E : os_env) (src : string) (s : fs) : option string :=
  match which_mmdc E, find (fun n => negb (dir_exists n s)) (tmp_names E) with
  | Some _, Some _ =>
      if write_ok E then
        match mmdc_on E src with Exited Z0 (Some svg) => Some svg | _ => None end
      else None
  | _, _ => None
  end.

(** C11: Invariant: on a file system where every file lies in an existing
    directory, [render_mermaid_svg_local] leaves the file system exactly as
    it found it, on every path: [mmdc] missing, no free temporary name, the
    write failing, a timeout, a non-zero exit, a missing output, or the
    image returned. *)
Theorem render_local_restores E src s : fs_wf s = true -> snd (render_mermaid_svg_local E src s) = s.
Proof.
  intros Hwf. unfold render_mermaid_svg_local, with_tempdir.
  destruct (which_mmdc E); [|reflexivity].
  destruct (mkdtemp E s) as [[td s1]|] eqn:M; [|reflexivity].
  apply mkdtemp_fresh in M as [Hf ->].
  pose proof (mmdc_body_rmtree E src td {| fs_files := fs_files s; fs_dirs := td :: fs_dirs s |}) as R.
  destruct (mmdc_body E src td _) as [r s2]. simpl in R.
  destruct r; simpl; rewrite R; apply rmtree_fresh; assumption.
Qed.

(** C12: Functional: the result of [render_mermaid_svg_local] is
    [local_result]: the image [mmdc] wrote when everything succeeds, and
    [None] on each failure, the exceptions of the write and of the timeout
    included. *)
Theorem render_local_result E src s : fs_wf s = true -> fst (render_mermaid_svg_local E src s) = local_result E src s.
Proof.
  intros Hwf. unfold render_mermaid_svg_local, local_result, with_tempdir.
  destruct (which_mmdc E); [|reflexivity].
  unfold mkdtemp. destruct (find _ (tmp_names E)) as [td|] eqn:F; [|reflexivity].
  apply find_some in F as [_ Hf]. apply negb_true_iff in Hf.
  unfold mmdc_body, write_text. cbn [fst]. rewrite dir_exists_mkdtemp, andb_true_r.
  destruct (write_ok E); [|reflexivity]. rewrite lookup_put_same.
  destruct (mmdc_on E src) as [|code out]; [reflexivity|].
  destruct (Z.eqb_spec code 0) as [->|Hc]; [|destruct code; try contradiction; reflexivity].
  destruct out as [svg|]; cbn -[lookup_file].
  - unfold file_exists. rewrite lookup_put_same. reflexivity.
  - unfold file_exists. rewrite lookup_put_other by discriminate.
    change (lookup_file _ {| fs_files := fs_files s; fs_dirs := _ |})
      with (lookup_file (td, "diagram.svg") s).
    rewrite lookup_fresh by assumption. reflexivity.
Qed.

(** ** Checks *)

(** Spec: the remote renderer's URL for a small diagram, as CPython
    computes it. *)
Example mermaid_ink_url_sample :
  mermaid_ink_url "graph TD; A-->B" = "https://mermaid.ink/svg/Z3JhcGggVEQ7IEEtLT5C".
Proof. vm_compute. reflexivity. Qed.

Definition sample_fs : fs :=
  {| fs_files := [(("/home/u", "doc.md"), "# T")];
     fs_dirs := ["/home/u"; "/tmp/codex-mermaid-a1"] |}.

(** [mmdc] is found; the first drawn name is taken, the second is free. *)
Definition sample_env (run : mmdc_run) : os_env :=
  {| which_mmdc := Some "/usr/bin/mmdc";
     tmp_names := ["/tmp/codex-mermaid-a1"; "/tmp/codex-mermaid-b2"];
     write_ok := true;
     mmdc_on := fun _ => run |}.

Example render_local_timeout :
  render_mermaid_svg_local (sample_env Timeout) "graph TD" sample_fs = (None, sample_fs).
Proof. vm_compute. reflexivity. Qed.

Example render_local_nonzero_with_output :
  fst (render_mermaid_svg_local (sample_env (Exited 1 (Some "<svg/>"))) "graph TD" sample_fs) = None.
Proof. vm_compute. reflexivity. Qed.

Lemma render_local_restores_witness :
  fs_wf sample_fs = true /\
  snd (render_mermaid_svg_local (sample_env (Exited 0 (Some "<svg/>"))) "graph TD" sample_fs) = sample_fs.
Proof. split; [reflexivity|]. apply render_local_restores. reflexivity. Defined.

Lemma render_local_result_witness :
  fs_wf sample_fs = true /\
  fst (render_mermaid_svg_local (sample_env (Exited 0 (Some "<svg/>"))) "graph TD" sample_fs) =
    local_result (sample_env (Exited 0 (Some "<svg/>"))) "graph TD" sample_fs /\
  local_result (sample_env (Exited 0 (Some "<svg/>"))) "graph TD" sample_fs = Some "<svg/>".
Proof.
  split; [reflexivity|]. split; [apply render_local_result; reflexivity|vm_compute; reflexivity].
Defined.
