(* ===== verification/Converter.v ===== *)
(** * The fallback converter [simple_markdown_to_html]

    The line-cursor state machine of
    [src/skills/confluence-publisher/scripts/confluence_publish.py], lines
    175-403, and its dispatcher [markdown_to_html] (406-455).

    - [conv_state] holds the locals of the Python function: [parts],
      [in_ul], [in_code_block], [code_lang], [code_lines],
      [mermaid_image_count], and the caller's list [mermaid_image_plans].
      The caller's list is [None] when the caller passes none.  The function
      appends to the caller's list, so the final list is returned to the
      caller.
    - [close_list], [emit_fenced_block], [open_code] and [close_code] are
      the nested helpers and the fence branch.
    - [step] is one iteration of the [while i < len(lines)] loop.  It
      returns the lines not yet consumed: one line, or a whole table.
    - [convert_loop] runs [step] with fuel; [simple_markdown_to_html] gives
      it [len(lines)], which is enough ([convert_loop_fuel]).
    - [finish] is the code after the loop: it closes the list, flushes an
      unterminated fence and joins the parts.
    - [fenced_blocks] reads the fences of a text the way the spec
      describes them, independently of the loop; [run_lines_plans] shows
      that the plans the converter appends are exactly its Mermaid blocks
      in attachment mode, and none otherwise.
    - [external_renderers]: a pandoc that raises is not distinguished from
      one that fails (see the root header). *)

From Stdlib Require Import String Ascii List Bool Arith ZArith Lia.
From S2P Require Import Prelude PyStr Regex Inline Table Diagram.
Import ListNotations.
Local Open Scope string_scope.
Local Open Scope py_scope.

(** The keyword arguments of [simple_markdown_to_html]. *)
Record conv_cfg := {
  mermaid_mode : string;
  mermaid_image_prefix : option string;
  mermaid_image_width : Z
}.

Record conv_state := {
  parts : list string;
  in_ul : bool;
  in_code_block : bool;
  code_lang : string;
  code_lines : list string;
  mermaid_image_count : nat;
  mermaid_image_plans : option (list MermaidImagePlan)
}.

Definition init_state (plans : option (list MermaidImagePlan)) : conv_state :=
  {| parts := []; in_ul := false; in_code_block := false; code_lang := "";
     code_lines := []; mermaid_image_count := 0; mermaid_image_plans := plans |}.

(** [parts.append(p)]. *)
Definition emit (p : string) (st : conv_state) : conv_state :=
  {| parts := (parts st ++ [p])%list; in_ul := in_ul st; in_code_block := in_code_block st;
     code_lang := code_lang st; code_lines := code_lines st;
     mermaid_image_count := mermaid_image_count st;
     mermaid_image_plans := mermaid_image_plans st |}.

Definition set_in_ul (b : bool) (st : conv_state) : conv_state :=
  {| parts := parts st; in_ul := b; in_code_block := in_code_block st;
     code_lang := code_lang st; code_lines := code_lines st;
     mermaid_image_count := mermaid_image_count st;
     mermaid_image_plans := mermaid_image_plans st |}.

(** [close_list()]. *)
Definition close_list (st : conv_state) : conv_state :=
  if in_ul st then set_in_ul false (emit "</ul>" st) else st.

(** ** Fenced blocks *)

Definition is_mermaid_lang (lang_norm : string) : bool :=
  String.eqb lang_norm "mermaid" || String.eqb lang_norm "mmd".

(** [mermaid_image_prefix or "Codex Diagram"]. *)
Definition image_prefix (cfg : conv_cfg) : string :=
  match mermaid_image_prefix cfg with
  | Some p => if String.eqb p "" then "Codex Diagram" else p
  | None => "Codex Diagram"
  end.

(** [emit_fenced_block(lang, code_text)]: the markup, and the state with the
    counter and the caller's plan list updated in attachment mode. *)
Definition emit_fenced_block (cfg : conv_cfg) (st : conv_state) (lang code_text : string)
  : string * conv_state :=
  let lang_norm := lower (strip lang) in
  if String.eqb (mermaid_mode cfg) "macro" && is_mermaid_lang lang_norm then
    (emit_mermaid_macro code_text, st)
  else if String.eqb (mermaid_mode cfg) "attachment" && is_mermaid_lang lang_norm then
    let count := S (mermaid_image_count st) in
    let fname := build_mermaid_image_name (image_prefix cfg) count in
    let plans := match mermaid_image_plans st with
                 | Some l => Some (l ++ [{| filename := fname; mermaid_source := code_text |}])%list
                 | None => None
                 end in
    (emit_mermaid_image_macro fname (mermaid_image_width cfg),
     {| parts := parts st; in_ul := in_ul st; in_code_block := in_code_block st;
        code_lang := code_lang st; code_lines := code_lines st;
        mermaid_image_count := count; mermaid_image_plans := plans |})
  else (emit_code_macro lang code_text, st).

(** An opening fence: [in_code_block = True; code_lang = ...; code_lines = []]. *)
Definition open_code (lang : string) (st : conv_state) : conv_state :=
  {| parts := parts st; in_ul := in_ul st; in_code_block := true;
     code_lang := lang; code_lines := [];
     mermaid_image_count := mermaid_image_count st;
     mermaid_image_plans := mermaid_image_plans st |}.

(** [code_lines.append(raw_line)]. *)
Definition add_code_line (raw_line : string) (st : conv_state) : conv_state :=
  {| parts := parts st; in_ul := in_ul st; in_code_block := in_code_block st;
     code_lang := code_lang st; code_lines := (code_lines st ++ [raw_line])%list;
     mermaid_image_count := mermaid_image_count st;
     mermaid_image_plans := mermaid_image_plans st |}.

(** A closing fence: emit the block and reset the code-block locals. *)
Definition close_code (cfg : conv_cfg) (st : conv_state) : conv_state :=
  let '(html, st') := emit_fenced_block cfg st (code_lang st) (join nl (code_lines st)) in
  {| parts := (parts st' ++ [html])%list; in_ul := in_ul st'; in_code_block := false;
     code_lang := ""; code_lines := [];
     mermaid_image_count := mermaid_image_count st';
     mermaid_image_plans := mermaid_image_plans st' |}.

(** ** Line patterns *)

(** The fence pattern of line 343 (three backticks, then any text as group
    1): the text after the backticks.  A stripped line of [splitlines] has
    no [\n] ([splitlines_no_break]), so the group is the rest of the line. *)
Definition fence_match (stripped : string) : option string :=
  if startswith stripped "```" then Some (str_drop 3 stripped) else None.

(** The heading pattern of line 378 (one to six [#], whitespace, the rest as
    group 2): the level and [group(2).strip()].  The run of [#] must have 1
    to 6 characters and be followed by whitespace; a seventh [#] makes the
    match fail, since [\s] never matches [#]. *)
Definition heading_match (stripped : string) : option (nat * string) :=
  let k := count_leading "#" stripped in
  match str_drop k stripped with
  | String d _ =>
      if Nat.leb 1 k && Nat.leb k 6 && isspace d
      then Some (k, strip (str_drop k stripped)) else None
  | "" => None
  end.

(** The bullet pattern of line 387 ([-] or [*], whitespace, the rest as
    group 1): [group(1).strip()]. *)
Definition bullet_match (stripped : string) : option string :=
  match stripped with
  | String c (String d r) =>
      if (Ascii.eqb c "-" || Ascii.eqb c "*") && isspace d
      then Some (strip (String d r)) else None
  | _ => None
  end.

(** ** One iteration of the loop *)

(** A heading, a bullet or a paragraph. *)
Definition text_line (st : conv_state) (stripped : string) : conv_state :=
  match heading_match stripped with
  | Some (level, content) =>
      let lv := str_of_nat level in
      emit ("<h" ^ lv ^ ">" ^ render_inline content ^ "</h" ^ lv ^ ">") (close_list st)
  | None =>
      match bullet_match stripped with
      | Some content =>
          let st := if in_ul st then st else set_in_ul true (emit "<ul>" st) in
          emit ("<li>" ^ render_inline content ^ "</li>") st
      | None => emit ("<p>" ^ render_inline stripped ^ "</p>") (close_list st)
      end
  end.

Fixpoint take_while {A} (p : A -> bool) (l : list A) : list A :=
  match l with x :: l' => if p x then x :: take_while p l' else [] | [] => [] end.

Fixpoint drop_while {A} (p : A -> bool) (l : list A) : list A :=
  match l with x :: l' => if p x then drop_while p l' else l | [] => [] end.

(** The body of [while i < len(lines)] for [lines[i] = raw_line] and
    [lines[i+1:] = rest]; the second component is [lines[i':]] for the new
    index [i']. *)
Definition step (cfg : conv_cfg) (st : conv_state) (raw_line : string) (rest : list string)
  : conv_state * list string :=
  let line := rstrip raw_line in
  let stripped := strip line in
  match fence_match stripped with
  | Some lang =>
      let st := close_list st in
      if negb (in_code_block st) then (open_code (strip lang) st, rest)
      else (close_code cfg st, rest)
  | None =>
      if in_code_block st then (add_code_line raw_line st, rest)
      else if String.eqb stripped "" then (close_list st, rest)
      else
        match rest with
        | next :: rest' =>
            if looks_like_table_header raw_line next then
              let rows := take_while looks_like_table_row rest' in
              (emit (render_markdown_table (raw_line :: next :: rows)) (close_list st),
               drop_while looks_like_table_row rest')
            else (text_line st stripped, rest)
        | [] => (text_line st stripped, rest)
        end
  end.

Fixpoint convert_loop (cfg : conv_cfg) (fuel : nat) (st : conv_state) (lines : list string)
  : conv_state :=
  match fuel with
  | 0 => st
  | S n =>
      match lines with
      | [] => st
      | l :: rest => let '(st', rest') := step cfg st l rest in convert_loop cfg n st' rest'
      end
  end.

(** After the loop: close the list and flush an unterminated block. *)
Definition finish_state (cfg : conv_cfg) (st : conv_state) : conv_state :=
  let st := close_list st in
  if in_code_block st then
    let '(html, st') := emit_fenced_block cfg st (code_lang st) (join nl (code_lines st)) in
    emit html st'
  else st.

(** [return "\n".join(parts) if parts else "<p></p>"]. *)
Definition render_parts (ps : list string) : string :=
  match ps with [] => "<p></p>" | _ => join nl ps end.

(** The result, with the caller's plan list. *)
Definition finish (cfg : conv_cfg) (st : conv_state) : string * option (list MermaidImagePlan) :=
  let st := finish_state cfg st in (render_parts (parts st), mermaid_image_plans st).

(** The loop over the lines, run with the fuel [len(lines)]. *)
Definition run_lines (cfg : conv_cfg) (plans : option (list MermaidImagePlan))
  (lines : list string) : conv_state :=
  finish_state cfg (convert_loop cfg (length lines) (init_state plans) lines).

Definition simple_markdown_to_html (cfg : conv_cfg) (plans : option (list MermaidImagePlan))
  (markdown_text : string) : string * option (list MermaidImagePlan) :=
  let lines := splitlines markdown_text in
  finish cfg (convert_loop cfg (length lines) (init_state plans) lines).

(** ** The dispatcher [markdown_to_html]

    [pandoc] and the [markdown] package are external; their outputs enter as
    [option string] ([None] when the tool is missing or fails; the
    [markdown] package's exceptions are caught by the code).  A
    [subprocess.run] that raises is not modelled. *)
Record external_renderers := {
  pandoc_output : string -> option string;
  markdown_lib_output : string -> option string
}.

Definition markdown_to_html (X : external_renderers) (mode : string)
  (prefix : option string) (width : Z) (plans : option (list MermaidImagePlan))
  (markdown_text : string) : string * option (list MermaidImagePlan) :=
  let mode := let m := strip (lower mode) in if String.eqb m "" then "code" else m in
  let cfg := {| mermaid_mode := mode; mermaid_image_prefix := prefix;
                mermaid_image_width := width |} in
  if String.eqb mode "macro" || String.eqb mode "attachment" then
    simple_markdown_to_html cfg plans markdown_text
  else
    match pandoc_output X markdown_text with
    | Some out => if negb (String.eqb (strip out) "") then (out, plans)
                  else match markdown_lib_output X markdown_text with
                       | Some r => if negb (String.eqb (strip r) "") then (r, plans)
                                   else simple_markdown_to_html cfg plans markdown_text
                       | None => simple_markdown_to_html cfg plans markdown_text
                       end
    | None => match markdown_lib_output X markdown_text with
              | Some r => if negb (String.eqb (strip r) "") then (r, plans)
                          else simple_markdown_to_html cfg plans markdown_text
              | None => simple_markdown_to_html cfg plans markdown_text
              end
    end.

(** ** The loop terminates within [len(lines)] iterations *)

Lemma length_drop_while {A} (p : A -> bool) l : length (drop_while p l) <= length l.
Proof. induction l as [|x l IH]; simpl; [lia|]. destruct (p x); simpl; lia. Qed.

(** Each iteration consumes at least the current line. *)
Lemma step_rest cfg st l rest : length (snd (step cfg st l rest)) <= length rest.
Proof.
  unfold step. destruct (fence_match _); [destruct (negb _); simpl; lia|].
  destruct (in_code_block st); [simpl; lia|].
  destruct (String.eqb _ ""); [simpl; lia|].
  destruct rest as [|next rest']; [simpl; lia|].
  destruct (looks_like_table_header l next); simpl; [|lia].
  pose proof (length_drop_while looks_like_table_row rest'). lia.
Qed.

(** C37: Termination of the [while] loop: the fuel [len(lines)] is enough, and
    any larger fuel gives the same state. *)
Theorem convert_loop_fuel cfg n st ls :
  length ls <= n -> convert_loop cfg n st ls = convert_loop cfg (length ls) st ls.
Proof.
  assert (H : forall n1 m st1 ls1, length ls1 <= n1 -> length ls1 <= m ->
              convert_loop cfg n1 st1 ls1 = convert_loop cfg m st1 ls1).
  { intros n1; induction n1 as [|n1 IH]; intros m st0 [|l rest] Hn Hm; simpl in *; try lia;
      destruct m as [|m]; try lia; try reflexivity.
    destruct (step cfg st0 l rest) as [st' rest'] eqn:E.
    pose proof (step_rest cfg st0 l rest) as Hr. rewrite E in Hr. simpl in Hr.
    cbn [convert_loop]. rewrite E. apply IH; lia. }
  intros Hn. apply H; lia.
Qed.

(** Invariants of the loop are proved one iteration at a time. *)
Lemma convert_loop_invariant (P : conv_state -> Prop) cfg :
  (forall st l rest, P st -> P (fst (step cfg st l rest))) ->
  forall n st ls, P st -> P (convert_loop cfg n st ls).
Proof.
  intros Hstep. induction n as [|n IH]; intros st [|l rest] H; simpl; auto.
  destruct (step cfg st l rest) as [st' rest'] eqn:E.
  apply IH. specialize (Hstep st l rest H). now rewrite E in Hstep.
Qed.

(** ** The parts: every list is closed *)

Definition is_ul_marker (p : string) : bool := String.eqb p "<ul>" || String.eqb p "</ul>".

Definition ul_markers (ps : list string) : list string := filter is_ul_marker ps.

(** [k] complete lists: [<ul>, </ul>, <ul>, </ul>, ...]. *)
Definition ul_pairs (k : nat) : list string := concat (repeat ["<ul>"; "</ul>"] k).

(** A part that is not a list marker: a tag whose second character is
    neither [u] nor [/]. *)
Definition part_ok (p : string) : Prop :=
  exists c r, p = String "<" (String c r) /\ c <> "u"%char /\ c <> "/"%char.

Definition conv_inv (st : conv_state) : Prop :=
  Forall (fun p => p = "<ul>" \/ p = "</ul>" \/ part_ok p) (parts st) /\
  exists k, ul_markers (parts st) = (ul_pairs k ++ if in_ul st then ["<ul>"] else [])%list.

Lemma ul_pairs_S k : ul_pairs (S k) = (ul_pairs k ++ ["<ul>"; "</ul>"])%list.
Proof.
  induction k as [|k IH]; [reflexivity|].
  change (ul_pairs (S (S k))) with (["<ul>"; "</ul>"] ++ ul_pairs (S k))%list.
  rewrite IH at 1. change (ul_pairs (S k)) with (["<ul>"; "</ul>"] ++ ul_pairs k)%list.
  now rewrite app_assoc.
Qed.

Lemma part_ok_not_marker p : part_ok p -> is_ul_marker p = false.
Proof.
  intros (c & r & -> & Hu & Hs). unfold is_ul_marker.
  apply orb_false_iff; split; apply String.eqb_neq; intros H; inversion H; congruence.
Qed.

Lemma part_ok_lit c r : c <> "u"%char -> c <> "/"%char -> part_ok (String "<" (String c r)).
Proof. intros; now exists c, r. Qed.

#[export] Hint Resolve part_ok_lit : pub.

Lemma conv_inv_emit st p : conv_inv st -> part_ok p -> conv_inv (emit p st).
Proof.
  intros [HF [k Hk]] Hp. split; simpl.
  - apply Forall_app; split; auto.
  - exists k. unfold ul_markers in *. rewrite filter_app, Hk. simpl.
    rewrite part_ok_not_marker by exact Hp. now rewrite app_nil_r.
Qed.

Lemma conv_inv_close_list st : conv_inv st -> conv_inv (close_list st) /\ in_ul (close_list st) = false.
Proof.
  intros [HF [k Hk]]. unfold close_list. destruct (in_ul st) eqn:E.
  - split; [|reflexivity]. split; cbn [parts emit set_in_ul].
    + apply Forall_app; auto.
    + exists (S k). cbn [in_ul set_in_ul emit]. unfold ul_markers in *.
      rewrite filter_app, Hk, ul_pairs_S. simpl. now rewrite <- !app_assoc.
  - split; [split; [exact HF|exists k; rewrite E; exact Hk]|exact E].
Qed.

Lemma conv_inv_frame st st' :
  parts st' = parts st -> in_ul st' = in_ul st -> conv_inv st -> conv_inv st'.
Proof. intros Hp Hu [HF [k Hk]]. split; [now rewrite Hp|]. exists k. now rewrite Hp, Hu. Qed.

Lemma emit_fenced_block_frame cfg st lang code :
  let st' := snd (emit_fenced_block cfg st lang code) in
  parts st' = parts st /\ in_ul st' = in_ul st /\ in_code_block st' = in_code_block st.
Proof.
  unfold emit_fenced_block.
  destruct (_ && _); [simpl; auto|]. destruct (_ && _); simpl; auto.
Qed.

Lemma emit_fenced_block_ok cfg st lang code : part_ok (fst (emit_fenced_block cfg st lang code)).
Proof.
  unfold emit_fenced_block.
  destruct (_ && _); [|destruct (_ && _)]; simpl; apply part_ok_lit; discriminate.
Qed.

Lemma render_markdown_table_ok ls : part_ok (render_markdown_table ls).
Proof. apply part_ok_lit; discriminate. Qed.

#[export] Hint Resolve emit_fenced_block_ok render_markdown_table_ok : pub.

Lemma close_code_inv cfg st : conv_inv st -> conv_inv (close_code cfg st).
Proof.
  intros H. unfold close_code.
  pose proof (emit_fenced_block_frame cfg st (code_lang st) (join nl (code_lines st))) as Hf.
  pose proof (emit_fenced_block_ok cfg st (code_lang st) (join nl (code_lines st))) as Hok.
  destruct (emit_fenced_block _ _ _ _) as [html st'] eqn:E. simpl in Hf, Hok.
  destruct Hf as (Hp & Hu & _).
  apply (conv_inv_frame (emit html st')); [reflexivity|reflexivity|].
  apply conv_inv_emit; [|exact Hok]. now apply (conv_inv_frame st).
Qed.

Lemma conv_inv_open_ul st : conv_inv st -> in_ul st = false -> conv_inv (set_in_ul true (emit "<ul>" st)).
Proof.
  intros [HF [k Hk]] Hu. split; cbn [parts set_in_ul emit].
  - apply Forall_app; auto.
  - exists k. cbn [in_ul]. unfold ul_markers in *. rewrite filter_app, Hk, Hu. simpl.
    now rewrite app_nil_r.
Qed.

Lemma conv_inv_text_line st s : conv_inv st -> conv_inv (text_line st s).
Proof.
  intros H. destruct (conv_inv_close_list st H) as [Hc _]. unfold text_line.
  destruct (heading_match s) as [[level content]|];
    [apply conv_inv_emit; [exact Hc|apply part_ok_lit; discriminate]|].
  destruct (bullet_match s) as [content|];
    [|apply conv_inv_emit; [exact Hc|apply part_ok_lit; discriminate]].
  apply conv_inv_emit; [|apply part_ok_lit; discriminate].
  destruct (in_ul st) eqn:E; [exact H|]. now apply conv_inv_open_ul.
Qed.

Lemma conv_inv_step cfg st l rest : conv_inv st -> conv_inv (fst (step cfg st l rest)).
Proof.
  intros H. destruct (conv_inv_close_list st H) as [Hc Hu]. unfold step.
  destruct (fence_match _) as [lang|].
  - destruct (negb _); simpl; [|now apply close_code_inv].
    now apply (conv_inv_frame (close_list st)).
  - destruct (in_code_block st); [simpl; now apply (conv_inv_frame st)|].
    destruct (String.eqb _ ""); [exact Hc|].
    destruct rest as [|next rest']; [now apply conv_inv_text_line|].
    destruct (looks_like_table_header l next); simpl; [|now apply conv_inv_text_line].
    apply conv_inv_emit; auto with pub.
Qed.

Lemma conv_inv_finish_state cfg st :
  conv_inv st -> conv_inv (finish_state cfg st) /\ in_ul (finish_state cfg st) = false.
Proof.
  intros H. destruct (conv_inv_close_list st H) as [Hc Hu]. unfold finish_state.
  destruct (in_code_block (close_list st)); [|auto].
  pose proof (emit_fenced_block_frame cfg (close_list st) (code_lang (close_list st))
                (join nl (code_lines (close_list st)))) as (Hp & Hu' & _).
  pose proof (emit_fenced_block_ok cfg (close_list st) (code_lang (close_list st))
                (join nl (code_lines (close_list st)))) as Hok.
  destruct (emit_fenced_block _ _ _ _) as [html st'] eqn:E. simpl in *.
  split; [|simpl; congruence].
  apply conv_inv_emit; [|exact Hok]. now apply (conv_inv_frame (close_list st)).
Qed.

Lemma conv_inv_run cfg plans ls :
  conv_inv (run_lines cfg plans ls) /\ in_ul (run_lines cfg plans ls) = false.
Proof.
  apply conv_inv_finish_state. apply convert_loop_invariant; [apply conv_inv_step|].
  split; [constructor|]. now exists 0.
Qed.

(** The converter's result is the rendering of the parts of [run_lines]. *)
Lemma simple_markdown_to_html_parts cfg plans text :
  fst (simple_markdown_to_html cfg plans text) =
  render_parts (parts (run_lines cfg plans (splitlines text))).
Proof. reflexivity. Qed.

(** ** Theorems *)

(** C6: A document never renders to an empty body: with no block at all the
    result is the single empty paragraph. *)
Theorem simple_markdown_to_html_nonempty cfg plans text :
  fst (simple_markdown_to_html cfg plans text) <> "".
Proof.
  rewrite simple_markdown_to_html_parts.
  destruct (conv_inv_run cfg plans (splitlines text)) as [[HF _] _].
  destruct (parts _) as [|p ps]; [discriminate|].
  inversion HF as [|? ? Hp _]; subst.
  assert (Hne : p <> "") by (destruct Hp as [->|[->|(c & r & -> & _)]]; discriminate).
  unfold render_parts, join. destruct ps; [exact Hne|].
  destruct p; [congruence|discriminate].
Qed.

(** C9: Every bullet list is closed: the list markers among the parts are
    [<ul>, </ul>] repeated, so no list is left open, and no [</ul>] comes
    without its [<ul>]. *)
Theorem run_lines_lists_closed cfg plans ls :
  exists k, ul_markers (parts (run_lines cfg plans ls)) = ul_pairs k.
Proof.
  destruct (conv_inv_run cfg plans ls) as [[_ [k Hk]] Hu].
  exists k. rewrite Hk, Hu. apply app_nil_r.
Qed.

(** ** Unterminated fences *)

Definition is_fence_line (l : string) : bool :=
  match fence_match (strip (rstrip l)) with Some _ => true | None => false end.

(** The markup of a fenced block depends on the state only through the
    image counter. *)
Lemma emit_fenced_block_fst cfg st st' lang code :
  mermaid_image_count st = mermaid_image_count st' ->
  fst (emit_fenced_block cfg st lang code) = fst (emit_fenced_block cfg st' lang code).
Proof.
  intros H. unfold emit_fenced_block. rewrite H.
  destruct (_ && _); [reflexivity|]. destruct (_ && _); reflexivity.
Qed.

(** Inside a block, lines without a fence are collected verbatim. *)
Lemma convert_loop_in_code cfg n st ls :
  in_code_block st = true -> forallb (fun l => negb (is_fence_line l)) ls = true ->
  length ls <= n ->
  convert_loop cfg n st ls =
  {| parts := parts st; in_ul := in_ul st; in_code_block := true;
     code_lang := code_lang st; code_lines := (code_lines st ++ ls)%list;
     mermaid_image_count := mermaid_image_count st;
     mermaid_image_plans := mermaid_image_plans st |}.
Proof.
  revert n st. induction ls as [|l ls IH]; intros [|n] st Hc Hf Hn; simpl in *; try lia.
  - destruct st; simpl in *; subst; now rewrite app_nil_r.
  - destruct st; simpl in *; subst; now rewrite app_nil_r.
  - apply andb_true_iff in Hf as [Hl Hf]. unfold is_fence_line in Hl.
    unfold step. destruct (fence_match _); [discriminate|]. rewrite Hc. simpl.
    rewrite IH by (simpl; auto; lia). simpl. now rewrite <- app_assoc.
Qed.

(** C7: A fence that is never closed is still emitted, with everything after
    it as its content (spec, section 4.2). *)
Theorem unterminated_fence_emitted cfg plans l0 lang body :
  fence_match (strip (rstrip l0)) = Some lang ->
  forallb (fun l => negb (is_fence_line l)) body = true ->
  render_parts (parts (run_lines cfg plans (l0 :: body))) =
  fst (emit_fenced_block cfg (init_state plans) (strip lang) (join nl body)).
Proof.
  intros Hl Hb. unfold run_lines. cbn [length convert_loop].
  unfold step at 1. rewrite Hl. simpl.
  rewrite convert_loop_in_code by (simpl; auto).
  unfold finish_state, close_list. simpl.
  match goal with |- context [emit_fenced_block cfg ?S ?L ?C] =>
    pose proof (emit_fenced_block_fst cfg S (init_state plans) L C eq_refl) as Hf;
    pose proof (emit_fenced_block_frame cfg S L C) as (Hp & _ & _);
    destruct (emit_fenced_block cfg S L C) as [html st'] eqn:E end.
  simpl in *. rewrite Hp. simpl. exact Hf.
Qed.

(** ** Plain text *)

Definition is_some {A} (o : option A) : bool := match o with Some _ => true | None => false end.

(** A line that no line pattern recognises. *)
Definition is_plain_line (l : string) : bool :=
  let s := strip (rstrip l) in
  negb (String.eqb s "") && negb (is_some (fence_match s)) &&
  negb (is_some (heading_match s)) && negb (is_some (bullet_match s)).

(** No two consecutive lines form a table header. *)
Fixpoint no_table_pair (ls : list string) : bool :=
  match ls with
  | a :: (b :: _) as r => negb (looks_like_table_header a b) && no_table_pair r
  | _ => true
  end.

Definition paragraph (l : string) : string := "<p>" ^ render_inline (strip (rstrip l)) ^ "</p>".

Lemma convert_loop_plain cfg n st ls :
  in_code_block st = false -> in_ul st = false ->
  forallb is_plain_line ls = true -> no_table_pair ls = true -> length ls <= n ->
  parts (convert_loop cfg n st ls) = (parts st ++ map paragraph ls)%list /\
  in_ul (convert_loop cfg n st ls) = false /\ in_code_block (convert_loop cfg n st ls) = false.
Proof.
  revert n st. induction ls as [|l ls IH]; intros [|n] st Hc Hu Hp Ht Hn; simpl in *; try lia.
  - now rewrite app_nil_r.
  - now rewrite app_nil_r.
  - apply andb_true_iff in Hp as [Hl Hp]. unfold is_plain_line in Hl.
    apply andb_true_iff in Hl as [Hl Hb]. apply andb_true_iff in Hl as [Hl Hh].
    apply andb_true_iff in Hl as [He Hf]. apply negb_true_iff in He, Hf, Hh, Hb.
    destruct (step cfg st l ls) as [st' rest'] eqn:E.
    assert (Hst : st' = emit (paragraph l) st /\ rest' = ls).
    { unfold step in E.
      destruct (fence_match (strip (rstrip l))); [discriminate Hf|]. rewrite Hc, He in E.
      assert (Htl : text_line st (strip (rstrip l)) = emit (paragraph l) st).
      { unfold text_line. destruct (heading_match _); [discriminate Hh|].
        destruct (bullet_match _); [discriminate Hb|]. unfold close_list. now rewrite Hu. }
      destruct ls as [|next ls']; [rewrite Htl in E; now inversion E|].
      apply andb_true_iff in Ht as [Hn1 _]. apply negb_true_iff in Hn1.
      rewrite Hn1, Htl in E. now inversion E. }
    destruct Hst as [-> ->].
    destruct ls as [|next ls']; [destruct n; simpl; repeat split; auto|].
    apply andb_true_iff in Ht as [_ Ht].
    destruct (IH n (emit (paragraph l) st)) as (H1 & H4 & H5);
      [exact Hc|exact Hu|exact Hp|exact Ht|simpl in *; lia|].
    repeat split; auto. rewrite H1. simpl. now rewrite <- app_assoc.
Qed.

(** C18: Text that no pattern recognises becomes one paragraph per non-blank
    line: each line is stripped, escaped and inline-rendered on its own. *)
Theorem plain_lines_paragraphs cfg plans ls :
  forallb is_plain_line ls = true -> no_table_pair ls = true ->
  parts (run_lines cfg plans ls) = map paragraph ls.
Proof.
  intros Hp Ht. unfold run_lines.
  destruct (convert_loop_plain cfg (length ls) (init_state plans) ls) as (H1 & H2 & H3);
    auto.
  unfold finish_state, close_list. rewrite H2, H3. exact H1.
Qed.

(** ** The plan list of attachment mode *)

(** The caller's list [l0] has been extended by one plan per image, named
    with the indices [1 .. mermaid_image_count]. *)
Definition plans_inv (cfg : conv_cfg) (l0 : list MermaidImagePlan) (st : conv_state) : Prop :=
  exists l, mermaid_image_plans st = Some (l0 ++ l)%list /\
    map filename l = map (build_mermaid_image_name (image_prefix cfg))
                         (seq 1 (mermaid_image_count st)).

Lemma plans_inv_frame cfg l0 st st' :
  mermaid_image_plans st' = mermaid_image_plans st ->
  mermaid_image_count st' = mermaid_image_count st -> plans_inv cfg l0 st -> plans_inv cfg l0 st'.
Proof. intros Hp Hc (l & H1 & H2). exists l. now rewrite Hp, Hc. Qed.

Lemma plans_inv_efb cfg l0 st lang code :
  plans_inv cfg l0 st -> plans_inv cfg l0 (snd (emit_fenced_block cfg st lang code)).
Proof.
  intros (l & H1 & H2). unfold emit_fenced_block.
  destruct (_ && _); [exists l; auto|]. destruct (_ && _); [|exists l; auto].
  set (p := {| filename := build_mermaid_image_name (image_prefix cfg) (S (mermaid_image_count st));
               mermaid_source := code |}).
  unfold plans_inv.
  match goal with |- context [mermaid_image_count (snd ?R)] =>
    change (mermaid_image_count (snd R)) with (S (mermaid_image_count st)) end.
  match goal with |- context [mermaid_image_plans (snd ?R)] =>
    change (mermaid_image_plans (snd R)) with
      (match mermaid_image_plans st with Some l => Some (l ++ [p])%list | None => None end) end.
  rewrite H1, seq_S. exists (l ++ [p])%list.
  split; [now rewrite app_assoc|now rewrite !map_app, H2].
Qed.

(** Only [emit_fenced_block] touches the counter and the plans. *)
Lemma text_line_mermaid st s :
  mermaid_image_plans (text_line st s) = mermaid_image_plans st /\
  mermaid_image_count (text_line st s) = mermaid_image_count st.
Proof.
  unfold text_line, close_list.
  destruct (heading_match s) as [[? ?]|]; [destruct (in_ul st); auto|].
  destruct (bullet_match s); destruct (in_ul st); auto.
Qed.

Lemma plans_inv_step cfg l0 st l rest :
  plans_inv cfg l0 st -> plans_inv cfg l0 (fst (step cfg st l rest)).
Proof.
  intros H.
  assert (Hc : plans_inv cfg l0 (close_list st))
    by (apply (plans_inv_frame cfg l0 st); unfold close_list; destruct (in_ul st); auto).
  unfold step. destruct (fence_match _) as [lang|].
  - destruct (negb _); simpl; [now apply (plans_inv_frame cfg l0 (close_list st))|].
    unfold close_code.
    pose proof (plans_inv_efb cfg l0 (close_list st) (code_lang (close_list st))
                  (join nl (code_lines (close_list st))) Hc) as He.
    destruct (emit_fenced_block _ _ _ _) as [html st']. simpl in *.
    now apply (plans_inv_frame cfg l0 st').
  - destruct (in_code_block st); [simpl; now apply (plans_inv_frame cfg l0 st)|].
    destruct (String.eqb _ ""); [exact Hc|].
    destruct (text_line_mermaid st (strip (rstrip l))) as [T1 T2].
    destruct rest as [|next rest']; [now apply (plans_inv_frame cfg l0 st)|].
    destruct (looks_like_table_header l next); simpl;
      [now apply (plans_inv_frame cfg l0 (close_list st))|now apply (plans_inv_frame cfg l0 st)].
Qed.

Lemma plans_inv_finish cfg l0 st : plans_inv cfg l0 st -> plans_inv cfg l0 (finish_state cfg st).
Proof.
  intros H.
  assert (Hc : plans_inv cfg l0 (close_list st))
    by (apply (plans_inv_frame cfg l0 st); unfold close_list; destruct (in_ul st); auto).
  unfold finish_state. destruct (in_code_block (close_list st)); [|exact Hc].
  pose proof (plans_inv_efb cfg l0 (close_list st) (code_lang (close_list st))
                (join nl (code_lines (close_list st))) Hc) as He.
  destruct (emit_fenced_block _ _ _ _) as [html st']. simpl in *.
  now apply (plans_inv_frame cfg l0 st').
Qed.

(** The plans appended by a run, read off the invariant [plans_inv]. *)
Lemma run_lines_plans_inv cfg l0 ls :
  exists l, mermaid_image_plans (run_lines cfg (Some l0) ls) = Some (l0 ++ l)%list /\
    map filename l = map (build_mermaid_image_name (image_prefix cfg)) (seq 1 (length l)).
Proof.
  assert (H : plans_inv cfg l0 (run_lines cfg (Some l0) ls)).
  { apply plans_inv_finish, convert_loop_invariant; [intros; now apply plans_inv_step|].
    exists []. simpl. now rewrite app_nil_r. }
  destruct H as (l & H1 & H2). exists l. split; [exact H1|].
  replace (length l) with (mermaid_image_count (run_lines cfg (Some l0) ls)); [exact H2|].
  apply (f_equal (@length _)) in H2. now rewrite !length_map, length_seq in H2.
Qed.

(** ** The plans are the diagram fences of the input

    The spec's reading of the fences, independent of the converter: a line
    whose stripped text starts with three backticks opens a block (its
    language is the stripped rest of the line) or closes the open one; the
    lines in between are the block's code; a block still open at the end of
    the input is a block too. *)
Fixpoint fenced_blocks (open_ : option (string * list string)) (ls : list string)
  : list (string * string) :=
  match ls with
  | [] => match open_ with Some (lang, code) => [(lang, join nl code)] | None => [] end
  | l :: ls' =>
      match fence_match (strip (rstrip l)), open_ with
      | Some lang, None => fenced_blocks (Some (strip lang, [])) ls'
      | Some _, Some (lang, code) => (lang, join nl code) :: fenced_blocks None ls'
      | None, Some (lang, code) => fenced_blocks (Some (lang, (code ++ [l])%list)) ls'
      | None, None => fenced_blocks None ls'
      end
  end.

(** The code of a block whose language names Mermaid. *)
Definition mermaid_src (lang code : string) : list string :=
  if is_mermaid_lang (lower (strip lang)) then [code] else [].

Definition diagram_sources (bs : list (string * string)) : list string :=
  flat_map (fun b => mermaid_src (fst b) (snd b)) bs.

(** The plans numbered from [i + 1]: the name [build_mermaid_image_name]
    gives the index, and the diagram's code. *)
Fixpoint number_plans (cfg : conv_cfg) (i : nat) (srcs : list string) : list MermaidImagePlan :=
  match srcs with
  | [] => []
  | src :: r =>
      {| filename := build_mermaid_image_name (image_prefix cfg) (S i); mermaid_source := src |}
        :: number_plans cfg (S i) r
  end.

Definition expected_plans (cfg : conv_cfg) (i : nat) (srcs : list string) : list MermaidImagePlan :=
  if String.eqb (mermaid_mode cfg) "attachment" then number_plans cfg i srcs else [].

Definition pend (cfg : conv_cfg) (plans : option (list MermaidImagePlan)) (i : nat)
  (srcs : list string) : option (list MermaidImagePlan) :=
  match plans with Some l => Some (l ++ expected_plans cfg i srcs)%list | None => None end.

Definition open_of (st : conv_state) : option (string * list string) :=
  if in_code_block st then Some (code_lang st, code_lines st) else None.

(** The plans the run from [st] on [rest] ends with, by the spec. *)
Definition pending (cfg : conv_cfg) (st : conv_state) (rest : list string) :=
  pend cfg (mermaid_image_plans st) (mermaid_image_count st)
    (diagram_sources (fenced_blocks (open_of st) rest)).

(** A state change that leaves the fence state, the counter and the plans
    alone. *)
Definition same_code (st st' : conv_state) : Prop :=
  in_code_block st' = in_code_block st /\ code_lang st' = code_lang st /\
  code_lines st' = code_lines st /\ mermaid_image_count st' = mermaid_image_count st /\
  mermaid_image_plans st' = mermaid_image_plans st.

Lemma same_code_refl st : same_code st st.
Proof. repeat split. Qed.

Lemma same_code_trans a b c : same_code a b -> same_code b c -> same_code a c.
Proof. unfold same_code. intuition congruence. Qed.

Lemma same_code_emit p st : same_code st (emit p st).
Proof. repeat split. Qed.

Lemma same_code_set_in_ul b st : same_code st (set_in_ul b st).
Proof. repeat split. Qed.

Lemma same_code_close_list st : same_code st (close_list st).
Proof. unfold close_list. destruct (in_ul st); [repeat split|apply same_code_refl]. Qed.

Lemma same_code_text_line st s : same_code st (text_line st s).
Proof.
  unfold text_line.
  destruct (heading_match s) as [[lv c]|];
    [eapply same_code_trans; [apply same_code_close_list|apply same_code_emit]|].
  destruct (bullet_match s) as [c|].
  - eapply same_code_trans; [|apply same_code_emit].
    destruct (in_ul st); [apply same_code_refl|].
    eapply same_code_trans; [apply same_code_emit|apply same_code_set_in_ul].
  - eapply same_code_trans; [apply same_code_close_list|apply same_code_emit].
Qed.

Lemma pending_same_code cfg st st' rest : same_code st st' -> pending cfg st' rest = pending cfg st rest.
Proof.
  intros (H1 & H2 & H3 & H4 & H5). unfold pending, open_of. rewrite H1, H2, H3, H4, H5. reflexivity.
Qed.

(** [emit_fenced_block] adds the plan of a Mermaid block in attachment mode
    and nothing otherwise. *)
Lemma efb_pend cfg st lang code srcs :
  pend cfg (mermaid_image_plans (snd (emit_fenced_block cfg st lang code)))
    (mermaid_image_count (snd (emit_fenced_block cfg st lang code))) srcs =
  pend cfg (mermaid_image_plans st) (mermaid_image_count st) (mermaid_src lang code ++ srcs).
Proof.
  unfold emit_fenced_block, mermaid_src, pend, expected_plans.
  destruct (is_mermaid_lang (lower (strip lang))); simpl;
    [|rewrite !andb_false_r; reflexivity].
  rewrite !andb_true_r.
  destruct (String.eqb (mermaid_mode cfg) "macro") eqn:Em.
  - apply String.eqb_eq in Em. rewrite Em. reflexivity.
  - destruct (String.eqb (mermaid_mode cfg) "attachment"); simpl; [|reflexivity].
    destruct (mermaid_image_plans st); [|reflexivity].
    rewrite <- app_assoc. reflexivity.
Qed.

(** A table's separator and rows never start a fence. *)
Lemma fence_first s lang : fence_match s = Some lang -> str_first s = Some "`"%char.
Proof.
  unfold fence_match. destruct (startswith s "```") eqn:E; [|discriminate].
  intros _. exact (startswith_str_first s "`" "``" E).
Qed.

Lemma pipe_not_fence l :
  startswith (strip l) "|" = true -> fence_match (strip (rstrip l)) = None.
Proof.
  intros H. destruct (fence_match (strip (rstrip l))) as [lang|] eqn:E; [|reflexivity].
  apply fence_first in E. rewrite str_first_strip_rstrip, (startswith_str_first _ "|" "" H) in E.
  discriminate.
Qed.

Lemma row_not_fence l : looks_like_table_row l = true -> fence_match (strip (rstrip l)) = None.
Proof.
  unfold looks_like_table_row. intros H. apply andb_true_iff in H as [H _]. apply pipe_not_fence, H.
Qed.

Lemma header_next_not_fence l n :
  looks_like_table_header l n = true -> fence_match (strip (rstrip n)) = None.
Proof.
  unfold looks_like_table_header. destruct (startswith (strip l) "|" && startswith (strip n) "|") eqn:E;
    [|discriminate]. intros _. apply andb_true_iff in E as [_ E]. apply pipe_not_fence, E.
Qed.

Lemma fenced_drop_while p ls :
  (forall x, p x = true -> fence_match (strip (rstrip x)) = None) ->
  fenced_blocks None ls = fenced_blocks None (drop_while p ls).
Proof.
  intros Hp. induction ls as [|x ls IH]; [reflexivity|]. simpl.
  destruct (p x) eqn:E; [|reflexivity]. rewrite (Hp x E). exact IH.
Qed.

(** One iteration keeps the plans the spec expects at the end. *)
Lemma pending_step cfg st l rest :
  pending cfg (fst (step cfg st l rest)) (snd (step cfg st l rest)) = pending cfg st (l :: rest).
Proof.
  unfold step. cbv zeta.
  destruct (fence_match (strip (rstrip l))) as [lang|] eqn:F.
  - pose proof (same_code_close_list st) as Hc.
    destruct Hc as (Hc1 & Hc2 & Hc3 & Hc4 & Hc5).
    unfold pending at 2, open_of. simpl fenced_blocks. rewrite F.
    rewrite Hc1. destruct (in_code_block st) eqn:Hin; simpl.
    + unfold close_code.
      destruct (emit_fenced_block cfg (close_list st) (code_lang (close_list st))
                  (join nl (code_lines (close_list st)))) as [html st'] eqn:Ee.
      unfold pending, open_of; simpl.
      rewrite <- Hc2, <- Hc3, <- Hc4, <- Hc5, <- efb_pend, Ee. reflexivity.
    + unfold pending, open_of, open_code; simpl. rewrite Hc4, Hc5. reflexivity.
  - destruct (in_code_block st) eqn:Hin.
    + unfold pending, open_of, add_code_line; simpl. rewrite Hin, F. reflexivity.
    + assert (Skip : pending cfg st (l :: rest) = pending cfg st rest)
        by (unfold pending, open_of; rewrite Hin; simpl; rewrite F; reflexivity).
      rewrite Skip.
      destruct (String.eqb (strip (rstrip l)) ""); [apply pending_same_code, same_code_close_list|].
      destruct rest as [|next rest'].
      * apply pending_same_code, same_code_text_line.
      * destruct (looks_like_table_header l next) eqn:Ht; simpl.
        -- rewrite (pending_same_code cfg st) by
             (eapply same_code_trans; [apply same_code_close_list|apply same_code_emit]).
           unfold pending, open_of. rewrite Hin. simpl.
           rewrite (header_next_not_fence l next Ht).
           rewrite <- (fenced_drop_while looks_like_table_row rest') by exact row_not_fence.
           reflexivity.
        -- apply pending_same_code, same_code_text_line.
Qed.

Lemma pending_finish cfg st : mermaid_image_plans (finish_state cfg st) = pending cfg st [].
Proof.
  unfold finish_state. rewrite <- (pending_same_code cfg st (close_list st)) by apply same_code_close_list.
  unfold pending, open_of.
  destruct (in_code_block (close_list st)).
  - destruct (emit_fenced_block cfg (close_list st) (code_lang (close_list st))
                (join nl (code_lines (close_list st)))) as [html st'] eqn:Ee.
    simpl. rewrite app_nil_r.
    pose proof (efb_pend cfg (close_list st) (code_lang (close_list st))
                  (join nl (code_lines (close_list st))) []) as P.
    rewrite Ee in P. simpl in P. rewrite app_nil_r in P. rewrite <- P.
    unfold pend, expected_plans. destruct (mermaid_image_plans st'); [|reflexivity].
    destruct (String.eqb _ _); simpl; rewrite app_nil_r; reflexivity.
  - unfold pend, expected_plans. simpl.
    destruct (mermaid_image_plans (close_list st)); [|reflexivity].
    destruct (String.eqb _ _); simpl; rewrite app_nil_r; reflexivity.
Qed.

Lemma pending_loop cfg n st ls :
  length ls <= n -> mermaid_image_plans (finish_state cfg (convert_loop cfg n st ls)) = pending cfg st ls.
Proof.
  revert st ls. induction n as [|n IH]; intros st [|l rest] Hn; simpl in Hn; try lia;
    try apply pending_finish.
  simpl. destruct (step cfg st l rest) as [st' rest'] eqn:E.
  pose proof (step_rest cfg st l rest) as Hr. rewrite E in Hr. simpl in Hr.
  rewrite IH by lia. rewrite <- (pending_step cfg st l rest), E. reflexivity.
Qed.

(** C27: The plans are the diagrams.  In attachment mode the converter
    appends to the caller's list one plan per Mermaid fence of the input,
    in order: the [i]-th is named [build_mermaid_image_name] of the title
    and [i] ([<title> Mermaid 01.svg], ...) and holds the fence's code,
    an unterminated last fence included.  In the other modes it appends
    nothing. *)
Theorem run_lines_plans cfg l0 ls :
  mermaid_image_plans (run_lines cfg (Some l0) ls) =
  Some (l0 ++ if String.eqb (mermaid_mode cfg) "attachment"
              then number_plans cfg 0 (diagram_sources (fenced_blocks None ls)) else [])%list.
Proof. unfold run_lines. rewrite pending_loop by lia. reflexivity. Qed.

(** Two diagrams and a Python block, the last diagram left open: two
    plans, with the diagrams' code. *)
Example plans_of_two_diagrams :
  mermaid_image_plans
    (run_lines {| mermaid_mode := "attachment"; mermaid_image_prefix := Some "Guide";
                  mermaid_image_width := 1000 |} (Some [])
       ["```mermaid"; "graph A"; "```"; "```python"; "x = 1"; "```"; "  ```MMD "; "B"]) =
  Some [{| filename := "Guide Mermaid 01.svg"; mermaid_source := "graph A" |};
        {| filename := "Guide Mermaid 02.svg"; mermaid_source := "B" |}].
Proof. vm_compute. reflexivity. Qed.

(** C28: With a title that leaves room for the suffix and fewer than 100
    diagrams, the file names of a document's plan are pairwise distinct. *)
Corollary run_lines_plan_names_distinct cfg ls :
  String.length (image_base (image_prefix cfg)) <= 165 ->
  forall l, mermaid_image_plans (run_lines cfg (Some []) ls) = Some l -> length l < 100 ->
  NoDup (map filename l).
Proof.
  intros Hb l Hl Hn. destruct (run_lines_plans_inv cfg [] ls) as (l' & H1 & H2).
  rewrite Hl in H1. injection H1 as ->. rewrite H2.
  apply NoDup_map_inj_on; [|apply seq_NoDup].
  intros i j Hi Hj E. apply in_seq in Hi, Hj.
  apply (image_names_inj (image_prefix cfg)); auto; lia.
Qed.

(** ** The older converter of [src/scripts/confluence_publish.py]

    Lines 126-215 of the older script: a [for raw_line in lines] loop with
    no tables and no diagram dialect.  Its [render_inline] and
    [emit_code_macro] are line-for-line those of the current script
    (lines 134-159 there, 274-299 here), so the same Rocq definitions
    model both. *)
Module Legacy.

Record legacy_state := {
  l_parts : list string;
  l_in_ul : bool;
  l_in_code_block : bool;
  l_code_lang : string;
  l_code_lines : list string
}.

Definition l_emit (p : string) (st : legacy_state) : legacy_state :=
  {| l_parts := (l_parts st ++ [p])%list; l_in_ul := l_in_ul st;
     l_in_code_block := l_in_code_block st; l_code_lang := l_code_lang st;
     l_code_lines := l_code_lines st |}.

Definition l_set_in_ul (b : bool) (st : legacy_state) : legacy_state :=
  {| l_parts := l_parts st; l_in_ul := b; l_in_code_block := l_in_code_block st;
     l_code_lang := l_code_lang st; l_code_lines := l_code_lines st |}.

Definition l_close_list (st : legacy_state) : legacy_state :=
  if l_in_ul st then l_set_in_ul false (l_emit "</ul>" st) else st.

Definition l_text_line (st : legacy_state) (stripped : string) : legacy_state :=
  match heading_match stripped with
  | Some (level, content) =>
      let lv := str_of_nat level in
      l_emit ("<h" ^ lv ^ ">" ^ render_inline content ^ "</h" ^ lv ^ ">") (l_close_list st)
  | None =>
      match bullet_match stripped with
      | Some content =>
          let st := if l_in_ul st then st else l_set_in_ul true (l_emit "<ul>" st) in
          l_emit ("<li>" ^ render_inline content ^ "</li>") st
      | None => l_emit ("<p>" ^ render_inline stripped ^ "</p>") (l_close_list st)
      end
  end.

(** One iteration of [for raw_line in lines]. *)
Definition l_step (st : legacy_state) (raw_line : string) : legacy_state :=
  let line := rstrip raw_line in
  let stripped := strip line in
  match fence_match stripped with
  | Some lang =>
      let st := l_close_list st in
      if negb (l_in_code_block st) then
        {| l_parts := l_parts st; l_in_ul := l_in_ul st; l_in_code_block := true;
           l_code_lang := strip lang; l_code_lines := [] |}
      else
        {| l_parts := (l_parts st ++
                        [emit_code_macro (l_code_lang st) (join nl (l_code_lines st))])%list;
           l_in_ul := l_in_ul st; l_in_code_block := false; l_code_lang := "";
           l_code_lines := [] |}
  | None =>
      if l_in_code_block st then
        {| l_parts := l_parts st; l_in_ul := l_in_ul st; l_in_code_block := true;
           l_code_lang := l_code_lang st; l_code_lines := (l_code_lines st ++ [raw_line])%list |}
      else if String.eqb stripped "" then l_close_list st
      else l_text_line st stripped
  end.

Definition l_init : legacy_state :=
  {| l_parts := []; l_in_ul := false; l_in_code_block := false; l_code_lang := "";
     l_code_lines := [] |}.

Definition l_finish (st : legacy_state) : string :=
  let st := l_close_list st in
  let st := if l_in_code_block st
            then l_emit (emit_code_macro (l_code_lang st) (join nl (l_code_lines st))) st
            else st in
  render_parts (l_parts st).

Definition legacy_simple_markdown_to_html (markdown_text : string) : string :=
  l_finish (fold_left l_step (splitlines markdown_text) l_init).

(** The abstraction of a current state: forget the diagram locals. *)
Definition forget (st : conv_state) : legacy_state :=
  {| l_parts := parts st; l_in_ul := in_ul st; l_in_code_block := in_code_block st;
     l_code_lang := code_lang st; l_code_lines := code_lines st |}.

Section Simulation.
Variable cfg : conv_cfg.
(** The converter runs in neither diagram mode (for example [code]). *)
Hypothesis no_diagram_mode :
  String.eqb (mermaid_mode cfg) "macro" = false /\
  String.eqb (mermaid_mode cfg) "attachment" = false.

Lemma efb_code_mode st lang code :
  emit_fenced_block cfg st lang code = (emit_code_macro lang code, st).
Proof.
  destruct no_diagram_mode as [H1 H2]. unfold emit_fenced_block. now rewrite H1, H2.
Qed.

Lemma forget_close_list st : forget (close_list st) = l_close_list (forget st).
Proof. unfold close_list, l_close_list. simpl. now destruct (in_ul st). Qed.

Lemma forget_text_line st s : forget (text_line st s) = l_text_line (forget st) s.
Proof.
  unfold text_line, l_text_line, close_list, l_close_list. simpl.
  destruct (heading_match s) as [[? ?]|]; [now destruct (in_ul st)|].
  destruct (bullet_match s); now destruct (in_ul st).
Qed.

(** The simulation diagram: one iteration of the [while] loop that
    does not start a table is one iteration of the [for] loop. *)
Lemma step_simulation st l rest :
  (match rest with next :: _ => looks_like_table_header l next = false | [] => True end) ->
  snd (step cfg st l rest) = rest /\
  forget (fst (step cfg st l rest)) = l_step (forget st) l.
Proof.
  intros Ht. unfold step, l_step.
  destruct (fence_match _) as [lang|].
  - rewrite <- forget_close_list. simpl (l_in_code_block (forget _)).
    destruct (negb _); [split; reflexivity|]. split; [reflexivity|].
    unfold close_code. rewrite efb_code_mode. reflexivity.
  - simpl (l_in_code_block (forget st)). destruct (in_code_block st) eqn:Ec;
      [split; [reflexivity|unfold forget, add_code_line; simpl; now rewrite Ec]|].
    destruct (String.eqb _ ""); [split; [reflexivity|apply forget_close_list]|].
    destruct rest as [|next rest'];
      [split; [reflexivity|apply forget_text_line]|].
    rewrite Ht. split; [reflexivity|apply forget_text_line].
Qed.

Lemma loop_simulation n st ls :
  no_table_pair ls = true -> length ls <= n ->
  forget (convert_loop cfg n st ls) = fold_left l_step ls (forget st).
Proof.
  revert n st. induction ls as [|l ls IH]; intros [|n] st Ht Hn; simpl in *; try lia;
    try reflexivity.
  assert (Hl : match ls with next :: _ => looks_like_table_header l next = false
                            | [] => True end).
  { destruct ls as [|next ls']; [exact I|].
    apply andb_true_iff in Ht as [Ht _]. now apply negb_true_iff. }
  destruct (step_simulation st l ls Hl) as [Hr Hf].
  destruct (step cfg st l ls) as [st' rest'] eqn:E. simpl in Hr, Hf. subst rest'.
  rewrite <- Hf. apply IH; [|lia].
  destruct ls as [|next ls']; [reflexivity|]. apply andb_true_iff in Ht as [_ Ht]. exact Ht.
Qed.

Lemma finish_simulation st : render_parts (parts (finish_state cfg st)) = l_finish (forget st).
Proof.
  unfold finish_state, l_finish. rewrite <- forget_close_list.
  simpl (l_in_code_block (forget _)).
  destruct (in_code_block (close_list st)); [|reflexivity].
  rewrite efb_code_mode. reflexivity.
Qed.
End Simulation.

(** C8: Equivalence: outside the diagram modes, and on a text where no two
    consecutive lines form a table header, the current converter and the
    older one produce the same markup. *)
Theorem converter_refines_legacy cfg plans text :
  String.eqb (mermaid_mode cfg) "macro" = false ->
  String.eqb (mermaid_mode cfg) "attachment" = false ->
  no_table_pair (splitlines text) = true ->
  fst (simple_markdown_to_html cfg plans text) = legacy_simple_markdown_to_html text.
Proof.
  intros H1 H2 Ht. rewrite simple_markdown_to_html_parts. unfold run_lines.
  rewrite (finish_simulation cfg (conj H1 H2)). unfold legacy_simple_markdown_to_html.
  rewrite (loop_simulation cfg (conj H1 H2)); [reflexivity|exact Ht|lia].
Qed.
End Legacy.

(** ** The dispatcher *)

(** In the two diagram modes the internal converter is always used, whatever
    [pandoc] or the [markdown] package would return; in particular the plan
    list is filled only on this path. *)
Theorem markdown_to_html_diagram_modes X mode prefix width plans text :
  let m := strip (lower mode) in
  String.eqb m "macro" || String.eqb m "attachment" = true ->
  markdown_to_html X mode prefix width plans text =
  simple_markdown_to_html {| mermaid_mode := m; mermaid_image_prefix := prefix;
                             mermaid_image_width := width |} plans text.
Proof.
  intros m Hm. unfold markdown_to_html. fold m.
  assert (Hne : String.eqb m "" = false)
    by (destruct (String.eqb_spec m ""); [rewrite e in Hm; discriminate|reflexivity]).
  rewrite Hne, Hm. reflexivity.
Qed.

(** ** Witnesses *)

Definition code_cfg : conv_cfg :=
  {| mermaid_mode := "code"; mermaid_image_prefix := None; mermaid_image_width := 1000 |}.

Definition attachment_cfg : conv_cfg :=
  {| mermaid_mode := "attachment"; mermaid_image_prefix := Some "My Doc!!";
     mermaid_image_width := 1000 |}.

Lemma convert_loop_fuel_witness :
  length ["# a"; "b"] <= 5 /\
  convert_loop code_cfg 5 (init_state None) ["# a"; "b"] =
  convert_loop code_cfg (length ["# a"; "b"]) (init_state None) ["# a"; "b"].
Proof. split; [simpl; lia|]. apply convert_loop_fuel. simpl; lia. Defined.

(** Spec scenario C: an opening fence, content, and no closing fence. *)
Lemma unterminated_fence_emitted_witness :
  fence_match (strip (rstrip "```py")) = Some "py" /\
  forallb (fun l => negb (is_fence_line l)) ["x = 1"; "y"] = true /\
  render_parts (parts (run_lines code_cfg None ("```py" :: ["x = 1"; "y"]))) =
  fst (emit_fenced_block code_cfg (init_state None) (strip "py") (join nl ["x = 1"; "y"])).
Proof.
  split; [reflexivity|]. split; [reflexivity|].
  apply unterminated_fence_emitted; reflexivity.
Defined.

Lemma plain_lines_paragraphs_witness :
  forallb is_plain_line ["World"; "again"] = true /\ no_table_pair ["World"; "again"] = true /\
  parts (run_lines code_cfg None ["World"; "again"]) = map paragraph ["World"; "again"].
Proof.
  split; [reflexivity|]. split; [reflexivity|].
  apply plain_lines_paragraphs; reflexivity.
Defined.

Lemma run_lines_plan_names_distinct_witness :
  String.length (image_base (image_prefix attachment_cfg)) <= 165 /\
  mermaid_image_plans (run_lines attachment_cfg (Some []) ["```mermaid"; "a"; "```"; "```mmd"]) =
    Some [{| filename := "My Doc Mermaid 01.svg"; mermaid_source := "a" |};
          {| filename := "My Doc Mermaid 02.svg"; mermaid_source := "" |}] /\
  length [{| filename := "My Doc Mermaid 01.svg"; mermaid_source := "a" |};
          {| filename := "My Doc Mermaid 02.svg"; mermaid_source := "" |}] < 100 /\
  NoDup (map filename [{| filename := "My Doc Mermaid 01.svg"; mermaid_source := "a" |};
                       {| filename := "My Doc Mermaid 02.svg"; mermaid_source := "" |}]).
Proof.
  split; [vm_compute; lia|]. split; [vm_compute; reflexivity|]. split; [simpl; lia|].
  apply (run_lines_plan_names_distinct attachment_cfg ["```mermaid"; "a"; "```"; "```mmd"]);
    [vm_compute; lia|vm_compute; reflexivity|simpl; lia].
Defined.

Lemma converter_refines_legacy_witness :
  String.eqb (mermaid_mode code_cfg) "macro" = false /\
  String.eqb (mermaid_mode code_cfg) "attachment" = false /\
  no_table_pair (splitlines ("# Hello" ^ nl ^ "World")) = true /\
  fst (simple_markdown_to_html code_cfg None ("# Hello" ^ nl ^ "World")) =
  Legacy.legacy_simple_markdown_to_html ("# Hello" ^ nl ^ "World").
Proof.
  split; [reflexivity|]. split; [reflexivity|]. split; [vm_compute; reflexivity|].
  apply Legacy.converter_refines_legacy; [reflexivity|reflexivity|vm_compute; reflexivity].
Defined.

Lemma markdown_to_html_diagram_modes_witness :
  let X := {| pandoc_output := fun _ => Some "<p>pandoc</p>";
              markdown_lib_output := fun _ => None |} in
  (String.eqb (strip (lower " Macro")) "macro" || String.eqb (strip (lower " Macro")) "attachment"
   = true) /\
  markdown_to_html X " Macro" None 1000 None "x" =
  simple_markdown_to_html {| mermaid_mode := strip (lower " Macro"); mermaid_image_prefix := None;
                             mermaid_image_width := 1000 |} None "x".
Proof.
  intros X. split; [vm_compute; reflexivity|].
  apply markdown_to_html_diagram_modes. vm_compute; reflexivity.
Defined.
