(* ===== verification/Labels.v ===== *)
(** * Label merging

    [merge_labels] ([src/skills/confluence-publisher/scripts/confluence_publish.py],
    lines 458-467; the same code is at lines 246-255 of the older script).
    It has a [seen] set of lowered labels and a [result] list.  [seen] is a
    stdpp [gset string], and the loop keeps both accumulators, as the
    Python code does.

    The loop refines an abstract specification, [dedup_by]: keep the first
    element of each key class, in order.  The corollaries follow: no two
    results are equal up to case, the first spelling wins, and every input
    label is represented. *)

From stdpp Require Import base gmap sets list strings.
From S2P Require Import Prelude PyStr.

(** The [for label in [*base, *extra]] loop. *)
Fixpoint merge_loop (seen : gset string) (result : list string) (ls : list string)
  : list string :=
  match ls with
  | [] => result
  | label :: ls' =>
      let lowered := lower label in
      if decide (lowered ∈ seen) then merge_loop seen result ls'
      else merge_loop ({[lowered]} ∪ seen) (result ++ [label]) ls'
  end.

Definition merge_labels (base extra : list string) : list string :=
  merge_loop ∅ [] (base ++ extra).

(** ** The abstract specification *)

Section Dedup.
Context {A K : Type} `{EqDecision K} (key : A -> K).

(** Keep the first element of each key class, dropping the later ones. *)
Fixpoint dedup_fuel (n : nat) (l : list A) : list A :=
  match n, l with
  | 0, _ | _, [] => []
  | S n', x :: l' => x :: dedup_fuel n' (filter (fun y => key y ≠ key x) l')
  end.

Definition dedup_by (l : list A) : list A := dedup_fuel (length l) l.

Lemma dedup_fuel_enough n m l :
  length l ≤ n → length l ≤ m → dedup_fuel n l = dedup_fuel m l.
Proof.
  revert m l. induction n as [|n IH]; intros [|m] [|x l] Hn Hm; simpl in *; try lia; auto.
  f_equal. apply IH; pose proof (length_filter (λ y, key y ≠ key x) l) as Hf; lia.
Qed.

Lemma dedup_by_cons x l :
  dedup_by (x :: l) = x :: dedup_by (filter (fun y => key y ≠ key x) l).
Proof.
  unfold dedup_by. simpl. f_equal. apply dedup_fuel_enough; [|lia].
  apply length_filter.
Qed.
Lemma dedup_fuel_subset n l y : y ∈ dedup_fuel n l → y ∈ l.
Proof.
  revert l. induction n as [|n IH]; intros [|x l]; simpl; try set_solver.
  rewrite elem_of_cons. intros [->|Hy]; [set_solver|].
  apply IH, list_elem_of_filter in Hy. set_solver.
Qed.

Lemma dedup_fuel_nodup n l : NoDup (map key (dedup_fuel n l)).
Proof.
  revert l. induction n as [|n IH]; intros [|x l]; simpl; try constructor; auto.
  rewrite list_elem_of_fmap. intros (y & Hk & Hy).
  apply dedup_fuel_subset, list_elem_of_filter in Hy. destruct Hy as [Hne _]. congruence.
Qed.

Definition same_key (y z : A) : bool := bool_decide (key z = key y).

Lemma find_first_filter (p : A → bool) (q : A → Prop) `{!∀ x, Decision (q x)} l :
  (∀ z, p z = true → q z) → find_first p (filter q l) = find_first p l.
Proof.
  intros Hpq. induction l as [|z l IH]; [done|]. rewrite filter_cons. simpl.
  destruct (decide (q z)); simpl; destruct (p z) eqn:E; auto.
  exfalso. auto.
Qed.

(** Each kept element is the first element of the input with its key. *)
Lemma dedup_fuel_first n l y :
  y ∈ dedup_fuel n l → find_first (same_key y) l = Some y.
Proof.
  revert l. induction n as [|n IH]; intros [|x l]; simpl; try set_solver.
  rewrite elem_of_cons. intros [->|Hy].
  - unfold same_key. by rewrite bool_decide_true.
  - pose proof (dedup_fuel_subset _ _ _ Hy) as Hin.
    apply list_elem_of_filter in Hin as [Hxy _].
    unfold same_key at 1. rewrite bool_decide_false by congruence.
    rewrite <- (find_first_filter _ (λ z, key z ≠ key x)); [by apply IH|].
    intros z Hz. unfold same_key in Hz. apply bool_decide_eq_true in Hz. congruence.
Qed.

(** Every key of the input is represented in the output. *)
Lemma dedup_by_complete l x : x ∈ l → ∃ y, y ∈ dedup_by l ∧ key y = key x.
Proof.
  remember (length l) as n eqn:Hn. revert l Hn.
  induction n as [n IH] using lt_wf_ind; intros [|w l] Hn Hx; [set_solver|].
  rewrite dedup_by_cons.
  destruct (decide (key x = key w)) as [E|E]; [exists w; split; [set_solver|done]|].
  assert (Hx' : x ∈ filter (λ y, key y ≠ key w) l).
  { apply list_elem_of_filter. split; [done|]. apply elem_of_cons in Hx as [->|]; [done|done]. }
  assert (Hlt : length (filter (λ y, key y ≠ key w) l) < n)
    by (rewrite Hn; simpl; pose proof (length_filter (λ y, key y ≠ key w) l); lia).
  destruct (IH _ Hlt _ eq_refl Hx') as (y & Hy & Hk).
  exists y. split; [set_solver|done].
Qed.
End Dedup.

Lemma filter_all {A} (P : A → Prop) `{!∀ x, Decision (P x)} (l : list A) :
  (∀ x, x ∈ l → P x) → filter P l = l.
Proof.
  induction l as [|x l IH]; intros Hall; [done|].
  rewrite filter_cons_True by (apply Hall; set_solver). f_equal. apply IH. set_solver.
Qed.

(** ** Refinement *)

(** The loop is the specification applied to the labels whose key is not yet
    in [seen], after [result]. *)
Lemma merge_loop_dedup seen result ls :
  merge_loop seen result ls =
  result ++ dedup_by lower (filter (fun y => lower y ∉ seen) ls).
Proof.
  remember (length ls) as n eqn:Hn. revert seen result ls Hn.
  induction n as [n IH] using lt_wf_ind; intros seen result [|x ls] Hn; simpl.
  - by rewrite app_nil_r.
  - case_decide as Hx.
    + rewrite filter_cons_False by (intros H; exact (H Hx)).
      apply (IH (length ls)); [simpl in Hn; lia|reflexivity].
    + rewrite filter_cons_True by exact Hx. rewrite dedup_by_cons, list_filter_filter.
      rewrite (IH (length ls)) by (simpl in Hn; lia).
      rewrite <- app_assoc. simpl. do 3 f_equal.
      apply list_filter_iff. intros y. set_solver.
Qed.

(** The merge loop computes [dedup_by lower]. *)
Lemma merge_labels_dedup base extra :
  merge_labels base extra = dedup_by lower (base ++ extra).
Proof.
  unfold merge_labels. rewrite merge_loop_dedup. simpl. f_equal.
  apply filter_all. intros y _. set_solver.
Qed.

(** C33: [merge_labels] implements the specification: the first label of each
    case-insensitive class, in the order of [base] then [extra]. *)
Theorem merge_labels_refines base extra :
  merge_labels base extra = dedup_by lower (base ++ extra).
Proof. apply merge_labels_dedup. Qed.

(** ** Properties of the merged labels *)

(** No two merged labels are equal up to case. *)
Theorem merge_labels_no_case_duplicates base extra :
  NoDup (map lower (merge_labels base extra)).
Proof. rewrite merge_labels_dedup. apply dedup_fuel_nodup. Qed.

(** The spelling kept for a label is its first spelling in [base ++ extra],
    and every input label is represented by the merged one of its case
    class. *)
Theorem merge_labels_first_spelling base extra :
  (∀ y, y ∈ merge_labels base extra → find_first (same_key lower y) (base ++ extra) = Some y) ∧
  (∀ x, x ∈ base ++ extra → ∃ y, y ∈ merge_labels base extra ∧ lower y = lower x).
Proof.
  rewrite merge_labels_dedup. split.
  - intros y. apply dedup_fuel_first.
  - intros x. apply dedup_by_complete.
Qed.

(** Spec scenario B: [labels: [a, B, a]] with no default labels. *)
Example merge_labels_scenario_B : merge_labels [] ["a"; "B"; "a"] = ["a"; "B"].
Proof. reflexivity. Qed.

(** ** Witnesses *)

Lemma merge_labels_first_spelling_witness :
  find_first (same_key lower "a") ([] ++ ["a"; "B"; "A"]) = Some "a" /\
  (∃ y, y ∈ merge_labels [] ["a"; "B"; "A"] ∧ lower y = lower "A").
Proof.
  split.
  - apply (proj1 (merge_labels_first_spelling [] ["a"; "B"; "A"])).
    vm_compute. left.
  - apply (proj2 (merge_labels_first_spelling [] ["a"; "B"; "A"])).
    vm_compute. right. right. left.
Defined.
