(* ===== verification/FrontMatter.v ===== *)
(** * Documents: front matter, labels and titles

    The parsing half of the publisher
    ([src/skills/confluence-publisher/scripts/confluence_publish.py]):
    - [parse_labels] (lines 87-100);
    - [parse_front_matter] (103-131), with its metadata [dict] as a
      [gmap string string]: a later key overwrites an earlier one;
    - [derive_title] (134-143).  It searches with the MULTILINE pattern of
      line 139 (a [#], whitespace, a lazy group, optional whitespace,
      end of line).  [h1_search] reproduces the backtracking of Python's
      [re]: the greedy whitespace run may cross line breaks, the lazy group
      stops at the first position where only whitespace remains before a
      [\n] or the end;
    - [Document] and [parse_document] (26-33, 702-718).

    [pathlib] is not modelled.  A document's path is a string, and
    [parse_document] receives [path.stem] with the file's text.

    The theorems: a body opening with the line [# T] gets the title [T]; a
    heading [# #] gets the empty title; labels written as [[a,b,c]] are read
    back unchanged. *)

From Stdlib Require Import Ascii.
From stdpp Require Import base gmap strings.
From S2P Require Import Prelude PyStr.
Local Open Scope py_scope.

Definition QUOTE : Ascii.ascii := "034"%char.
Definition APOSTROPHE : Ascii.ascii := "039"%char.

(** ** Labels *)

(** [item.strip()], then stripped of double quotes, then of apostrophes. *)
Definition clean_label (item : string) : string :=
  strip_chars (String APOSTROPHE EmptyString)
    (strip_chars (String QUOTE EmptyString) (strip item)).

Definition parse_labels (raw : option string) : list string :=
  match raw with
  | None => []
  | Some r =>
      if String.eqb r "" then []
      else
        let value := strip r in
        let value := if startswith value "[" && endswith value "]" then strip_ends value
                     else value in
        filter (fun label => negb (String.eqb label ""))
               (map clean_label (split_char "," value))
  end.

(** ** Front matter *)

Definition metadata := gmap string string.

(** [for raw in front.splitlines(): ... metadata[key.strip()] = value.strip()]. *)
Fixpoint metadata_loop (m : metadata) (ls : list string) : metadata :=
  match ls with
  | [] => m
  | raw :: ls' =>
      let line := strip raw in
      if String.eqb line "" || startswith line "#" then metadata_loop m ls'
      else match partition_char ":" line with
           | None => metadata_loop m ls'
           | Some (key, value) => metadata_loop (<[strip key := strip value]> m) ls'
           end
  end.

(** The index of the closing delimiter: the first line after the first
    whose strip is [---]. *)
Fixpoint find_delim (i : nat) (ls : list string) : option nat :=
  match ls with
  | [] => None
  | l :: ls' => if String.eqb (strip l) "---" then Some i else find_delim (S i) ls'
  end.

Definition parse_front_matter (text : string) : metadata * string :=
  if negb (startswith text ("---" ^ nl) || startswith text ("---" ^ String CR nl)) then (∅, text)
  else
    let lines := splitlines_keepends text in
    match lines with
    | [] => (∅, text)
    | l0 :: rest =>
        if negb (String.eqb (strip l0) "---") then (∅, text)
        else match find_delim 1 rest with
             | None => (∅, text)
             | Some end_idx =>
                 let front := String.concat "" (take (end_idx - 1) rest) in
                 let body := String.concat "" (drop end_idx rest) in
                 (metadata_loop ∅ (splitlines front), body)
             end
    end.

(** ** The first level-1 heading *)

(** The number of leading characters satisfying [p]. *)
Fixpoint count_while (p : Ascii.ascii -> bool) (s : string) : nat :=
  match s with
  | String c r => if p c then S (count_while p r) else 0
  | EmptyString => 0
  end.

(** [\s*$] at the start of [r]: the greedy whitespace run either contains a
    [\n] or reaches the end of the text. *)
Definition dollar_ok (r : string) : bool :=
  let w := count_while isspace r in
  in_str LF (str_take w r) || Nat.eqb w (String.length r).

(** [(.+?)\s*$] on [u]: the shortest non-empty group without [\n] that
    [\s*$] can follow. *)
Fixpoint lazy_group (acc u : string) : option string :=
  match u with
  | EmptyString => None
  | String c r =>
      if Ascii.eqb c LF then None
      else let acc' := acc ^ String c EmptyString in
           if dollar_ok r then Some acc' else lazy_group acc' r
  end.

(** [\s+] backtracks from the longest run [k] down to one character. *)
Fixpoint try_runs (t : string) (k : nat) : option string :=
  match k with
  | 0 => None
  | S k' =>
      match lazy_group EmptyString (str_drop k t) with
      | Some g => Some g
      | None => try_runs t k'
      end
  end.

(** The pattern at the start of [s]. *)
Definition h1_match_at (s : string) : option string :=
  match s with
  | String c t => if Ascii.eqb c "#" then try_runs t (count_while isspace t) else None
  | EmptyString => None
  end.

(** The positions where [^] matches in MULTILINE mode: the start and every
    position after a [\n]. *)
Fixpoint after_newlines (s : string) : list string :=
  match s with
  | EmptyString => []
  | String c r => if Ascii.eqb c LF then r :: after_newlines r else after_newlines r
  end.

Fixpoint first_some {A} (l : list (option A)) : option A :=
  match l with
  | [] => None
  | Some x :: _ => Some x
  | None :: l' => first_some l'
  end.

Definition h1_search (body : string) : option string :=
  first_some (map h1_match_at (body :: after_newlines body)).

(** [str.title()] on ASCII: a letter is upper-cased after a non-letter and
    lower-cased after a letter. *)
Definition is_alpha (c : Ascii.ascii) : bool :=
  let n := Ascii.nat_of_ascii c in (Nat.leb 65 n && Nat.leb n 90) || (Nat.leb 97 n && Nat.leb n 122).

Definition upper_char (c : Ascii.ascii) : Ascii.ascii :=
  let n := Ascii.nat_of_ascii c in
  if Nat.leb 97 n && Nat.leb n 122 then Ascii.ascii_of_nat (n - 32) else c.

Fixpoint title_case_aux (prev_cased : bool) (s : string) : string :=
  match s with
  | EmptyString => EmptyString
  | String c r =>
      String (if prev_cased then lower_char c else upper_char c) (title_case_aux (is_alpha c) r)
  end.

Definition title_case (s : string) : string := title_case_aux false s.

(** [re.sub(r"[-_]+", " ", stem)]: every run of [-] and [_] becomes one
    space. *)
Fixpoint dash_runs_to_space (in_run : bool) (s : string) : string :=
  match s with
  | EmptyString => EmptyString
  | String c r =>
      if Ascii.eqb c "-" || Ascii.eqb c "_" then
        if in_run then dash_runs_to_space true r else String " " (dash_runs_to_space true r)
      else String c (dash_runs_to_space false r)
  end.

Definition derive_title (stem body : string) (md : metadata) : string :=
  let from_body :=
    match h1_search body with
    | Some g => strip (rstrip_chars "#" (strip g))
    | None => title_case (strip (dash_runs_to_space false stem))
    end in
  match md !! "title" with
  | Some title => if negb (String.eqb title "") then title else from_body
  | None => from_body
  end.

(** ** Documents *)

Record Document := {
  doc_path : string;
  doc_title : string;
  body_markdown : string;
  doc_parent_id : option string;
  doc_page_id : option string;
  doc_labels : list string
}.

(** [metadata.get(a) or metadata.get(b)]: an empty value counts as absent. *)
Definition get_or (md : metadata) (a b : string) : option string :=
  match md !! a with
  | Some v => if String.eqb v "" then md !! b else Some v
  | None => md !! b
  end.

Definition parse_document (path stem text : string) : Document :=
  let '(md, body) := parse_front_matter text in
  {| doc_path := path;
     doc_title := derive_title stem body md;
     body_markdown := body;
     doc_parent_id := get_or md "parent_id" "parentId";
     doc_page_id := get_or md "confluence_id" "page_id";
     doc_labels := parse_labels (md !! "labels") |}.

(** ** The title of a document that opens with a heading *)

Lemma count_while_cons p c s :
  count_while p (String c s) = if p c then S (count_while p s) else 0.
Proof. reflexivity. Qed.

Lemma count_while_app_ends p v s :
  ends_not p v = true ->
  count_while p (v ^ s) = count_while p v /\ count_while p v < String.length v.
Proof.
  induction v as [|c r IH]; [discriminate|]. intros H.
  destruct r as [|d r'].
  - simpl in H. change (String c EmptyString ^ s) with (String c s). simpl.
    destruct (p c); [discriminate|]. split; [reflexivity|lia].
  - rewrite ends_not_cons in H by discriminate. destruct (IH H) as [IH1 IH2].
    change (String c (String d r') ^ s) with (String c (String d r' ^ s)).
    rewrite (count_while_cons p c (String d r' ^ s)), (count_while_cons p c (String d r')), IH1.
    cbn [String.length] in *. destruct (p c); lia.
Qed.

Lemma str_take_app k v s : k <= String.length v -> str_take k (v ^ s) = str_take k v.
Proof.
  revert k. induction v as [|c r IH]; intros [|k] Hk; simpl in *; try reflexivity; [lia|].
  change (String c r ^ s) with (String c (r ^ s)). simpl. f_equal. apply IH. lia.
Qed.

(** [\s*$] cannot match inside a text whose last character is not a space
    and that has no [\n]. *)
Lemma dollar_ok_app_false v s :
  ends_not isspace v = true -> in_str LF v = false -> dollar_ok (v ^ s) = false.
Proof.
  intros He Hl. unfold dollar_ok. destruct (count_while_app_ends _ _ s He) as [E Hlt].
  rewrite E, str_take_app by lia. rewrite in_str_take by exact Hl. simpl.
  apply Nat.eqb_neq. rewrite length_append. lia.
Qed.

Lemma dollar_ok_newline s : dollar_ok (String LF s) = true.
Proof. reflexivity. Qed.

(** The lazy group stops at the end of a line whose last character is not a
    space. *)
Lemma lazy_group_line acc t rest :
  t <> EmptyString -> in_str LF t = false -> ends_not isspace t = true ->
  lazy_group acc (t ^ String LF rest) = Some (acc ^ t).
Proof.
  revert acc. induction t as [|c r IH]; intros acc Hne Hl He; [congruence|].
  cbn [in_str] in Hl. apply orb_false_iff in Hl as [Hc Hr].
  change (String c r ^ String LF rest) with (String c (r ^ String LF rest)). simpl.
  rewrite Ascii.eqb_sym, Hc.
  destruct r as [|d r'].
  - change (EmptyString ^ String LF rest) with (String LF rest). rewrite dollar_ok_newline.
    reflexivity.
  - rewrite ends_not_cons in He by discriminate.
    rewrite dollar_ok_app_false by assumption.
    rewrite IH by (assumption || discriminate). rewrite append_assoc. reflexivity.
Qed.

Definition HASH : string := "#".

(** The heading pattern finds the first line [# T] of a body, whatever
    follows it, when [T] starts with a non-space, ends with one, and has no
    [\n]. *)
Lemma h1_search_line c r rest :
  isspace c = false -> in_str LF (String c r) = false -> ends_not isspace (String c r) = true ->
  h1_search ("# " ^ String c r ^ nl ^ rest) = Some (String c r).
Proof.
  intros Hc Hl He. unfold h1_search. cbn [map first_some].
  change ("# " ^ String c r ^ nl ^ rest) with (String "#" (String " " (String c r ^ String LF rest))).
  unfold h1_match_at. cbn [Ascii.eqb Bool.eqb].
  change (String c r ^ String LF rest) with (String c (r ^ String LF rest)). simpl. rewrite Hc.
  change (String c (r ^ String LF rest)) with (String c r ^ String LF rest).
  change (str_drop 0 ?x) with x.
  rewrite lazy_group_line by (assumption || discriminate). reflexivity.
Qed.

(** Facts on a text made of [#] only. *)
Lemma hashes_facts t :
  t <> EmptyString -> (forall d, in_str d t = true -> d = "#"%char) ->
  in_str LF t = false /\ ends_not isspace t = true /\ rstrip_chars HASH t = EmptyString.
Proof.
  induction t as [|c r IH]; intros Hne Ht; [congruence|].
  assert (Hc : c = "#"%char) by (apply Ht; simpl; rewrite Ascii.eqb_refl; reflexivity). subst c.
  destruct r as [|d r'].
  - repeat split; reflexivity.
  - destruct IH as (Hl & He & Hr); [discriminate|intros x Hx; apply Ht; cbn [in_str] in *; rewrite Hx; apply orb_true_r|].
    repeat split.
    + simpl. exact Hl.
    + rewrite ends_not_cons by discriminate. exact He.
    + unfold rstrip_chars in *.
      change (rstrip_by ?p (String ?c ?r)) with
        (match rstrip_by p r with EmptyString => if p c then EmptyString else String c EmptyString
         | r0 => String c r0 end).
      rewrite Hr. reflexivity.
Qed.

(** C30: A document whose body opens with the line [# T] and whose front
    matter has no title is titled [T].  [T] is any text that begins and
    ends with a character that is not a space, ends with a character other
    than [#], and has no [\n]. *)
Theorem derive_title_heading stem c r rest (md : metadata) :
  md !! "title" = None -> isspace c = false -> in_str LF (String c r) = false ->
  ends_not isspace (String c r) = true -> ends_not (fun d => in_str d HASH) (String c r) = true ->
  derive_title stem ("# " ^ String c r ^ nl ^ rest) md = String c r.
Proof.
  intros Hmd Hc Hl He Hh. unfold derive_title. rewrite Hmd, h1_search_line by assumption.
  assert (Hs : strip (String c r) = String c r) by (apply strip_by_ends; assumption).
  rewrite Hs. unfold rstrip_chars. rewrite rstrip_by_ends_not by exact Hh. exact Hs.
Qed.

(** C31: A first heading made of [#] characters only, [# #], [# ##], ...,
    gives the empty title, whatever follows it and whatever the file name:
    the regular expression takes the [#] run as the heading's text and
    [rstrip("#")] then removes all of it.  The spec says a title is never
    empty. *)
Theorem derive_title_hash_heading stem t rest (md : metadata) :
  md !! "title" = None -> t <> EmptyString -> (forall d, in_str d t = true -> d = "#"%char) ->
  derive_title stem ("# " ^ t ^ nl ^ rest) md = EmptyString.
Proof.
  intros Hmd Hne Ht. destruct (hashes_facts t Hne Ht) as (Hl & He & Hr).
  destruct t as [|c r]; [congruence|].
  assert (Hc : c = "#"%char) by (apply Ht; simpl; rewrite Ascii.eqb_refl; reflexivity). subst c.
  unfold derive_title. rewrite Hmd, h1_search_line by (reflexivity || assumption).
  assert (Hs : strip (String "#" r) = String "#" r) by (apply strip_by_ends; [reflexivity|exact He]).
  unfold HASH in Hr. rewrite Hs, Hr. reflexivity.
Qed.

(** ** Labels written as a list *)

Lemma filter_nonempty_id (ls : list string) :
  (∀ l, In l ls → l ≠ EmptyString) → filter (fun label => negb (String.eqb label "")) ls = ls.
Proof.
  induction ls as [|l ls IH]; intros H; [reflexivity|].
  rewrite filter_cons_True.
  - f_equal. apply IH. intros x Hx. apply H. right. exact Hx.
  - destruct (String.eqb_spec l "") as [E|_]; [exfalso; exact (H l (or_introl eq_refl) E)|exact I].
Qed.

Lemma map_clean_label_id (ls : list string) :
  (∀ l, In l ls → clean_label l = l) → map clean_label ls = ls.
Proof.
  induction ls as [|l ls IH]; intros H; [reflexivity|]. simpl.
  rewrite H by (left; reflexivity). f_equal. apply IH. intros x Hx. apply H. right. exact Hx.
Qed.

Definition COMMA : Ascii.ascii := ",".

(** C34: Round trip of the label list: labels written as [[a,b,c]] in the
    front matter are read back as [a], [b], [c], in order, when each is
    non-empty, has no comma and is already in its cleaned form. *)
Theorem parse_labels_roundtrip (ls : list string) :
  (∀ l, In l ls → l ≠ EmptyString ∧ in_str COMMA l = false ∧ clean_label l = l) →
  parse_labels (Some ("[" ^ join (String COMMA EmptyString) ls ^ "]")) = ls.
Proof.
  intros Hls. unfold parse_labels.
  set (J := join (String COMMA EmptyString) ls).
  change ("[" ^ J ^ "]") with (String "[" (J ^ String "]" EmptyString)).
  cbn [String.eqb]. unfold strip.
  rewrite (strip_by_ends isspace "[" (J ^ String "]" EmptyString)); [|reflexivity|].
  2: { change (String "[" (J ^ String "]" EmptyString)) with (String "[" J ^ String "]" EmptyString).
       rewrite ends_not_last. reflexivity. }
  rewrite (startswith_first "[" (J ^ String "]" EmptyString)).
  rewrite (endswith_last (String "[" J) "]" : endswith (String "[" (J ^ String "]" EmptyString)) "]" = true).
  cbn [andb]. rewrite strip_ends_wrap. subst J.
  destruct ls as [|l ls']; [reflexivity|].
  rewrite split_char_join by (discriminate || (intros x Hx; apply (Hls x Hx))).
  rewrite map_clean_label_id by (intros x Hx; apply (Hls x Hx)).
  apply filter_nonempty_id. intros x Hx. apply (Hls x Hx).
Qed.

(** ** Witnesses *)

Lemma derive_title_heading_witness :
  (∅ : metadata) !! "title" = None /\
  derive_title "hello" ("# " ^ "Hello" ^ nl ^ "World") ∅ = "Hello".
Proof.
  split; [reflexivity|]. apply (derive_title_heading "hello" "H" "ello" "World" ∅); reflexivity.
Defined.

Lemma derive_title_hash_heading_witness :
  (∅ : metadata) !! "title" = None /\ "##" <> EmptyString /\
  (forall d, in_str d "##" = true -> d = "#"%char) /\
  derive_title "guide" ("# " ^ "##" ^ nl ^ "Intro") ∅ = EmptyString.
Proof.
  assert (H : forall d, in_str d "##" = true -> d = "#"%char).
  { intros d Hd. simpl in Hd. rewrite orb_false_r, orb_diag in Hd.
    apply Ascii.eqb_eq in Hd. exact Hd. }
  split; [reflexivity|]. split; [discriminate|]. split; [exact H|].
  apply derive_title_hash_heading; [reflexivity|discriminate|exact H].
Defined.

Lemma parse_labels_roundtrip_witness :
  parse_labels (Some ("[" ^ join (String COMMA EmptyString) ["docs"; "api"] ^ "]")) = ["docs"; "api"].
Proof.
  apply parse_labels_roundtrip. intros l [<-|[<-|[]]]; repeat split; (discriminate || reflexivity).
Defined.

(** Spec scenario A: the body [# Hello] then [World] gives the title
    [Hello] and keeps the whole text as the body. *)
Example parse_document_scenario_A :
  doc_title (parse_document "docs/hello.md" "hello" ("# Hello" ^ nl ^ "World")) = "Hello".
Proof. vm_compute. reflexivity. Qed.

(** A bare [#] line: the whitespace after [#] crosses the line break, and
    the next line becomes the title. *)
Example bare_hash_takes_next_line :
  doc_title (parse_document "docs/x.md" "x" ("#" ^ nl ^ "foo")) = "foo".
Proof. vm_compute. reflexivity. Qed.

(** A file name made of separators gives an empty title. *)
Example empty_stem_title : doc_title (parse_document "docs/__.md" "__" "text") = "".
Proof. vm_compute. reflexivity. Qed.
