(* ===== verification/Client.v ===== *)
(** * The service client

    [ConfluenceClient] of
    [src/skills/confluence-publisher/scripts/confluence_publish.py]
    (lines 470-662) and [upload_mermaid_image_attachments] (675-699).

    - The remote wiki is the class [WikiService] over an abstract world [W].
      It gives one operation per HTTP endpoint the client calls.  An
      operation answers with an HTTP error status ([inl code]) or with the
      decoded payload.  Reads do not change the world; writes return the new
      one.
    - [M] is the state-and-error monad of the client.  The state is the
      world and the log of the requests sent so far.  The error is the
      exception that aborts the document ([RuntimeError] of [_request], or a
      [KeyError]).  A failed request is still logged, and effects made
      before an error stay, as with the real service.
    - The client methods keep the code's logic: the first exact title, else
      the first result; the existing attachment; the empty-label early
      return; the payload's optional parent.
    - [muts] keeps the mutating requests of a log.  [readonly m] says that
      [m] changes neither the world nor sends a mutation; [traces m L] says
      that [m] sends exactly the mutations [L] when it succeeds and a
      prefix of them when it fails.  The lemmas give these facts for each
      method, for every [WikiService] instance, and compose them through
      [bind]. *)

From Stdlib Require Import String Ascii List Bool Arith ZArith Lia.
From S2P Require Import Prelude PyStr Regex Inline Diagram.
Import ListNotations.
Local Open Scope string_scope.
Local Open Scope py_scope.

(** ** Payloads and requests *)

(** A page as the API returns it: [id], [title], and [version.number],
    which may be missing. *)
Record page_rec := {
  pr_id : string;
  pr_title : string;
  pr_version : option Z
}.

Record space_rec := { sp_id : string }.

Record att_rec := {
  att_id : string;
  att_title : string
}.

(** The answer of the attachment upload: a dict with an [id], or a dict
    with [results]. *)
Record upload_resp := {
  ur_id : option string;
  ur_results : list att_rec
}.

(** The requests of the client, with the payload fields that matter. *)
Inductive call :=
| CGetSpaces (key : string)
| CFindPages (space_id title : string)
| CGetPage (page_id : string)
| CCreatePage (space_id title body : string) (parent : option string)
| CUpdatePage (page_id title body : string) (version : Z) (parent : option string)
| CAddLabels (page_id : string) (labels : list string)
| CFindAttachments (page_id filename : string)
| CUploadAttachment (page_id : string) (existing : option string)
    (filename data content_type : string).

(** The exceptions that abort one document. *)
Inductive error :=
| RequestFailed (c : call) (status : Z)
| MissingId (c : call)
| NoAttachmentResult (c : call)
| SpaceNotFound (key : string).

(** ** The service *)

(** [get_page], [create_page] and [update_page] answer [None] for an empty
    payload, which the client decodes as [{}]. *)
Class WikiService (W : Type) := {
  svc_find_spaces : W -> string -> Z + list space_rec;
  svc_find_pages : W -> string -> string -> Z + list page_rec;
  svc_get_page : W -> string -> Z + option page_rec;
  svc_create_page : W -> string -> string -> string -> option string -> Z + (option page_rec * W);
  svc_update_page : W -> string -> string -> string -> Z -> option string ->
                    Z + (option page_rec * W);
  svc_add_labels : W -> string -> list string -> Z + W;
  svc_find_attachments : W -> string -> string -> Z + list att_rec;
  svc_upload_attachment : W -> string -> option string -> string -> string -> string ->
                          Z + (upload_resp * W)
}.

(** ** The client monad *)

Section Client.
Context {W : Type} `{WikiService W}.

Definition M (A : Type) : Type := W * list call -> (error + A) * (W * list call).

Definition ret {A} (a : A) : M A := fun s => (inr a, s).

Definition bind {A B} (m : M A) (k : A -> M B) : M B :=
  fun s => match m s with
           | (inr a, s') => k a s'
           | (inl e, s') => (inl e, s')
           end.

Definition raise {A} (e : error) : M A := fun s => (inl e, s).

(** A GET request: logged, answered from the current world. *)
Definition read {A} (c : call) (f : W -> Z + A) : M A :=
  fun '(w, log) =>
    match f w with
    | inl code => (inl (RequestFailed c code), (w, (log ++ [c])%list))
    | inr a => (inr a, (w, (log ++ [c])%list))
    end.

(** A POST or PUT request: logged, and the world changes on success. *)
Definition write {A} (c : call) (f : W -> Z + (A * W)) : M A :=
  fun '(w, log) =>
    match f w with
    | inl code => (inl (RequestFailed c code), (w, (log ++ [c])%list))
    | inr (a, w') => (inr a, (w', (log ++ [c])%list))
    end.

End Client.

Arguments M : clear implicits.

Declare Scope pub_scope.
Delimit Scope pub_scope with pub.
Notation "x <- m ;; k" := (bind m (fun x => k))
  (at level 100, m at next level, k at level 200, right associativity) : pub_scope.
Notation "m ;; k" := (bind m (fun _ => k)) (at level 100, k at level 200, right associativity) : pub_scope.
Local Open Scope pub_scope.

(** Python's truthiness of [str | None]. *)
Definition truthy_str (o : option string) : bool :=
  match o with Some s => negb (String.eqb s "") | None => false end.

(** [a or b] on [str | None]. *)
Definition or_else (a b : option string) : option string := if truthy_str a then a else b.

(** ** [ConfluenceClient] *)

Section Methods.
Context {W : Type} `{WikiService W}.

(** [get_space_by_key]: the first space with this key, else an error. *)
Definition get_space_by_key (key : string) : M W space_rec :=
  results <- read (CGetSpaces key) (fun w => svc_find_spaces w key) ;;
  match results with
  | [] => raise (SpaceNotFound key)
  | sp :: _ => ret sp
  end.

(** [find_page_by_title]: the first result with exactly this title, else
    the first result, else [None]. *)
Definition find_page_by_title (space_id title : string) : M W (option page_rec) :=
  results <- read (CFindPages space_id title) (fun w => svc_find_pages w space_id title) ;;
  ret (match find_first (fun p => String.eqb (pr_title p) title) results with
       | Some p => Some p
       | None => hd_error results
       end).

Definition get_page (page_id : string) : M W (option page_rec) :=
  read (CGetPage page_id) (fun w => svc_get_page w page_id).

(** [if parent_id: payload["parentId"] = str(parent_id)]. *)
Definition payload_parent (parent_id : option string) : option string :=
  if truthy_str parent_id then parent_id else None.

(** [str(response["id"])]: a [KeyError] when the payload is empty. *)
Definition id_of (c : call) (r : option page_rec) : M W string :=
  match r return M W string with
  | Some p => ret (pr_id p)
  | None => raise (MissingId c)
  end.

Definition create_page (space_id title body_html : string) (parent_id : option string)
  : M W string :=
  let c := CCreatePage space_id title body_html (payload_parent parent_id) in
  r <- write c (fun w => svc_create_page w space_id title body_html (payload_parent parent_id)) ;;
  id_of c r.

Definition update_page (page_id title body_html : string) (next_version : Z)
  (parent_id : option string) : M W string :=
  let c := CUpdatePage page_id title body_html next_version (payload_parent parent_id) in
  r <- write c (fun w => svc_update_page w page_id title body_html next_version
                            (payload_parent parent_id)) ;;
  id_of c r.

Definition add_labels (page_id : string) (labels : list string) : M W unit :=
  match labels with
  | [] => ret tt
  | _ => write (CAddLabels page_id labels)
               (fun w => match svc_add_labels w page_id labels with
                         | inl code => inl code
                         | inr w' => inr (tt, w')
                         end)
  end.

(** The call sites' [if labels: client.add_labels(page_id, labels)]. *)
Definition add_labels_if (page_id : string) (labels : list string) : M W unit :=
  match labels with
  | [] => ret tt
  | _ => add_labels page_id labels
  end.

Definition find_attachment_by_filename (page_id fname : string) : M W (option att_rec) :=
  results <- read (CFindAttachments page_id fname)
                  (fun w => svc_find_attachments w page_id fname) ;;
  ret (match find_first (fun r => String.eqb (att_title r) fname) results with
       | Some r => Some r
       | None => hd_error results
       end).

(** The double quotes of the file name become underscores in the multipart
    header. *)
Definition safe_attachment_name (fname : string) : string :=
  py_replace (String QUOT "") "_" fname.

Definition upload_attachment_bytes (page_id fname data content_type : string) : M W string :=
  existing <- find_attachment_by_filename page_id fname ;;
  let c := CUploadAttachment page_id (option_map att_id existing) (safe_attachment_name fname)
             data content_type in
  resp <- write c (fun w => svc_upload_attachment w page_id (option_map att_id existing)
                              (safe_attachment_name fname) data content_type) ;;
  if truthy_str (ur_id resp) then ret (match ur_id resp with Some i => i | None => "" end)
  else match ur_results resp with
       | [] => raise (NoAttachmentResult c)
       | r :: _ => ret (att_id r)
       end.

(** [upload_mermaid_image_attachments]: one upload per plan, in order. *)
Fixpoint upload_mermaid_image_attachments (R : renderers) (page_id : string)
  (plans : list MermaidImagePlan) : M W unit :=
  match plans with
  | [] => ret tt
  | plan :: rest =>
      upload_attachment_bytes page_id (filename plan)
        (diagram_image_bytes R (mermaid_source plan)) "image/svg+xml" ;;
      upload_mermaid_image_attachments R page_id rest
  end.

End Methods.

(** ** Effects of a run

    A run appends the requests it sends to the log.  [muts] keeps the
    mutating requests, the ones the spec orders: uploads, create, update
    (with its version number) and labels. *)

Inductive mutation := KCreate | KUpdate (version : Z) | KLabels | KUpload.

Definition mutation_of (c : call) : list mutation :=
  match c with
  | CCreatePage _ _ _ _ => [KCreate]
  | CUpdatePage _ _ _ v _ => [KUpdate v]
  | CAddLabels _ _ => [KLabels]
  | CUploadAttachment _ _ _ _ _ => [KUpload]
  | _ => []
  end.

Definition muts (l : list call) : list mutation := flat_map mutation_of l.

Definition label_mutations (labels : list string) : list mutation :=
  match labels with [] => [] | _ => [KLabels] end.

Section Traces.
Context {W : Type} `{WikiService W}.
Local Open Scope list_scope.

(** A run that leaves the world as it is and sends no mutating request. *)
Definition readonly {A} (m : M W A) : Prop :=
  forall w log, exists r l, m (w, log) = (r, (w, log ++ l)) /\ muts l = [].

(** From state [(w, log)], [m] sends the mutations [L], all of them when it
    succeeds and a prefix of them when it fails. *)
Definition traces_at {A} (m : M W A) (w : W) (log : list call) (L : list mutation) : Prop :=
  exists r w' l, m (w, log) = (r, (w', log ++ l)) /\
    match r with inr _ => muts l = L | inl _ => exists t, L = muts l ++ t end.

Definition traces {A} (m : M W A) (L : list mutation) : Prop :=
  forall w log, traces_at m w log L.

Lemma muts_app l1 l2 : muts (l1 ++ l2) = muts l1 ++ muts l2.
Proof. apply flat_map_app. Qed.

Lemma readonly_ret {A} (a : A) : readonly (ret a).
Proof. intros w log. exists (inr a), []. rewrite app_nil_r. auto. Qed.

Lemma readonly_raise {A} e : readonly (A := A) (raise e).
Proof. intros w log. exists (inl e), []. rewrite app_nil_r. auto. Qed.

Lemma readonly_read {A} c (f : W -> Z + A) : mutation_of c = [] -> readonly (read c f).
Proof.
  intros Hc w log. unfold read. cbv beta iota. destruct (f w); eexists _, [c]; simpl; rewrite Hc; auto.
Qed.

Lemma readonly_bind {A B} (m : M W A) (k : A -> M W B) :
  readonly m -> (forall a, readonly (k a)) -> readonly (bind m k).
Proof.
  intros Hm Hk w log. destruct (Hm w log) as (r & l1 & E1 & M1). unfold bind. rewrite E1.
  destruct r as [e|a]; [exists (inl e), l1; auto|].
  destruct (Hk a w (log ++ l1)) as (r2 & l2 & E2 & M2). rewrite E2.
  exists r2, (l1 ++ l2). rewrite app_assoc, muts_app, M1, M2. auto.
Qed.

Lemma readonly_traces {A} (m : M W A) : readonly m -> traces m [].
Proof.
  intros Hm w log. destruct (Hm w log) as (r & l & E & Ml). unfold traces_at.
  exists r, w, l. split; [exact E|]. rewrite Ml. destruct r; [exists []|]; reflexivity.
Qed.

Lemma traces_raise {A} e L : traces (A := A) (raise e) L.
Proof. intros w log. exists (inl e), w, []. rewrite app_nil_r. split; [reflexivity|]. exists L. reflexivity. Qed.

Lemma traces_write {A} c (f : W -> Z + (A * W)) : traces (write c f) (mutation_of c).
Proof.
  intros w log. unfold traces_at, write. cbv beta iota. destruct (f w) as [code|[a w']].
  - eexists _, w, [c]. split; [reflexivity|]. exists []. simpl. rewrite !app_nil_r. reflexivity.
  - eexists _, w', [c]. split; [reflexivity|]. simpl. rewrite app_nil_r. reflexivity.
Qed.

Lemma traces_bind {A B} (m : M W A) (k : A -> M W B) L1 L2 :
  traces m L1 -> (forall a, traces (k a) L2) -> traces (bind m k) (L1 ++ L2).
Proof.
  intros Hm Hk w log. destruct (Hm w log) as (r & w1 & l1 & E1 & P1). unfold traces_at, bind. rewrite E1.
  destruct r as [e|a].
  - exists (inl e), w1, l1. split; [reflexivity|]. destruct P1 as [t ->].
    exists (t ++ L2). rewrite app_assoc. reflexivity.
  - destruct (Hk a w1 (log ++ l1)) as (r2 & w2 & l2 & E2 & P2). rewrite E2.
    exists r2, w2, (l1 ++ l2). rewrite app_assoc. split; [reflexivity|].
    rewrite muts_app, P1. destruct r2; [destruct P2 as [t ->]; exists t; apply app_assoc|].
    rewrite P2. reflexivity.
Qed.

Lemma traces_bind_ro {A B} (m : M W A) (k : A -> M W B) L :
  readonly m -> (forall a, traces (k a) L) -> traces (bind m k) L.
Proof. intros Hm Hk. apply (traces_bind _ _ [] L); [apply readonly_traces|]; auto. Qed.

End Traces.

#[export] Hint Resolve readonly_ret readonly_raise readonly_bind readonly_traces
  traces_raise traces_bind_ro : pub.

Section ClientTraces.
Context {W : Type} `{WikiService W}.
Local Open Scope list_scope.

Lemma bind_assoc_at {A B C} (m : M W A) (k1 : A -> M W B) (k2 : B -> M W C) s :
  bind (bind m k1) k2 s = bind m (fun a => bind (k1 a) k2) s.
Proof. unfold bind. destruct (m s) as [[e|a] s']; reflexivity. Qed.

Lemma traces_bind_ro_r {A B} (m : M W A) (k : A -> M W B) L :
  traces m L -> (forall a, readonly (k a)) -> traces (bind m k) L.
Proof.
  intros Hm Hk. rewrite <- (app_nil_r L). apply traces_bind; [exact Hm|].
  intros a. apply readonly_traces, Hk.
Qed.

(** The state-level step: after a read-only prefix that returned [a], the
    run continues as [k a]. *)
Lemma traces_at_bind_ok {A B} (m : M W A) (k : A -> M W B) w log l a L :
  m (w, log) = (inr a, (w, log ++ l)) -> muts l = [] ->
  traces_at (k a) w (log ++ l) L -> traces_at (bind m k) w log L.
Proof.
  intros E Ml (r & w' & l' & E' & P). unfold traces_at, bind. rewrite E, E'.
  exists r, w', (l ++ l'). rewrite app_assoc, muts_app, Ml. auto.
Qed.

Lemma traces_at_bind_err {A B} (m : M W A) (k : A -> M W B) w log l e L :
  m (w, log) = (inl e, (w, log ++ l)) -> muts l = [] -> traces_at (bind m k) w log L.
Proof.
  intros E Ml. unfold traces_at, bind. rewrite E. exists (inl e), w, l.
  split; [reflexivity|]. exists L. rewrite Ml. reflexivity.
Qed.

Lemma readonly_get_page id : readonly (get_page id).
Proof. apply readonly_read. reflexivity. Qed.

Lemma readonly_find_page_by_title sp t : readonly (find_page_by_title sp t).
Proof. apply readonly_bind; [apply readonly_read; reflexivity|auto with pub]. Qed.

Lemma readonly_find_attachment id f : readonly (find_attachment_by_filename id f).
Proof. apply readonly_bind; [apply readonly_read; reflexivity|auto with pub]. Qed.

Lemma readonly_id_of c r : readonly (id_of (W := W) c r).
Proof. destruct r; simpl; auto with pub. Qed.

#[local] Hint Resolve readonly_get_page readonly_find_page_by_title
  readonly_find_attachment readonly_id_of : pub.

Lemma traces_create_page sp t b par : traces (create_page sp t b par) [KCreate].
Proof. apply traces_bind_ro_r; [apply traces_write|auto with pub]. Qed.

Lemma traces_update_page id t b v par : traces (update_page id t b v par) [KUpdate v].
Proof. apply traces_bind_ro_r; [apply traces_write|auto with pub]. Qed.

Lemma traces_add_labels id labels : traces (add_labels id labels) (label_mutations labels).
Proof.
  destruct labels as [|l ls]; simpl; [apply readonly_traces; auto with pub|].
  apply (traces_write (CAddLabels id (l :: ls))).
Qed.

(** The guard of the call sites repeats the early return of [add_labels]. *)
Lemma add_labels_if_eq id labels : add_labels_if id labels = add_labels id labels.
Proof. destruct labels; reflexivity. Qed.

Lemma traces_upload_bytes id f d ct : traces (upload_attachment_bytes id f d ct) [KUpload].
Proof.
  apply traces_bind_ro; [auto with pub|]. intros ex.
  apply traces_bind_ro_r; [apply traces_write|]. intros resp.
  destruct (truthy_str (ur_id resp)); [auto with pub|].
  destruct (ur_results resp); auto with pub.
Qed.

Lemma traces_uploads R id plans :
  traces (upload_mermaid_image_attachments R id plans) (repeat KUpload (length plans)).
Proof.
  induction plans as [|p ps IH]; simpl; [apply readonly_traces; auto with pub|].
  apply (traces_bind _ _ [KUpload]); [apply traces_upload_bytes|auto].
Qed.

End ClientTraces.

#[export] Hint Resolve readonly_get_page readonly_find_page_by_title
  readonly_find_attachment readonly_id_of traces_create_page traces_update_page
  traces_add_labels traces_upload_bytes traces_uploads : pub.


(** ** Postconditions of successful runs *)

Section Hoare.
Context {W : Type}.

(** If [m] succeeds from a state whose world satisfies [P], its result and
    final world satisfy [Q]. *)
Definition hoare {A} (P : W -> Prop) (m : M W A) (Q : A -> W -> Prop) : Prop :=
  forall w log r w' log', P w -> m (w, log) = (inr r, (w', log')) -> Q r w'.

Lemma hoare_ret {A} (P : W -> Prop) (a : A) : hoare P (ret a) (fun r w => r = a /\ P w).
Proof. intros w log r w' log' HP E. injection E as <- <- _. auto. Qed.

Lemma hoare_raise {A} P e Q : hoare (A := A) P (raise e) Q.
Proof. intros w log r w' log' _ E. discriminate. Qed.

Lemma hoare_bind {A B} P (m : M W A) (k : A -> M W B) Q1 Q :
  hoare P m Q1 -> (forall a, hoare (Q1 a) (k a) Q) -> hoare P (bind m k) Q.
Proof.
  intros Hm Hk w log r w' log' HP. unfold bind.
  destruct (m (w, log)) as [[e|a] [w1 log1]] eqn:E; [discriminate|].
  apply (Hk a w1 log1); eapply Hm; eauto.
Qed.

Lemma hoare_conseq {A} (P P' : W -> Prop) (m : M W A) (Q Q' : A -> W -> Prop) :
  hoare P m Q -> (forall w, P' w -> P w) -> (forall a w, Q a w -> Q' a w) -> hoare P' m Q'.
Proof. intros Hm HP HQ w log r w' log' HP' E. eapply HQ, Hm; eauto. Qed.

Lemma hoare_post {A} P (m : M W A) (Q Q' : A -> W -> Prop) :
  hoare P m Q -> (forall a w, Q a w -> Q' a w) -> hoare P m Q'.
Proof. intros Hm HQ. eapply hoare_conseq; eauto. Qed.

Lemma hoare_pre {A} (P P' : W -> Prop) (m : M W A) Q :
  hoare P m Q -> (forall w, P' w -> P w) -> hoare P' m Q.
Proof. intros Hm HP. eapply hoare_conseq; eauto. Qed.

Lemma hoare_exists {A T} (P : T -> W -> Prop) (m : M W A) Q :
  (forall x, hoare (P x) m Q) -> hoare (fun w => exists x, P x w) m Q.
Proof. intros Hm w log r w' log' [x HP]. eapply Hm; eauto. Qed.

Lemma hoare_exists_l {A T} (P : T -> W -> Prop) (Q : W -> Prop) (m : M W A) Post :
  (forall x, hoare (fun w => P x w /\ Q w) m Post) ->
  hoare (fun w => (exists x, P x w) /\ Q w) m Post.
Proof. intros Hm w log r w' log' [[x HP] HQ]. eapply Hm; eauto. Qed.

(** A pure fact of the precondition can be moved to the context. *)
Lemma hoare_pre_frame {A} (F : Prop) (P : W -> Prop) (m : M W A) Q :
  (F -> hoare P m Q) -> hoare (fun w => F /\ P w) m Q.
Proof. intros Hm w log r w' log' [HF HP]. eapply Hm; eauto. Qed.

Lemma hoare_true {A} P (m : M W A) : hoare P m (fun _ _ => True).
Proof. intros ? ? ? ? ? ? ?. exact I. Qed.

(** The last step of a handler: the result is the returned value. *)
Lemma hoare_ret_result {A} P (a : A) (Q : A -> Prop) : Q a -> hoare P (ret a) (fun r _ => Q r).
Proof. intros Ha w log r w' log' _ E. injection E as <- _. exact Ha. Qed.

Lemma hoare_write {A} P c (f : W -> Z + (A * W)) (Q : A -> W -> Prop) :
  (forall w a w', P w -> f w = inr (a, w') -> Q a w') -> hoare P (write c f) Q.
Proof.
  intros Hf w log r w' log' HP E. unfold write in E. cbv beta iota in E.
  destruct (f w) as [code|[a w1]] eqn:Ef; [discriminate|]. injection E as <- <- _. eauto.
Qed.

(** A read-only computation keeps every property of the world. *)
Lemma hoare_readonly {A} (m : M W A) P : readonly m -> hoare P m (fun _ w => P w).
Proof.
  intros Hm w log r w' log' HP E. destruct (Hm w log) as (r0 & l & E0 & _).
  rewrite E0 in E. congruence.
Qed.

End Hoare.
