(* ===== verification/Http.v ===== *)
(** * The HTTP transport of the client

    What [ConfluenceClient] puts on the wire
    ([src/skills/confluence-publisher/scripts/confluence_publish.py],
    lines 477-662; the older script has the same [_request] and JSON
    methods at lines 264-388).

    - [request_url] is the URL of [_request]: [https://{site}{path}], then
      [?] and [urlencode(query, doseq=True)] only when the query is a
      non-empty dict and its encoding is not empty.  [urlencode] and
      [quote_plus] are CPython's ([urllib/parse.py]): UTF-8 bytes, the
      unreserved bytes kept, the space as [+], every other byte as [%XX]
      with upper-case digits.
    - [api_request] is the request of [_request]: method, URL, the
      Authorization and Accept headers, and for a body the JSON text
      ([Json]) as UTF-8 with its Content-Type.
    - The payloads of [create_page], [update_page] and [add_labels], the
      queries of the GET methods, and [call_request], which gives the
      request each [call] of [Client] sends.
    - [decode_response] is the end of [_request]: an HTTP error becomes the
      [RuntimeError] with at most 800 characters of the error body; a
      blank answer is [{}]; anything else goes through [json.loads].
    - [multipart_body] and [upload_request] are the request of
      [upload_attachment_bytes].

    The readers of the other end ([parse_qsl], [url_target],
    [parse_multipart]) are not code of the repository: they state what the
    server reads back, as RFC 3986, the HTML form encoding and RFC 2046
    define it. *)

From Stdlib Require Import String Ascii List Bool Arith ZArith Lia.
From S2P Require Import Prelude PyStr Regex Inline Diagram Encoding Json Client.
Import ListNotations.
Local Open Scope string_scope.
Local Open Scope py_scope.

(** ** [quote_plus] and [urlencode] *)

(** [_ALWAYS_SAFE]: letters, digits and [_.-~]. *)
Definition always_safe (b : Z) : bool :=
  ((48 <=? b) && (b <=? 57) || (65 <=? b) && (b <=? 90) || (97 <=? b) && (b <=? 122) ||
   (b =? 95) || (b =? 46) || (b =? 45) || (b =? 126))%Z.

Definition hex_upper (n : Z) : ascii :=
  if (n <? 10)%Z then char_of (48 + n) else char_of (55 + n).

(** One byte of [quote_from_bytes] with the space made [+] by
    [quote_plus]. *)
Definition quote_byte (b : Z) : string :=
  if always_safe b then String (char_of b) ""
  else if (b =? 32)%Z then "+"
  else String "%" (String (hex_upper (b / 16)) (String (hex_upper (b mod 16)) "")).

Definition quote_plus (s : string) : string :=
  String.concat "" (map quote_byte (utf8_encode s)).

(** The values of the queries: a [str], an [int], or a list of [str]
    that [doseq=True] spreads into one pair per element. *)
Inductive qvalue :=
| QStr (s : string)
| QInt (z : Z)
| QSeq (l : list string).

(** The loop of [urlencode] over the items of the dict. *)
Definition urlencode_item (k : string) (v : qvalue) : list string :=
  let k := quote_plus k in
  match v with
  | QStr s => [k ^ "=" ^ quote_plus s]
  | QInt z => [k ^ "=" ^ quote_plus (str_of_Z z)]
  | QSeq l => map (fun elt => k ^ "=" ^ quote_plus elt) l
  end.

Definition urlencode (query : list (string * qvalue)) : string :=
  join "&" (flat_map (fun '(k, v) => urlencode_item k v) query).

(** The pairs a query stands for. *)
Definition qvalue_strs (v : qvalue) : list string :=
  match v with
  | QStr s => [s]
  | QInt z => [str_of_Z z]
  | QSeq l => l
  end.

Definition query_pairs (query : list (string * qvalue)) : list (string * string) :=
  flat_map (fun '(k, v) => map (pair k) (qvalue_strs v)) query.

(** ** The URL of [_request] *)

Definition request_url (site path : string) (query : option (list (string * qvalue))) : string :=
  let url := "https://" ^ site ^ path in
  match query with
  | Some ((_ :: _) as q) =>
      let encoded := urlencode q in
      if String.eqb encoded "" then url else url ^ "?" ^ encoded
  | _ => url
  end.

(** ** The reader of the server *)

(** Percent-decoding of one query field, [+] being the space. *)
Fixpoint unquote_bytes (s : string) : option (list Z) :=
  match s with
  | "" => Some []
  | String c r =>
      if Ascii.eqb c "+"%char then option_map (cons 32%Z) (unquote_bytes r)
      else if Ascii.eqb c "%"%char then
        match r with
        | String h1 (String h2 r') =>
            match hex_val h1, hex_val h2 with
            | Some a, Some b => option_map (cons (Z.of_nat (a * 16 + b))) (unquote_bytes r')
            | _, _ => None
            end
        | _ => None
        end
      else option_map (cons (code_point c)) (unquote_bytes r)
  end.

Definition unquote_plus (s : string) : option string :=
  match unquote_bytes s with Some bs => utf8_decode bs | None => None end.

(** One [name=value] field; a field without [=] has the empty value. *)
Definition parse_field (piece : string) : option (string * string) :=
  let '(name, value) := match partition_char "=" piece with
                        | Some nv => nv
                        | None => (piece, "")
                        end in
  match unquote_plus name, unquote_plus value with
  | Some n, Some v => Some (n, v)
  | _, _ => None
  end.

(** [parse_qsl(qs, keep_blank_values=True)]: the fields between the [&],
    empty ones skipped. *)
Fixpoint parse_fields (pieces : list string) : option (list (string * string)) :=
  match pieces with
  | [] => Some []
  | p :: ps =>
      if String.eqb p "" then parse_fields ps
      else match parse_field p, parse_fields ps with
           | Some f, Some fs => Some (f :: fs)
           | _, _ => None
           end
  end.

Definition parse_qsl (qs : string) : option (list (string * string)) :=
  parse_fields (split_char "&" qs).

(** The target and the query fields of an [https] URL. *)
Definition url_target (url : string) : option (string * list (string * string)) :=
  if startswith url "https://" then
    let rest := str_drop 8 url in
    match partition_char "?" rest with
    | Some (target, qs) => option_map (pair target) (parse_qsl qs)
    | None => Some (rest, [])
    end
  else None.

(** The pairs the server reads from the URL of a request. *)
Definition sent_pairs (query : option (list (string * qvalue))) : list (string * string) :=
  match query with Some q => query_pairs q | None => [] end.


(** ** Round trip of the query *)

(** The check of one byte: its quoted form reads back as the byte. *)
Definition token_ok (b : Z) : bool :=
  match quote_byte b with
  | String c "" =>
      if Ascii.eqb c "+"%char then (b =? 32)%Z
      else negb (Ascii.eqb c "%"%char) && (code_point c =? b)%Z
  | String c (String h1 (String h2 "")) =>
      Ascii.eqb c "%"%char &&
      match hex_val h1, hex_val h2 with
      | Some x, Some y => (Z.of_nat (x * 16 + y) =? b)%Z
      | _, _ => false
      end
  | _ => false
  end.


Definition encode_pair '((k, v) : string * string) : string := quote_plus k ^ "=" ^ quote_plus v.


Lemma quote_byte_table :
  forallb (fun n => token_ok (Z.of_nat n) && negb (in_str "&" (quote_byte (Z.of_nat n))) &&
                    negb (in_str "=" (quote_byte (Z.of_nat n)))) (seq 0 256) = true.
Proof. vm_compute. reflexivity. Qed.

Lemma quote_byte_facts b : is_byte b = true ->
  token_ok b = true /\ in_str "&" (quote_byte b) = false /\ in_str "=" (quote_byte b) = false.
Proof.
  intros Hb. apply is_byte_range in Hb.
  pose proof (proj1 (forallb_forall _ _) quote_byte_table (Z.to_nat b)) as Hc.
  cbv beta in Hc. rewrite Z2Nat.id in Hc by lia.
  rewrite !andb_true_iff, !negb_true_iff in Hc. rewrite <- and_assoc. apply Hc, in_seq. lia.
Qed.

Lemma unquote_quote_byte b t : token_ok b = true ->
  unquote_bytes (quote_byte b ^ t) = option_map (cons b) (unquote_bytes t).
Proof.
  unfold token_ok. destruct (quote_byte b) as [|c [|h1 [|h2 [|x r]]]]; try discriminate; intros H.
  - cbn [String.append unquote_bytes]. destruct (Ascii.eqb c "+") eqn:E1.
    + apply Z.eqb_eq in H. subst b. reflexivity.
    + apply andb_true_iff in H as [H1 H2]. apply negb_true_iff in H1. apply Z.eqb_eq in H2.
      rewrite H1, H2. reflexivity.
  - apply andb_true_iff in H as [H1 H2]. apply Ascii.eqb_eq in H1. subst c.
    cbn [String.append unquote_bytes Ascii.eqb]. cbn.
    destruct (hex_val h1), (hex_val h2); try discriminate. apply Z.eqb_eq in H2. rewrite H2. reflexivity.
Qed.

Lemma concat_empty_cons (x : string) r : String.concat "" (x :: r) = x ^ String.concat "" r.
Proof. destruct r; simpl; [rewrite append_empty_r|]; reflexivity. Qed.

Lemma unquote_quoted bs t : bytes_ok bs = true ->
  unquote_bytes (String.concat "" (map quote_byte bs) ^ t) = option_map (app bs) (unquote_bytes t).
Proof.
  induction bs as [|b bs IH]; intros H; [cbn; destruct (unquote_bytes t); reflexivity|].
  cbn [bytes_ok forallb] in H. apply andb_true_iff in H as [Hb H].
  cbn [map]. rewrite concat_empty_cons, append_assoc, unquote_quote_byte by apply (quote_byte_facts b Hb).
  rewrite IH by exact H. destruct (unquote_bytes t); reflexivity.
Qed.

Lemma unquote_plus_quote_plus s : unquote_plus (quote_plus s) = Some s.
Proof.
  unfold unquote_plus, quote_plus. rewrite <- (append_empty_r (String.concat "" _)).
  rewrite unquote_quoted by apply utf8_encode_bytes. cbn. rewrite app_nil_r. apply utf8_decode_encode.
Qed.

Lemma quote_plus_no_sep s : in_str "&" (quote_plus s) = false /\ in_str "=" (quote_plus s) = false.
Proof.
  unfold quote_plus. pose proof (utf8_encode_bytes s) as H. induction (utf8_encode s) as [|b bs IH]; [split; reflexivity|].
  cbn [bytes_ok forallb] in H. apply andb_true_iff in H as [Hb H].
  cbn [map]. rewrite concat_empty_cons, !in_str_app. destruct (quote_byte_facts b Hb) as (_ & -> & ->).
  exact (IH H).
Qed.

(** [urlencode] is the join of its pairs. *)
Lemma urlencode_pairs q : urlencode q = join "&" (map encode_pair (query_pairs q)).
Proof.
  unfold urlencode, query_pairs. f_equal. induction q as [|[k v] q IH]; [reflexivity|].
  cbn [flat_map]. rewrite IH, map_app. f_equal.
  destruct v; cbn [urlencode_item qvalue_strs]; [reflexivity|reflexivity|].
  rewrite map_map. reflexivity.
Qed.

Lemma parse_field_pair k v : parse_field (encode_pair (k, v)) = Some (k, v).
Proof.
  unfold parse_field, encode_pair. change ("=" ^ ?x) with (String "=" x).
  rewrite partition_char_app by apply quote_plus_no_sep. rewrite !unquote_plus_quote_plus. reflexivity.
Qed.

Lemma encode_pair_nonempty kv : String.eqb (encode_pair kv) "" = false.
Proof. destruct kv as [k v]. unfold encode_pair. destruct (quote_plus k); reflexivity. Qed.

Lemma encode_pair_no_amp kv : in_str "&" (encode_pair kv) = false.
Proof.
  destruct kv as [k v]. unfold encode_pair. rewrite !in_str_app.
  rewrite (proj1 (quote_plus_no_sep k)), (proj1 (quote_plus_no_sep v)). reflexivity.
Qed.

Lemma parse_fields_pairs ps : parse_fields (map encode_pair ps) = Some ps.
Proof.
  induction ps as [|kv ps IH]; [reflexivity|]. cbn [map parse_fields].
  rewrite encode_pair_nonempty, IH. destruct kv as [k v]. rewrite parse_field_pair. reflexivity.
Qed.

Theorem parse_qsl_urlencode q : parse_qsl (urlencode q) = Some (query_pairs q).
Proof.
  unfold parse_qsl. rewrite urlencode_pairs. destruct (query_pairs q) as [|kv ps] eqn:E; [reflexivity|].
  change "&" with (String "&" ""). rewrite split_char_join.
  - apply parse_fields_pairs.
  - discriminate.
  - intros l Hl. apply in_map_iff in Hl as (kv' & <- & _). apply encode_pair_no_amp.
Qed.

Lemma urlencode_empty q : urlencode q = "" -> query_pairs q = [].
Proof.
  rewrite urlencode_pairs. destruct (query_pairs q) as [|kv ps]; [reflexivity|]. cbn [map].
  destruct (join_cons_prefix "&" (encode_pair kv) (map encode_pair ps)) as [u ->].
  pose proof (encode_pair_nonempty kv) as H. destruct (encode_pair kv); discriminate.
Qed.

Theorem url_target_request_url site path query :
  in_str "?" (site ^ path) = false ->
  url_target (request_url site path query) = Some (site ^ path, sent_pairs query).
Proof.
  intros Hq. unfold url_target, request_url.
  assert (Hu : forall x, startswith ("https://" ^ x) "https://" = true /\ str_drop 8 ("https://" ^ x) = x)
    by (intros x; split; [apply startswith_app|apply (str_drop_length_app "https://")]).
  destruct query as [[|kv q]|]; cbn [sent_pairs];
    try (rewrite (proj1 (Hu _)), (proj2 (Hu _)), partition_char_none by exact Hq; reflexivity).
  destruct (String.eqb (urlencode (kv :: q)) "") eqn:E.
  - apply String.eqb_eq, urlencode_empty in E. rewrite E.
    rewrite (proj1 (Hu _)), (proj2 (Hu _)), partition_char_none by exact Hq. reflexivity.
  - rewrite !append_assoc, (proj1 (Hu _)), (proj2 (Hu _)), <- append_assoc.
    change ("?" ^ ?x) with (String "?" x). rewrite partition_char_app by exact Hq.
    cbn [option_map]. rewrite parse_qsl_urlencode. reflexivity.
Qed.

(** ** Requests *)

(** The [Request] object: method, URL, headers and the body bytes. *)
Record request := {
  rq_method : string;
  rq_url : string;
  rq_headers : list (string * string);
  rq_data : option (list Z)
}.

(** [_request]: the URL, the two fixed headers, and for a body its JSON
    text as UTF-8 with a third header. *)
Definition api_request (conf : client_conf) (method path : string)
  (query : option (list (string * qvalue))) (body : option json) : request :=
  let headers := [("Authorization", cl_auth_header conf); ("Accept", "application/json")] in
  match body with
  | Some b =>
      {| rq_method := method; rq_url := request_url (cl_site conf) path query;
         rq_headers := headers ++ [("Content-Type", "application/json")];
         rq_data := Some (utf8_encode (json_dumps b)) |}
  | None =>
      {| rq_method := method; rq_url := request_url (cl_site conf) path query;
         rq_headers := headers; rq_data := None |}
  end.

(** ** Payloads and queries of the methods *)

Definition space_query (key : string) : list (string * qvalue) :=
  [("keys", QSeq [key]); ("limit", QInt 1)].

Definition pages_query (space_id title : string) : list (string * qvalue) :=
  [("space-id", QSeq [space_id]); ("status", QSeq ["current"]); ("title", QStr title);
   ("limit", QInt 25)].

Definition page_query : list (string * qvalue) := [("body-format", QStr "storage")].

Definition attachment_query (fname : string) : list (string * qvalue) :=
  [("filename", QStr fname); ("limit", QInt 5)].

Definition page_body (body_html : string) : json :=
  JDict [("representation", JStr "storage"); ("value", JStr body_html)].

(** [if parent_id: payload["parentId"] = str(parent_id)]. *)
Definition with_parent (fields : list (string * json)) (parent_id : option string)
  : list (string * json) :=
  match parent_id with
  | Some p => if String.eqb p "" then fields else fields ++ [("parentId", JStr p)]
  | None => fields
  end.

Definition create_payload (space_id title body_html : string) (parent_id : option string) : json :=
  JDict (with_parent [("spaceId", JStr space_id); ("status", JStr "current"); ("title", JStr title);
                      ("body", page_body body_html)] parent_id).

Definition update_payload (page_id title body_html : string) (next_version : Z)
  (parent_id : option string) : json :=
  JDict (with_parent [("id", JStr page_id); ("status", JStr "current"); ("title", JStr title);
                      ("body", page_body body_html);
                      ("version", JDict [("number", JInt next_version);
                                         ("message", JStr "Updated by Codex publisher")])]
                     parent_id).

Definition labels_payload (labels : list string) : json :=
  JList (map (fun label => JDict [("prefix", JStr "global"); ("name", JStr label)]) labels).

(** ** The upload *)

Definition CRLF : string := String CR (String LF "").

(** [f"----CodexBoundary{uuid.uuid4().hex}"]: the 32 hex digits are drawn
    by the caller. *)
Definition boundary_of (uuid_hex : string) : string := "----CodexBoundary" ^ uuid_hex.

(** The bytes of a [bytes] value the model keeps as a string of bytes. *)
Definition bytes_of_str (s : string) : list Z := map code_point (list_ascii_of_string s).

(** The body of [upload_attachment_bytes]: one [form-data] part. *)
Definition multipart_body (boundary safe_filename content_type : string) (data : list Z)
  : list Z :=
  (utf8_encode ("--" ^ boundary ^ CRLF) ++
   utf8_encode ("Content-Disposition: form-data; name=" ^ qt "file" ^ "; filename=" ^
                qt safe_filename ^ CRLF) ++
   utf8_encode ("Content-Type: " ^ content_type ^ CRLF ^ CRLF) ++
   data ++ [13%Z; 10%Z] ++
   utf8_encode ("--" ^ boundary ^ "--" ^ CRLF))%list.

(** The data URL of an existing attachment, else the collection URL. *)
Definition upload_url (site page_id : string) (existing : option string) : string :=
  match existing with
  | Some attachment_id =>
      "https://" ^ site ^ "/wiki/rest/api/content/" ^ page_id ^ "/child/attachment/" ^
      attachment_id ^ "/data"
  | None => "https://" ^ site ^ "/wiki/rest/api/content/" ^ page_id ^ "/child/attachment"
  end.

Definition upload_request (conf : client_conf) (boundary page_id : string)
  (existing : option string) (safe_filename data content_type : string) : request :=
  {| rq_method := "POST";
     rq_url := upload_url (cl_site conf) page_id existing;
     rq_headers := [("Authorization", cl_auth_header conf); ("Accept", "application/json");
                    ("Content-Type", "multipart/form-data; boundary=" ^ boundary);
                    ("X-Atlassian-Token", "nocheck")];
     rq_data := Some (multipart_body boundary safe_filename content_type (bytes_of_str data)) |}.

(** ** The request of each call *)

(** What each method of [ConfluenceClient] sends for a [call] of
    [Client]; [uuid_hex] is the draw of the upload's boundary. *)
Definition call_request (conf : client_conf) (uuid_hex : string) (c : call) : request :=
  match c with
  | CGetSpaces key => api_request conf "GET" "/wiki/api/v2/spaces" (Some (space_query key)) None
  | CFindPages space_id title =>
      api_request conf "GET" "/wiki/api/v2/pages" (Some (pages_query space_id title)) None
  | CGetPage page_id =>
      api_request conf "GET" ("/wiki/api/v2/pages/" ^ page_id) (Some page_query) None
  | CCreatePage space_id title body parent =>
      api_request conf "POST" "/wiki/api/v2/pages" None
        (Some (create_payload space_id title body parent))
  | CUpdatePage page_id title body version parent =>
      api_request conf "PUT" ("/wiki/api/v2/pages/" ^ page_id) None
        (Some (update_payload page_id title body version parent))
  | CAddLabels page_id labels =>
      api_request conf "POST" ("/wiki/rest/api/content/" ^ page_id ^ "/label") None
        (Some (labels_payload labels))
  | CFindAttachments page_id fname =>
      api_request conf "GET" ("/wiki/rest/api/content/" ^ page_id ^ "/child/attachment")
        (Some (attachment_query fname)) None
  | CUploadAttachment page_id existing safe_filename data content_type =>
      upload_request conf (boundary_of uuid_hex) page_id existing safe_filename data content_type
  end.

(** ** The answer *)

(** What [urlopen] gives: the body of a success, or an [HTTPError] with
    its code and its body, decoded with [errors="replace"]. *)
Inductive answer :=
| Answer (payload : list Z)
| HTTPError (code : Z) (err_payload : string).

(** The exceptions of the transport: the [RuntimeError]s of the code and
    the ones Python raises on its own. *)
Inductive request_error :=
| RuntimeError (msg : string)
| UnicodeDecodeError
| JSONDecodeError
| AttributeError
| KeyError
| TypeError.

Definition error_message (method path : string) (code : Z) (err_payload : string) : string :=
  method ^ " " ^ path ^ " failed (" ^ str_of_Z code ^ "): " ^ str_take 800 err_payload.

(** The end of [_request]. *)
Definition decode_response (method path : string) (a : answer) : request_error + json :=
  match a with
  | HTTPError code err_payload => inl (RuntimeError (error_message method path code err_payload))
  | Answer bytes =>
      match utf8_decode bytes with
      | None => inl UnicodeDecodeError
      | Some payload =>
          if String.eqb (strip payload) "" then inr (JDict [])
          else match json_loads payload with
               | Some j => inr j
               | None => inl JSONDecodeError
               end
      end
  end.

(** Python's truth value of [dict.get]'s result. *)
Definition json_truthy (o : option json) : bool :=
  match o with
  | None | Some JNull => false
  | Some (JBool b) => b
  | Some (JInt z) => negb (Z.eqb z 0)
  | Some (JStr s) => negb (String.eqb s "")
  | Some (JList l) => match l with [] => false | _ => true end
  | Some (JDict kvs) => match kvs with [] => false | _ => true end
  end.

(** [results[0]] on a truthy value. *)
Definition index0 (v : json) : request_error + json :=
  match v with
  | JList (x :: _) => inr x
  | JStr (String c _) => inr (JStr (String c ""))
  | JDict _ => inl KeyError
  | _ => inl TypeError
  end.

(** The end of [upload_attachment_bytes]: no blank-payload guard, the
    object when it has an [id], else the first of its [results]. *)
Definition upload_response (a : answer) : request_error + json :=
  match a with
  | HTTPError code err_payload =>
      inl (RuntimeError ("POST attachment upload failed (" ^ str_of_Z code ^ "): " ^
                         str_take 800 err_payload))
  | Answer bytes =>
      match utf8_decode bytes with
      | None => inl UnicodeDecodeError
      | Some payload =>
          match json_loads payload with
          | None => inl JSONDecodeError
          | Some (JDict kvs) =>
              if json_truthy (jget "id" (JDict kvs)) then inr (JDict kvs)
              else
                let results := match jget "results" (JDict kvs) with Some r => r | None => JList [] end in
                if json_truthy (Some results) then index0 results
                else inl (RuntimeError "Attachment upload succeeded but no attachment result was returned.")
          | Some _ => inl AttributeError
          end
      end
  end.

(** ** The readers of the server *)

Fixpoint prefixb (d l : list Z) : bool :=
  match d, l with
  | [], _ => true
  | x :: d', y :: l' => (x =? y)%Z && prefixb d' l'
  | _ :: _, [] => false
  end.

Definition strip_prefix (d l : list Z) : option (list Z) :=
  if prefixb d l then Some (skipn (length d) l) else None.

(** The bytes before the first occurrence of [d], and those after it. *)
Fixpoint split_at (d l : list Z) : option (list Z * list Z) :=
  match l with
  | [] => None
  | x :: r =>
      if prefixb d l then Some ([], skipn (length d) l)
      else option_map (fun '(a, b) => (x :: a, b)) (split_at d r)
  end.

(** No occurrence of [d] starts inside [a], even one running past its end. *)
Fixpoint no_delim (d a : list Z) : bool :=
  match a with
  | [] => true
  | x :: r => negb (prefixb d (a ++ d)) && no_delim d r
  end.

Definition byte_free (b : Z) (bs : list Z) : bool := forallb (fun x => negb (x =? b)%Z) bs.

Definition crlf : list Z := [13%Z; 10%Z].

Definition CD_PREFIX : string := "Content-Disposition: form-data; name=" ^ qt "file" ^ "; filename=" ^ String QUOT "".

(** The one part of a [multipart/form-data] body (RFC 2046 and 7578): the
    file name of its [Content-Disposition], its [Content-Type], its data. *)
Definition parse_multipart (boundary : string) (body : list Z) : option (string * string * list Z) :=
  match strip_prefix (utf8_encode ("--" ^ boundary ^ CRLF)) body with
  | None => None
  | Some r1 =>
  match split_at crlf r1 with
  | None => None
  | Some (line1, r2) =>
  match split_at crlf r2 with
  | None => None
  | Some (line2, r3) =>
  match strip_prefix crlf r3 with
  | None => None
  | Some r4 =>
  match split_at (crlf ++ utf8_encode ("--" ^ boundary)) r4 with
  | None => None
  | Some (data, r5) =>
  match strip_prefix (utf8_encode ("--" ^ CRLF)) r5, strip_prefix (utf8_encode CD_PREFIX) line1,
        strip_prefix (utf8_encode "Content-Type: ") line2 with
  | Some [], Some f, Some ct =>
      match split_at [34%Z] f with
      | Some (fname, []) =>
          match utf8_decode fname, utf8_decode ct with
          | Some fn, Some t => Some (fn, t, data)
          | _, _ => None
          end
      | _ => None
      end
  | _, _, _ => None
  end end end end end end.

(** A header of a request: the first one with this name. *)
Definition header (name : string) (hs : list (string * string)) : option string :=
  option_map snd (find_first (fun h => String.eqb (fst h) name) hs).

Definition MULTIPART : string := "multipart/form-data; boundary=".

(** The upload as the server reads it: the boundary from the
    Content-Type header, then the part. *)
Definition read_upload (r : request) : option (string * string * list Z) :=
  match header "Content-Type" (rq_headers r), rq_data r with
  | Some v, Some body =>
      if startswith v MULTIPART then parse_multipart (str_drop (String.length MULTIPART) v) body
      else None
  | _, _ => None
  end.

(** The JSON value the server reads from the body of a request. *)
Definition body_json (r : request) : option json :=
  match rq_data r with
  | Some bs => match utf8_decode bs with Some s => json_loads s | None => None end
  | None => None
  end.

(** ** Round trip of the upload *)

Section Bytes.
Local Open Scope list_scope.

Lemma prefixb_app d l : prefixb d (d ++ l) = true.
Proof. induction d as [|x d IH]; [reflexivity|]. simpl. rewrite Z.eqb_refl. exact IH. Qed.

Lemma prefixb_app_long d l b : length d <= length l -> prefixb d (l ++ b) = prefixb d l.
Proof.
  revert l. induction d as [|x d IH]; intros [|y l] H; simpl in *; try reflexivity; [lia|].
  rewrite IH by lia. reflexivity.
Qed.

Lemma strip_prefix_app d l : strip_prefix d (d ++ l) = Some l.
Proof. unfold strip_prefix. rewrite prefixb_app, skipn_app, skipn_all, Nat.sub_diag. reflexivity. Qed.

Lemma split_at_app d a b : d <> [] -> no_delim d a = true -> split_at d (a ++ d ++ b) = Some (a, b).
Proof.
  intros Hd. induction a as [|x a IH]; intros H.
  - destruct d as [|y d]; [congruence|]. cbn [app split_at].
    change (y :: d ++ b) with ((y :: d) ++ b). rewrite prefixb_app, skipn_app, skipn_all, Nat.sub_diag.
    reflexivity.
  - cbn [no_delim app] in H. apply andb_true_iff in H as [H1 H2]. apply negb_true_iff in H1.
    assert (E : prefixb d (x :: a ++ d ++ b) = false)
      by (rewrite app_assoc, app_comm_cons, prefixb_app_long; [exact H1|simpl; rewrite length_app; lia]).
    cbn [app split_at]. rewrite E, IH by exact H2. reflexivity.
Qed.

Lemma no_delim_free x d a : byte_free x a = true -> no_delim (x :: d) a = true.
Proof.
  induction a as [|y a IH]; [reflexivity|]. cbn [byte_free forallb]. intros H.
  apply andb_true_iff in H as [H1 H2]. cbn [no_delim app prefixb]. rewrite Z.eqb_sym.
  apply negb_true_iff in H1. rewrite H1, IH by exact H2. reflexivity.
Qed.

Lemma utf8_free_table :
  forallb (fun n => forallb (fun m =>
    Ascii.eqb (ascii_of_nat m) (ascii_of_nat n) ||
    byte_free (code_point (ascii_of_nat n)) (utf8_char (ascii_of_nat m))) (seq 0 256)) (seq 0 128) = true.
Proof. vm_compute. reflexivity. Qed.

Lemma utf8_char_free c d : nat_of_ascii c < 128 -> Ascii.eqb d c = false ->
  byte_free (code_point c) (utf8_char d) = true.
Proof.
  intros Hc Hd. pose proof (proj1 (forallb_forall _ _) utf8_free_table (nat_of_ascii c)) as H.
  rewrite forallb_forall in H. specialize (H ltac:(apply in_seq; lia) (nat_of_ascii d)).
  rewrite !ascii_nat_embedding, Hd in H. apply H, in_seq. pose proof (nat_ascii_bounded d). lia.
Qed.

Lemma utf8_encode_free c s : nat_of_ascii c < 128 -> in_str c s = false ->
  byte_free (code_point c) (utf8_encode s) = true.
Proof.
  intros Hc. induction s as [|d s IH]; [reflexivity|]. cbn [in_str utf8_encode].
  intros H. apply orb_false_iff in H as [H1 H2]. rewrite Ascii.eqb_sym in H1.
  unfold byte_free in *. rewrite forallb_app. apply andb_true_iff.
  split; [apply (utf8_char_free c d Hc H1)|exact (IH H2)].
Qed.

Lemma multipart_body_eq boundary fname ct data :
  multipart_body boundary fname ct data =
  utf8_encode ("--" ^ boundary ^ CRLF) ++
  (utf8_encode (CD_PREFIX ^ fname ^ String QUOT "") ++ crlf ++
   (utf8_encode ("Content-Type: " ^ ct) ++ crlf ++
    (crlf ++ (data ++ (crlf ++ utf8_encode ("--" ^ boundary)) ++ utf8_encode ("--" ^ CRLF))))).
Proof.
  unfold multipart_body, CD_PREFIX, crlf. change (qt fname) with (String QUOT "" ^ fname ^ String QUOT "").
  rewrite !utf8_encode_app.
  change (utf8_encode CRLF) with [13%Z; 10%Z]. rewrite <- !app_assoc. reflexivity.
Qed.

Theorem parse_multipart_body boundary fname ct data :
  in_str QUOT fname = false -> in_str CR fname = false -> in_str CR ct = false ->
  no_delim (crlf ++ utf8_encode ("--" ^ boundary)) data = true ->
  parse_multipart boundary (multipart_body boundary fname ct data) = Some (fname, ct, data).
Proof.
  intros Hq Hf Hc Hd. unfold parse_multipart. rewrite multipart_body_eq, strip_prefix_app.
  rewrite split_at_app; [|discriminate|apply no_delim_free, (utf8_encode_free CR); [cbn; lia|]].
  2: { rewrite !in_str_app, Hf. reflexivity. }
  rewrite split_at_app; [|discriminate|apply no_delim_free, (utf8_encode_free CR); [cbn; lia|]].
  2: { rewrite !in_str_app, Hc. reflexivity. }
  rewrite strip_prefix_app, split_at_app by (discriminate || exact Hd).
  rewrite <- (app_nil_r (utf8_encode ("--" ^ CRLF))), strip_prefix_app.
  rewrite utf8_encode_app, strip_prefix_app, utf8_encode_app, strip_prefix_app, utf8_encode_app.
  change (utf8_encode (String QUOT "")) with ([34%Z] ++ []).
  rewrite split_at_app by (discriminate || (apply no_delim_free, (utf8_encode_free QUOT); [cbn; lia|exact Hq])).
  rewrite !utf8_decode_encode. reflexivity.
Qed.

End Bytes.

(** ** What the server reads *)

(** [safe_filename] holds no double quote, keeps every other character,
    and is the name itself when the name has none. *)
Lemma safe_attachment_name_eq fname :
  safe_attachment_name fname = flat_map_str (fun d => if Ascii.eqb d QUOT then "_" else String d "") fname.
Proof. apply py_replace_char. Qed.

Lemma safe_attachment_name_free c fname :
  (c = QUOT \/ in_str c fname = false) -> c <> "_"%char -> in_str c (safe_attachment_name fname) = false.
Proof.
  intros Hc Hu. rewrite safe_attachment_name_eq. induction fname as [|d r IH]; [reflexivity|].
  cbn [flat_map_str in_str] in *. rewrite in_str_app.
  assert (Hr : c = QUOT \/ in_str c r = false) by (destruct Hc as [->|H]; [left; reflexivity|right; apply orb_false_iff in H; apply H]).
  rewrite (IH Hr), orb_false_r. destruct (Ascii.eqb d QUOT) eqn:E; cbn [in_str].
  - rewrite orb_false_r. apply Ascii.eqb_neq. exact Hu.
  - rewrite orb_false_r. destruct Hc as [->|H].
    + rewrite Ascii.eqb_sym. exact E.
    + apply orb_false_iff in H. apply H.
Qed.

Lemma safe_attachment_name_id fname : in_str QUOT fname = false -> safe_attachment_name fname = fname.
Proof.
  rewrite safe_attachment_name_eq. induction fname as [|d r IH]; [reflexivity|].
  cbn [in_str flat_map_str]. intros H. apply orb_false_iff in H as [H1 H2].
  rewrite Ascii.eqb_sym, H1, IH by exact H2. reflexivity.
Qed.

Lemma read_upload_request conf boundary page_id existing safe_filename data content_type :
  read_upload (upload_request conf boundary page_id existing safe_filename data content_type) =
  parse_multipart boundary (multipart_body boundary safe_filename content_type (bytes_of_str data)).
Proof.
  unfold read_upload, upload_request, header. cbn [rq_headers rq_data find_first fst].
  change (String.eqb "Authorization" "Content-Type") with false.
  change (String.eqb "Accept" "Content-Type") with false.
  change (String.eqb "Content-Type" "Content-Type") with true. cbv iota. cbn [option_map snd].
  change ("multipart/form-data; boundary=" ^ boundary) with (MULTIPART ^ boundary).
  rewrite startswith_app, str_drop_length_app. reflexivity.
Qed.

(** C15: Round trip of [_request]: the server reads the method it was asked
    for, the target [site + path] with the query's pairs (the [doseq]
    expansion, nothing when the dict or its encoding is empty), and the
    JSON body; the path must not hold a [?]. *)
Theorem api_request_server_view conf method path query body :
  in_str "?" (cl_site conf ^ path) = false ->
  let r := api_request conf method path query body in
  rq_method r = method /\ url_target (rq_url r) = Some (cl_site conf ^ path, sent_pairs query) /\
  body_json r = body /\ header "Authorization" (rq_headers r) = Some (cl_auth_header conf).
Proof.
  intros Hq r. subst r. unfold api_request, body_json, header.
  destruct body as [b|]; cbn [rq_method rq_url rq_data rq_headers find_first app fst];
    change (String.eqb "Authorization" "Authorization") with true; cbv iota;
    (split; [reflexivity|]); (split; [apply url_target_request_url, Hq|]); (split; [|reflexivity]);
    [rewrite utf8_decode_encode; apply json_roundtrip|reflexivity].
Qed.

(** The upload a [call] of [Client] describes reaches the server as the
    file it names, with its content type and its bytes, when no line
    break ends up in the header and the data does not hold the closing
    delimiter. *)
Lemma upload_call_roundtrip conf uuid page_id existing fname data ct :
  in_str CR fname = false -> in_str CR ct = false ->
  no_delim (crlf ++ utf8_encode ("--" ^ boundary_of uuid))%list (bytes_of_str data) = true ->
  read_upload (call_request conf uuid
                 (CUploadAttachment page_id existing (safe_attachment_name fname) data ct)) =
    Some (safe_attachment_name fname, ct, bytes_of_str data).
Proof.
  intros Hf Hc Hd. cbn [call_request]. rewrite read_upload_request.
  apply parse_multipart_body; try assumption.
  - apply safe_attachment_name_free; [left; reflexivity|discriminate].
  - apply safe_attachment_name_free; [right; exact Hf|discriminate].
Qed.

(** C16: Composition of the converter's plans with the upload: the server
    stores each diagram under the very name the page body refers to. *)
Theorem diagram_upload_roundtrip conf uuid page_id existing prefix i data :
  no_delim (crlf ++ utf8_encode ("--" ^ boundary_of uuid))%list (bytes_of_str data) = true ->
  read_upload (call_request conf uuid
                 (CUploadAttachment page_id existing
                    (safe_attachment_name (build_mermaid_image_name prefix i)) data "image/svg+xml")) =
    Some (build_mermaid_image_name prefix i, "image/svg+xml", bytes_of_str data).
Proof.
  intros Hd. rewrite upload_call_roundtrip by (exact Hd || reflexivity || apply image_name_free; reflexivity).
  rewrite safe_attachment_name_id by (apply image_name_free; reflexivity). reflexivity.
Qed.

(** ** The answer *)

Lemma strip_head_nonempty c t : isspace c = false -> String.eqb (strip (String c t)) "" = false.
Proof.
  intros Hc. unfold strip, strip_by. cbn [lstrip_by]. rewrite Hc. cbn [rstrip_by].
  destruct (rstrip_by isspace t); [rewrite Hc|]; reflexivity.
Qed.

Lemma dumps_first j : exists c t, json_dumps j = String c t /\ isspace c = false.
Proof.
  destruct j as [| [] | z | s | l | kvs]; try (eexists _, _; split; reflexivity).
  destruct (str_of_Z_first z "") as (c & t & E & Hc). rewrite append_empty_r in E.
  exists c, t. split; [exact E|]. destruct Hc as [->|Hc]; [reflexivity|].
  unfold digit in Hc. unfold isspace.
  destruct (Nat.leb 48 (nat_of_ascii c) && Nat.leb (nat_of_ascii c) 57) eqn:D; [|congruence].
  apply andb_true_iff in D as [D1 D2]. apply Nat.leb_le in D1, D2.
  repeat match goal with |- context [Nat.leb ?a ?b] => destruct (Nat.leb_spec a b) end; simpl; lia.
Qed.

(** C17: [_request] gives back the JSON value the server sent, [{}] for a
    blank answer, and for an HTTP error a [RuntimeError] naming the method,
    the path and the code, with at most the first 800 characters of the
    error body. *)
Theorem decode_response_spec method path :
  (forall j, decode_response method path (Answer (utf8_encode (json_dumps j))) = inr j) /\
  (forall payload, String.eqb (strip payload) "" = true ->
     decode_response method path (Answer (utf8_encode payload)) = inr (JDict [])) /\
  (forall code err_payload, exists excerpt rest,
     decode_response method path (HTTPError code err_payload) =
       inl (RuntimeError (method ^ " " ^ path ^ " failed (" ^ str_of_Z code ^ "): " ^ excerpt)) /\
     err_payload = excerpt ^ rest /\ String.length excerpt <= 800).
Proof.
  split; [|split].
  - intros j. unfold decode_response. rewrite utf8_decode_encode.
    destruct (dumps_first j) as (c & t & E & Hc). rewrite E, strip_head_nonempty by exact Hc.
    rewrite <- E, json_roundtrip. reflexivity.
  - intros payload H. unfold decode_response. rewrite utf8_decode_encode, H. reflexivity.
  - intros code err. exists (str_take 800 err), (str_drop 800 err). split; [reflexivity|].
    split; [symmetry; apply str_take_drop|rewrite length_str_take; lia].
Qed.

(** ** Checks against Python *)

Definition sample_conf : client_conf := client_init "x.atlassian.net" "user@x.com" "tok" false.

(** [urlencode({"space-id": ["123"], "status": ["current"], "title": "Q&A: x=1",
    "limit": 25}, doseq=True)]. *)
Example urlencode_sample :
  urlencode (pages_query "123" "Q&A: x=1") = "space-id=123&status=current&title=Q%26A%3A+x%3D1&limit=25".
Proof. vm_compute. reflexivity. Qed.

(** The [if encoded] guard: a query whose lists are all empty adds no [?]. *)
Example request_url_empty_encoding :
  request_url "x.atlassian.net" "/wiki/api/v2/spaces" (Some [("keys", QSeq [])]) =
    "https://x.atlassian.net/wiki/api/v2/spaces".
Proof. reflexivity. Qed.

(** A page id is put in the path as it is: the id [1?status=draft] of a
    front matter makes the server read page [1] and a query field
    [status] holding the rest of the URL. *)
Example page_id_in_path :
  url_target (rq_url (call_request sample_conf "" (CGetPage "1?status=draft"))) =
    Some ("x.atlassian.net/wiki/api/v2/pages/1", [("status", "draft?body-format=storage")]).
Proof. vm_compute. reflexivity. Qed.

(** A blank success answer is [{}] for [_request] but a [JSONDecodeError]
    for the upload. *)
Example blank_answer_upload :
  decode_response "POST" "/wiki/api/v2/pages" (Answer []) = inr (JDict []) /\
  upload_response (Answer []) = inl JSONDecodeError.
Proof. split; reflexivity. Qed.

(** A service that answers the attachment query with an attachment of
    another name, as a server matching names loosely would. *)
#[local] Instance loose_service : WikiService unit := {|
  svc_find_spaces := fun _ _ => inr [];
  svc_find_pages := fun _ _ _ => inr [];
  svc_get_page := fun _ _ => inr None;
  svc_create_page := fun w _ _ _ _ => inr (None, w);
  svc_update_page := fun w _ _ _ _ _ => inr (None, w);
  svc_add_labels := fun w _ _ => inr w;
  svc_find_attachments := fun _ _ _ => inr [{| att_id := "att9"; att_title := "Other.svg" |}];
  svc_upload_attachment := fun w _ _ _ _ _ => inr ({| ur_id := Some "att9"; ur_results := [] |}, w)
|}.

(** [find_attachment_by_filename] falls back to the first result, so the
    upload of ["Doc Mermaid 01.svg"] overwrites the data of [Other.svg]. *)
Example upload_overwrites_other_name :
  let log := snd (snd (upload_attachment_bytes "p" "Doc Mermaid 01.svg" "<svg/>" "image/svg+xml" (tt, []))) in
  log = [CFindAttachments "p" "Doc Mermaid 01.svg";
         CUploadAttachment "p" (Some "att9") "Doc Mermaid 01.svg" "<svg/>" "image/svg+xml"] /\
  rq_url (call_request sample_conf "" (nth 1 log (CGetPage ""))) =
    "https://x.atlassian.net/wiki/rest/api/content/p/child/attachment/att9/data".
Proof. split; reflexivity. Qed.

(** ** Witnesses *)

Lemma api_request_server_view_witness :
  in_str "?" (cl_site sample_conf ^ "/wiki/api/v2/pages") = false /\
  (let r := api_request sample_conf "GET" "/wiki/api/v2/pages" (Some (pages_query "123" "Q&A")) None in
   rq_method r = "GET" /\
   url_target (rq_url r) = Some (cl_site sample_conf ^ "/wiki/api/v2/pages",
                                 sent_pairs (Some (pages_query "123" "Q&A"))) /\
   body_json r = None /\ header "Authorization" (rq_headers r) = Some (cl_auth_header sample_conf)).
Proof. split; [vm_compute; reflexivity|]. apply api_request_server_view. vm_compute. reflexivity. Defined.

Lemma diagram_upload_roundtrip_witness :
  no_delim (crlf ++ utf8_encode ("--" ^ boundary_of "0123456789abcdef0123456789abcdef"))%list
    (bytes_of_str "<svg/>") = true /\
  read_upload (call_request sample_conf "0123456789abcdef0123456789abcdef"
                 (CUploadAttachment "p" None (safe_attachment_name (build_mermaid_image_name "My Doc!!" 1))
                    "<svg/>" "image/svg+xml")) =
    Some (build_mermaid_image_name "My Doc!!" 1, "image/svg+xml", bytes_of_str "<svg/>").
Proof. split; [vm_compute; reflexivity|]. apply diagram_upload_roundtrip. vm_compute. reflexivity. Defined.
