(* ===== verification/Wiki.v ===== *)
(** * An in-memory wiki

    A model of the remote service the client talks to, as an instance of
    [Client.WikiService].  The service is not code of the repository.  The
    model follows the behaviour the client relies on:
    - page ids are allocated from a counter;
    - a space holds at most one page per title, and a create with a taken
      title is refused with status 400;
    - an update must carry the next version number (409 otherwise);
    - an unknown page id answers 404;
    - labels are added to a page's set, attachments are stored by page id
      and file name.

    The lemmas give the effect of each write on the pages.  [Publish] uses
    them for its end-to-end theorems. *)

From Stdlib Require Import Ascii ZArith.
From stdpp Require Import base gmap list strings.
From S2P Require Import Prelude PyStr Diagram Client.

Record page_state := {
  ps_space : string;
  ps_title : string;
  ps_body : string;
  ps_version : Z;
  ps_parent : option string;
  ps_labels : list string
}.

Record wiki := {
  w_spaces : gmap string string;
  w_pages : gmap string page_state;
  w_next : nat;
  w_attachments : gmap (string * string) string
}.

Definition page_view (id : string) (p : page_state) : page_rec :=
  {| pr_id := id; pr_title := ps_title p; pr_version := Some (ps_version p) |}.

(** The pages of [space] titled [title], as the search answers them. *)
Definition pages_titled (w : wiki) (space title : string) : list page_rec :=
  map (λ '(id, p), page_view id p)
      (filter (λ '(_, p), ps_space p = space ∧ ps_title p = title) (map_to_list (w_pages w))).

Definition title_taken (w : wiki) (space title : string) : bool :=
  bool_decide (pages_titled w space title ≠ []).

Definition fresh_id (w : wiki) : string := "p" +:+ str_of_nat (w_next w).

Definition wiki_create (w : wiki) (space title body : string) (parent : option string)
  : Z + (option page_rec * wiki) :=
  if title_taken w space title then inl 400%Z
  else
    let id := fresh_id w in
    let p := {| ps_space := space; ps_title := title; ps_body := body; ps_version := 1;
                ps_parent := parent; ps_labels := [] |} in
    inr (Some (page_view id p),
         {| w_spaces := w_spaces w; w_pages := <[id := p]> (w_pages w);
            w_next := S (w_next w); w_attachments := w_attachments w |}).

Definition set_page (w : wiki) (id : string) (p : page_state) : wiki :=
  {| w_spaces := w_spaces w; w_pages := <[id := p]> (w_pages w);
     w_next := w_next w; w_attachments := w_attachments w |}.

Definition wiki_update (w : wiki) (id title body : string) (v : Z) (parent : option string)
  : Z + (option page_rec * wiki) :=
  match w_pages w !! id with
  | None => inl 404%Z
  | Some p =>
      if bool_decide (v = ps_version p + 1)%Z then
        let p' := {| ps_space := ps_space p; ps_title := title; ps_body := body; ps_version := v;
                     ps_parent := match parent with Some q => Some q | None => ps_parent p end;
                     ps_labels := ps_labels p |} in
        inr (Some (page_view id p'), set_page w id p')
      else inl 409%Z
  end.

Definition add_new (l new : list string) : list string :=
  l ++ filter (λ x, x ∉ l) new.

Definition wiki_add_labels (w : wiki) (id : string) (labels : list string) : Z + wiki :=
  match w_pages w !! id with
  | None => inl 404%Z
  | Some p =>
      inr (set_page w id {| ps_space := ps_space p; ps_title := ps_title p; ps_body := ps_body p;
                            ps_version := ps_version p; ps_parent := ps_parent p;
                            ps_labels := add_new (ps_labels p) labels |})
  end.

Definition wiki_upload (w : wiki) (id : string) (existing : option string)
  (fname data ctype : string) : Z + (upload_resp * wiki) :=
  match w_pages w !! id with
  | None => inl 404%Z
  | Some _ =>
      inr ({| ur_id := Some fname; ur_results := [] |},
           {| w_spaces := w_spaces w; w_pages := w_pages w; w_next := w_next w;
              w_attachments := <[(id, fname) := data]> (w_attachments w) |})
  end.

Definition wiki_find_attachments (w : wiki) (id fname : string) : Z + list att_rec :=
  match w_pages w !! id with
  | None => inl 404%Z
  | Some _ =>
      inr (match w_attachments w !! (id, fname) with
           | Some _ => [{| att_id := fname; att_title := fname |}]
           | None => []
           end)
  end.

#[export] Instance wiki_service : WikiService wiki := {
  svc_find_spaces w key :=
    inr (match w_spaces w !! key with Some i => [{| sp_id := i |}] | None => [] end);
  svc_find_pages w space title := inr (pages_titled w space title);
  svc_get_page w id :=
    match w_pages w !! id with Some p => inr (Some (page_view id p)) | None => inl 404%Z end;
  svc_create_page := wiki_create;
  svc_update_page := wiki_update;
  svc_add_labels := wiki_add_labels;
  svc_find_attachments := wiki_find_attachments;
  svc_upload_attachment := wiki_upload
}.

(** A wiki with one space and no page. *)
Definition empty_wiki (space_key space : string) : wiki :=
  {| w_spaces := {[space_key := space]}; w_pages := ∅; w_next := 0; w_attachments := ∅ |}.

(** A wiki with one space holding one page. *)
Definition wiki_with_page (space_key space id title body : string) (version : Z) : wiki :=
  {| w_spaces := {[space_key := space]};
     w_pages := {[id := {| ps_space := space; ps_title := title; ps_body := body;
                           ps_version := version; ps_parent := None; ps_labels := [] |}]};
     w_next := 1; w_attachments := ∅ |}.

(** ** Effects of the client's writes on the wiki *)

Section Effects.

(** A page with this title, body and version, and with these labels among
    its own. *)
Definition page_holds (p : page_state) (title body : string) (labels : list string) : Prop :=
  ps_title p = title ∧ ps_body p = body ∧ ∀ l, l ∈ labels → l ∈ ps_labels p.



Definition attachment_key (id : string) (plan : MermaidImagePlan) : string * string :=
  (id, safe_attachment_name (filename plan)).

(** The files [K] are attached. *)
Definition attached (w : wiki) (K : list (string * string)) : Prop :=
  ∀ k, k ∈ K → is_Some (w_attachments w !! k).

Lemma attached_nil w : attached w [].
Proof. intros k Hk. inversion Hk. Qed.

Lemma attached_insert w K k v : attached w K → attached
  {| w_spaces := w_spaces w; w_pages := w_pages w; w_next := w_next w;
     w_attachments := <[k := v]> (w_attachments w) |} (k :: K).
Proof.
  intros HK k' Hk'. simpl. destruct (decide (k' = k)) as [->|Hne].
  - rewrite lookup_insert_eq. eauto.
  - rewrite lookup_insert_ne by congruence. apply HK. set_solver.
Qed.

Lemma attached_set_page w K id p : attached w K → attached (set_page w id p) K.
Proof. done. Qed.

(** An update sets the title, body and next version of the page, keeps its
    labels, and keeps the attachments. *)
Lemma hoare_update_page_wiki (m0 : gmap string page_state) K id t b v par :
  hoare (λ w, w_pages w = m0 ∧ attached w K) (update_page id t b v par)
    (λ r w', r = id ∧ (∃ old p, m0 !! r = Some old ∧ w_pages w' !! r = Some p ∧
              ps_title p = t ∧ ps_body p = b ∧ ps_version p = (ps_version old + 1)%Z ∧
              ps_labels p = ps_labels old) ∧ attached w' K).
Proof.
  unfold update_page. eapply hoare_bind.
  - apply hoare_write with (Q := λ r w', (∃ old p, m0 !! id = Some old ∧ w_pages w' !! id = Some p ∧
        r = Some (page_view id p) ∧ ps_title p = t ∧ ps_body p = b ∧
        ps_version p = (ps_version old + 1)%Z ∧ ps_labels p = ps_labels old) ∧ attached w' K).
    intros w a w' [<- HK]. simpl. unfold wiki_update.
    destruct (w_pages w !! id) as [old|] eqn:Eo; [|discriminate].
    case_bool_decide as Hv; [|discriminate]. intros E. injection E as <- <-.
    split; [|apply attached_set_page, HK].
    exists old. eexists. split; [reflexivity|]. split; [apply lookup_insert_eq|].
    simpl. auto 10.
  - intros [pv|].
    + simpl. eapply hoare_post; [apply hoare_ret|]. intros a w' [-> [Hq HK]].
      destruct Hq as (old & p & Ho & Hp & Hr & ?). injection Hr as ->. simpl. split; eauto 10.
    + apply hoare_pre with (P := λ _, False); [apply hoare_raise|].
      intros w [(old & p & _ & _ & ? & _) _]. discriminate.
Qed.

Lemma hoare_create_page_wiki K sp t b par :
  hoare (λ w, attached w K) (create_page sp t b par)
    (λ r w', (∃ p, w_pages w' !! r = Some p ∧ ps_space p = sp ∧ ps_title p = t ∧ ps_body p = b ∧
                   ps_version p = 1%Z ∧ ps_labels p = []) ∧ attached w' K).
Proof.
  unfold create_page. eapply hoare_bind.
  - apply hoare_write with (Q := λ r w', (∃ id p, w_pages w' !! id = Some p ∧
        r = Some (page_view id p) ∧ ps_space p = sp ∧ ps_title p = t ∧ ps_body p = b ∧
        ps_version p = 1%Z ∧ ps_labels p = []) ∧ attached w' K).
    intros w a w' HK. simpl. unfold wiki_create.
    destruct (title_taken w sp t); [discriminate|]. intros E. injection E as <- <-.
    split; [|exact HK].
    eexists _, _. split; [apply lookup_insert_eq|]. simpl. auto 10.
  - intros [pv|].
    + simpl. eapply hoare_post; [apply hoare_ret|]. intros a w' [-> [Hq HK]].
      destruct Hq as (id & p & Hp & Hr & ?). injection Hr as ->. simpl. split; eauto 10.
    + apply hoare_pre with (P := λ _, False); [apply hoare_raise|].
      intros w [(id & p & _ & ? & _) _]. discriminate.
Qed.

Lemma add_new_superset l new x : x ∈ l ∨ x ∈ new → x ∈ add_new l new.
Proof.
  unfold add_new. rewrite elem_of_app, list_elem_of_filter.
  destruct (decide (x ∈ l)); tauto.
Qed.

(** Adding labels keeps the page's title, body and version and the
    attachments, and the page then has every label asked for. *)
Lemma hoare_add_labels_wiki K id labels p :
  hoare (λ w, w_pages w !! id = Some p ∧ attached w K) (add_labels id labels)
    (λ _ w', (∃ p', w_pages w' !! id = Some p' ∧ ps_space p' = ps_space p ∧
                ps_title p' = ps_title p ∧ ps_body p' = ps_body p ∧
                ps_version p' = ps_version p ∧ ∀ l, l ∈ labels → l ∈ ps_labels p') ∧
             attached w' K).
Proof.
  destruct labels as [|l0 ls].
  - simpl. eapply hoare_post; [apply hoare_ret|]. intros _ w [_ [Hp HK]].
    split; [|exact HK]. exists p. repeat split; auto. intros l Hl. inversion Hl.
  - apply hoare_write. intros w [] w' [Hp HK]. simpl. unfold wiki_add_labels. rewrite Hp.
    intros E. injection E as <-. split; [|apply attached_set_page, HK].
    eexists. split; [apply lookup_insert_eq|]. simpl.
    repeat split; auto. intros l Hl. apply add_new_superset. auto.
Qed.

(** An upload keeps the pages and attaches its file. *)
Lemma hoare_upload_bytes_wiki (Pp : gmap string page_state → Prop) K id f d ct :
  hoare (λ w, Pp (w_pages w) ∧ attached w K) (upload_attachment_bytes id f d ct)
    (λ _ w, Pp (w_pages w) ∧ attached w ((id, safe_attachment_name f) :: K)).
Proof.
  unfold upload_attachment_bytes. eapply hoare_bind; [apply hoare_readonly, readonly_find_attachment|].
  intros ex. eapply hoare_bind.
  - apply hoare_write with
      (Q := λ _ w, Pp (w_pages w) ∧ attached w ((id, safe_attachment_name f) :: K)).
    intros w a w' [Hm HK]. simpl. unfold wiki_upload.
    destruct (w_pages w !! id); [|discriminate]. intros E. injection E as <- <-.
    cbv beta. split; [exact Hm|]. apply attached_insert, HK.
  - intros resp. destruct (truthy_str (ur_id resp)).
    + eapply hoare_post; [apply hoare_ret|]. intros ? ? [_ H]. exact H.
    + destruct (ur_results resp); [apply hoare_raise|].
      eapply hoare_post; [apply hoare_ret|]. intros ? ? [_ H]. exact H.
Qed.

(** The uploads keep the pages and attach every planned file. *)
Lemma hoare_uploads_wiki (Pp : gmap string page_state → Prop) R id plans K :
  hoare (λ w, Pp (w_pages w) ∧ attached w K) (upload_mermaid_image_attachments R id plans)
    (λ _ w, Pp (w_pages w) ∧ attached w (map (attachment_key id) plans ++ K)).
Proof.
  revert K. induction plans as [|p ps IH]; intros K; simpl.
  - eapply hoare_post; [apply hoare_ret|]. intros ? ? [_ H]. exact H.
  - eapply hoare_bind; [apply hoare_upload_bytes_wiki|]. intros u.
    eapply hoare_post; [apply IH|]. intros a w [Hm HK]. split; [exact Hm|].
    intros k Hk. apply HK. unfold attachment_key in *. set_solver.
Qed.

End Effects.
