(* ===== verification/Publish.v ===== *)
(** * The reconciliation engine

    [publish_document] of
    [src/skills/confluence-publisher/scripts/confluence_publish.py]
    (lines 721-811): the whole handler, every branch and every request in
    the source's order, over any [WikiService].

    The theorems:
    - the order of the mutating requests, with the version of the update;
    - the outcomes: which action is reported in which situation;
    - a dry run sends no mutating request and leaves the world unchanged;
    - with title matching disabled and no explicit id, the lookup is
      skipped, so an existing page is never reported as existing;
    - on the in-memory wiki of [Wiki], a successful run leaves the page
      with the document's title and body at the next version. *)

From Stdlib Require Import String Ascii List Bool Arith ZArith Lia.
From S2P Require Import Prelude PyStr Regex Inline Diagram Converter Labels FrontMatter Client Wiki.
Import ListNotations.
Local Open Scope string_scope.
Local Open Scope py_scope.
Local Open Scope pub_scope.

(** ** [publish_document] *)

Inductive action := Skipped | DryUpdate | Updated | DryCreate | Created.

Definition action_name (a : action) : string :=
  match a with
  | Skipped => "skipped" | DryUpdate => "dry-update" | Updated => "updated"
  | DryCreate => "dry-create" | Created => "created"
  end.

Record PublishResult := {
  res_action : action;
  res_page_id : option string;
  res_title : string;
  res_path : string;
  res_message : string
}.

(** The settings [main] passes to [publish_document]. *)
Record publish_cfg := {
  space_id : string;
  default_parent_id : option string;
  default_labels : list string;
  create_if_missing : bool;
  update_if_title_match : bool;
  dry_run : bool;
  mermaid_mode_setting : string;
  mermaid_image_width_setting : Z
}.

(** [int(current_page.get("version", {}).get("number", 1))]. *)
Definition current_version (p : page_rec) : Z :=
  match pr_version p with Some v => v | None => 1%Z end.

Section Publish.
Context {W : Type} `{WikiService W}.
Variables (R : renderers) (X : external_renderers).

(** [markdown_to_html(doc.body_markdown, ..., mermaid_image_plans=[])]. *)
Definition render_document (cfg : publish_cfg) (doc : Document)
  : string * option (list MermaidImagePlan) :=
  markdown_to_html X (mermaid_mode_setting cfg) (Some (doc_title doc))
    (mermaid_image_width_setting cfg) (Some []) (body_markdown doc).

Definition image_plans (cfg : publish_cfg) (doc : Document) : list MermaidImagePlan :=
  match snd (render_document cfg doc) with Some l => l | None => [] end.

(** [mermaid_mode == "attachment" and mermaid_image_plans]. *)
Definition with_images (cfg : publish_cfg) (doc : Document) : bool :=
  String.eqb (mermaid_mode_setting cfg) "attachment" &&
  negb (Nat.eqb (length (image_plans cfg doc)) 0).

(** The lookup: by explicit id, else by title when updates by title are
    enabled, else none. *)
Definition lookup_existing (cfg : publish_cfg) (doc : Document) : M W (option page_rec) :=
  if truthy_str (doc_page_id doc)
  then get_page (match doc_page_id doc with Some p => p | None => "" end)
  else if update_if_title_match cfg
       then find_page_by_title (space_id cfg) (doc_title doc)
       else ret None.

Definition publish_document (cfg : publish_cfg) (doc : Document) : M W PublishResult :=
  let body_html := fst (render_document cfg doc) in
  let plans := image_plans cfg doc in
  let target_parent := or_else (doc_parent_id doc) (default_parent_id cfg) in
  let labels := merge_labels (default_labels cfg) (doc_labels doc) in
  let mermaid_image_msg :=
    if with_images cfg doc then "; mermaid images=" ^ str_of_nat (length plans) else "" in
  existing <- lookup_existing cfg doc ;;
  match existing with
  | Some ex =>
      let page_id := pr_id ex in
      if negb (update_if_title_match cfg) && negb (truthy_str (doc_page_id doc)) then
        ret {| res_action := Skipped; res_page_id := Some page_id; res_title := doc_title doc;
               res_path := doc_path doc; res_message := "exists and update disabled" |}
      else
        current_page <- (if truthy_str (doc_page_id doc) then ret (Some ex)
                         else get_page page_id) ;;
        let cur := match current_page with Some p => current_version p | None => 1%Z end in
        let next_version := (cur + 1)%Z in
        if dry_run cfg then
          ret {| res_action := DryUpdate; res_page_id := Some page_id;
                 res_title := doc_title doc; res_path := doc_path doc;
                 res_message := "would update version " ^ str_of_Z cur ^ " -> " ^
                                str_of_Z next_version ^ mermaid_image_msg |}
        else
          (if with_images cfg doc then upload_mermaid_image_attachments R page_id plans
           else ret tt) ;;
          updated <- update_page page_id (doc_title doc) body_html next_version target_parent ;;
          add_labels_if updated labels ;;
          ret {| res_action := Updated; res_page_id := Some updated;
                 res_title := doc_title doc; res_path := doc_path doc; res_message := "" |}
  | None =>
      if negb (create_if_missing cfg) then
        ret {| res_action := Skipped; res_page_id := None; res_title := doc_title doc;
               res_path := doc_path doc; res_message := "not found and create disabled" |}
      else if dry_run cfg then
        ret {| res_action := DryCreate; res_page_id := None; res_title := doc_title doc;
               res_path := doc_path doc;
               res_message := "would create new page" ^ mermaid_image_msg |}
      else
        created <- create_page (space_id cfg) (doc_title doc) body_html target_parent ;;
        (if with_images cfg doc then upload_mermaid_image_attachments R created plans
         else ret tt) ;;
        add_labels_if created labels ;;
        ret {| res_action := Created; res_page_id := Some created;
               res_title := doc_title doc; res_path := doc_path doc; res_message := "" |}
  end.

End Publish.

(** ** The reconciliation contract *)

Section PublishSpec.
Context {W : Type} `{WikiService W}.
Variables (R : renderers) (X : external_renderers).
Local Open Scope list_scope.

Definition upload_count (cfg : publish_cfg) (doc : Document) : nat :=
  if with_images X cfg doc then length (image_plans X cfg doc) else 0.

Definition label_steps (cfg : publish_cfg) (doc : Document) : list mutation :=
  label_mutations (merge_labels (default_labels cfg) (doc_labels doc)).

(** The current version of the matched page [ex], as the service reports it
    in world [w]: the explicit-id fetch, or the refetch by id. *)
Definition current_at (w : W) (doc : Document) (ex : page_rec) : Z :=
  if truthy_str (doc_page_id doc) then current_version ex
  else match svc_get_page w (pr_id ex) with
       | inr (Some p) => current_version p
       | _ => 1%Z
       end.

Definition update_sequence (w : W) (cfg : publish_cfg) (doc : Document) (ex : page_rec)
  : list mutation :=
  repeat KUpload (upload_count cfg doc) ++ KUpdate (current_at w doc ex + 1) :: label_steps cfg doc.

Definition create_sequence (cfg : publish_cfg) (doc : Document) : list mutation :=
  KCreate :: repeat KUpload (upload_count cfg doc) ++ label_steps cfg doc.

(** What a run from [(w, log)] must send, by the outcome of the lookup. *)
Definition expected_mutations (cfg : publish_cfg) (doc : Document) (w : W) (log : list call)
  : list mutation :=
  match fst (lookup_existing cfg doc (w, log)) with
  | inr (Some ex) => update_sequence w cfg doc ex
  | inr None => if create_if_missing cfg then create_sequence cfg doc else []
  | inl _ => []
  end.

Lemma bind_ret_l {A B} (a : A) (k : A -> M W B) : bind (ret a) k = k a.
Proof. reflexivity. Qed.

Lemma traces_at_conv {A} (m : M W A) L L' w log : traces m L -> L = L' -> traces_at m w log L'.
Proof. intros Hm ->. apply Hm. Qed.

Lemma readonly_lookup cfg doc : readonly (lookup_existing cfg doc).
Proof.
  unfold lookup_existing.
  destruct (truthy_str _); [|destruct (update_if_title_match cfg)]; auto with pub.
Qed.

(** A page is only looked up by an explicit id or by title matching. *)
Lemma lookup_some_allowed cfg doc s ex s' :
  lookup_existing cfg doc s = (inr (Some ex), s') ->
  update_if_title_match cfg = true \/ truthy_str (doc_page_id doc) = true.
Proof.
  unfold lookup_existing. destruct (truthy_str _), (update_if_title_match cfg); auto.
  discriminate.
Qed.

Lemma traces_image_uploads cfg doc id :
  traces (if with_images X cfg doc then upload_mermaid_image_attachments R id (image_plans X cfg doc)
          else ret tt)
         (repeat KUpload (upload_count cfg doc)).
Proof.
  unfold upload_count. destruct (with_images X cfg doc); auto with pub.
Qed.

Lemma get_page_run id (w : W) log :
  get_page id (w, log) =
  (match svc_get_page w id with inl code => inl (RequestFailed (CGetPage id) code)
                               | inr p => inr p end, (w, log ++ [CGetPage id])).
Proof. unfold get_page, read. cbv beta iota. destruct (svc_get_page w id); reflexivity. Qed.

End PublishSpec.

Section PublishTheorems.
Context {W : Type} `{WikiService W}.
Variables (R : renderers) (X : external_renderers).
Local Open Scope list_scope.

(** The create-or-update tail after the lookup, in a non-dry run. *)
Lemma traces_update_tail cfg doc (ex : page_rec) cur w log :
  dry_run cfg = false ->
  traces_at
    (bind (if with_images X cfg doc
           then upload_mermaid_image_attachments R (pr_id ex) (image_plans X cfg doc) else ret tt)
      (fun _ => bind (update_page (pr_id ex) (doc_title doc) (fst (render_document X cfg doc))
                        (cur + 1) (or_else (doc_parent_id doc) (default_parent_id cfg)))
        (fun updated => bind (add_labels_if updated (merge_labels (default_labels cfg) (doc_labels doc)))
          (fun _ => ret {| res_action := Updated; res_page_id := Some updated;
                           res_title := doc_title doc; res_path := doc_path doc;
                           res_message := "" |}))))
    w log (repeat KUpload (upload_count X cfg doc) ++ KUpdate (cur + 1) :: label_steps cfg doc).
Proof.
  intros _. eapply traces_at_conv.
  - apply traces_bind; [apply traces_image_uploads|intros _].
    apply traces_bind; [apply traces_update_page|intros u].
    apply traces_bind; [rewrite add_labels_if_eq; apply traces_add_labels|intros _]. apply readonly_traces, readonly_ret.
  - rewrite app_nil_r. reflexivity.
Qed.

Lemma traces_create_tail cfg doc w log :
  traces_at
    (bind (create_page (space_id cfg) (doc_title doc) (fst (render_document X cfg doc))
             (or_else (doc_parent_id doc) (default_parent_id cfg)))
      (fun created => bind (if with_images X cfg doc
                            then upload_mermaid_image_attachments R created (image_plans X cfg doc)
                            else ret tt)
        (fun _ => bind (add_labels_if created (merge_labels (default_labels cfg) (doc_labels doc)))
          (fun _ => ret {| res_action := Created; res_page_id := Some created;
                           res_title := doc_title doc; res_path := doc_path doc;
                           res_message := "" |}))))
    w log (create_sequence X cfg doc).
Proof.
  eapply traces_at_conv.
  - apply traces_bind; [apply traces_create_page|intros c].
    apply traces_bind; [apply traces_image_uploads|intros _].
    apply traces_bind; [rewrite add_labels_if_eq; apply traces_add_labels|intros _]. apply readonly_traces, readonly_ret.
  - rewrite app_nil_r. reflexivity.
Qed.

(** C1: A publish that is not a dry run sends its mutating requests in the
    order of the spec, and the update carries the next version.  If the
    lookup found a page, the requests are the diagram uploads, then one
    update with version [current + 1], where [current] is the version the
    service reported for the page, then the labels.  If no page was found
    and creation is enabled, they are the create, then the uploads, then the
    labels.  Otherwise there are none.  A failed run sends a prefix of this
    sequence. *)
Theorem publish_mutation_sequence cfg doc w log :
  dry_run cfg = false ->
  traces_at (publish_document R X cfg doc) w log (expected_mutations X cfg doc w log).
Proof.
  intros Hdry. unfold expected_mutations.
  destruct (readonly_lookup cfg doc w log) as (r & l & E & Ml). rewrite E. cbn [fst].
  unfold publish_document. destruct r as [e|[ex|]].
  - eapply traces_at_bind_err; eauto.
  - eapply traces_at_bind_ok; [exact E|exact Ml|]. cbv beta iota zeta.
    unfold update_sequence, current_at.
    pose proof (lookup_some_allowed _ _ _ _ _ E) as Hallow.
    destruct (truthy_str (doc_page_id doc)), (update_if_title_match cfg);
      cbn [negb andb]; try (destruct Hallow; discriminate).
    1,2: rewrite bind_ret_l, Hdry; apply traces_update_tail; auto.
    destruct (svc_get_page w (pr_id ex)) as [code|p] eqn:Eg.
    + eapply traces_at_bind_err; [rewrite get_page_run, Eg; reflexivity|reflexivity].
    + eapply traces_at_bind_ok; [rewrite get_page_run, Eg; reflexivity|reflexivity|].
      cbv beta zeta. rewrite Hdry. destruct p; apply traces_update_tail; auto.
  - eapply traces_at_bind_ok; [exact E|exact Ml|]. cbv beta iota zeta.
    destruct (create_if_missing cfg); cbn [negb].
    + rewrite Hdry. apply traces_create_tail.
    + apply readonly_traces, readonly_ret.
Qed.

End PublishTheorems.

Section Outcomes.
Context {W : Type} `{WikiService W}.
Variables (R : renderers) (X : external_renderers).

(** The final steps of a handler: any requests, then [ret a]. *)
Ltac run_to_ret :=
  repeat (eapply hoare_bind; [apply hoare_true|intros ?]); apply hoare_ret_result.

Lemma hoare_lookup cfg doc :
  hoare (fun _ : W => True) (lookup_existing cfg doc)
    (fun ex _ => ex = None \/ update_if_title_match cfg = true \/
                 truthy_str (doc_page_id doc) = true).
Proof.
  unfold lookup_existing. destruct (truthy_str _) eqn:Ht; [|destruct (update_if_title_match cfg) eqn:Hu].
  - eapply hoare_post; [apply hoare_true|auto].
  - eapply hoare_post; [apply hoare_true|auto].
  - eapply hoare_post; [apply hoare_ret|]. intros a w [-> _]. auto.
Qed.

(** C4: The outcome of a successful publish.  It always carries the
    document's title and path.  A skip is always "not found and create
    disabled", without a page id, and only when creation is disabled: the
    skip "exists and update disabled" of the code is never produced.  The
    dry-run outcomes come only from dry runs, and [updated] and [created]
    only from real ones, [created] only when creation is enabled. *)
Theorem publish_outcome cfg doc w log r w' log' :
  publish_document R X cfg doc (w, log) = (inr r, (w', log')) ->
  res_title r = doc_title doc /\ res_path r = doc_path doc /\
  match res_action r with
  | Skipped => res_page_id r = None /\ res_message r = "not found and create disabled" /\
               create_if_missing cfg = false
  | DryUpdate => dry_run cfg = true
  | DryCreate => dry_run cfg = true /\ create_if_missing cfg = true
  | Updated => dry_run cfg = false /\ res_message r = ""
  | Created => dry_run cfg = false /\ create_if_missing cfg = true /\ res_message r = ""
  end.
Proof.
  intros E. revert E. apply (fun Hh => Hh w log r w' log' I). unfold publish_document.
  eapply hoare_bind; [apply hoare_lookup|]. intros [ex|].
  - apply hoare_pre with (P := fun _ => update_if_title_match cfg = true \/
                                      truthy_str (doc_page_id doc) = true);
      [|intros ? [?|?]; [discriminate|assumption]].
    destruct (update_if_title_match cfg) eqn:Hu, (truthy_str (doc_page_id doc)) eqn:Ht;
      cbn [negb andb].
    4: { intros ? ? ? ? ? [?|?]; discriminate. }
    all: eapply hoare_bind; [apply hoare_true|intros ?];
      destruct (dry_run cfg) eqn:Hd; run_to_ret; simpl; auto.
  - destruct (create_if_missing cfg) eqn:Hc; cbn [negb].
    + destruct (dry_run cfg) eqn:Hd; run_to_ret; simpl; auto.
    + run_to_ret. simpl. auto.
Qed.

End Outcomes.

Section DryRun.
Context {W : Type} `{WikiService W}.
Variables (R : renderers) (X : external_renderers).
Local Open Scope list_scope.

(** C3: A dry run is read-only: whatever the service answers, it leaves the
    world unchanged and sends no create, update, upload or label request. *)
Theorem publish_dry_run_readonly cfg doc :
  dry_run cfg = true -> readonly (publish_document R X cfg doc).
Proof.
  intros Hd. unfold publish_document. apply readonly_bind; [apply readonly_lookup|].
  intros [ex|]; cbv beta iota zeta.
  - destruct (negb _ && negb _); [auto with pub|].
    apply readonly_bind; [destruct (truthy_str _); auto with pub|]. intros cp. rewrite Hd.
    auto with pub.
  - destruct (create_if_missing cfg); cbn [negb]; [rewrite Hd|]; auto with pub.
Qed.

Lemma bind_write_ok {A B} c (f : W -> Z + (A * W)) (k : A -> M W B) w log a w1 :
  f w = inr (a, w1) -> bind (write c f) k (w, log) = k a (w1, log ++ [c]).
Proof. intros E. unfold bind, write. cbv beta iota. rewrite E. reflexivity. Qed.

Lemma traces_appends_after {A} (m : M W A) L w log c :
  traces m L -> exists r w' l, m (w, log ++ [c]) = (r, (w', log ++ c :: l)).
Proof.
  intros Hm. destruct (Hm w (log ++ [c])) as (r & w' & l & E & _).
  rewrite <- app_assoc in E. eauto.
Qed.

(** C5: With title matching disabled and no explicit page id, a real publish
    that may create pages sends the create as its first request: no lookup
    is made, whatever the service holds. *)
Theorem publish_without_title_match_creates cfg doc w log :
  update_if_title_match cfg = false -> truthy_str (doc_page_id doc) = false ->
  dry_run cfg = false -> create_if_missing cfg = true ->
  exists r w' l,
    publish_document R X cfg doc (w, log) =
    (r, (w', log ++ CCreatePage (space_id cfg) (doc_title doc) (fst (render_document X cfg doc))
                   (payload_parent (or_else (doc_parent_id doc) (default_parent_id cfg))) :: l)).
Proof.
  intros Hu Ht Hd Hc. unfold publish_document, lookup_existing. rewrite Ht, Hu, bind_ret_l.
  cbv beta iota zeta. rewrite Hc, Hd. cbn [negb]. unfold create_page. rewrite bind_assoc_at.
  destruct (svc_create_page w (space_id cfg) (doc_title doc) (fst (render_document X cfg doc))
              (payload_parent (or_else (doc_parent_id doc) (default_parent_id cfg))))
    as [code|[resp w1]] eqn:E.
  - exists (inl (RequestFailed (CCreatePage (space_id cfg) (doc_title doc)
                  (fst (render_document X cfg doc))
                  (payload_parent (or_else (doc_parent_id doc) (default_parent_id cfg)))) code)), w, [].
    unfold bind, write. cbv beta iota. rewrite E. reflexivity.
  - rewrite (bind_write_ok _ _ _ _ _ _ _ E). eapply traces_appends_after.
    apply traces_bind_ro; [auto with pub|intros created].
    apply traces_bind; [apply traces_image_uploads|intros _].
    apply traces_bind; [rewrite add_labels_if_eq; apply traces_add_labels|intros _]. apply readonly_traces, readonly_ret.
Qed.

End DryRun.

(** ** Runs on the in-memory wiki *)

Local Open Scope list_scope.

Definition no_renderers : renderers :=
  {| render_local := fun _ => None; fetch_remote := fun _ => None |}.

Definition no_external : external_renderers :=
  {| pandoc_output := fun _ => None; markdown_lib_output := fun _ => None |}.

Definition sample_cfg (dry update : bool) : publish_cfg :=
  {| space_id := "S1"; default_parent_id := None; default_labels := ["docs"];
     create_if_missing := true; update_if_title_match := update; dry_run := dry;
     mermaid_mode_setting := "attachment"; mermaid_image_width_setting := 1000 |}.

(** Scenario A of the spec: a document whose body starts with [# Hello]. *)
Definition doc_hello : Document := parse_document "docs/hello.md" "hello" ("# Hello" ^ nl ^ "World").

Definition run_on (w : wiki) (dry update : bool) :=
  publish_document no_renderers no_external (sample_cfg dry update) doc_hello (w, []).

(** Scenario D of the spec: no page, creation enabled, dry run. *)
Example scenario_D :
  run_on (empty_wiki "KEY" "S1") true true =
  (inr {| res_action := DryCreate; res_page_id := None; res_title := "Hello";
          res_path := "docs/hello.md"; res_message := "would create new page" |},
   (empty_wiki "KEY" "S1", [CFindPages "S1" "Hello"])).
Proof. vm_compute. reflexivity. Qed.

(** An update of version 3: the update carries version 4, then the labels
    follow. *)
Example scenario_update :
  muts (snd (snd (run_on (wiki_with_page "KEY" "S1" "p0" "Hello" "old" 3) false true))) =
  [KUpdate 4; KLabels].
Proof. vm_compute. reflexivity. Qed.

(** With title matching disabled, a page titled like the document makes the
    create fail: the document is reported as an error, not as skipped. *)
Example duplicate_title_fails :
  match fst (run_on (wiki_with_page "KEY" "S1" "p0" "Hello" "old" 3) false false) with
  | inl (RequestFailed (CCreatePage _ _ _ _) 400) => True
  | _ => False
  end.
Proof. vm_compute. exact I. Qed.

Lemma publish_mutation_sequence_witness :
  dry_run (sample_cfg false true) = false /\
  traces_at (publish_document no_renderers no_external (sample_cfg false true) doc_hello)
    (wiki_with_page "KEY" "S1" "p0" "Hello" "old" 3) []
    (expected_mutations no_external (sample_cfg false true) doc_hello
       (wiki_with_page "KEY" "S1" "p0" "Hello" "old" 3) []).
Proof. split; [reflexivity|apply publish_mutation_sequence; reflexivity]. Defined.

Definition scenario_D_result : PublishResult :=
  {| res_action := DryCreate; res_page_id := None; res_title := "Hello";
     res_path := "docs/hello.md"; res_message := "would create new page" |}.

Lemma publish_outcome_witness :
  run_on (empty_wiki "KEY" "S1") true true =
    (inr scenario_D_result, (empty_wiki "KEY" "S1", [CFindPages "S1" "Hello"])) /\
  res_title scenario_D_result = doc_title doc_hello /\
  res_path scenario_D_result = doc_path doc_hello /\
  dry_run (sample_cfg true true) = true /\ create_if_missing (sample_cfg true true) = true.
Proof.
  assert (E : run_on (empty_wiki "KEY" "S1") true true =
              (inr scenario_D_result, (empty_wiki "KEY" "S1", [CFindPages "S1" "Hello"])))
    by (vm_compute; reflexivity).
  split; [exact E|]. exact (publish_outcome no_renderers no_external _ _ _ _ _ _ _ E).
Defined.

Lemma publish_dry_run_readonly_witness :
  dry_run (sample_cfg true true) = true /\
  readonly (W := wiki) (publish_document no_renderers no_external (sample_cfg true true) doc_hello).
Proof. split; [reflexivity|apply publish_dry_run_readonly; reflexivity]. Defined.

Lemma publish_without_title_match_creates_witness :
  update_if_title_match (sample_cfg false false) = false /\
  exists r w' l,
    run_on (wiki_with_page "KEY" "S1" "p0" "Hello" "old" 3) false false =
    (r, (w', [] ++ CCreatePage "S1" (doc_title doc_hello)
                    (fst (render_document no_external (sample_cfg false false) doc_hello))
                    (payload_parent (or_else (doc_parent_id doc_hello) None)) :: l)).
Proof.
  split; [reflexivity|].
  apply publish_without_title_match_creates; reflexivity.
Defined.
