(* ===== verification/EndToEnd.v ===== *)
(** * End to end on the in-memory wiki

    [publish_document] of [Publish] run against the in-memory service of
    [Wiki].  A successful create or update leaves a page with the
    document's title, rendered body and labels.  An update leaves it at the
    next version, a create at version 1.  The planned diagram files are
    attached to the page.  Every other outcome leaves the wiki unchanged. *)

From Stdlib Require Import ZArith.
From stdpp Require Import base gmap list strings.
From S2P Require Import Prelude PyStr Diagram Converter Labels FrontMatter Client Wiki Publish.

Section Refinement.
Variables (R : renderers) (X : external_renderers).

(** The attachments a run must leave on page [id]. *)
Definition image_keys (cfg : publish_cfg) (doc : Document) (id : string) : list (string * string) :=
  if with_images X cfg doc then map (attachment_key id) (image_plans X cfg doc) else [].

(** The page a successful create or update leaves: the document's title and
    rendered body, and every merged label. *)
Definition page_matches (cfg : publish_cfg) (doc : Document) (p : page_state) : Prop :=
  page_holds p (doc_title doc) (fst (render_document X cfg doc))
    (merge_labels (default_labels cfg) (doc_labels doc)).

Lemma hoare_image_uploads_wiki (Pp : gmap string page_state -> Prop) cfg doc id :
  hoare (fun x => Pp (w_pages x) /\ attached x [])
    (if with_images X cfg doc then upload_mermaid_image_attachments R id (image_plans X cfg doc)
     else ret tt)
    (fun _ x => Pp (w_pages x) /\ attached x (image_keys cfg doc id)).
Proof.
  unfold image_keys. destruct (with_images X cfg doc).
  - eapply hoare_post; [apply hoare_uploads_wiki|]. intros _ x [Hp Ha]. rewrite app_nil_r in Ha. auto.
  - eapply hoare_post; [apply hoare_ret|]. intros _ x [_ H]. exact H.
Qed.

(** What a successful run leaves in the wiki, by its outcome. *)
Definition wiki_effect (cfg : publish_cfg) (doc : Document) (w : wiki) (r : PublishResult)
  (w' : wiki) : Prop :=
  match res_action r with
  | Updated => exists id old p, res_page_id r = Some id /\ w_pages w !! id = Some old /\
               w_pages w' !! id = Some p /\ ps_version p = (ps_version old + 1)%Z /\
               page_matches cfg doc p /\ attached w' (image_keys cfg doc id)
  | Created => exists id p, res_page_id r = Some id /\ w_pages w' !! id = Some p /\
               ps_space p = space_id cfg /\ ps_version p = 1%Z /\
               page_matches cfg doc p /\ attached w' (image_keys cfg doc id)
  | _ => w' = w
  end.

Lemma hoare_publish_update_wiki cfg doc (w : wiki) (id : string) v :
  hoare (fun x => x = w)
    (bind (if with_images X cfg doc
           then upload_mermaid_image_attachments R id (image_plans X cfg doc) else ret tt)
      (fun _ => bind (update_page id (doc_title doc) (fst (render_document X cfg doc))
                        v (or_else (doc_parent_id doc) (default_parent_id cfg)))
        (fun updated => bind (add_labels_if updated (merge_labels (default_labels cfg) (doc_labels doc)))
          (fun _ => ret {| res_action := Updated; res_page_id := Some updated;
                           res_title := doc_title doc; res_path := doc_path doc;
                           res_message := "" |}))))
    (fun r w' => wiki_effect cfg doc w r w').
Proof.
  eapply hoare_bind.
  { apply hoare_pre with (P := fun x => w_pages x = w_pages w /\ attached x []);
      [apply (hoare_image_uploads_wiki (fun m => m = w_pages w))|].
    intros x ->. split; [reflexivity|apply attached_nil]. }
  intros u. eapply hoare_bind; [apply hoare_update_page_wiki|]. intros updated.
  apply hoare_pre_frame. intros ->.
  apply hoare_exists_l. intros old. apply hoare_exists_l. intros p.
  apply hoare_pre with (P := fun x => (w_pages w !! id = Some old /\
      ps_title p = doc_title doc /\ ps_body p = fst (render_document X cfg doc) /\
      ps_version p = (ps_version old + 1)%Z) /\
      (w_pages x !! id = Some p /\ attached x (image_keys cfg doc id)));
    [|intros x [(Ho & Hp & Ht & Hb & Hv & _) HK]; auto 10].
  apply hoare_pre_frame. intros (Ho & Ht & Hb & Hv).
  eapply hoare_bind; [rewrite add_labels_if_eq; apply hoare_add_labels_wiki|]. intros u'.
  eapply hoare_post; [apply hoare_ret|]. intros r x [-> [(p' & Hp' & _ & Ht' & Hb' & Hv' & Hl) HK]].
  exists id, old, p'. repeat split; auto; congruence.
Qed.

Lemma hoare_publish_create_wiki cfg doc (w : wiki) :
  hoare (fun x => x = w)
    (bind (create_page (space_id cfg) (doc_title doc) (fst (render_document X cfg doc))
             (or_else (doc_parent_id doc) (default_parent_id cfg)))
      (fun created => bind (if with_images X cfg doc
                            then upload_mermaid_image_attachments R created (image_plans X cfg doc)
                            else ret tt)
        (fun _ => bind (add_labels_if created (merge_labels (default_labels cfg) (doc_labels doc)))
          (fun _ => ret {| res_action := Created; res_page_id := Some created;
                           res_title := doc_title doc; res_path := doc_path doc;
                           res_message := "" |}))))
    (fun r w' => wiki_effect cfg doc w r w').
Proof.
  eapply hoare_bind.
  { apply hoare_pre with (P := fun x => attached x []); [apply hoare_create_page_wiki|].
    intros x _. apply attached_nil. }
  intros created. apply hoare_exists_l. intros p.
  apply hoare_pre with (P := fun x => (ps_space p = space_id cfg /\ ps_title p = doc_title doc /\
      ps_body p = fst (render_document X cfg doc) /\ ps_version p = 1%Z) /\
      (w_pages x !! created = Some p /\ attached x []));
    [|intros x [(Hp & Hs & Ht & Hb & Hv & _) HK]; auto 10].
  apply hoare_pre_frame. intros (Hs & Ht & Hb & Hv).
  eapply hoare_bind; [apply (hoare_image_uploads_wiki (fun m => m !! created = Some p))|].
  intros u. eapply hoare_bind; [rewrite add_labels_if_eq; apply hoare_add_labels_wiki|]. intros u'.
  eapply hoare_post; [apply hoare_ret|].
  intros r x [-> [(p' & Hp' & Hs' & Ht' & Hb' & Hv' & Hl) HK]].
  exists created, p'. repeat split; auto; congruence.
Qed.

(** C2: Publishing against the in-memory wiki does what the spec promises.
    After a successful update, the page of the reported id has the
    document's title, rendered body and merged labels, at one more than its
    version before the run.  After a successful create, such a page exists
    in the configured space at version 1.  In both cases the planned diagram
    files are attached to it.  A skip or a dry run leaves the wiki
    unchanged. *)
Theorem publish_wiki_refinement cfg doc (w : wiki) log r w' log' :
  publish_document R X cfg doc (w, log) = (inr r, (w', log')) ->
  wiki_effect cfg doc w r w'.
Proof.
  intros E.
  enough (Hh : hoare (fun x => x = w) (publish_document R X cfg doc)
                 (fun r w' => wiki_effect cfg doc w r w'))
    by exact (Hh w log r w' log' eq_refl E).
  unfold publish_document.
  eapply hoare_bind; [apply hoare_readonly, readonly_lookup|]. intros [ex|]; cbv beta iota zeta.
  - destruct (negb _ && negb _).
    { eapply hoare_post; [apply hoare_ret|]. intros a x [-> ->]. reflexivity. }
    eapply hoare_bind; [apply hoare_readonly; destruct (truthy_str _); auto with pub|].
    intros cp. destruct (dry_run cfg); [|apply hoare_publish_update_wiki].
    eapply hoare_post; [apply hoare_ret|]. intros a x [-> ->]. reflexivity.
  - destruct (create_if_missing cfg); cbn [negb];
      [destruct (dry_run cfg); [|apply hoare_publish_create_wiki]|];
      eapply hoare_post; try apply hoare_ret; intros a x [-> ->]; reflexivity.
Qed.

End Refinement.


Lemma publish_wiki_refinement_witness :
  exists r w' log',
    run_on (wiki_with_page "KEY" "S1" "p0" "Hello" "old" 3) false true = (inr r, (w', log')) /\
    wiki_effect no_external (sample_cfg false true) doc_hello
      (wiki_with_page "KEY" "S1" "p0" "Hello" "old" 3) r w'.
Proof.
  destruct (run_on (wiki_with_page "KEY" "S1" "p0" "Hello" "old" 3) false true)
    as [[e|r] [w' log']] eqn:E; [vm_compute in E; discriminate|].
  exists r, w', log'. split; [reflexivity|].
  exact (publish_wiki_refinement no_renderers no_external _ _ _ _ _ _ _ E).
Defined.

(** A document with a title longer than 165 characters and two diagrams.
    Both diagrams get the same file name, so the second upload replaces the
    first: the page ends with one attachment, and both images show the
    second diagram. *)
Definition fence : string := "```mermaid".
Definition fence_end : string := "```".

Definition doc_two_diagrams : Document :=
  {| doc_path := "docs/long.md"; doc_title := long_title;
     body_markdown := fence +:+ nl +:+ "graph A" +:+ nl +:+ fence_end +:+ nl +:+
                      fence +:+ nl +:+ "graph B" +:+ nl +:+ fence_end +:+ nl;
     doc_parent_id := None; doc_page_id := None; doc_labels := [] |}.

Example long_title_attachment_overwritten :
  length (image_plans no_external (sample_cfg false true) doc_two_diagrams) = 2 /\
  match publish_document no_renderers no_external (sample_cfg false true) doc_two_diagrams
          (empty_wiki "KEY" "S1", []) with
  | (inr r, (w', _)) => res_action r = Created /\ size (w_attachments w') = 1
  | _ => False
  end.
Proof. vm_compute. split; [reflexivity|]. split; reflexivity. Qed.
