(* ===== verification/Driver.v ===== *)
(** * The command-line driver

    [load_dotenv], [env_bool], [bool_arg], [parse_positive_int] and [main]
    of [src/skills/confluence-publisher/scripts/confluence_publish.py]
    (lines 63-83 and 850-957).

    - The process environment is a [gmap string string].  [load_dotenv]
      folds the lines of the [.env] file into it with [setdefault]: a
      variable already set is kept.  Setting a variable with an empty name
      or a NUL character raises [ValueError] in [os.putenv].  That error is
      [None] here.
    - [int(raw)] is [py_int] on ASCII text.  It strips surrounding
      whitespace, reads an optional sign, and reads decimal digits with
      single underscores between them.
    - [main] is split at its I/O.  [resolve_settings] is the part before
      any request: it reads the arguments and the environment and returns
      exit code 2 on a bad setting.  [run_files] is the loop over the
      matched files, run in the client monad.  It catches each document's
      error and counts it.  [main_run] chains them with the space lookup.
      [main] takes the sorted files as (path, stem, text) triples;
      [main_fs] builds them from a file system with [Glob.discover] and
      [read_text].
    - [main_output] is what [main] prints, line by line, on stdout or
      stderr; [str(exc)] of a caught exception is a parameter, and the
      traceback of an uncaught one is not modelled. *)

From Stdlib Require Import Ascii ZArith Lia DecimalString DecimalNat.
From stdpp Require Import base gmap list strings.
From S2P Require Import Prelude PyStr Glob Diagram Converter Labels FrontMatter Client Publish.

(** ** The environment *)

Definition env := gmap string string.

(** [os.getenv(name, default)]. *)
Definition getenv (e : env) (name default : string) : string :=
  match e !! name with Some v => v | None => default end.

Definition NUL : Ascii.ascii := "000"%char.

(** The quote characters [load_dotenv] removes around a value. *)
Definition is_quote (c : Ascii.ascii) : bool :=
  Ascii.eqb c "034"%char || Ascii.eqb c "039"%char.

Definition first_char (s : string) : option Ascii.ascii :=
  match s with String c _ => Some c | EmptyString => None end.

Definition last_char (s : string) : option Ascii.ascii := first_char (str_rev s).

(** [if value and len(value) >= 2 and value[0] == value[-1] and value[0] in
    QUOTES: value = value[1:-1]]. *)
Definition unquote (value : string) : string :=
  match first_char value, last_char value with
  | Some a, Some b =>
      if Nat.leb 2 (String.length value) && Ascii.eqb a b && is_quote a
      then strip_ends value else value
  | _, _ => value
  end.

(** [os.environ.setdefault(key, value)]: [None] when [os.putenv] refuses
    the name or the value. *)
Definition setdefault (e : env) (key value : string) : option env :=
  match e !! key with
  | Some _ => Some e
  | None =>
      if String.eqb key "" || in_str NUL key || in_str NUL value then None
      else Some (<[key := value]> e)
  end.

Fixpoint dotenv_lines (e : env) (ls : list string) : option env :=
  match ls with
  | [] => Some e
  | raw :: ls' =>
      let line := strip raw in
      if String.eqb line "" || startswith line "#" || negb (in_str "=" line)
      then dotenv_lines e ls'
      else match partition_char "=" line with
           | None => dotenv_lines e ls'
           | Some (key, value) =>
               match setdefault e (strip key) (unquote (strip value)) with
               | Some e' => dotenv_lines e' ls'
               | None => None
               end
           end
  end.

(** [load_dotenv]: [file] is the text of the [.env] file, [None] when it
    does not exist. *)
Definition load_dotenv (file : option string) (e : env) : option env :=
  match file with
  | None => Some e
  | Some text => dotenv_lines e (splitlines text)
  end.

Definition true_words : list string := ["1"; "true"; "yes"; "y"; "on"].

Definition env_bool (e : env) (name : string) (default : bool) : bool :=
  match e !! name with
  | None => default
  | Some v => bool_decide (lower (strip v) ∈ true_words)
  end.

Definition bool_arg (e : env) (value : option string) (fallback_env : string) (default : bool)
  : bool :=
  match value with
  | Some v => bool_decide (v = "true")
  | None => env_bool e fallback_env default
  end.

(** ** [int(raw)] and [parse_positive_int] *)

Definition digit_val (c : Ascii.ascii) : option Z :=
  let n := Ascii.nat_of_ascii c in
  if Nat.leb 48 n && Nat.leb n 57 then Some (Z.of_nat (n - 48)) else None.

(** Digits with single underscores between them; [after_digit] says that
    the previous character was a digit. *)
Fixpoint digits_us (acc : Z) (after_digit : bool) (s : string) : option Z :=
  match s with
  | EmptyString => if after_digit then Some acc else None
  | String c r =>
      if Ascii.eqb c "_" then (if after_digit then digits_us acc false r else None)
      else match digit_val c with
           | Some d => digits_us (10 * acc + d)%Z true r
           | None => None
           end
  end.

Definition py_int (raw : string) : option Z :=
  match strip raw with
  | String c r =>
      if Ascii.eqb c "-" then option_map Z.opp (digits_us 0 false r)
      else if Ascii.eqb c "+" then digits_us 0 false r
      else digits_us 0 false (String c r)
  | EmptyString => None
  end.

Definition parse_positive_int (raw setting_name : string) (min_value max_value : Z)
  : string + Z :=
  match py_int raw with
  | None => inl (setting_name +:+ " must be an integer")
  | Some parsed =>
      if bool_decide (parsed < min_value)%Z || bool_decide (parsed > max_value)%Z
      then inl (setting_name +:+ " must be between " +:+ str_of_Z min_value +:+ " and " +:+
                str_of_Z max_value)
      else inr parsed
  end.

(** ** [main] *)

(** The parsed command line. *)
Record cli_args := {
  arg_dotenv : string;
  arg_glob : option string;
  arg_space_key : option string;
  arg_parent_id : option string;
  arg_default_labels : option string;
  arg_dry_run : bool;
  arg_mermaid_mode : option string;
  arg_mermaid_image_width : option Z;
  arg_create_if_missing : option string;
  arg_update_if_title_match : option string
}.

(** [args.x or os.getenv(NAME, default)]. *)
Definition arg_or_env (e : env) (a : option string) (name default : string) : string :=
  match a with
  | Some v => if bool_decide (v = "") then getenv e name default else v
  | None => getenv e name default
  end.

(** The settings [main] resolves before any request. *)
Record settings := {
  site : string;
  email : string;
  token : string;
  space_key : string;
  glob_pattern : string;
  publish_settings : publish_cfg
}.

Definition mermaid_modes : list string := ["code"; "macro"; "attachment"].

(** The part of [main] before any request: the settings, or the exit code
    2 with the message printed to stderr. *)
Definition resolve_settings (a : cli_args) (e : env) : string + settings :=
  let site := strip (getenv e "ATLASSIAN_SITE" "") in
  let email := strip (getenv e "ATLASSIAN_EMAIL" "") in
  let token := strip (getenv e "ATLASSIAN_API_TOKEN" "") in
  let space_key := strip (arg_or_env e (arg_space_key a) "CONFLUENCE_SPACE_KEY" "") in
  let parent := strip (arg_or_env e (arg_parent_id a) "CONFLUENCE_PARENT_ID" "") in
  let parent_id := if bool_decide (parent = "") then None else Some parent in
  let glob_pattern := strip (arg_or_env e (arg_glob a) "MARKDOWN_GLOB" "docs/**/*.md") in
  let default_labels :=
    parse_labels (Some (arg_or_env e (arg_default_labels a) "PUBLISH_DEFAULT_LABELS" "")) in
  let mermaid_mode :=
    lower (strip (arg_or_env e (arg_mermaid_mode a) "CONFLUENCE_MERMAID_MODE" "attachment")) in
  if negb (bool_decide (mermaid_mode ∈ mermaid_modes)) then
    inl "CONFLUENCE_MERMAID_MODE must be 'code', 'macro', or 'attachment'"
  else
  let width_raw := match arg_mermaid_image_width a with
                   | Some n => str_of_Z n
                   | None => strip (getenv e "CONFLUENCE_MERMAID_IMAGE_WIDTH" "1000")
                   end in
  match parse_positive_int width_raw "CONFLUENCE_MERMAID_IMAGE_WIDTH" 240 4000 with
  | inl msg => inl msg
  | inr width =>
      let create := bool_arg e (arg_create_if_missing a) "PUBLISH_CREATE_IF_MISSING" true in
      let update := bool_arg e (arg_update_if_title_match a) "PUBLISH_UPDATE_IF_TITLE_MATCH" true in
      let missing := map fst (filter (λ nv, snd nv = "")
                       [("ATLASSIAN_SITE", site); ("ATLASSIAN_EMAIL", email);
                        ("ATLASSIAN_API_TOKEN", token); ("CONFLUENCE_SPACE_KEY", space_key)]) in
      if bool_decide (missing ≠ []) then
        inl ("Missing required settings: " +:+ String.concat ", " missing)
      else
        inr {| site := site; email := email; token := token; space_key := space_key;
               glob_pattern := glob_pattern;
               publish_settings := {| Publish.space_id := "";
                                      default_parent_id := parent_id;
                                      default_labels := default_labels;
                                      create_if_missing := create;
                                      update_if_title_match := update;
                                      dry_run := arg_dry_run a;
                                      mermaid_mode_setting := mermaid_mode;
                                      mermaid_image_width_setting := width |} |}
  end.

(** [space_id = str(space["id"])], passed to [publish_document]. *)
Definition with_space (cfg : publish_cfg) (space_id : string) : publish_cfg :=
  {| Publish.space_id := space_id;
     default_parent_id := default_parent_id cfg;
     default_labels := default_labels cfg;
     create_if_missing := create_if_missing cfg;
     update_if_title_match := update_if_title_match cfg;
     dry_run := dry_run cfg;
     mermaid_mode_setting := mermaid_mode_setting cfg;
     mermaid_image_width_setting := mermaid_image_width_setting cfg |}.

(** A file of the glob: its path, its stem and its text. *)
Definition source_file : Type := string * string * string.

Section Loop.
Context {W : Type} `{WikiService W}.
Variables (R : renderers) (X : external_renderers).

(** [try: ... except Exception]: the error is caught, the world keeps what
    the failed document did. *)
Definition attempt {A} (m : M W A) : M W (error + A) :=
  fun s => let '(r, s') := m s in (inr r, s').

(** The [for path in paths] loop: one outcome per file, in order. *)
Fixpoint run_files (cfg : publish_cfg) (files : list source_file)
  : M W (list (string * (error + PublishResult))) :=
  match files with
  | [] => ret []
  | (path, stem, text) :: rest =>
      r <- attempt (publish_document R X cfg (parse_document path stem text)) ;;
      outs <- run_files cfg rest ;;
      ret ((path, r) :: outs)
  end%pub.

Definition is_error {A} (r : error + A) : bool :=
  match r with inl _ => true | inr _ => false end.

(** [failures += 1] in the [except] branch. *)
Definition failures (outs : list (string * (error + PublishResult))) : nat :=
  count_by (λ o, is_error (snd o)) outs.

(** [main] after the settings: no file gives 0; otherwise the space lookup,
    whose error is not caught, then the loop, and 1 if a file failed. *)
Definition main_run (st : settings) (files : list source_file) : M W Z :=
  match files with
  | [] => ret 0%Z
  | _ =>
      space <- get_space_by_key (space_key st) ;;
      outs <- run_files (with_space (publish_settings st) (sp_id space)) files ;;
      ret (if bool_decide (failures outs = 0) then 0%Z else 1%Z)
  end%pub.

(** The whole of [main]: the exit status of the process.  An uncaught
    exception ends Python with status 1. *)
Definition main (a : cli_args) (dotenv : option string) (e : env) (files : list source_file)
  (w : W) : Z * (W * list call) :=
  match load_dotenv dotenv e with
  | None => (1%Z, (w, []))
  | Some e' =>
      match resolve_settings a e' with
      | inl _ => (2%Z, (w, []))
      | inr st =>
          match main_run st files (w, []) with
          | (inr code, s') => (code, s')
          | (inl _, s') => (1%Z, s')
          end
      end
  end.

(** [paths = sorted(...glob.glob(glob_pattern, recursive=True)...)] and,
    for each, [parse_document(path)]: [str(path)], [path.stem] and
    [path.read_text()].  The [""] of a failed read is never used: every
    file [discover] returns can be read ([Glob.discover_read_text]). *)
Definition source_of (fs : fs_node) (p : py_path) : source_file :=
  (path_str p, path_stem p, match read_text fs p with Some t => t | None => "" end).

Definition source_files (fs : fs_node) (pattern : string) : list source_file :=
  map (source_of fs) (discover fs pattern).

(** The files of the glob [main] reads from its settings; the list only
    matters once the settings are resolved. *)
Definition glob_files (a : cli_args) (dotenv : option string) (e : env) (fs : fs_node)
  : list source_file :=
  match load_dotenv dotenv e with
  | Some e' =>
      match resolve_settings a e' with
      | inr st => source_files fs (glob_pattern st)
      | inl _ => []
      end
  | None => []
  end.

(** [main] on a file system. *)
Definition main_fs (a : cli_args) (dotenv : option string) (e : env) (fs : fs_node) (w : W)
  : Z * (W * list call) :=
  main a dotenv e (glob_files a dotenv e fs) w.

End Loop.

(** ** What [main] prints *)

Inductive stream := Stdout | Stderr.

Definition QQ : string := String "034"%char EmptyString.

(** [print(f"[{result.action}] {result.path} -> \"{result.title}\"{page_part}{suffix}")]. *)
Definition result_line (r : PublishResult) : string :=
  let suffix := if bool_decide (res_message r = "") then "" else " (" +:+ res_message r +:+ ")" in
  let page_part := match res_page_id r with
                   | Some pid => if bool_decide (pid = "") then "" else " page_id=" +:+ pid
                   | None => ""
                   end in
  "[" +:+ action_name (res_action r) +:+ "] " +:+ res_path r +:+ " -> " +:+ QQ +:+ res_title r +:+ QQ
    +:+ page_part +:+ suffix.

Section Output.
Context {W : Type} `{WikiService W}.
Variables (R : renderers) (X : external_renderers).
(** [str(exc)] of the exception a document raised. *)
Variable exc_str : error -> string.

(** The line of one file: the result on stdout, or [[error] path: exc] on
    stderr. *)
Definition outcome_line (o : string * (error + PublishResult)) : stream * string :=
  match o with
  | (path, inl err) => (Stderr, "[error] " +:+ path +:+ ": " +:+ exc_str err)
  | (_, inr r) => (Stdout, result_line r)
  end.

(** The last line: the failure count on stderr, or success. *)
Definition summary_line (outs : list (string * (error + PublishResult))) : stream * string :=
  if bool_decide (failures outs = 0) then (Stdout, "Completed successfully.")
  else (Stderr, "Completed with " +:+ str_of_nat (failures outs) +:+ " failed file(s).").

(** The lines after the space lookup. *)
Definition run_lines_out (st : settings) (space_id : string) (nfiles : nat)
  (outs : list (string * (error + PublishResult))) : list (stream * string) :=
  [(Stdout, "Space: " +:+ space_key st +:+ " (id=" +:+ space_id +:+ ")");
   (Stdout, "Files: " +:+ str_of_nat nfiles)] ++
  (if dry_run (publish_settings st) then [(Stdout, "Mode: dry-run")] else []) ++
  map outcome_line outs ++ [summary_line outs].

(** Everything [main] prints, in order.  An uncaught exception (from
    [load_dotenv] or the space lookup) prints a traceback, which is not
    modelled: no line. *)
Definition main_output (a : cli_args) (dotenv : option string) (e : env)
  (files : list source_file) (w : W) : list (stream * string) :=
  match load_dotenv dotenv e with
  | None => []
  | Some e' =>
      match resolve_settings a e' with
      | inl msg => [(Stderr, msg)]
      | inr st =>
          match files with
          | [] => [(Stdout, "No markdown files matched: " +:+ glob_pattern st)]
          | _ =>
              match get_space_by_key (space_key st) (w, []) with
              | (inl _, _) => []
              | (inr sp, s1) =>
                  match run_files R X (with_space (publish_settings st) (sp_id sp)) files s1 with
                  | (inr outs, _) => run_lines_out st (sp_id sp) (length files) outs
                  | (inl _, _) => []
                  end
              end
          end
      end
  end.

Definition is_stderr (l : stream * string) : bool :=
  match fst l with Stderr => true | Stdout => false end.

End Output.

(** ** [int] reads back what [str] prints *)

Lemma digits_uint d (acc : nat) :
  digits_us (Z.of_nat acc) true (NilEmpty.string_of_uint d) = Some (Z.of_nat (Nat.of_uint_acc d acc)).
Proof.
  revert acc. induction d; intros acc; [reflexivity|..];
    simpl; rewrite ?Nat.tail_mul_spec;
    match goal with
    | |- digits_us ?a true _ = Some (Z.of_nat (Nat.of_uint_acc _ ?n)) =>
        replace a with (Z.of_nat n) by (cbn; lia); apply IHd
    end.
Qed.

Lemma uint_no_space d c : in_str c (NilEmpty.string_of_uint d) = true -> isspace c = false.
Proof.
  induction d; simpl; [discriminate|..]; intros H; apply orb_prop in H as [H|H]; auto;
    apply Ascii.eqb_eq in H; subst c; reflexivity.
Qed.

Lemma py_int_uint d :
  d <> Decimal.Nil -> py_int (NilEmpty.string_of_uint d) = Some (Z.of_nat (Nat.of_uint d)).
Proof.
  intros Hd. unfold py_int, strip. rewrite strip_by_none by (intros c; apply uint_no_space).
  unfold Nat.of_uint. rewrite <- (digits_uint d 0).
  destruct d; [congruence|..]; reflexivity.
Qed.

Lemma py_int_str_of_nat n : py_int (str_of_nat n) = Some (Z.of_nat n).
Proof.
  unfold str_of_nat. rewrite py_int_uint by apply to_uint_not_nil.
  rewrite DecimalNat.Unsigned.of_to. reflexivity.
Qed.

Lemma digits_first d acc :
  d <> Decimal.Nil ->
  digits_us acc false (NilEmpty.string_of_uint d) = digits_us acc true (NilEmpty.string_of_uint d).
Proof. destruct d; [congruence|..]; reflexivity. Qed.

Lemma py_int_str_of_Z n : py_int (str_of_Z n) = Some n.
Proof.
  unfold str_of_Z. destruct (Z.ltb_spec n 0) as [Hn|Hn].
  - unfold py_int, strip. rewrite strip_by_none.
    + unfold str_of_nat. change (String.append (String ?c EmptyString) ?s) with (String c s).
      cbn -[digits_us NilEmpty.string_of_uint Nat.to_uint].
      rewrite digits_first by apply to_uint_not_nil.
      change 0%Z with (Z.of_nat 0). rewrite digits_uint. cbn [option_map]. f_equal.
      change (Nat.of_uint_acc (Nat.to_uint (Z.to_nat (- n))) 0) with
        (Nat.of_uint (Nat.to_uint (Z.to_nat (- n)))).
      rewrite DecimalNat.Unsigned.of_to. lia.
    + intros c Hc. change (String.append (String ?c EmptyString) ?s) with (String c s) in Hc.
      cbn -[NilEmpty.string_of_uint Nat.to_uint] in Hc. apply orb_prop in Hc as [Hc|Hc].
      * apply Ascii.eqb_eq in Hc. subst c. reflexivity.
      * exact (uint_no_space _ _ Hc).
  - rewrite py_int_str_of_nat. f_equal. lia.
Qed.

(** [parse_positive_int] accepts exactly the integers [int()] reads
    within the bounds, and so never returns a value outside them. *)
Theorem parse_positive_int_spec raw name lo hi n :
  parse_positive_int raw name lo hi = inr n <-> py_int raw = Some n /\ (lo <= n <= hi)%Z.
Proof.
  unfold parse_positive_int. destruct (py_int raw) as [m|]; [|split; [discriminate|intros [[=] _]]].
  case_bool_decide as H1; case_bool_decide as H2; simpl;
    try (split; [discriminate|intros [[= <-] ?]; lia]).
  split; [intros [= <-]; split; [reflexivity|lia]|intros [[= <-] _]; reflexivity].
Qed.

(** A width given on the command line is printed by [str] and parsed
    again by [parse_positive_int]: every width in [240, 4000] comes back
    unchanged. *)
Theorem mermaid_width_roundtrip n :
  (240 <= n <= 4000)%Z ->
  parse_positive_int (str_of_Z n) "CONFLUENCE_MERMAID_IMAGE_WIDTH" 240 4000 = inr n.
Proof.
  intros Hn. unfold parse_positive_int. rewrite py_int_str_of_Z.
  rewrite !bool_decide_false by lia. reflexivity.
Qed.

Lemma mermaid_width_roundtrip_witness :
  (240 <= 1000 <= 4000)%Z /\
  parse_positive_int (str_of_Z 1000) "CONFLUENCE_MERMAID_IMAGE_WIDTH" 240 4000 = inr 1000%Z.
Proof. split; [lia|apply mermaid_width_roundtrip; lia]. Defined.

(** ** [load_dotenv] *)

Lemma setdefault_subseteq e k v e' : setdefault e k v = Some e' -> e ⊆ e'.
Proof.
  unfold setdefault. destruct (e !! k) eqn:E; [intros [= <-]; reflexivity|].
  destruct (_ || _); [discriminate|]. intros [= <-]. by apply insert_subseteq.
Qed.

Lemma dotenv_lines_subseteq ls e e' : dotenv_lines e ls = Some e' -> e ⊆ e'.
Proof.
  revert e. induction ls as [|raw ls IH]; intros e; simpl; [intros [= <-]; reflexivity|].
  destruct (_ || _ || _); [apply IH|].
  destruct (partition_char _ _) as [[k v]|]; [|apply IH].
  destruct (setdefault e _ _) as [e1|] eqn:E; [|discriminate].
  intros H. transitivity e1; [exact (setdefault_subseteq _ _ _ _ E)|exact (IH _ H)].
Qed.

(** C36: [load_dotenv] never overrides a variable already set in the
    environment: every variable keeps its value, as
    [os.environ.setdefault] promises. *)
Theorem load_dotenv_keeps_env file e e' k v :
  load_dotenv file e = Some e' -> e !! k = Some v -> e' !! k = Some v.
Proof.
  destruct file as [text|]; simpl; [|intros [= <-]; auto].
  intros H Hk. exact (lookup_weaken _ _ _ _ Hk (dotenv_lines_subseteq _ _ _ H)).
Qed.


Lemma load_dotenv_keeps_env_witness :
  load_dotenv (Some ("A=1" +:+ nl +:+ "B=" +:+ QQ +:+ "x y" +:+ QQ)) {[ "A" := "0" ]} =
    Some (<[ "B" := "x y" ]> {[ "A" := "0" ]}) /\
  ({[ "A" := "0" ]} : env) !! "A" = Some "0" /\
  (<[ "B" := "x y" ]> ({[ "A" := "0" ]} : env)) !! "A" = Some "0".
Proof.
  assert (E : load_dotenv (Some ("A=1" +:+ nl +:+ "B=" +:+ QQ +:+ "x y" +:+ QQ)) {[ "A" := "0" ]} =
              Some (<[ "B" := "x y" ]> {[ "A" := "0" ]})) by (vm_compute; reflexivity).
  split; [exact E|]. split; [reflexivity|].
  exact (load_dotenv_keeps_env _ _ _ "A" "0" E eq_refl).
Defined.

(** A line with an empty name makes [os.putenv] raise [ValueError]: the
    exception is not caught, and the publisher stops before reading its
    settings. *)
Example dotenv_empty_name_fails : load_dotenv (Some "=x") ∅ = None.
Proof. vm_compute. reflexivity. Qed.

(** ** The loop over the files *)

Section Batch.
Context {W : Type} `{WikiService W}.
Variables (R : renderers) (X : external_renderers).

(** The spec of the loop, as a relation: each document is published from
    the state the previous one left, its outcome is recorded, error or not,
    and the loop goes on with the next file. *)
Inductive batch (cfg : publish_cfg) :
  list source_file -> W * list call -> list (string * (error + PublishResult)) ->
  W * list call -> Prop :=
| batch_nil s : batch cfg [] s [] s
| batch_cons path stem text rest s r s1 outs s2 :
    publish_document R X cfg (parse_document path stem text) s = (r, s1) ->
    batch cfg rest s1 outs s2 ->
    batch cfg ((path, stem, text) :: rest) s ((path, r) :: outs) s2.

Lemma batch_paths cfg files s outs s' :
  batch cfg files s outs s' -> map fst outs = map (λ f, fst (fst f)) files.
Proof. induction 1; simpl; congruence. Qed.

(** The outcomes of the loop, one per file, as [batch] relates them. *)
Lemma run_files_outcomes cfg files s :
  exists outs s', run_files R X cfg files s = (inr outs, s') /\
    batch cfg files s outs s' /\ map fst outs = map (λ f, fst (fst f)) files.
Proof.
  revert s. induction files as [|[[path stem] text] rest IH]; intros s.
  - exists [], s. split; [reflexivity|]. split; [constructor|reflexivity].
  - simpl. unfold bind at 1, attempt.
    destruct (publish_document R X cfg (parse_document path stem text) s) as [r s1] eqn:E.
    destruct (IH s1) as (outs & s2 & E2 & B & P).
    exists ((path, r) :: outs), s2. unfold bind. rewrite E2.
    split; [reflexivity|]. split; [econstructor; eauto|simpl; congruence].
Qed.

(** C19: The loop never aborts: a failed document is counted and the next
    one is processed.  [run_files] returns one outcome per file, in the
    order of the files, and the outcomes and final state are the ones of
    the loop's specification [batch]. *)
Theorem run_files_batch cfg files s :
  exists outs s', run_files R X cfg files s = (inr outs, s') /\
    batch cfg files s outs s' /\ map fst outs = map (λ f, fst (fst f)) files.
Proof. apply run_files_outcomes. Qed.

(** C20: The exit status of [main].  It is 1 when loading [.env] raises, and
    2 for an invalid setting; in both cases no request is sent.  It is 0
    when no file matches.  Otherwise it is 1 when the space lookup fails,
    an error that is not caught.  Once the space is found, every file is
    processed, and the status is 0 when no document failed and 1 when at
    least one did. *)
Theorem main_exit_code a dotenv e files w :
  let '(code, (w', log)) := main R X a dotenv e files w in
  match load_dotenv dotenv e with
  | None => code = 1%Z /\ log = [] /\ w' = w
  | Some e' =>
      match resolve_settings a e' with
      | inl _ => code = 2%Z /\ log = [] /\ w' = w
      | inr st =>
          match files with
          | [] => code = 0%Z /\ log = [] /\ w' = w
          | _ :: _ =>
              match get_space_by_key (space_key st) (w, []) with
              | (inl _, s1) => code = 1%Z /\ (w', log) = s1
              | (inr sp, s1) =>
                  exists outs, batch (with_space (publish_settings st) (sp_id sp)) files s1 outs (w', log) /\
                    ((code = 0%Z /\ failures outs = 0) \/ (code = 1%Z /\ failures outs <> 0))
              end
          end
      end
  end.
Proof.
  unfold main. destruct (load_dotenv dotenv e) as [e'|]; [|cbn; auto].
  destruct (resolve_settings a e') as [msg|st]; [cbn; auto|].
  destruct files as [|f fs]; [cbn; auto|]. unfold main_run.
  destruct (get_space_by_key (space_key st) (w, [])) as [[err|sp] s1] eqn:Es.
  - unfold bind. cbv beta iota. rewrite Es. destruct s1. auto.
  - destruct (run_files_outcomes (with_space (publish_settings st) (sp_id sp)) (f :: fs) s1)
      as (outs & [w' log] & Er & B & _).
    unfold bind. cbv beta iota. rewrite Es. rewrite Er. cbv beta iota.
    exists outs. split; [exact B|]. case_bool_decide; [left|right]; auto.
Qed.

(** C23: [main] publishes the documents one at a time in sorted-path
    order.  Once the settings are resolved and the space is found, the
    loop runs over the files [discover] finds for the configured glob, and
    its outcomes name them in that order. *)
Theorem main_fs_order a dotenv e fs w :
  let '(code, s') := main_fs R X a dotenv e fs w in
  match load_dotenv dotenv e with
  | Some e' =>
      match resolve_settings a e' with
      | inr st =>
          match get_space_by_key (space_key st) (w, []) with
          | (inr sp, s1) =>
              discover fs (glob_pattern st) <> [] ->
              exists outs,
                batch (with_space (publish_settings st) (sp_id sp))
                  (source_files fs (glob_pattern st)) s1 outs s' /\
                map fst outs = map path_str (discover fs (glob_pattern st))
          | (inl _, _) => True
          end
      | inl _ => True
      end
  | None => True
  end.
Proof.
  unfold main_fs, glob_files, main. destruct (load_dotenv dotenv e) as [e'|]; [|exact I].
  destruct (resolve_settings a e') as [msg|st]; [exact I|].
  unfold source_files. destruct (discover fs (glob_pattern st)) as [|p ps] eqn:Ed.
  - destruct (get_space_by_key _ _) as [[err|sp] s1]; cbn; [exact I|congruence].
  - destruct (get_space_by_key _ _) as [[err|sp] s1] eqn:Es.
    + destruct (main_run R X st _ (w, [])) as [[] ?]; exact I.
    + destruct (run_files_outcomes (with_space (publish_settings st) (sp_id sp))
                  (map (source_of fs) (p :: ps)) s1) as (outs & [w' log] & Er & B & P).
      unfold main_run. cbn [map]. unfold bind. cbv beta iota. rewrite Es.
      cbn [map] in Er. rewrite Er. cbv beta iota. intros _.
      exists outs. split; [exact B|]. rewrite P. simpl. rewrite map_map. reflexivity.
Qed.

End Batch.

(** ** The printed report *)

Section OutputFacts.
Context {W : Type} `{WikiService W}.
Variables (R : renderers) (X : external_renderers) (exc_str : error -> string).

Lemma outcome_lines_stderr outs :
  count_by is_stderr (map (outcome_line exc_str) outs) = failures outs.
Proof.
  unfold failures. induction outs as [|[path [err|r]] outs IH]; [reflexivity| |];
    unfold count_by in *; simpl; rewrite IH; reflexivity.
Qed.

(** C26: What [main] prints agrees with its exit status.  A bad setting
    prints its message alone on stderr, and the status is 2.  When the
    space is found and files matched, the report prints the header, then
    one line per file in the order of the files, on stderr exactly for
    the failed documents, then the summary.  The summary is
    "Completed successfully." exactly when the status is 0. *)
Theorem main_output_report a dotenv e files w :
  let '(code, _) := main R X a dotenv e files w in
  match load_dotenv dotenv e with
  | Some e' =>
      match resolve_settings a e' with
      | inl msg => main_output R X exc_str a dotenv e files w = [(Stderr, msg)] /\ code = 2%Z
      | inr st =>
          match get_space_by_key (space_key st) (w, []) with
          | (inr sp, _) =>
              files <> [] ->
              exists header outs,
                main_output R X exc_str a dotenv e files w = header ++ map (outcome_line exc_str) outs ++ [summary_line outs] /\
                map fst outs = map (λ f, fst (fst f)) files /\
                count_by is_stderr (map (outcome_line exc_str) outs) = failures outs /\
                (code = 0%Z <-> summary_line outs = (Stdout, "Completed successfully."))
          | (inl _, _) => True
          end
      end
  | None => True
  end.
Proof.
  unfold main, main_output. destruct (load_dotenv dotenv e) as [e'|]; [|exact I].
  destruct (resolve_settings a e') as [msg|st]; [split; reflexivity|].
  destruct files as [|f fs].
  - destruct (get_space_by_key _ _) as [[err|sp] s1]; cbn; [exact I|congruence].
  - destruct (get_space_by_key _ _) as [[err|sp] s1] eqn:Es.
    + destruct (main_run R X st _ (w, [])) as [[] ?]; exact I.
    + destruct (run_files_outcomes R X (with_space (publish_settings st) (sp_id sp)) (f :: fs) s1)
        as (outs & [w' log] & Er & B & P).
      unfold main_run. unfold bind. cbv beta iota. rewrite Es, Er. cbv beta iota. intros _.
      eexists _, outs. split; [unfold run_lines_out; rewrite !app_assoc; reflexivity|].
      split; [exact P|]. split; [apply outcome_lines_stderr|].
      unfold summary_line. case_bool_decide; split; intros Hc; try reflexivity; try discriminate.
Qed.

End OutputFacts.
