(* ===== verification/LegacyScript.v ===== *)
(** * The older script

    [src/scripts/confluence_publish.py] is the publisher before Mermaid
    support.  Its parsing helpers ([load_dotenv], [env_bool],
    [parse_labels], [parse_front_matter], [derive_title], [parse_document],
    [merge_labels], [bool_arg]) and its client are the same code as the
    current script's, and share their definitions.  This file models what
    differs:
    - [markdown_to_html] (lines 218-243): pandoc, then the [markdown]
      package, then the older converter of [Converter.Legacy];
    - [publish_document] (403-468): the same reconciliation without
      diagrams;
    - [main] (501-571): the settings without the two Mermaid settings, the
      loop over the files, the exit status.

    The theorems relate the two scripts: on a body where the converters
    agree, the older [publish_document] sends the same requests and gives
    the same result as the current one in the mode [code]; the older [main]
    is the current [main] run with [--mermaid-mode code] and
    [--mermaid-image-width 1000]. *)

From Stdlib Require Import Ascii ZArith Lia.
From stdpp Require Import base gmap list strings.
From S2P Require Import Prelude PyStr Glob Diagram Converter Labels FrontMatter Client Wiki Publish Driver.

(** ** [markdown_to_html] *)

Section Dispatch.
Variable X : external_renderers.

(** The [try: import markdown ...] block, then what follows it. *)
Definition markdown_lib_or (markdown_text fallback : string) : string :=
  match markdown_lib_output X markdown_text with
  | Some r => if negb (String.eqb (strip r) "") then r else fallback
  | None => fallback
  end.

Definition legacy_markdown_to_html (markdown_text : string) : string :=
  let fallback := Legacy.legacy_simple_markdown_to_html markdown_text in
  match pandoc_output X markdown_text with
  | Some out =>
      if negb (String.eqb (strip out) "") then out else markdown_lib_or markdown_text fallback
  | None => markdown_lib_or markdown_text fallback
  end.

End Dispatch.

(** ** [publish_document] *)

(** The keyword arguments of the older [publish_document]. *)
Record legacy_cfg := {
  lg_space_id : string;
  lg_default_parent_id : option string;
  lg_default_labels : list string;
  lg_create_if_missing : bool;
  lg_update_if_title_match : bool;
  lg_dry_run : bool
}.

Section LegacyPublish.
Context {W : Type} `{WikiService W}.
Variable X : external_renderers.

Definition legacy_lookup (cfg : legacy_cfg) (doc : Document) : M W (option page_rec) :=
  if truthy_str (doc_page_id doc)
  then get_page (match doc_page_id doc with Some p => p | None => "" end)
  else if lg_update_if_title_match cfg
       then find_page_by_title (lg_space_id cfg) (doc_title doc)
       else ret None.

Definition legacy_publish_document (cfg : legacy_cfg) (doc : Document) : M W PublishResult :=
  let body_html := legacy_markdown_to_html X (body_markdown doc) in
  let target_parent := or_else (doc_parent_id doc) (lg_default_parent_id cfg) in
  let labels := merge_labels (lg_default_labels cfg) (doc_labels doc) in
  (existing <- legacy_lookup cfg doc ;;
  match existing with
  | Some ex =>
      let page_id := pr_id ex in
      if negb (lg_update_if_title_match cfg) && negb (truthy_str (doc_page_id doc)) then
        ret {| res_action := Skipped; res_page_id := Some page_id; res_title := doc_title doc;
               res_path := doc_path doc; res_message := "exists and update disabled" |}
      else
        current_page <- (if truthy_str (doc_page_id doc) then ret (Some ex)
                        else get_page page_id) ;;
        let cur := match current_page with Some p => current_version p | None => 1%Z end in
        let next_version := (cur + 1)%Z in
        if lg_dry_run cfg then
          ret {| res_action := DryUpdate; res_page_id := Some page_id;
                 res_title := doc_title doc; res_path := doc_path doc;
                 res_message := "would update version " +:+ str_of_Z cur +:+ " -> " +:+
                                str_of_Z next_version |}
        else
          updated <- update_page page_id (doc_title doc) body_html next_version target_parent ;;
          add_labels_if updated labels ;;
          ret {| res_action := Updated; res_page_id := Some updated;
                 res_title := doc_title doc; res_path := doc_path doc; res_message := "" |}
  | None =>
      if negb (lg_create_if_missing cfg) then
        ret {| res_action := Skipped; res_page_id := None; res_title := doc_title doc;
               res_path := doc_path doc; res_message := "not found and create disabled" |}
      else if lg_dry_run cfg then
        ret {| res_action := DryCreate; res_page_id := None; res_title := doc_title doc;
               res_path := doc_path doc; res_message := "would create new page" |}
      else
        created <- create_page (lg_space_id cfg) (doc_title doc) body_html target_parent ;;
        add_labels_if created labels ;;
        ret {| res_action := Created; res_page_id := Some created;
               res_title := doc_title doc; res_path := doc_path doc; res_message := "" |}
  end)%pub.

End LegacyPublish.

(** ** The two scripts agree *)

(** The converters' inputs on which the two dispatchers agree: pandoc or
    the [markdown] package gives a non-blank rendering, or no two
    consecutive lines form a table header (the only construct the older
    converter lacks outside diagrams). *)
Definition external_html (X : external_renderers) (text : string) : bool :=
  match pandoc_output X text with Some out => negb (String.eqb (strip out) "") | None => false end ||
  match markdown_lib_output X text with Some r => negb (String.eqb (strip r) "") | None => false end.

Definition converters_agree (X : external_renderers) (text : string) : bool :=
  external_html X text || no_table_pair (splitlines text).

(** The current [markdown_to_html] in the mode [code] is the older one. *)
Lemma legacy_dispatch_code X text prefix width plans :
  converters_agree X text = true ->
  legacy_markdown_to_html X text = fst (markdown_to_html X "code" prefix width plans text).
Proof.
  unfold converters_agree, external_html, legacy_markdown_to_html, markdown_lib_or, markdown_to_html.
  set (cfg := {| mermaid_mode := "code"; mermaid_image_prefix := prefix;
                 mermaid_image_width := width |}).
  assert (Hfb : no_table_pair (splitlines text) = true ->
                Legacy.legacy_simple_markdown_to_html text = fst (simple_markdown_to_html cfg plans text)).
  { intros Ht. rewrite simple_markdown_to_html_parts. unfold run_lines.
    assert (Hc : String.eqb (mermaid_mode cfg) "macro" = false /\
                 String.eqb (mermaid_mode cfg) "attachment" = false) by (split; reflexivity).
    rewrite (Legacy.finish_simulation cfg Hc). unfold Legacy.legacy_simple_markdown_to_html.
    rewrite (Legacy.loop_simulation cfg Hc); [reflexivity|exact Ht|lia]. }
  change (strip (lower "code")) with "code". change (String.eqb "code" "") with false.
  cbv iota. fold cfg. change (String.eqb "code" "macro" || String.eqb "code" "attachment") with false.
  cbv iota.
  destruct (pandoc_output X text) as [out|]; [destruct (negb (String.eqb (strip out) ""))|];
    destruct (markdown_lib_output X text) as [r|]; try destruct (negb (String.eqb (strip r) ""));
    cbn [orb fst]; intros Hx;
    match goal with |- ?x = ?x => reflexivity | _ => apply Hfb; exact Hx end.
Qed.

(** The settings of the current [publish_document] that the older script
    stands for: Mermaid blocks as code, the default width. *)
Definition current_cfg (cfg : legacy_cfg) : publish_cfg :=
  {| space_id := lg_space_id cfg;
     default_parent_id := lg_default_parent_id cfg;
     default_labels := lg_default_labels cfg;
     create_if_missing := lg_create_if_missing cfg;
     update_if_title_match := lg_update_if_title_match cfg;
     dry_run := lg_dry_run cfg;
     mermaid_mode_setting := "code";
     mermaid_image_width_setting := 1000%Z |}.

Section Refinement.
Context {W : Type} `{WikiService W}.
Variables (R : renderers) (X : external_renderers).

(** On a document whose body the two converters render alike, the older
    [publish_document] sends the same requests, in the same order, and gives
    the same result and final state, as the current one with Mermaid blocks
    as code, from every state. *)
Lemma legacy_publish_document_eq cfg doc s :
  converters_agree X (body_markdown doc) = true ->
  legacy_publish_document X cfg doc s = publish_document R X (current_cfg cfg) doc s.
Proof.
  intros Hagree. unfold legacy_publish_document, publish_document.
  rewrite (legacy_dispatch_code X _ (Some (doc_title doc)) 1000%Z (Some []) Hagree).
  change (with_images X (current_cfg cfg) doc) with false.
  change (legacy_lookup cfg doc) with (lookup_existing (W := W) (current_cfg cfg) doc).
  cbn [current_cfg update_if_title_match dry_run create_if_missing space_id default_parent_id
       default_labels]. cbv zeta iota. unfold bind.
  destruct (lookup_existing (current_cfg cfg) doc s) as [[e|[ex|]] s1]; [reflexivity| |reflexivity].
  destruct (_ && _); [reflexivity|].
  destruct ((if truthy_str (doc_page_id doc) then ret (Some ex) else get_page (pr_id ex)) s1)
    as [[e|cp] s2]; [reflexivity|].
  destruct (lg_dry_run cfg); [rewrite append_empty_r|]; reflexivity.
Qed.


End Refinement.

(** ** [main] *)

(** The namespace of the older [parse_args] (lines 471-492) that [main]
    reads; [--verbose] only turns on the client's logging. *)
Record legacy_cli_args := {
  la_dotenv : string;
  la_glob : option string;
  la_space_key : option string;
  la_parent_id : option string;
  la_default_labels : option string;
  la_dry_run : bool;
  la_create_if_missing : option string;
  la_update_if_title_match : option string
}.

Record legacy_settings := {
  ls_site : string;
  ls_email : string;
  ls_token : string;
  ls_space_key : string;
  ls_glob_pattern : string;
  ls_publish : legacy_cfg
}.

(** Lines 505-531: the settings, or exit code 2. *)
Definition legacy_resolve_settings (a : legacy_cli_args) (e : env) : string + legacy_settings :=
  let site := strip (getenv e "ATLASSIAN_SITE" "") in
  let email := strip (getenv e "ATLASSIAN_EMAIL" "") in
  let token := strip (getenv e "ATLASSIAN_API_TOKEN" "") in
  let space_key := strip (arg_or_env e (la_space_key a) "CONFLUENCE_SPACE_KEY" "") in
  let parent := strip (arg_or_env e (la_parent_id a) "CONFLUENCE_PARENT_ID" "") in
  let parent_id := if bool_decide (parent = "") then None else Some parent in
  let glob_pattern := strip (arg_or_env e (la_glob a) "MARKDOWN_GLOB" "docs/**/*.md") in
  let default_labels :=
    parse_labels (Some (arg_or_env e (la_default_labels a) "PUBLISH_DEFAULT_LABELS" "")) in
  let create := bool_arg e (la_create_if_missing a) "PUBLISH_CREATE_IF_MISSING" true in
  let update := bool_arg e (la_update_if_title_match a) "PUBLISH_UPDATE_IF_TITLE_MATCH" true in
  let missing := map fst (filter (λ nv, snd nv = "")
                   [("ATLASSIAN_SITE", site); ("ATLASSIAN_EMAIL", email);
                    ("ATLASSIAN_API_TOKEN", token); ("CONFLUENCE_SPACE_KEY", space_key)]) in
  if bool_decide (missing ≠ []) then
    inl ("Missing required settings: " +:+ String.concat ", " missing)
  else
    inr {| ls_site := site; ls_email := email; ls_token := token; ls_space_key := space_key;
           ls_glob_pattern := glob_pattern;
           ls_publish := {| lg_space_id := ""; lg_default_parent_id := parent_id;
                            lg_default_labels := default_labels;
                            lg_create_if_missing := create;
                            lg_update_if_title_match := update;
                            lg_dry_run := la_dry_run a |} |}.

(** [space_id=space_id] in the call of line 552. *)
Definition legacy_with_space (cfg : legacy_cfg) (space_id : string) : legacy_cfg :=
  {| lg_space_id := space_id;
     lg_default_parent_id := lg_default_parent_id cfg;
     lg_default_labels := lg_default_labels cfg;
     lg_create_if_missing := lg_create_if_missing cfg;
     lg_update_if_title_match := lg_update_if_title_match cfg;
     lg_dry_run := lg_dry_run cfg |}.

Section LegacyLoop.
Context {W : Type} `{WikiService W}.
Variable X : external_renderers.

(** The loop of lines 545-564. *)
Fixpoint legacy_run_files (cfg : legacy_cfg) (files : list source_file)
  : M W (list (string * (error + PublishResult))) :=
  match files with
  | [] => ret []
  | (path, stem, text) :: rest =>
      r <- attempt (legacy_publish_document X cfg (parse_document path stem text)) ;;
      outs <- legacy_run_files cfg rest ;;
      ret ((path, r) :: outs)
  end%pub.

(** Lines 531-571 after the settings. *)
Definition legacy_main_run (st : legacy_settings) (files : list source_file) : M W Z :=
  match files with
  | [] => ret 0%Z
  | _ =>
      space <- get_space_by_key (ls_space_key st) ;;
      outs <- legacy_run_files (legacy_with_space (ls_publish st) (sp_id space)) files ;;
      ret (if bool_decide (failures outs = 0) then 0%Z else 1%Z)
  end%pub.

Definition legacy_main (a : legacy_cli_args) (dotenv : option string) (e : env)
  (files : list source_file) (w : W) : Z * (W * list call) :=
  match load_dotenv dotenv e with
  | None => (1%Z, (w, []))
  | Some e' =>
      match legacy_resolve_settings a e' with
      | inl _ => (2%Z, (w, []))
      | inr st =>
          match legacy_main_run st files (w, []) with
          | (inr code, s') => (code, s')
          | (inl _, s') => (1%Z, s')
          end
      end
  end.

(** The older [main] on a file system: the same glob, [sorted] and
    [parse_document] as the current one. *)
Definition legacy_main_fs (a : legacy_cli_args) (dotenv : option string) (e : env)
  (fs : fs_node) (w : W) : Z * (W * list call) :=
  legacy_main a dotenv e
    (match load_dotenv dotenv e with
     | Some e' =>
         match legacy_resolve_settings a e' with
         | inr st => source_files fs (ls_glob_pattern st)
         | inl _ => []
         end
     | None => []
     end) w.

End LegacyLoop.

(** ** The older [main] is the current one in the mode [code] *)

(** The command line of the current script that stands for an older one:
    the same options, with [--mermaid-mode code --mermaid-image-width 1000]. *)
Definition current_args (a : legacy_cli_args) : cli_args :=
  {| arg_dotenv := la_dotenv a; arg_glob := la_glob a; arg_space_key := la_space_key a;
     arg_parent_id := la_parent_id a; arg_default_labels := la_default_labels a;
     arg_dry_run := la_dry_run a; arg_mermaid_mode := Some "code";
     arg_mermaid_image_width := Some 1000%Z;
     arg_create_if_missing := la_create_if_missing a;
     arg_update_if_title_match := la_update_if_title_match a |}.

Definition current_settings (st : legacy_settings) : settings :=
  {| site := ls_site st; email := ls_email st; token := ls_token st;
     space_key := ls_space_key st; glob_pattern := ls_glob_pattern st;
     publish_settings := current_cfg (ls_publish st) |}.

Lemma legacy_resolve_current a e :
  resolve_settings (current_args a) e =
  match legacy_resolve_settings a e with inl m => inl m | inr st => inr (current_settings st) end.
Proof.
  unfold resolve_settings, legacy_resolve_settings. cbn [current_args arg_mermaid_mode arg_mermaid_image_width].
  change (lower (strip (arg_or_env e (Some "code") "CONFLUENCE_MERMAID_MODE" "attachment"))) with "code".
  change (negb (bool_decide ("code" ∈ mermaid_modes))) with false. cbv iota.
  change (parse_positive_int (str_of_Z 1000) "CONFLUENCE_MERMAID_IMAGE_WIDTH" 240 4000) with
    (inr 1000%Z : string + Z).
  cbv iota zeta. destruct (bool_decide _); reflexivity.
Qed.

Section MainRefinement.
Context {W : Type} `{WikiService W}.
Variables (R : renderers) (X : external_renderers).

Lemma legacy_run_files_eq cfg files s :
  Forall (λ f : source_file, let '(path, stem, text) := f in
            converters_agree X (body_markdown (parse_document path stem text)) = true) files ->
  legacy_run_files X cfg files s = run_files R X (current_cfg cfg) files s.
Proof.
  intros Hall. revert s. induction Hall as [|[[path stem] text] rest Hf _ IH]; intros s; [reflexivity|].
  cbn [legacy_run_files run_files]. unfold bind at 1 3, attempt.
  rewrite (legacy_publish_document_eq R X cfg _ s Hf).
  destruct (publish_document R X _ _ s) as [r s1]. unfold bind. rewrite IH. reflexivity.
Qed.

(** C10: Refinement: the older script's [main] is the current script's
    [main] run with [--mermaid-mode code --mermaid-image-width 1000]: on
    files whose bodies the two converters render alike, both give the same
    exit status, the same requests in the same order and the same final
    state of the service, from any command line, [.env] file and
    environment. *)
Theorem legacy_main_refines a dotenv e files w :
  Forall (λ f : source_file, let '(path, stem, text) := f in
            converters_agree X (body_markdown (parse_document path stem text)) = true) files ->
  legacy_main X a dotenv e files w = main R X (current_args a) dotenv e files w.
Proof.
  intros Hall. unfold legacy_main, main. destruct (load_dotenv dotenv e) as [e'|]; [|reflexivity].
  rewrite legacy_resolve_current. destruct (legacy_resolve_settings a e') as [m|st]; [reflexivity|].
  unfold legacy_main_run, main_run. destruct files as [|f fs]; [reflexivity|].
  cbn [current_settings space_key publish_settings]. unfold bind at 1 3.
  destruct (get_space_by_key (ls_space_key st) (w, [])) as [[err|sp] s1]; [reflexivity|].
  change (with_space (current_cfg (ls_publish st)) (sp_id sp))
    with (current_cfg (legacy_with_space (ls_publish st) (sp_id sp))).
  unfold bind. rewrite legacy_run_files_eq by exact Hall. reflexivity.
Qed.

End MainRefinement.

(** ** Checks *)

Definition legacy_sample_args : legacy_cli_args :=
  {| la_dotenv := ".env"; la_glob := None; la_space_key := Some "DOC"; la_parent_id := None;
     la_default_labels := Some "docs"; la_dry_run := false;
     la_create_if_missing := None; la_update_if_title_match := None |}.

Definition legacy_sample_env : env :=
  {[ "ATLASSIAN_SITE" := "x.atlassian.net"; "ATLASSIAN_EMAIL" := "a@x.com";
     "ATLASSIAN_API_TOKEN" := "tok" ]}.

Definition legacy_sample_files : list source_file :=
  [("docs/a.md", "a", "# A" +:+ nl +:+ "- one" +:+ nl +:+ "text")].

(** With no external converter, both scripts create the page with the same
    body and exit 0. *)
Lemma legacy_main_refines_witness :
  Forall (λ f : source_file, let '(path, stem, text) := f in
            converters_agree no_external (body_markdown (parse_document path stem text)) = true)
    legacy_sample_files /\
  legacy_main no_external legacy_sample_args None legacy_sample_env legacy_sample_files
    (empty_wiki "DOC" "S1") =
  main no_renderers no_external (current_args legacy_sample_args) None legacy_sample_env
    legacy_sample_files (empty_wiki "DOC" "S1").
Proof.
  assert (Hf : Forall (λ f : source_file, let '(path, stem, text) := f in
            converters_agree no_external (body_markdown (parse_document path stem text)) = true)
            legacy_sample_files) by (constructor; [vm_compute; reflexivity|constructor]).
  split; [exact Hf|]. exact (legacy_main_refines no_renderers no_external _ _ _ _ _ Hf).
Defined.

Example legacy_main_sample :
  fst (legacy_main no_external legacy_sample_args None legacy_sample_env legacy_sample_files
         (empty_wiki "DOC" "S1")) = 0%Z.
Proof. vm_compute. reflexivity. Qed.
