(* ===== verification/Args.v ===== *)
(** * Command-line parsing

    [parse_args] of both scripts
    ([src/skills/confluence-publisher/scripts/confluence_publish.py]
    lines 814-847, [src/scripts/confluence_publish.py] lines 471-492) is a
    table of options given to [argparse].  The table is translated as it is
    written ([current_options], [legacy_options]); [argparse]'s reading of
    [sys.argv] is written from its documented behaviour in Python 3.11, on
    long options and [-h]:
    - every token before [--] is classified first: an exact option name, a
      name with [=value], a unique prefix of a long name (abbreviation), or
      an argument; an ambiguous prefix exits with status 2 before any
      option is taken;
    - the options are then taken from left to right: [store_true] sets its
      flag; the other options take the text after [=] or the next token
      when it is an argument, checked against [choices] or converted with
      [int]; the last occurrence wins; [-h] prints the help and exits 0;
    - an error exits 2; a left-over argument, an unknown option or [--]
      exits 2 at the end.

    The namespace is [argparse.Namespace]'s dictionary: a map from
    destination names to values, filled with the defaults.  [script_main]
    composes the parser with [Driver.main]: the process's exit status from
    [sys.argv].

    The theorems: every namespace the parser returns is well typed (each
    destination holds its default or a value of its option's type, a choice
    among the allowed ones); a command line written with the script's
    options is read back as the arguments it spells. *)

From Stdlib Require Import Ascii ZArith Lia.
From stdpp Require Import base gmap list strings.
From S2P Require Import Prelude PyStr Diagram Converter Labels FrontMatter Client Wiki Publish Driver LegacyScript.

(** ** The option tables *)

(** The values a destination can hold. *)
Inductive value := VNone | VBool (b : bool) | VStr (s : string) | VInt (z : Z).

(** [action="store"], [action="store_true"], [choices=...], [type=int],
    and the help option argparse adds. *)
Inductive kind := KStore | KFlag | KChoice (cs : list string) | KInt | KHelp.

Record opt := {
  o_name : string;
  o_dest : string;
  o_kind : kind;
  o_default : value
}.

Definition opt_h : opt := {| o_name := "-h"; o_dest := "help"; o_kind := KHelp; o_default := VNone |}.
Definition opt_help : opt :=
  {| o_name := "--help"; o_dest := "help"; o_kind := KHelp; o_default := VNone |}.
Definition opt_dotenv : opt :=
  {| o_name := "--dotenv"; o_dest := "dotenv"; o_kind := KStore; o_default := VStr ".env" |}.
Definition opt_glob : opt :=
  {| o_name := "--glob"; o_dest := "glob_pattern"; o_kind := KStore; o_default := VNone |}.
Definition opt_space_key : opt :=
  {| o_name := "--space-key"; o_dest := "space_key"; o_kind := KStore; o_default := VNone |}.
Definition opt_parent_id : opt :=
  {| o_name := "--parent-id"; o_dest := "parent_id"; o_kind := KStore; o_default := VNone |}.
Definition opt_default_labels : opt :=
  {| o_name := "--default-labels"; o_dest := "default_labels"; o_kind := KStore;
     o_default := VNone |}.
Definition opt_dry_run : opt :=
  {| o_name := "--dry-run"; o_dest := "dry_run"; o_kind := KFlag; o_default := VBool false |}.
Definition opt_verbose : opt :=
  {| o_name := "--verbose"; o_dest := "verbose"; o_kind := KFlag; o_default := VBool false |}.
Definition opt_mermaid_mode : opt :=
  {| o_name := "--mermaid-mode"; o_dest := "mermaid_mode";
     o_kind := KChoice ["code"; "macro"; "attachment"]; o_default := VNone |}.
Definition opt_mermaid_image_width : opt :=
  {| o_name := "--mermaid-image-width"; o_dest := "mermaid_image_width"; o_kind := KInt;
     o_default := VNone |}.
Definition opt_create_if_missing : opt :=
  {| o_name := "--create-if-missing"; o_dest := "create_if_missing";
     o_kind := KChoice ["true"; "false"]; o_default := VNone |}.
Definition opt_update_if_title_match : opt :=
  {| o_name := "--update-if-title-match"; o_dest := "update_if_title_match";
     o_kind := KChoice ["true"; "false"]; o_default := VNone |}.

Definition help_options : list opt := [opt_h; opt_help].
Definition common_options : list opt :=
  [opt_dotenv; opt_glob; opt_space_key; opt_parent_id; opt_default_labels; opt_dry_run;
   opt_verbose].
Definition page_options : list opt := [opt_create_if_missing; opt_update_if_title_match].
Definition mermaid_options : list opt := [opt_mermaid_mode; opt_mermaid_image_width].

(** The current parser (lines 815-846) and the older one (472-491). *)
Definition current_options : list opt :=
  help_options ++ common_options ++ mermaid_options ++ page_options.
Definition legacy_options : list opt := help_options ++ common_options ++ page_options.

(** ** Classifying a token *)

Definition is_digit (c : Ascii.ascii) : bool :=
  let n := Ascii.nat_of_ascii c in Nat.leb 48 n && Nat.leb n 57.

Fixpoint all_chars (p : Ascii.ascii -> bool) (s : string) : bool :=
  match s with EmptyString => true | String c r => p c && all_chars p r end.

(** [_negative_number_matcher]: [^-\d+$|^-\d*\.\d+$]. *)
Definition neg_number (tok : string) : bool :=
  match tok with
  | String "-" r =>
      (negb (String.eqb r "") && all_chars is_digit r) ||
      match partition_char "." r with
      | Some (a, b) => all_chars is_digit a && all_chars is_digit b && negb (String.eqb b "")
      | None => false
      end
  | _ => false
  end.

Definition opt_named (opts : list opt) (name : string) : option opt :=
  List.find (λ o, String.eqb (o_name o) name) opts.

(** What a token is: an option with the text after [=], an argument, an
    unknown option string, or the separator [--]. *)
Inductive cls := COpt (o : opt) (explicit : option string) | CArg (s : string)
               | CUnknown (s : string) | CSep.

(** [_get_option_tuples]: the options a token abbreviates. *)
Definition prefix_matches (opts : list opt) (tok : string) : list (opt * option string) :=
  match tok with
  | String "-" (String "-" _) =>
      let '(pre, ex) := match partition_char "=" tok with
                        | Some (a, b) => (a, Some b)
                        | None => (tok, None)
                        end in
      map (λ o, (o, ex)) (List.filter (λ o, String.prefix pre (o_name o)) opts)
  | _ =>
      let short := str_take 2 tok in
      map (λ o, if String.eqb (o_name o) short then (o, Some (str_drop 2 tok)) else (o, None))
        (List.filter (λ o, String.eqb (o_name o) short || String.prefix tok (o_name o)) opts)
  end.

(** [_parse_optional]; [None] is the ambiguity error. *)
Definition classify (opts : list opt) (tok : string) : option cls :=
  match tok with
  | String "-" r =>
      match opt_named opts tok with
      | Some o => Some (COpt o None)
      | None =>
          if String.eqb r "" then Some (CArg tok) else
          match match partition_char "=" tok with
                | Some (n, v) => option_map (λ o, (o, v)) (opt_named opts n)
                | None => None
                end with
          | Some (o, v) => Some (COpt o (Some v))
          | None =>
              match prefix_matches opts tok with
              | [(o, ex)] => Some (COpt o ex)
              | _ :: _ :: _ => None
              | [] => if neg_number tok || in_str " " tok then Some (CArg tok) else Some (CUnknown tok)
              end
          end
      end
  | _ => Some (CArg tok)
  end.

(** The tokens before [--] are classified; [--] and what follows can only
    be left over. *)
Fixpoint classify_all (opts : list opt) (argv : list string) : option (list cls) :=
  match argv with
  | [] => Some []
  | tok :: rest =>
      if String.eqb tok "--" then Some [CSep]
      else match classify opts tok, classify_all opts rest with
           | Some c, Some cs => Some (c :: cs)
           | _, _ => None
           end
  end.

(** ** Taking the options *)

Abbreviation namespace := (gmap string value).

Inductive parse_result := Parsed (ns : namespace) | Exit (code : Z).

(** The namespace before any option: every destination at its default. *)
Definition defaults (opts : list opt) : namespace :=
  list_to_map (map (λ o, (o_dest o, o_default o))
                 (List.filter (λ o, match o_kind o with KHelp => false | _ => true end) opts)).

(** [type=int] and [choices]: the value stored, or the error. *)
Definition convert (k : kind) (v : string) : option value :=
  match k with
  | KStore => Some (VStr v)
  | KChoice cs => if existsb (String.eqb v) cs then Some (VStr v) else None
  | KInt => option_map VInt (py_int v)
  | KFlag | KHelp => None
  end.

(** [-hh...]: the help flag repeated; any other text after [-h] is an
    ignored explicit argument. *)
Definition help_explicit_ok (o : opt) (ex : string) : bool :=
  String.eqb (o_name o) "-h" && negb (String.eqb ex "") && all_chars (λ c, Ascii.eqb c "h") ex.

Fixpoint consume (cs : list cls) (ns : namespace) (extras : list string) : parse_result :=
  match cs with
  | [] => match extras with [] => Parsed ns | _ => Exit 2 end
  | CSep :: _ => Exit 2
  | CArg s :: rest | CUnknown s :: rest => consume rest ns (extras ++ [s])
  | COpt o ex :: rest =>
      match o_kind o with
      | KHelp =>
          match ex with
          | None => Exit 0
          | Some e => if help_explicit_ok o e then Exit 0 else Exit 2
          end
      | KFlag =>
          match ex with
          | None => consume rest (<[o_dest o := VBool true]> ns) extras
          | Some _ => Exit 2
          end
      | k =>
          match ex with
          | Some v =>
              match convert k v with
              | Some x => consume rest (<[o_dest o := x]> ns) extras
              | None => Exit 2
              end
          | None =>
              match rest with
              | CArg v :: rest' =>
                  match convert k v with
                  | Some x => consume rest' (<[o_dest o := x]> ns) extras
                  | None => Exit 2
                  end
              | _ => Exit 2
              end
          end
      end
  end.

(** [parser.parse_args()] on [sys.argv[1:]]. *)
Definition parse_args (opts : list opt) (argv : list string) : parse_result :=
  match classify_all opts argv with
  | None => Exit 2
  | Some cs => consume cs (defaults opts) []
  end.

(** ** Well-typed namespaces *)

#[export] Instance kind_eq_dec : EqDecision kind.
Proof. solve_decision. Defined.
#[export] Instance value_eq_dec : EqDecision value.
Proof. solve_decision. Defined.

Definition is_help (o : opt) : bool := match o_kind o with KHelp => true | _ => false end.

(** A value of an option's type: text, a flag, one of the choices, an
    integer. *)
Definition has_kind (k : kind) (v : value) : bool :=
  match k, v with
  | KStore, VStr _ | KFlag, VBool _ | KInt, VInt _ => true
  | KChoice cs, VStr s => existsb (String.eqb s) cs
  | _, _ => false
  end.

Definition dest_ok (ns : namespace) (o : opt) : bool :=
  match ns !! o_dest o with
  | Some v => bool_decide (v = o_default o) || has_kind (o_kind o) v
  | None => false
  end.

(** Each destination holds its default or a value of its option's type. *)
Definition ns_typed (opts : list opt) (ns : namespace) : bool :=
  forallb (λ o, is_help o || dest_ok ns o) opts.

(** No two options of a table share a destination (the help options
    store nothing). *)
Definition dests_distinct (opts : list opt) : bool :=
  bool_decide (NoDup (map o_dest (List.filter (λ o, negb (is_help o)) opts))).

(** ** The namespace [main] reads *)

Definition ns_str (ns : namespace) (d : string) : option string :=
  match ns !! d with Some (VStr s) => Some s | _ => None end.

Definition ns_flag (ns : namespace) (d : string) : bool :=
  match ns !! d with Some (VBool b) => b | _ => false end.

Definition ns_int (ns : namespace) (d : string) : option Z :=
  match ns !! d with Some (VInt z) => Some z | _ => None end.

(** [args.dotenv], [args.glob_pattern], ... of the current [main]. *)
Definition to_cli_args (ns : namespace) : cli_args :=
  {| arg_dotenv := default "" (ns_str ns "dotenv");
     arg_glob := ns_str ns "glob_pattern";
     arg_space_key := ns_str ns "space_key";
     arg_parent_id := ns_str ns "parent_id";
     arg_default_labels := ns_str ns "default_labels";
     arg_dry_run := ns_flag ns "dry_run";
     arg_mermaid_mode := ns_str ns "mermaid_mode";
     arg_mermaid_image_width := ns_int ns "mermaid_image_width";
     arg_create_if_missing := ns_str ns "create_if_missing";
     arg_update_if_title_match := ns_str ns "update_if_title_match" |}.

(** The same for the older [main]. *)
Definition to_legacy_args (ns : namespace) : legacy_cli_args :=
  {| la_dotenv := default "" (ns_str ns "dotenv");
     la_glob := ns_str ns "glob_pattern";
     la_space_key := ns_str ns "space_key";
     la_parent_id := ns_str ns "parent_id";
     la_default_labels := ns_str ns "default_labels";
     la_dry_run := ns_flag ns "dry_run";
     la_create_if_missing := ns_str ns "create_if_missing";
     la_update_if_title_match := ns_str ns "update_if_title_match" |}.

(** ** The process *)

Section Process.
Context {W : Type} `{WikiService W}.
Variables (R : renderers) (X : external_renderers).

(** [raise SystemExit(main())]: [parse_args] exits first on a bad command
    line; otherwise [main] runs on the namespace. *)
Definition script_main (argv : list string) (dotenv : option string) (e : env)
  (files : list source_file) (w : W) : Z * (W * list call) :=
  match parse_args current_options argv with
  | Exit code => (code, (w, []))
  | Parsed ns => main R X (to_cli_args ns) dotenv e files w
  end.

Definition legacy_script_main (argv : list string) (dotenv : option string) (e : env)
  (files : list source_file) (w : W) : Z * (W * list call) :=
  match parse_args legacy_options argv with
  | Exit code => (code, (w, []))
  | Parsed ns => legacy_main X (to_legacy_args ns) dotenv e files w
  end.

End Process.

(** ** Checks against Python 3.11 *)

Definition exit_of (r : parse_result) : option Z := match r with Exit c => Some c | Parsed _ => None end.

Example argparse_exits :
  map (λ argv, exit_of (parse_args current_options argv))
    [["--dry"]; ["--d"; "x"]; ["--default-labels"; "-x"]; ["--dry-run=1"]; ["--dry-run="];
     ["-"]; ["--"]; ["-hh"]; ["-hx"]; ["-h="]; ["-h"; "--d"];
     ["--mermaid-image-width=abc"; "-h"]; ["-h"; "--mermaid-image-width=abc"];
     ["x"; "-h"]; ["--dotenv"; "--"; "x"]; [""]; ["--zzz"; "-h"]; ["-x"];
     ["--mermaid-mode"; "code"; "--mermaid-mode"; "bad"]] =
  [None; Some 2%Z; Some 2%Z; Some 2%Z; Some 2%Z;
   Some 2%Z; Some 2%Z; Some 0%Z; Some 2%Z; Some 2%Z; Some 2%Z;
   Some 2%Z; Some 0%Z;
   Some 0%Z; Some 2%Z; Some 2%Z; Some 0%Z; Some 2%Z;
   Some 2%Z].
Proof. vm_compute. reflexivity. Qed.

Example argparse_values :
  map (λ argv, match parse_args current_options argv with
               | Parsed ns => Some (to_cli_args ns) | Exit _ => None end)
    [["--dotenv"; "-5"]; ["--dotenv"; "-x y"]; ["--dot=a=b"]; ["--dotenv"; "a"; "--dotenv"; "b"];
     ["--mermaid-image-width"; " 7 "]; ["--mermaid-image-width"; "1_000"]] =
  map (λ p : string * option Z, Some
    {| arg_dotenv := fst p; arg_glob := None; arg_space_key := None; arg_parent_id := None;
       arg_default_labels := None; arg_dry_run := false; arg_mermaid_mode := None;
       arg_mermaid_image_width := snd p; arg_create_if_missing := None;
       arg_update_if_title_match := None |})
    [("-5", None); ("-x y", None); ("a=b", None); ("b", None); (".env", Some 7%Z);
     (".env", Some 1000%Z)].
Proof. vm_compute. reflexivity. Qed.

(** ** Every namespace the parser returns is well typed *)

Lemma NoDup_map_eq {A B} (f : A -> B) l x y :
  NoDup (map f l) -> In x l -> In y l -> f x = f y -> x = y.
Proof.
  induction l as [|a l IH]; [intros _ []|]. simpl. intros Hnd Hx Hy E. inversion Hnd as [|? ? Ha Hnd']; subst.
  destruct Hx as [<-|Hx], Hy as [<-|Hy]; auto.
  - exfalso. apply Ha. rewrite E. apply list_elem_of_In, in_map, Hy.
  - exfalso. apply Ha. rewrite <- E. apply list_elem_of_In, in_map, Hx.
Qed.

Lemma in_map_fst_filter (g : opt -> opt * option string) (p : opt -> bool) l o ex :
  (∀ x, fst (g x) = x) -> In (o, ex) (map g (List.filter p l)) -> In o l.
Proof.
  intros Hg Hin. apply in_map_iff in Hin as (x & E & Hx). apply filter_In in Hx as [Hx _].
  pose proof (Hg x) as Gx. rewrite E in Gx. simpl in Gx. subst. exact Hx.
Qed.

Lemma prefix_matches_in opts tok o ex : In (o, ex) (prefix_matches opts tok) -> In o opts.
Proof.
  unfold prefix_matches. intros Hin. repeat (case_match; subst);
    (eapply in_map_fst_filter; [|exact Hin]); intros x; simpl; repeat case_match; reflexivity.
Qed.

Lemma classify_in opts tok o ex : classify opts tok = Some (COpt o ex) -> In o opts.
Proof.
  intros H. destruct tok as [|c r]; [discriminate H|].
  assert (c = "-"%char) as ->
    by (destruct c as [[] [] [] [] [] [] [] []]; first [reflexivity|discriminate H]).
  assert (Hn : ∀ n o', opt_named opts n = Some o' -> In o' opts)
    by (intros n o' F; apply find_some in F; tauto).
  unfold classify in H. destruct (opt_named opts _) eqn:F; [injection H as <- _; exact (Hn _ _ F)|].
  destruct (String.eqb r ""); [discriminate H|].
  destruct (match partition_char "=" _ with Some _ => _ | None => None end) as [[o1 v1]|] eqn:F2.
  { injection H as <- _. destruct (partition_char _ _) as [[n v]|]; [|discriminate F2].
    destruct (opt_named opts n) eqn:F3; [|discriminate F2]. injection F2 as <- _. exact (Hn _ _ F3). }
  destruct (prefix_matches opts _) as [|[o' ex'] [|? ?]] eqn:P;
    [destruct (_ || _); discriminate H| |discriminate H].
  injection H as <- _. apply (prefix_matches_in opts (String "-" r) o' ex'). rewrite P. left. reflexivity.
Qed.

Lemma classify_all_in opts argv cs o ex :
  classify_all opts argv = Some cs -> In (COpt o ex) cs -> In o opts.
Proof.
  revert cs. induction argv as [|tok rest IH]; intros cs; simpl; [intros [= <-] []|].
  destruct (String.eqb tok "--"); [intros [= <-] [H|[]]; discriminate H|].
  destruct (classify opts tok) as [c|] eqn:C, (classify_all opts rest) as [cs'|]; try discriminate.
  intros [= <-] [E|H]; [subst c; exact (classify_in _ _ _ _ C)|exact (IH cs' eq_refl H)].
Qed.

Lemma convert_kind k v x : convert k v = Some x -> has_kind k x = true.
Proof.
  destruct k; simpl; try discriminate.
  - intros [= <-]. reflexivity.
  - destruct (existsb _ cs) eqn:E; [intros [= <-]; exact E|discriminate].
  - destruct (py_int v); [intros [= <-]; reflexivity|discriminate].
Qed.

Section Typing.
Variable opts : list opt.
Hypothesis distinct : dests_distinct opts = true.

Lemma dest_eq o o' :
  In o opts -> In o' opts -> is_help o = false -> is_help o' = false -> o_dest o = o_dest o' -> o = o'.
Proof.
  intros Ho Ho' Hh Hh' E. unfold dests_distinct in distinct. apply bool_decide_eq_true in distinct.
  apply (NoDup_map_eq o_dest _ _ _ distinct); [| |exact E];
    apply filter_In; rewrite ?Hh, ?Hh'; auto.
Qed.

Lemma insert_typed ns o x :
  ns_typed opts ns = true -> In o opts -> is_help o = false -> has_kind (o_kind o) x = true ->
  ns_typed opts (<[o_dest o := x]> ns) = true.
Proof.
  unfold ns_typed. rewrite !forallb_forall. intros Hns Ho Hh Hk o' Ho'.
  destruct (is_help o') eqn:Hh'; [reflexivity|]. simpl. unfold dest_ok.
  destruct (decide (o_dest o = o_dest o')) as [E|E].
  - rewrite <- E, lookup_insert_eq. rewrite <- (dest_eq o o' Ho Ho' Hh Hh' E), Hk. apply orb_true_r.
  - rewrite lookup_insert_ne by exact E. pose proof (Hns o' Ho') as H'. rewrite Hh' in H'. exact H'.
Qed.

Lemma fst_map_pairs (l : list opt) : (map (λ o, (o_dest o, o_default o)) l).*1 = map o_dest l.
Proof. induction l as [|o l IH]; [reflexivity|]. simpl. f_equal. exact IH. Qed.

Lemma defaults_typed : ns_typed opts (defaults opts) = true.
Proof.
  unfold ns_typed. apply forallb_forall. intros o Ho. destruct (is_help o) eqn:Hh; [reflexivity|].
  simpl. unfold dest_ok, defaults. rewrite (elem_of_list_to_map_1 _ (o_dest o) (o_default o)).
  - rewrite bool_decide_eq_true_2 by reflexivity. reflexivity.
  - unfold dests_distinct in distinct. apply bool_decide_eq_true in distinct.
    rewrite fst_map_pairs.
    replace (List.filter (λ o0, match o_kind o0 with KHelp => false | _ => true end) opts)
      with (List.filter (λ o0, negb (is_help o0)) opts); [exact distinct|].
    apply filter_ext. intros o0. unfold is_help. destruct (o_kind o0); reflexivity.
  - apply list_elem_of_In, in_map_iff. exists o. split; [reflexivity|].
    apply filter_In. split; [exact Ho|]. unfold is_help in Hh. destruct (o_kind o); congruence.
Qed.

(** Taking one option: it stores a value of its type, and the parse goes
    on with the tokens after it (and after its argument). *)
Lemma consume_opt_step o ex rest ns extras ns' :
  consume (COpt o ex :: rest) ns extras = Parsed ns' ->
  exists x rest2, is_help o = false /\ has_kind (o_kind o) x = true /\
    (rest2 = rest \/ exists v, rest = CArg v :: rest2) /\
    consume rest2 (<[o_dest o := x]> ns) extras = Parsed ns'.
Proof.
  cbn [consume]. unfold is_help. intros H.
  destruct (o_kind o) eqn:K; destruct ex as [v|]; try discriminate H;
  repeat match goal with
  | H : match ?r with [] => _ | _ :: _ => _ end = _ |- _ =>
      destruct r as [|[? ?|? |? |] ?]; try discriminate H
  | H : match convert ?k ?v with Some _ => _ | None => _ end = _ |- _ =>
      let C := fresh "C" in destruct (convert k v) eqn:C; [|discriminate H]
  | H : (if ?b then _ else _) = _ |- _ => destruct b; discriminate H
  end;
  (eexists _, _; split; [reflexivity|]; split; [|split; [|exact H]];
    [first [reflexivity | eapply convert_kind; eassumption]
    |first [left; reflexivity | right; eexists; reflexivity]]).
Qed.

Lemma consume_typed cs ns extras ns' :
  (∀ o ex, In (COpt o ex) cs -> In o opts) -> ns_typed opts ns = true ->
  consume cs ns extras = Parsed ns' -> ns_typed opts ns' = true.
Proof.
  remember (length cs) as m eqn:Hm. revert cs ns extras Hm.
  induction m as [m IH] using lt_wf_ind. intros cs ns extras Hm Hin Hns.
  destruct cs as [|[o ex|s|s|] rest].
  - simpl. destruct extras; [intros [= <-]; exact Hns|discriminate].
  - intros H. apply consume_opt_step in H as (x & rest2 & Hh & Hk & Hr & H).
    assert (Ho : In o opts) by (apply (Hin o ex); left; reflexivity).
    assert (Hsub : ∀ c, In c rest2 -> In c rest)
      by (destruct Hr as [->|[v ->]]; intros c Hc; [exact Hc|right; exact Hc]).
    assert (Hlen : length rest2 <= length rest)
      by (destruct Hr as [->|[v ->]]; simpl; lia).
    apply (IH (length rest2)) in H; [exact H|simpl in Hm; lia|reflexivity| |].
    + intros o' ex' H'. apply (Hin o' ex'). right. apply Hsub, H'.
    + apply insert_typed; assumption.
  - simpl. apply (IH (length rest)); [simpl in Hm; lia|reflexivity| |exact Hns].
    intros o ex H'. apply (Hin o ex). right. exact H'.
  - simpl. apply (IH (length rest)); [simpl in Hm; lia|reflexivity| |exact Hns].
    intros o ex H'. apply (Hin o ex). right. exact H'.
  - discriminate.
Qed.

End Typing.

Lemma parse_args_typed_gen opts argv ns :
  dests_distinct opts = true -> parse_args opts argv = Parsed ns -> ns_typed opts ns = true.
Proof.
  intros Hd. unfold parse_args. destruct (classify_all opts argv) as [cs|] eqn:C; [|discriminate].
  apply (consume_typed opts Hd cs).
  - intros o ex. apply (classify_all_in opts argv cs o ex C).
  - apply (defaults_typed opts Hd).
Qed.

Lemma ns_typed_dest opts ns o :
  ns_typed opts ns = true -> In o opts -> is_help o = false -> dest_ok ns o = true.
Proof.
  unfold ns_typed. rewrite forallb_forall. intros H Hin Hh. specialize (H o Hin).
  rewrite Hh in H. exact H.
Qed.

(** What [dest_ok] says of a choice, an integer, a flag and a text option
    with default [None] (or a text default). *)
Lemma dest_ok_choice ns o cs :
  o_kind o = KChoice cs -> o_default o = VNone -> dest_ok ns o = true ->
  ns_str ns (o_dest o) = None \/ exists v, ns_str ns (o_dest o) = Some v /\ In v cs.
Proof.
  unfold dest_ok, ns_str. intros Hk Hd. rewrite Hk, Hd.
  destruct (ns !! o_dest o) as [v|]; [|discriminate].
  destruct v as [|b|v|z]; simpl; auto; (try case_bool_decide); try congruence; simpl; intros H;
    try discriminate.
  right. exists v. split; [reflexivity|].
  apply existsb_exists in H as (x & Hx & E). apply String.eqb_eq in E. subst. exact Hx.
Qed.

Lemma dest_ok_int ns o :
  o_kind o = KInt -> o_default o = VNone -> dest_ok ns o = true ->
  ns !! o_dest o = Some VNone \/ exists z, ns !! o_dest o = Some (VInt z).
Proof.
  unfold dest_ok. intros Hk Hd. rewrite Hk, Hd.
  destruct (ns !! o_dest o) as [v|]; [|discriminate].
  destruct v as [|b|v|z]; simpl; eauto; discriminate.
Qed.

Lemma dest_ok_flag ns o b0 :
  o_kind o = KFlag -> o_default o = VBool b0 -> dest_ok ns o = true ->
  exists b, ns !! o_dest o = Some (VBool b).
Proof.
  unfold dest_ok. intros Hk Hd. rewrite Hk, Hd.
  destruct (ns !! o_dest o) as [v|]; [|discriminate].
  destruct v as [|b|v|z]; simpl; eauto; (try case_bool_decide); try discriminate; congruence.
Qed.

Lemma dest_ok_text ns o s0 :
  o_kind o = KStore -> o_default o = VStr s0 -> dest_ok ns o = true ->
  exists s, ns !! o_dest o = Some (VStr s).
Proof.
  unfold dest_ok. intros Hk Hd. rewrite Hk, Hd.
  destruct (ns !! o_dest o) as [v|]; [|discriminate].
  destruct v as [|b|v|z]; simpl; eauto; (try case_bool_decide); try discriminate; congruence.
Qed.

(** C21: Type: every namespace the current [parse_args] returns gives
    [main] values of the types it uses.  [--mermaid-mode] is absent or one
    of [code], [macro], [attachment]; [--create-if-missing] and
    [--update-if-title-match] are absent, ["true"] or ["false"];
    [--mermaid-image-width] is absent or an integer, never a text that
    [main] would drop; [--dry-run] is a boolean; [--dotenv] is a text. *)
Theorem parse_args_typed argv ns :
  parse_args current_options argv = Parsed ns ->
  let a := to_cli_args ns in
  (arg_mermaid_mode a = None \/
     exists m, arg_mermaid_mode a = Some m /\ In m ["code"; "macro"; "attachment"]) /\
  (arg_create_if_missing a = None \/
     exists v, arg_create_if_missing a = Some v /\ In v ["true"; "false"]) /\
  (arg_update_if_title_match a = None \/
     exists v, arg_update_if_title_match a = Some v /\ In v ["true"; "false"]) /\
  (ns !! "mermaid_image_width" = Some VNone \/ exists z, ns !! "mermaid_image_width" = Some (VInt z)) /\
  (exists b, ns !! "dry_run" = Some (VBool b)) /\
  (exists s, ns !! "dotenv" = Some (VStr s)).
Proof.
  intros Hp. apply parse_args_typed_gen in Hp; [|vm_compute; reflexivity].
  assert (D : forall o, In o current_options -> is_help o = false -> dest_ok ns o = true)
    by (intros o; apply ns_typed_dest; exact Hp).
  cbn zeta. unfold to_cli_args; cbn [arg_mermaid_mode arg_create_if_missing arg_update_if_title_match].
  split; [apply (dest_ok_choice ns opt_mermaid_mode); [reflexivity|reflexivity|apply D; [simpl; tauto|reflexivity]]|].
  split; [apply (dest_ok_choice ns opt_create_if_missing); [reflexivity|reflexivity|apply D; [simpl; tauto|reflexivity]]|].
  split; [apply (dest_ok_choice ns opt_update_if_title_match); [reflexivity|reflexivity|apply D; [simpl; tauto|reflexivity]]|].
  split; [apply (dest_ok_int ns opt_mermaid_image_width); [reflexivity|reflexivity|apply D; [simpl; tauto|reflexivity]]|].
  split; [apply (dest_ok_flag ns opt_dry_run false); [reflexivity|reflexivity|apply D; [simpl; tauto|reflexivity]]|].
  apply (dest_ok_text ns opt_dotenv ".env"); [reflexivity|reflexivity|apply D; [simpl; tauto|reflexivity]].
Qed.

(** The older parser's namespaces are well typed too. *)
Lemma legacy_parse_args_typed argv ns :
  parse_args legacy_options argv = Parsed ns -> ns_typed legacy_options ns = true.
Proof. apply parse_args_typed_gen. vm_compute. reflexivity. Qed.

Definition sample_argv : list string :=
  ["--dry"; "--mermaid-mode=macro"; "--mermaid-image-width"; "1200"; "--space"; "DOC"].

Lemma parse_args_typed_witness :
  exists ns, parse_args current_options sample_argv = Parsed ns /\
    arg_mermaid_mode (to_cli_args ns) = Some "macro" /\
    (arg_mermaid_mode (to_cli_args ns) = None \/
       exists m, arg_mermaid_mode (to_cli_args ns) = Some m /\ In m ["code"; "macro"; "attachment"]).
Proof.
  destruct (parse_args current_options sample_argv) as [ns|c] eqn:E; [|vm_compute in E; discriminate].
  exists ns. split; [reflexivity|]. split; [vm_compute in E; injection E as <-; reflexivity|].
  exact (proj1 (parse_args_typed sample_argv ns E)).
Defined.

(** ** Reading back a command line *)

(** The tokens that set option [o] to [v] on a command line (nothing for
    an option left at [None] or a flag left off). *)
Definition render_one (o : opt) (v : value) : list string :=
  match o_kind o, v with
  | KFlag, VBool true => [o_name o]
  | (KStore | KChoice _), VStr s => [o_name o; s]
  | KInt, VInt z => [o_name o; str_of_Z z]
  | _, _ => []
  end.

Definition ostr (s : option string) : value := match s with Some t => VStr t | None => VNone end.

(** The options of the current script that spell [a] (and [--verbose]). *)
Definition cli_assignments (a : cli_args) (verbose : bool) : list (opt * value) :=
  [(opt_dotenv, VStr (arg_dotenv a)); (opt_glob, ostr (arg_glob a));
   (opt_space_key, ostr (arg_space_key a)); (opt_parent_id, ostr (arg_parent_id a));
   (opt_default_labels, ostr (arg_default_labels a)); (opt_dry_run, VBool (arg_dry_run a));
   (opt_verbose, VBool verbose); (opt_mermaid_mode, ostr (arg_mermaid_mode a));
   (opt_mermaid_image_width, match arg_mermaid_image_width a with Some z => VInt z | None => VNone end);
   (opt_create_if_missing, ostr (arg_create_if_missing a));
   (opt_update_if_title_match, ostr (arg_update_if_title_match a))].

Definition render_args (a : cli_args) (verbose : bool) : list string :=
  concat (map (λ ov, render_one (fst ov) (snd ov)) (cli_assignments a verbose)).

(** A text argparse reads as an argument: it does not start with [-]. *)
Definition plain (s : string) : bool := match s with String "-" _ => false | _ => true end.

(** The values a command line can carry back: plain texts, allowed
    choices, non-negative widths. *)
Definition assign_ok (o : opt) (v : value) : bool :=
  match o_kind o, v with
  | KFlag, VBool _ => true
  | KStore, VStr s => plain s
  | KChoice cs, VStr s => plain s && existsb (String.eqb s) cs
  | KInt, VInt z => Z.leb 0 z
  | (KStore | KChoice _ | KInt), VNone => true
  | _, _ => false
  end.

Definition cli_ok (a : cli_args) : bool :=
  forallb (λ ov, assign_ok (fst ov) (snd ov)) (cli_assignments a false).

(** The classified tokens of [render_one o v]. *)
Definition render_cls (o : opt) (v : value) : list cls :=
  match o_kind o, v with
  | KFlag, VBool true => [COpt o None]
  | (KStore | KChoice _), VStr s => [COpt o None; CArg s]
  | KInt, VInt z => [COpt o None; CArg (str_of_Z z)]
  | _, _ => []
  end.

(** What taking those tokens does to the namespace. *)
Definition assign_ns (ns : namespace) (o : opt) (v : value) : namespace :=
  match render_one o v with [] => ns | _ => <[o_dest o := v]> ns end.

(** An option spelled by its full long name. *)
Definition long_name (o : opt) : bool :=
  match o_name o with
  | String "-" (String "-" (String _ _)) => true
  | _ => false
  end.

Lemma classify_plain opts s : plain s = true -> classify opts s = Some (CArg s).
Proof.
  destruct s as [|c r]; [reflexivity|]. unfold plain.
  destruct c as [[] [] [] [] [] [] [] []]; first [discriminate | reflexivity].
Qed.

Lemma plain_not_sep s : plain s = true -> String.eqb s "--" = false.
Proof. intros H. destruct (String.eqb_spec s "--") as [->|]; [discriminate H|reflexivity]. Qed.

Lemma plain_str_of_Z z : (0 <= z)%Z -> plain (str_of_Z z) = true.
Proof.
  intros Hz. unfold str_of_Z. destruct (Z.ltb_spec z 0); [lia|].
  unfold str_of_nat. pose proof (to_uint_not_nil (Z.to_nat z)) as Hn.
  destruct (Nat.to_uint (Z.to_nat z)); [contradiction|reflexivity..].
Qed.

Lemma classify_long opts o :
  opt_named opts (o_name o) = Some o -> long_name o = true -> classify opts (o_name o) = Some (COpt o None).
Proof.
  intros Hn Hl. unfold long_name in Hl. unfold classify.
  destruct (o_name o) as [|c [|d [|e r]]]; try discriminate Hl;
    destruct c as [[] [] [] [] [] [] [] []]; try discriminate Hl;
    destruct d as [[] [] [] [] [] [] [] []]; try discriminate Hl; rewrite Hn; reflexivity.
Qed.

Lemma long_not_sep o : long_name o = true -> String.eqb (o_name o) "--" = false.
Proof.
  unfold long_name. intros Hl. destruct (String.eqb_spec (o_name o) "--") as [E|]; [|reflexivity].
  rewrite E in Hl. discriminate Hl.
Qed.

Section Render.
Variable opts : list opt.

(** An option of the table, spelled by its full long name. *)
Definition spelled (o : opt) : Prop := opt_named opts (o_name o) = Some o /\ long_name o = true.

Lemma classify_all_render o v rest :
  spelled o -> assign_ok o v = true ->
  classify_all opts (render_one o v ++ rest) = option_map (app (render_cls o v)) (classify_all opts rest).
Proof.
  intros [Hn Hl] Hv. unfold render_one, render_cls, assign_ok in *.
  pose proof (classify_long opts o Hn Hl) as Co. pose proof (long_not_sep o Hl) as So.
  destruct (o_kind o); destruct v as [|[]|s|z]; try discriminate Hv; cbn [app classify_all];
    rewrite ?So, ?Co; try (destruct (classify_all opts rest); reflexivity).
  all: try (apply andb_true_iff in Hv as [Hv _]).
  all: first [rewrite (plain_not_sep s Hv), (classify_plain opts s Hv)
             |rewrite (plain_not_sep _ (plain_str_of_Z z (proj1 (Z.leb_le 0 z) Hv))),
                      (classify_plain opts _ (plain_str_of_Z z (proj1 (Z.leb_le 0 z) Hv)))];
    destruct (classify_all opts rest); reflexivity.
Qed.

Lemma consume_render o v rest ns extras :
  assign_ok o v = true ->
  consume (render_cls o v ++ rest) ns extras = consume rest (assign_ns ns o v) extras.
Proof.
  intros Hv. unfold render_cls, assign_ns, render_one, assign_ok in *.
  destruct (o_kind o) eqn:K; destruct v as [|[]|s|z]; try discriminate Hv; cbn [app consume];
    rewrite ?K; try reflexivity; cbn [convert].
  - apply andb_true_iff in Hv as [_ Hv]. rewrite Hv. reflexivity.
  - rewrite py_int_str_of_Z. reflexivity.
Qed.

Lemma parse_render l :
  Forall (λ ov, spelled (fst ov) /\ assign_ok (fst ov) (snd ov) = true) l ->
  parse_args opts (concat (map (λ ov, render_one (fst ov) (snd ov)) l)) =
  Parsed (fold_left (λ ns ov, assign_ns ns (fst ov) (snd ov)) l (defaults opts)).
Proof.
  intros Hall. unfold parse_args.
  assert (C : classify_all opts (concat (map (λ ov, render_one (fst ov) (snd ov)) l)) =
              Some (concat (map (λ ov, render_cls (fst ov) (snd ov)) l))).
  { induction Hall as [|[o v] l [Hs Hv] _ IH]; [reflexivity|]. simpl.
    rewrite (classify_all_render o v _ Hs Hv), IH. reflexivity. }
  rewrite C. clear C. generalize (defaults opts). induction Hall as [|[o v] l [_ Hv] _ IH]; intros ns; [reflexivity|].
  simpl. rewrite (consume_render o v _ ns [] Hv). apply IH.
Qed.

End Render.

Lemma lookup_assign_ne ns o v d : o_dest o <> d -> assign_ns ns o v !! d = ns !! d.
Proof. intros E. unfold assign_ns. destruct (render_one o v); [reflexivity|]. apply lookup_insert_ne, E. Qed.

Lemma lookup_assign_same ns o v d :
  o_dest o = d -> assign_ns ns o v !! d = match render_one o v with [] => ns !! d | _ => Some v end.
Proof. intros <-. unfold assign_ns. destruct (render_one o v); [reflexivity|]. apply lookup_insert_eq. Qed.

Lemma cli_assignments_ok a verbose :
  cli_ok a = true ->
  Forall (λ ov, spelled current_options (fst ov) /\ assign_ok (fst ov) (snd ov) = true)
    (cli_assignments a verbose).
Proof.
  intros Hok. assert (Hv : forallb (λ ov, assign_ok (fst ov) (snd ov)) (cli_assignments a verbose) = true)
    by (destruct verbose; exact Hok).
  apply Forall_forall. intros ov Hin. apply list_elem_of_In in Hin.
  split; [|exact (proj1 (forallb_forall _ _) Hv ov Hin)].
  repeat destruct Hin as [<-|Hin]; [split; reflexivity..|destruct Hin].
Qed.

(** Looking up a destination through the assignments of a command line. *)
Ltac lookup_assigns :=
  repeat first [ rewrite lookup_assign_same by reflexivity
               | rewrite lookup_assign_ne by discriminate ].

(** C22: Round trip: a command line written with the current script's
    options, whose texts do not start with [-], whose choices are allowed
    and whose width is not negative, is read by [parse_args] back into
    exactly the arguments it spells. *)
Theorem parse_args_roundtrip a verbose :
  cli_ok a = true ->
  exists ns, parse_args current_options (render_args a verbose) = Parsed ns /\
             to_cli_args ns = a /\ ns_flag ns "verbose" = verbose.
Proof.
  intros Hok. eexists. split; [apply parse_render, cli_assignments_ok, Hok|].
  destruct a as [d g sk p l dr mm w c u]. unfold to_cli_args, ns_str, ns_flag, ns_int.
  cbn [cli_assignments fold_left fst snd arg_dotenv arg_glob arg_space_key arg_parent_id
       arg_default_labels arg_dry_run arg_mermaid_mode arg_mermaid_image_width
       arg_create_if_missing arg_update_if_title_match].
  lookup_assigns.
  split; [f_equal|];
    first [ reflexivity | destruct g; reflexivity | destruct sk; reflexivity
          | destruct p; reflexivity | destruct l; reflexivity | destruct dr; reflexivity
          | destruct mm; reflexivity | destruct w; reflexivity | destruct c; reflexivity
          | destruct u; reflexivity | destruct verbose; reflexivity ].
Qed.

(** ** Checks *)

Definition sample_cli : cli_args :=
  {| arg_dotenv := ".env.prod"; arg_glob := Some "docs/*.md"; arg_space_key := Some "DOC";
     arg_parent_id := None; arg_default_labels := Some "a,b"; arg_dry_run := true;
     arg_mermaid_mode := Some "attachment"; arg_mermaid_image_width := Some 1200%Z;
     arg_create_if_missing := Some "false"; arg_update_if_title_match := None |}.

Lemma parse_args_roundtrip_witness :
  cli_ok sample_cli = true /\
  exists ns, parse_args current_options (render_args sample_cli false) = Parsed ns /\
             to_cli_args ns = sample_cli /\ ns_flag ns "verbose" = false.
Proof. split; [reflexivity|]. apply parse_args_roundtrip. reflexivity. Defined.

(** An ambiguous abbreviation stops the process with status 2 before the
    [.env] file is read and before any request. *)
Example script_main_ambiguous :
  script_main no_renderers no_external ["--d"; "x"] None ∅ [] (empty_wiki "DOC" "S1") =
    (2%Z, (empty_wiki "DOC" "S1", [])).
Proof. vm_compute. reflexivity. Qed.

(** [-h] exits 0, even after an unknown option. *)
Example script_main_help :
  fst (script_main no_renderers no_external ["--zzz"; "-h"] None ∅ [] (empty_wiki "DOC" "S1")) = 0%Z.
Proof. vm_compute. reflexivity. Qed.

(** The older parser has no [--mermaid-mode]: the option is unknown there,
    and the process exits 2. *)
Example legacy_script_main_no_mermaid :
  fst (legacy_script_main no_external ["--mermaid-mode"; "code"] None ∅ [] (empty_wiki "DOC" "S1"))
    = 2%Z.
Proof. vm_compute. reflexivity. Qed.
